(** * SMBIOS table generation: a model of lib/smbios.c and its properties

    The development follows the C file from the leaves up: byte memory and
    the C string primitives, the string-table packer, the version patch
    entry point, the property resolver, the structure writers and the table
    assembler.  Stateful code is written in a small state-and-failure monad;
    the unbounded scanning loops of the C code take a fuel argument. *)

From Stdlib Require Import ZArith List String Ascii Lia Bool DecimalString.
Import ListNotations.
Open Scope Z_scope.

(** ** Byte memory and C strings *)

(** Memory is a map from addresses to byte values; the output buffer, the
    string pools and the entry-point descriptor all live in it. *)
Definition mem := Z -> Z.

Definition store (m : mem) (a v : Z) : mem :=
  fun x => if x =? a then v else m x.

(** memset(a, v, n) *)
Fixpoint memset (m : mem) (a v : Z) (n : nat) : mem :=
  match n with
  | O => m
  | S k => memset (store m a v) (a + 1) v k
  end.

(** The bytes m[a], ..., m[a+n-1]. *)
Fixpoint load_bytes (m : mem) (a : Z) (n : nat) : list Z :=
  match n with
  | O => []
  | S k => m a :: load_bytes m (a + 1) k
  end.

Definition code (c : ascii) : Z := Z.of_nat (nat_of_ascii c).

(** A [const char *] argument is modelled by the characters of the array it
    points to; as in C the string ends at the first NUL character (or at
    the end of the Rocq string, where the terminator sits). *)

(** strlen of a string argument *)
Fixpoint strlen_s (s : string) : Z :=
  match s with
  | EmptyString => 0
  | String c s' => if code c =? 0 then 0 else 1 + strlen_s s'
  end.

(** strnlen of a string argument *)
Fixpoint strnlen_s (s : string) (n : nat) : Z :=
  match n, s with
  | O, _ => 0
  | S _, EmptyString => 0
  | S k, String c s' => if code c =? 0 then 0 else 1 + strnlen_s s' k
  end.

(** strlen of a string held in memory: the scan stops at the first zero
    byte; [None] when the fuel runs out first. *)
Fixpoint strlen (fuel : nat) (m : mem) (p : Z) : option Z :=
  match fuel with
  | O => None
  | S f =>
      if m p =? 0 then Some 0
      else match strlen f m (p + 1) with
           | Some n => Some (1 + n)
           | None => None
           end
  end.

(** strnlen of a string held in memory *)
Fixpoint strnlen (m : mem) (p : Z) (n : nat) : Z :=
  match n with
  | O => 0
  | S k => if m p =? 0 then 0 else 1 + strnlen m (p + 1) k
  end.

(** strcmp(p, str) with [p] in memory: the difference of the first pair of
    bytes that differ, 0 when both strings end together. *)
Fixpoint strcmp (m : mem) (p : Z) (s : string) : Z :=
  match s with
  | EmptyString => m p
  | String c s' =>
      if (m p =? code c) && negb (code c =? 0)
      then strcmp m (p + 1) s'
      else m p - code c
  end.

(** strcpy(p, str): the characters and the terminating NUL. *)
Fixpoint strcpy (m : mem) (p : Z) (s : string) : mem :=
  match s with
  | EmptyString => store m p 0
  | String c s' =>
      if code c =? 0 then store m p 0
      else strcpy (store m p (code c)) (p + 1) s'
  end.

(** memcpy(p, str, n): the first [n] bytes of the array behind [str]; past
    the end of the Rocq string the array holds its terminator. *)
Fixpoint memcpy (m : mem) (p : Z) (s : string) (n : nat) : mem :=
  match n with
  | O => m
  | S k =>
      match s with
      | EmptyString => memcpy (store m p 0) (p + 1) EmptyString k
      | String c s' => memcpy (store m p (code c)) (p + 1) s' k
      end
  end.

(** [string_at m p s]: memory at [p] holds the characters of [s], none of
    them NUL, followed by the terminator. *)
Fixpoint string_at (m : mem) (p : Z) (s : string) : Prop :=
  match s with
  | EmptyString => m p = 0
  | String c s' => m p = code c /\ code c <> 0 /\ string_at m (p + 1) s'
  end.

(** A string argument without an embedded NUL character. *)
Fixpoint no_nul (s : string) : Prop :=
  match s with
  | EmptyString => True
  | String c s' => code c <> 0 /\ no_nul s'
  end.

Definition len (s : string) : Z := Z.of_nat (String.length s).

(** ** Configuration tree and probe device (external collaborators) *)

Inductive prop_val :=
| PropU32 (v : Z)
| PropString (s : string).

#[warnings="-register-all"]
Inductive dt_node :=
| DtNode (props : list (string * prop_val)) (subnodes : list (string * dt_node)).

(** An [ofnode] is a reference to a node, or the null reference. *)
Definition ofnode := option dt_node.

Definition ofnode_null : ofnode := None.

Definition ofnode_valid (n : ofnode) : bool :=
  match n with Some _ => true | None => false end.

Fixpoint assoc {A : Type} (k : string) (l : list (string * A)) : option A :=
  match l with
  | [] => None
  | (k', v) :: l' => if String.eqb k k' then Some v else assoc k l'
  end.

Definition ofnode_find_subnode (n : ofnode) (name : string) : ofnode :=
  match n with
  | Some (DtNode _ subs) => assoc name subs
  | None => None
  end.

(** [Some v] stands for return code 0 with [v] stored through the pointer. *)
Definition ofnode_read_u32 (n : ofnode) (prop : string) : option Z :=
  match n with
  | Some (DtNode props _) =>
      match assoc prop props with
      | Some (PropU32 v) => Some v
      | _ => None
      end
  | None => None
  end.

Definition ofnode_read_string (n : ofnode) (prop : string) : option string :=
  match n with
  | Some (DtNode props _) =>
      match assoc prop props with
      | Some (PropString s) => Some s
      | _ => None
      end
  | None => None
  end.

(** The operations of a sysinfo device as seen through sysinfo_get_int and
    sysinfo_get_str ([None] is a negative return code), the result of
    sysinfo_detect and the "smbios" subnode of the device. *)
Record udevice := {
  detect : Z;
  get_int : Z -> option Z;
  get_str : Z -> Z -> option string;
  smbios_subnode : ofnode
}.

(** struct smbios_ctx *)
Record smbios_ctx := {
  node : ofnode;
  dev : option udevice;
  subnode_name : option string;
  eos : Z;
  next_ptr : Z;
  last_str : option Z
}.

(** ** String table packer *)

Definition smbios_set_eos (ctx : smbios_ctx) (e : Z) : smbios_ctx :=
  {| node := node ctx; dev := dev ctx; subnode_name := subnode_name ctx;
     eos := e; next_ptr := e; last_str := None |}.

Definition set_last_str (ctx : smbios_ctx) (p : Z) : smbios_ctx :=
  {| node := node ctx; dev := dev ctx; subnode_name := subnode_name ctx;
     eos := eos ctx; next_ptr := next_ptr ctx; last_str := Some p |}.

Definition set_next_ptr (ctx : smbios_ctx) (p : Z) : smbios_ctx :=
  {| node := node ctx; dev := dev ctx; subnode_name := subnode_name ctx;
     eos := eos ctx; next_ptr := p; last_str := last_str ctx |}.

(** The [for (;;)] loop of smbios_add_string, at pointer [p] and string
    number [i]; [n] bounds the number of iterations and [fuel] each strlen. *)
Fixpoint smbios_add_string_loop (fuel n : nat) (ctx : smbios_ctx) (m : mem)
    (str : string) (p i : Z) : option (Z * smbios_ctx * mem) :=
  match n with
  | O => None
  | S k =>
      if m p =? 0 then
        let ctx := set_last_str ctx p in
        let m := strcpy m p str in
        let p := p + strlen_s str in
        let m := store m p 0 in
        let p := p + 1 in
        let ctx := set_next_ptr ctx p in
        let m := store m p 0 in
        Some (i, ctx, m)
      else if strcmp m p str =? 0 then
        Some (i, set_last_str ctx p, m)
      else
        match strlen fuel m p with
        | Some l => smbios_add_string_loop fuel k ctx m str (p + (l + 1)) (i + 1)
        | None => None
        end
  end.

(** smbios_add_string(); a NULL [str] is [None]. *)
Definition smbios_add_string (fuel : nat) (ctx : smbios_ctx) (m : mem)
    (str : option string) : option (Z * smbios_ctx * mem) :=
  match str with
  | None => Some (0, ctx, m)
  | Some s => smbios_add_string_loop fuel fuel ctx m s (eos ctx) 1
  end.

(** smbios_string_table_len() *)
Definition smbios_string_table_len (ctx : smbios_ctx) : Z :=
  if next_ptr ctx =? eos ctx then 2
  else (next_ptr ctx + 1) - eos ctx.

(** The string area of the structure being written, as it is serialized. *)
Definition string_area (ctx : smbios_ctx) (m : mem) : list Z :=
  load_bytes m (eos ctx) (Z.to_nat (smbios_string_table_len ctx)).

(** Adding a list of strings one after the other: the numbers returned, in
    order, and the final context and memory. *)
Fixpoint add_strings (fuel : nat) (ctx : smbios_ctx) (m : mem)
    (l : list string) : option (list Z * smbios_ctx * mem) :=
  match l with
  | [] => Some ([], ctx, m)
  | s :: l' =>
      match smbios_add_string fuel ctx m (Some s) with
      | Some (n, ctx', m') =>
          match add_strings fuel ctx' m' l' with
          | Some (ns, ctx'', m'') => Some (n :: ns, ctx'', m'')
          | None => None
          end
      | None => None
      end
  end.

(** ** Version patch entry point *)

(** Modelled from the spec: the error numbers of linux/errno.h, which is not
    among the sources; ENOENT is the "not-yet-written" error and ENOSPC the
    "length-exceeded" error of the version patch API. *)
Definition ENOENT : Z := 2.
Definition ENOSPC : Z := 28.

(** smbios_update_version(); [gd_smbios_version] is gd->smbios_version and
    [str_max] is SMBIOS_STR_MAX (declared in smbios.h). *)
Definition smbios_update_version (str_max : nat) (gd_smbios_version : option Z)
    (m : mem) (version : string) : Z * mem :=
  match gd_smbios_version with
  | None => (- ENOENT, m)
  | Some ptr =>
      let old_len := strnlen m ptr str_max in
      let len := strnlen_s version str_max in
      if len >? old_len then (- ENOSPC, m)
      else (0, memcpy m ptr version (Z.to_nat len))
  end.

(** ** enum sysinfo_id (include/sysinfo.h) *)

Definition SYSINFO_CACHE_LVL_MAX : Z := 3.

Definition SYSINFO_ID_NONE : Z := 0.
Definition SYSINFO_ID_SMBIOS_BIOS_VENDOR := SYSINFO_ID_NONE + 1.
Definition SYSINFO_ID_SMBIOS_BIOS_VER := SYSINFO_ID_SMBIOS_BIOS_VENDOR + 1.
Definition SYSINFO_ID_SMBIOS_BIOS_REL_DATE := SYSINFO_ID_SMBIOS_BIOS_VER + 1.
Definition SYSINFO_ID_SMBIOS_SYSTEM_MANUFACTURER := SYSINFO_ID_SMBIOS_BIOS_REL_DATE + 1.
Definition SYSINFO_ID_SMBIOS_SYSTEM_PRODUCT := SYSINFO_ID_SMBIOS_SYSTEM_MANUFACTURER + 1.
Definition SYSINFO_ID_SMBIOS_SYSTEM_VERSION := SYSINFO_ID_SMBIOS_SYSTEM_PRODUCT + 1.
Definition SYSINFO_ID_SMBIOS_SYSTEM_SERIAL := SYSINFO_ID_SMBIOS_SYSTEM_VERSION + 1.
Definition SYSINFO_ID_SMBIOS_SYSTEM_WAKEUP := SYSINFO_ID_SMBIOS_SYSTEM_SERIAL + 1.
Definition SYSINFO_ID_SMBIOS_SYSTEM_SKU := SYSINFO_ID_SMBIOS_SYSTEM_WAKEUP + 1.
Definition SYSINFO_ID_SMBIOS_SYSTEM_FAMILY := SYSINFO_ID_SMBIOS_SYSTEM_SKU + 1.
Definition SYSINFO_ID_SMBIOS_BASEBOARD_MANUFACTURER := SYSINFO_ID_SMBIOS_SYSTEM_FAMILY + 1.
Definition SYSINFO_ID_SMBIOS_BASEBOARD_PRODUCT := SYSINFO_ID_SMBIOS_BASEBOARD_MANUFACTURER + 1.
Definition SYSINFO_ID_SMBIOS_BASEBOARD_VERSION := SYSINFO_ID_SMBIOS_BASEBOARD_PRODUCT + 1.
Definition SYSINFO_ID_SMBIOS_BASEBOARD_SERIAL := SYSINFO_ID_SMBIOS_BASEBOARD_VERSION + 1.
Definition SYSINFO_ID_SMBIOS_BASEBOARD_ASSET_TAG := SYSINFO_ID_SMBIOS_BASEBOARD_SERIAL + 1.
Definition SYSINFO_ID_SMBIOS_BASEBOARD_FEATURE := SYSINFO_ID_SMBIOS_BASEBOARD_ASSET_TAG + 1.
Definition SYSINFO_ID_SMBIOS_BASEBOARD_CHASSIS_LOCAT := SYSINFO_ID_SMBIOS_BASEBOARD_FEATURE + 1.
Definition SYSINFO_ID_SMBIOS_BASEBOARD_TYPE := SYSINFO_ID_SMBIOS_BASEBOARD_CHASSIS_LOCAT + 1.
Definition SYSINFO_ID_SMBIOS_BASEBOARD_OBJS_NUM := SYSINFO_ID_SMBIOS_BASEBOARD_TYPE + 1.
Definition SYSINFO_ID_SMBIOS_BASEBOARD_OBJS_HANDLE := SYSINFO_ID_SMBIOS_BASEBOARD_OBJS_NUM + 1.
Definition SYSINFO_ID_SMBIOS_ENCLOSURE_MANUFACTURER := SYSINFO_ID_SMBIOS_BASEBOARD_OBJS_HANDLE + 1.
Definition SYSINFO_ID_SMBIOS_ENCLOSURE_VERSION := SYSINFO_ID_SMBIOS_ENCLOSURE_MANUFACTURER + 1.
Definition SYSINFO_ID_SMBIOS_ENCLOSURE_SERIAL := SYSINFO_ID_SMBIOS_ENCLOSURE_VERSION + 1.
Definition SYSINFO_ID_SMBIOS_ENCLOSURE_ASSET_TAG := SYSINFO_ID_SMBIOS_ENCLOSURE_SERIAL + 1.
Definition SYSINFO_ID_SMBIOS_ENCLOSURE_TYPE := SYSINFO_ID_SMBIOS_ENCLOSURE_ASSET_TAG + 1.
Definition SYSINFO_ID_SMBIOS_ENCLOSURE_BOOTUP := SYSINFO_ID_SMBIOS_ENCLOSURE_TYPE + 1.
Definition SYSINFO_ID_SMBIOS_ENCLOSURE_POW := SYSINFO_ID_SMBIOS_ENCLOSURE_BOOTUP + 1.
Definition SYSINFO_ID_SMBIOS_ENCLOSURE_THERMAL := SYSINFO_ID_SMBIOS_ENCLOSURE_POW + 1.
Definition SYSINFO_ID_SMBIOS_ENCLOSURE_SECURITY := SYSINFO_ID_SMBIOS_ENCLOSURE_THERMAL + 1.
Definition SYSINFO_ID_SMBIOS_ENCLOSURE_OEM := SYSINFO_ID_SMBIOS_ENCLOSURE_SECURITY + 1.
Definition SYSINFO_ID_SMBIOS_ENCLOSURE_HEIGHT := SYSINFO_ID_SMBIOS_ENCLOSURE_OEM + 1.
Definition SYSINFO_ID_SMBIOS_ENCLOSURE_POWCORE_NUM := SYSINFO_ID_SMBIOS_ENCLOSURE_HEIGHT + 1.
Definition SYSINFO_ID_SMBIOS_ENCLOSURE_ELEMENT_CNT := SYSINFO_ID_SMBIOS_ENCLOSURE_POWCORE_NUM + 1.
Definition SYSINFO_ID_SMBIOS_ENCLOSURE_ELEMENT_LEN := SYSINFO_ID_SMBIOS_ENCLOSURE_ELEMENT_CNT + 1.
Definition SYSINFO_ID_SMBIOS_ENCLOSURE_ELEMENTS := SYSINFO_ID_SMBIOS_ENCLOSURE_ELEMENT_LEN + 1.
Definition SYSINFO_ID_SMBIOS_ENCLOSURE_SKU := SYSINFO_ID_SMBIOS_ENCLOSURE_ELEMENTS + 1.
Definition SYSINFO_ID_SMBIOS_PROCESSOR_SOCKET := SYSINFO_ID_SMBIOS_ENCLOSURE_SKU + 1.
Definition SYSINFO_ID_SMBIOS_PROCESSOR_TYPE := SYSINFO_ID_SMBIOS_PROCESSOR_SOCKET + 1.
Definition SYSINFO_ID_SMBIOS_PROCESSOR_MANUFACT := SYSINFO_ID_SMBIOS_PROCESSOR_TYPE + 1.
Definition SYSINFO_ID_SMBIOS_PROCESSOR_ID := SYSINFO_ID_SMBIOS_PROCESSOR_MANUFACT + 1.
Definition SYSINFO_ID_SMBIOS_PROCESSOR_VERSION := SYSINFO_ID_SMBIOS_PROCESSOR_ID + 1.
Definition SYSINFO_ID_SMBIOS_PROCESSOR_VOLTAGE := SYSINFO_ID_SMBIOS_PROCESSOR_VERSION + 1.
Definition SYSINFO_ID_SMBIOS_PROCESSOR_EXT_CLOCK := SYSINFO_ID_SMBIOS_PROCESSOR_VOLTAGE + 1.
Definition SYSINFO_ID_SMBIOS_PROCESSOR_MAX_SPEED := SYSINFO_ID_SMBIOS_PROCESSOR_EXT_CLOCK + 1.
Definition SYSINFO_ID_SMBIOS_PROCESSOR_CUR_SPEED := SYSINFO_ID_SMBIOS_PROCESSOR_MAX_SPEED + 1.
Definition SYSINFO_ID_SMBIOS_PROCESSOR_STATUS := SYSINFO_ID_SMBIOS_PROCESSOR_CUR_SPEED + 1.
Definition SYSINFO_ID_SMBIOS_PROCESSOR_UPGRADE := SYSINFO_ID_SMBIOS_PROCESSOR_STATUS + 1.
Definition SYSINFO_ID_SMBIOS_PROCESSOR_SN := SYSINFO_ID_SMBIOS_PROCESSOR_UPGRADE + 1.
Definition SYSINFO_ID_SMBIOS_PROCESSOR_ASSET_TAG := SYSINFO_ID_SMBIOS_PROCESSOR_SN + 1.
Definition SYSINFO_ID_SMBIOS_PROCESSOR_PN := SYSINFO_ID_SMBIOS_PROCESSOR_ASSET_TAG + 1.
Definition SYSINFO_ID_SMBIOS_PROCESSOR_CORE_CNT := SYSINFO_ID_SMBIOS_PROCESSOR_PN + 1.
Definition SYSINFO_ID_SMBIOS_PROCESSOR_CORE_EN := SYSINFO_ID_SMBIOS_PROCESSOR_CORE_CNT + 1.
Definition SYSINFO_ID_SMBIOS_PROCESSOR_THREAD_CNT := SYSINFO_ID_SMBIOS_PROCESSOR_CORE_EN + 1.
Definition SYSINFO_ID_SMBIOS_PROCESSOR_CHARA := SYSINFO_ID_SMBIOS_PROCESSOR_THREAD_CNT + 1.
Definition SYSINFO_ID_SMBIOS_PROCESSOR_FAMILY := SYSINFO_ID_SMBIOS_PROCESSOR_CHARA + 1.
Definition SYSINFO_ID_SMBIOS_PROCESSOR_FAMILY2 := SYSINFO_ID_SMBIOS_PROCESSOR_FAMILY + 1.
Definition SYSINFO_ID_SMBIOS_PROCESSOR_CORE_CNT2 := SYSINFO_ID_SMBIOS_PROCESSOR_FAMILY2 + 1.
Definition SYSINFO_ID_SMBIOS_PROCESSOR_CORE_EN2 := SYSINFO_ID_SMBIOS_PROCESSOR_CORE_CNT2 + 1.
Definition SYSINFO_ID_SMBIOS_PROCESSOR_THREAD_CNT2 := SYSINFO_ID_SMBIOS_PROCESSOR_CORE_EN2 + 1.
Definition SYSINFO_ID_SMBIOS_PROCESSOR_THREAD_EN := SYSINFO_ID_SMBIOS_PROCESSOR_THREAD_CNT2 + 1.
Definition SYSINFO_ID_SMBIOS_CACHE_LEVEL := SYSINFO_ID_SMBIOS_PROCESSOR_THREAD_EN + 1.
Definition SYSINFO_ID_SMBIOS_CACHE_HANDLE := SYSINFO_ID_SMBIOS_CACHE_LEVEL + 1.
Definition SYSINFO_ID_SMBIOS_CACHE_INFO_START := SYSINFO_ID_SMBIOS_CACHE_HANDLE + 1.
Definition SYSINFO_ID_SMBIOS_CACHE_SOCKET := SYSINFO_ID_SMBIOS_CACHE_INFO_START.
Definition SYSINFO_ID_SMBIOS_CACHE_CONFIG := SYSINFO_ID_SMBIOS_CACHE_SOCKET + SYSINFO_CACHE_LVL_MAX.
Definition SYSINFO_ID_SMBIOS_CACHE_MAX_SIZE := SYSINFO_ID_SMBIOS_CACHE_CONFIG + SYSINFO_CACHE_LVL_MAX.
Definition SYSINFO_ID_SMBIOS_CACHE_INST_SIZE := SYSINFO_ID_SMBIOS_CACHE_MAX_SIZE + SYSINFO_CACHE_LVL_MAX.
Definition SYSINFO_ID_SMBIOS_CACHE_SUPSRAM_TYPE := SYSINFO_ID_SMBIOS_CACHE_INST_SIZE + SYSINFO_CACHE_LVL_MAX.
Definition SYSINFO_ID_SMBIOS_CACHE_CURSRAM_TYPE := SYSINFO_ID_SMBIOS_CACHE_SUPSRAM_TYPE + SYSINFO_CACHE_LVL_MAX.
Definition SYSINFO_ID_SMBIOS_CACHE_SPEED := SYSINFO_ID_SMBIOS_CACHE_CURSRAM_TYPE + SYSINFO_CACHE_LVL_MAX.
Definition SYSINFO_ID_SMBIOS_CACHE_ERRCOR_TYPE := SYSINFO_ID_SMBIOS_CACHE_SPEED + SYSINFO_CACHE_LVL_MAX.
Definition SYSINFO_ID_SMBIOS_CACHE_SCACHE_TYPE := SYSINFO_ID_SMBIOS_CACHE_ERRCOR_TYPE + SYSINFO_CACHE_LVL_MAX.
Definition SYSINFO_ID_SMBIOS_CACHE_ASSOC := SYSINFO_ID_SMBIOS_CACHE_SCACHE_TYPE + SYSINFO_CACHE_LVL_MAX.
Definition SYSINFO_ID_SMBIOS_CACHE_MAX_SIZE2 := SYSINFO_ID_SMBIOS_CACHE_ASSOC + SYSINFO_CACHE_LVL_MAX.
Definition SYSINFO_ID_SMBIOS_CACHE_INST_SIZE2 := SYSINFO_ID_SMBIOS_CACHE_MAX_SIZE2 + SYSINFO_CACHE_LVL_MAX.

(** ** Build configuration and inputs *)

(** Compile-time configuration read by lib/smbios.c, and what it takes from
    headers that are not among the sources (smbios.h, version.h): the
    structure sizes, SMBIOS_STR_MAX, the constants of the structure fields
    and the format version. *)
Record config := {
  CONFIG_OF_CONTROL : bool;
  CONFIG_SYSINFO : bool;
  CONFIG_ROM_SIZE : option Z;
  CONFIG_GENERATE_ACPI_TABLE : bool;
  CONFIG_EFI_LOADER : bool;
  SMBIOS_STR_MAX : nat;
  PLAIN_VERSION : string;
  U_BOOT_DMI_DATE : string;
  U_BOOT_VERSION_NUM : Z;
  U_BOOT_VERSION_NUM_PATCH : Z;
  SMBIOS_MAJOR_VER : Z;
  SMBIOS_MINOR_VER : Z;
  sizeof_type0 : Z;
  sizeof_type1 : Z;
  sizeof_type2 : Z;
  sizeof_type3 : Z;
  sizeof_type4 : Z;
  sizeof_type7 : Z;
  sizeof_type32 : Z;
  sizeof_type127 : Z;
  BIOS_CHARACTERISTICS_PCI_SUPPORTED : Z;
  BIOS_CHARACTERISTICS_UPGRADEABLE : Z;
  BIOS_CHARACTERISTICS_SELECTABLE_BOOT : Z;
  BIOS_CHARACTERISTICS_EXT1_ACPI : Z;
  BIOS_CHARACTERISTICS_EXT2_UEFI : Z;
  BIOS_CHARACTERISTICS_EXT2_TARGET : Z;
  SMBIOS_PROCESSOR_FAMILY_UNKNOWN : Z;
  SMBIOS_PROCESSOR_FAMILY_EXT : Z;
  SMBIOS_CACHE_HANDLE_NONE : Z
}.

(** struct cpu_plat of the first CPU device, with the results of
    cpu_get_vendor and cpu_get_desc ([None] is a non-zero return code). *)
Record cpu_plat := {
  family : Z;
  id0 : Z;
  id1 : Z;
  cpu_get_vendor : option string;
  cpu_get_desc : option string
}.

(** What a build reads from its surroundings. *)
Record environment := {
  uclass_first_sysinfo : option udevice;
  ofnode_root : ofnode;
  env_serial : option string;
  uclass_first_cpu : option cpu_plat
}.

(** ** Property resolver *)

(** struct map_sysinfo and the table sysinfo_to_dt *)
Record map_sysinfo := {
  si_node : string;
  si_str : string;
  dt_str : string;
  max : nat
}.

Definition sysinfo_to_dt : list map_sysinfo :=
  [ {| si_node := "system"; si_str := "product"; dt_str := "model"; max := 2 |};
    {| si_node := "system"; si_str := "manufacturer"; dt_str := "compatible"; max := 1 |};
    {| si_node := "baseboard"; si_str := "product"; dt_str := "model"; max := 2 |};
    {| si_node := "baseboard"; si_str := "manufacturer"; dt_str := "compatible"; max := 1 |} ]%string.

Fixpoint convert_sysinfo_to_dt_from (tbl : list map_sysinfo)
    (nd : option string) (si : string) : option map_sysinfo :=
  match tbl with
  | [] => None
  | e :: tbl' =>
      match nd with
      | Some n =>
          if String.eqb n (si_node e) && String.eqb si (si_str e) then Some e
          else convert_sysinfo_to_dt_from tbl' nd si
      | None => convert_sysinfo_to_dt_from tbl' nd si
      end
  end.

Definition convert_sysinfo_to_dt (nd : option string) (si : string)
  : option map_sysinfo :=
  convert_sysinfo_to_dt_from sysinfo_to_dt nd si.

(** The successive results of strtok(str, ","): the non-empty runs of
    characters between commas, up to the terminator. [cur] is the token
    being read, reversed. *)
Fixpoint strtok_all (s : string) (cur : list ascii) : list string :=
  let flush rest :=
    match cur with
    | [] => rest
    | _ => string_of_list_ascii (rev cur) :: rest
    end in
  match s with
  | EmptyString => flush []
  | String c s' =>
      if code c =? 0 then flush []
      else if Ascii.eqb c ","%char then flush (strtok_all s' [])
      else strtok_all s' (c :: cur)
  end.

(** The loop of get_str_from_dt: each token in turn is copied to the front
    of the buffer while fewer than [max] tokens have been taken. *)
Fixpoint get_str_from_dt_loop (str : string) (tokens : list string)
    (remaining : nat) : string :=
  match tokens, remaining with
  | token :: rest, S k => get_str_from_dt_loop token rest k
  | _, _ => str
  end.

(** The characters of a string argument up to its terminator. *)
Fixpoint c_str (s : string) : string :=
  match s with
  | EmptyString => EmptyString
  | String c s' => if code c =? 0 then EmptyString else String c (c_str s')
  end.

(** get_str_from_dt(): the final contents of the buffer [str] of [size]
    bytes.  [None] when the property value does not fit the buffer with
    its terminator, where the C code scans past the buffer. *)
Definition get_str_from_dt (root : ofnode) (nprop : option map_sysinfo)
    (size : Z) : option string :=
  match nprop with
  | None => Some EmptyString
  | Some np =>
      match max np with
      | O => Some EmptyString
      | _ =>
          match ofnode_read_string root (dt_str np) with
          | None => Some EmptyString
          | Some dt =>
              if size <=? strlen_s dt then None
              else Some (get_str_from_dt_loop (c_str dt) (strtok_all dt []) (max np))
          end
      end
  end.

(** Modelled from the spec: sysinfo_get_int and sysinfo_get_str of the
    sysinfo uclass, whose implementation is not among the sources: the
    probe capability's read_int and read_string, failing when no device is
    attached. *)
Definition sysinfo_get_int (d : option udevice) (id : Z) : option Z :=
  match d with
  | Some d => get_int d id
  | None => None
  end.

Definition sysinfo_get_str (d : option udevice) (id size : Z) : option string :=
  match d with
  | Some d => get_str d id size
  | None => None
  end.

(** The value of an [int] that received the bits of a u32. *)
Definition int_of_u32 (v : Z) : Z :=
  let u := v mod 2 ^ 32 in
  if u <? 2 ^ 31 then u else u - 2 ^ 32.

Definition is_some {A : Type} (o : option A) : bool :=
  match o with Some _ => true | None => false end.

(** smbios_get_val_si(); a NULL [prop] is [None]. *)
Definition smbios_get_val_si (cfg : config) (ctx : smbios_ctx)
    (prop : option string) (sysinfo_id : Z) : Z :=
  if (sysinfo_id =? 0) || negb (is_some (dev ctx)) then 0
  else
    match sysinfo_get_int (dev ctx) sysinfo_id with
    | Some val => val
    | None =>
        match prop with
        | Some prop =>
            if negb (CONFIG_OF_CONTROL cfg) || negb (ofnode_valid (node ctx)) then 0
            else
              match ofnode_read_u32 (node ctx) prop with
              | Some val => int_of_u32 val
              | None => 0
              end
        | None => 0
        end
    end.

(** A string argument that is neither NULL nor empty, else NULL. *)
Definition nonempty (s : option string) : option string :=
  match s with
  | Some s => if strlen_s s =? 0 then None else Some s
  | None => None
  end.

Definition or_else (s dval : option string) : option string :=
  match nonempty s with
  | Some s => Some s
  | None => dval
  end.

(** smbios_add_prop_si() *)
Definition smbios_add_prop_si (fuel : nat) (cfg : config) (root : ofnode)
    (ctx : smbios_ctx) (m : mem) (prop : option string) (sysinfo_id : Z)
    (dval : option string) : option (Z * smbios_ctx * mem) :=
  let dval := nonempty dval in
  let val :=
    if negb (sysinfo_id =? 0) && is_some (dev ctx)
    then sysinfo_get_str (dev ctx) sysinfo_id (Z.of_nat (SMBIOS_STR_MAX cfg))
    else None in
  match val with
  | Some val => smbios_add_string fuel ctx m (Some val)
  | None =>
      match prop with
      | None => smbios_add_string fuel ctx m dval
      | Some prop =>
          if CONFIG_OF_CONTROL cfg then
            if ofnode_valid (node ctx) then
              let str := ofnode_read_string (node ctx) prop in
              smbios_add_string fuel ctx m (or_else str dval)
            else
              let nprop := convert_sysinfo_to_dt (subnode_name ctx) prop in
              match get_str_from_dt root nprop 128 with
              | Some str_dt => smbios_add_string fuel ctx m (or_else (Some str_dt) dval)
              | None => None
              end
          else Some (0, ctx, m)
      end
  end.

(** smbios_add_prop() *)
Definition smbios_add_prop (fuel : nat) (cfg : config) (root : ofnode)
    (ctx : smbios_ctx) (m : mem) (prop dval : option string)
  : option (Z * smbios_ctx * mem) :=
  smbios_add_prop_si fuel cfg root ctx m prop SYSINFO_ID_NONE dval.

(** ** Structures and the writer state *)

(** Modelled from the spec: SMBIOS_STRUCT_EOS_BYTES of smbios.h, the size of
    the [eos] member that ends every structure declaration: "an empty pool
    serializes as two null bytes". *)
Definition SMBIOS_STRUCT_EOS_BYTES : Z := 2.

(** Modelled from the spec: the structure type codes of smbios.h, one per
    writer (firmware info, system info, board info, chassis info, processor
    info, cache info, boot info, end marker). *)
Definition SMBIOS_BIOS_INFORMATION : Z := 0.
Definition SMBIOS_SYSTEM_INFORMATION : Z := 1.
Definition SMBIOS_BOARD_INFORMATION : Z := 2.
Definition SMBIOS_SYSTEM_ENCLOSURE : Z := 3.
Definition SMBIOS_PROCESSOR_INFORMATION : Z := 4.
Definition SMBIOS_CACHE_INFORMATION : Z := 7.
Definition SMBIOS_SYSTEM_BOOT_INFORMATION : Z := 32.
Definition SMBIOS_END_OF_TABLE : Z := 127.

Definition u8 (v : Z) : Z := v mod 2 ^ 8.
Definition u16 (v : Z) : Z := v mod 2 ^ 16.
Definition u32 (v : Z) : Z := v mod 2 ^ 32.
Definition u64 (v : Z) : Z := v mod 2 ^ 64.

(** struct smbios_header *)
Record smbios_header := {
  hdr_type : Z;
  hdr_length : Z;
  hdr_handle : Z
}.

(** The formatted area of one structure.  The member layouts are declared
    in smbios.h, so the members written after the header are kept by name,
    a member never assigned reading as the zero that memset left; the
    string area that follows is held in memory. *)
Record smbios_struct := {
  s_addr : Z;
  s_hdr : smbios_header;
  s_members : list (string * Z)
}.

Definition member (t : smbios_struct) (name : string) : Z :=
  match assoc name (s_members t) with
  | Some v => v
  | None => 0
  end.

Definition set_member (t : smbios_struct) (name : string) (v : Z) : smbios_struct :=
  {| s_addr := s_addr t; s_hdr := s_hdr t; s_members := (name, v) :: s_members t |}.

(** Modelled from the spec: fill_smbios_header of smbios.h, which "stamps
    the structure header (type, length, handle)"; the length stored is that
    of the formatted area, without the [eos] member. *)
Definition fill_smbios_header (type length handle : Z) : smbios_header :=
  {| hdr_type := u8 type;
     hdr_length := u8 (length - SMBIOS_STRUCT_EOS_BYTES);
     hdr_handle := u16 handle |}.

(** The state the writers work on: memory, the context behind [ctx], the
    address behind [current], gd->smbios_version, the data areas of the
    sysinfo device (shared with the device, by identifier) and the
    structures written so far. *)
Record wstate := {
  w_mem : mem;
  w_ctx : smbios_ctx;
  w_current : Z;
  w_smbios_version : option Z;
  w_data : Z -> option (list Z);
  w_out : list smbios_struct
}.

Definition M (A : Type) : Type := wstate -> option (A * wstate).

Definition ret {A : Type} (a : A) : M A := fun w => Some (a, w).

Definition bind {A B : Type} (c : M A) (k : A -> M B) : M B :=
  fun w =>
    match c w with
    | Some (a, w') => k a w'
    | None => None
    end.

Notation "x <- c ;; k" := (bind c (fun x => k))
  (at level 61, c at next level, right associativity).
Notation "c ;;; k" := (bind c (fun _ => k))
  (at level 61, right associativity).

Definition get_state : M wstate := fun w => Some (w, w).

Definition put_mem (m : mem) : M unit := fun w =>
  Some (tt, {| w_mem := m; w_ctx := w_ctx w; w_current := w_current w;
               w_smbios_version := w_smbios_version w; w_data := w_data w;
               w_out := w_out w |}).

Definition put_ctx (ctx : smbios_ctx) : M unit := fun w =>
  Some (tt, {| w_mem := w_mem w; w_ctx := ctx; w_current := w_current w;
               w_smbios_version := w_smbios_version w; w_data := w_data w;
               w_out := w_out w |}).

Definition put_current (a : Z) : M unit := fun w =>
  Some (tt, {| w_mem := w_mem w; w_ctx := w_ctx w; w_current := a;
               w_smbios_version := w_smbios_version w; w_data := w_data w;
               w_out := w_out w |}).

Definition put_smbios_version (v : option Z) : M unit := fun w =>
  Some (tt, {| w_mem := w_mem w; w_ctx := w_ctx w; w_current := w_current w;
               w_smbios_version := v; w_data := w_data w;
               w_out := w_out w |}).

Definition put_data (id : Z) (bytes : list Z) : M unit := fun w =>
  Some (tt, {| w_mem := w_mem w; w_ctx := w_ctx w; w_current := w_current w;
               w_smbios_version := w_smbios_version w;
               w_data := fun i => if i =? id then Some bytes else w_data w i;
               w_out := w_out w |}).

Definition emit (t : smbios_struct) : M unit := fun w =>
  Some (tt, {| w_mem := w_mem w; w_ctx := w_ctx w; w_current := w_current w;
               w_smbios_version := w_smbios_version w; w_data := w_data w;
               w_out := w_out w ++ [t] |}).

(** Modelled from the spec: sysinfo_get_data of the sysinfo uclass, the
    probe capability's read_blob: the data area registered under an
    identifier, whose size is the number of its bytes; it fails when no
    device is attached or no area is registered. *)
Definition sysinfo_get_data (d : option udevice) (id : Z) : M (option (list Z)) :=
  fun w =>
    match d with
    | Some _ => Some (w_data w id, w)
    | None => Some (None, w)
    end.

(** A u16 in a data area, at index [i] of the area seen as [u16 *]
    (little-endian). *)
Definition load_u16 (bytes : list Z) (i : Z) : Z :=
  nth (Z.to_nat (2 * i)) bytes 0 + 2 ^ 8 * nth (Z.to_nat (2 * i + 1)) bytes 0.

Fixpoint set_nth (l : list Z) (n : nat) (v : Z) : list Z :=
  match l, n with
  | [], _ => []
  | _ :: l', O => v :: l'
  | x :: l', S k => x :: set_nth l' k v
  end.

Definition store_u16 (bytes : list Z) (i v : Z) : list Z :=
  set_nth (set_nth bytes (Z.to_nat (2 * i)) (u16 v mod 2 ^ 8))
          (Z.to_nat (2 * i + 1)) (u16 v / 2 ^ 8).

Definition load_u32 (bytes : list Z) (i : Z) : Z :=
  load_u16 bytes (2 * i) + 2 ^ 16 * load_u16 bytes (2 * i + 1).

(** ** Structure writers *)

Section Writers.

Variable fuel : nat.
Variable cfg : config.
Variable env : environment.

(** The common opening of a writer: [t = map_sysmem( *current, len)],
    [memset(t, 0, len)] and [fill_smbios_header(t, type, len, handle)]. *)
Definition begin_struct (type len handle : Z) : M smbios_struct :=
  w <- get_state ;;
  put_mem (memset (w_mem w) (w_current w) 0 (Z.to_nat len)) ;;;
  ret {| s_addr := w_current w;
         s_hdr := fill_smbios_header type len handle;
         s_members := [] |}.

(** [smbios_set_eos(ctx, e)] on the context of the state. *)
Definition set_eos (e : Z) : M unit :=
  w <- get_state ;;
  put_ctx (smbios_set_eos (w_ctx w) e).

(** Modelled from the spec: [t->eos] for the structure declarations of
    smbios.h, whose last member is [eos]: the string pool is reset "to
    immediately follow the fixed fields", at the last
    [SMBIOS_STRUCT_EOS_BYTES] bytes of the [len] bytes of the structure
    (the address that the board and chassis writers compute themselves). *)
Definition eos_of (t : smbios_struct) (len : Z) : Z :=
  s_addr t + len - SMBIOS_STRUCT_EOS_BYTES.

Definition add_prop_si (prop : option string) (sysinfo_id : Z)
    (dval : option string) : M Z :=
  fun w =>
    match smbios_add_prop_si fuel cfg (ofnode_root env) (w_ctx w) (w_mem w)
                             prop sysinfo_id dval with
    | Some (n, ctx, m) => (put_ctx ctx ;;; put_mem m ;;; ret n) w
    | None => None
    end.

Definition add_prop (prop dval : option string) : M Z :=
  add_prop_si prop SYSINFO_ID_NONE dval.

Definition get_val_si (prop : option string) (sysinfo_id : Z) : M Z :=
  w <- get_state ;;
  ret (smbios_get_val_si cfg (w_ctx w) prop sysinfo_id).

(** [t->name = smbios_add_prop_si(ctx, prop, id, dval)] for a u8 member. *)
Definition str_member (t : smbios_struct) (name : string)
    (prop : option string) (sysinfo_id : Z) (dval : option string)
  : M smbios_struct :=
  n <- add_prop_si prop sysinfo_id dval ;;
  ret (set_member t name (u8 n)).

(** [t->name = smbios_get_val_si(ctx, prop, id)] for a member of [width]. *)
Definition int_member (t : smbios_struct) (name : string) (width : Z -> Z)
    (prop : string) (sysinfo_id : Z) : M smbios_struct :=
  v <- get_val_si (Some prop) sysinfo_id ;;
  ret (set_member t name (width v)).

(** The common ending of a writer:
    [len = t->hdr.length + smbios_string_table_len(ctx)],
    [*current += len] and [return len]. *)
Definition end_struct (t : smbios_struct) : M Z :=
  w <- get_state ;;
  let len := hdr_length (s_hdr t) + smbios_string_table_len (w_ctx w) in
  put_current (w_current w + len) ;;;
  emit t ;;;
  ret len.

(** The ending of the writers without strings: [*current += len]. *)
Definition end_struct_fixed (t : smbios_struct) (len : Z) : M Z :=
  w <- get_state ;;
  put_current (w_current w + len) ;;;
  emit t ;;;
  ret len.

Definition SZ_16M : Z := 16777216.

Definition smbios_write_type0 (handle : Z) : M Z :=
  let len := sizeof_type0 cfg in
  t <- begin_struct SMBIOS_BIOS_INFORMATION len handle ;;
  set_eos (eos_of t len) ;;;
  t <- str_member t "vendor" None SYSINFO_ID_SMBIOS_BIOS_VENDOR (Some "U-Boot"%string) ;;
  t <- str_member t "bios_ver" (Some "version"%string) SYSINFO_ID_SMBIOS_BIOS_VER
         (Some (PLAIN_VERSION cfg)) ;;
  (if member t "bios_ver" =? 0 then ret tt
   else w <- get_state ;; put_smbios_version (last_str (w_ctx w))) ;;;
  t <- str_member t "bios_release_date" None SYSINFO_ID_SMBIOS_BIOS_REL_DATE
         (Some (U_BOOT_DMI_DATE cfg)) ;;
  let t :=
    match CONFIG_ROM_SIZE cfg with
    | Some rom =>
        if rom <? SZ_16M
        then set_member t "bios_rom_size" (u8 (rom / 65536 - 1))
        else set_member (set_member t "bios_rom_size" 255)
                        "extended_bios_rom_size" (u16 (Z.shiftr rom 20))
    | None => t
    end in
  let t := set_member t "bios_characteristics"
             (u64 (Z.lor (Z.lor (BIOS_CHARACTERISTICS_PCI_SUPPORTED cfg)
                                (BIOS_CHARACTERISTICS_SELECTABLE_BOOT cfg))
                         (BIOS_CHARACTERISTICS_UPGRADEABLE cfg))) in
  let t :=
    if CONFIG_GENERATE_ACPI_TABLE cfg
    then set_member t "bios_characteristics_ext1" (u8 (BIOS_CHARACTERISTICS_EXT1_ACPI cfg))
    else t in
  let t :=
    if CONFIG_EFI_LOADER cfg
    then set_member t "bios_characteristics_ext2"
           (u8 (Z.lor (member t "bios_characteristics_ext2")
                      (BIOS_CHARACTERISTICS_EXT2_UEFI cfg)))
    else t in
  let t := set_member t "bios_characteristics_ext2"
             (u8 (Z.lor (member t "bios_characteristics_ext2")
                        (BIOS_CHARACTERISTICS_EXT2_TARGET cfg))) in
  let t := set_member t "bios_major_release" (u8 (U_BOOT_VERSION_NUM cfg mod 100)) in
  let t := set_member t "bios_minor_release" (u8 (U_BOOT_VERSION_NUM_PATCH cfg)) in
  let t := set_member t "ec_major_release" 255 in
  let t := set_member t "ec_minor_release" 255 in
  end_struct t.

(** [strlcpy((char * )t->name, s, size)] for a byte array member whose
    elements are listed in [names]. *)
Fixpoint strlcpy_members (t : smbios_struct) (names : list string) (s : string)
  : smbios_struct :=
  match names with
  | [] => t
  | nm :: names' =>
      match names', s with
      | [], _ => set_member t nm 0
      | _, EmptyString => set_member t nm 0
      | _, String c s' =>
          if code c =? 0 then set_member t nm 0
          else strlcpy_members (set_member t nm (code c)) names' s'
      end
  end.

Definition uuid_members : list string :=
  [ "uuid[0]"; "uuid[1]"; "uuid[2]"; "uuid[3]"; "uuid[4]"; "uuid[5]";
    "uuid[6]"; "uuid[7]"; "uuid[8]"; "uuid[9]"; "uuid[10]"; "uuid[11]";
    "uuid[12]"; "uuid[13]"; "uuid[14]"; "uuid[15]" ]%string.

Definition smbios_write_type1 (handle : Z) : M Z :=
  let len := sizeof_type1 cfg in
  let serial_str := env_serial env in
  t <- begin_struct SMBIOS_SYSTEM_INFORMATION len handle ;;
  set_eos (eos_of t len) ;;;
  t <- str_member t "manufacturer" (Some "manufacturer"%string)
         SYSINFO_ID_SMBIOS_SYSTEM_MANUFACTURER None ;;
  t <- str_member t "product_name" (Some "product"%string)
         SYSINFO_ID_SMBIOS_SYSTEM_PRODUCT None ;;
  t <- str_member t "version" (Some "version"%string)
         SYSINFO_ID_SMBIOS_SYSTEM_VERSION None ;;
  t <- match serial_str with
       | Some serial =>
           n <- add_prop None (Some serial) ;;
           ret (strlcpy_members (set_member t "serial_number" (u8 n))
                                uuid_members serial)
       | None =>
           str_member t "serial_number" (Some "serial"%string)
             SYSINFO_ID_SMBIOS_SYSTEM_SERIAL None
       end ;;
  t <- int_member t "wakeup_type" u8 "wakeup-type" SYSINFO_ID_SMBIOS_SYSTEM_WAKEUP ;;
  t <- str_member t "sku_number" (Some "sku"%string) SYSINFO_ID_SMBIOS_SYSTEM_SKU None ;;
  t <- str_member t "family" (Some "family"%string) SYSINFO_ID_SMBIOS_SYSTEM_FAMILY None ;;
  end_struct t.

Definition smbios_write_type2 (handle : Z) : M Z :=
  let len := sizeof_type2 cfg in
  t <- begin_struct SMBIOS_BOARD_INFORMATION len handle ;;
  let eos_addr := s_addr t + len - SMBIOS_STRUCT_EOS_BYTES in
  set_eos eos_addr ;;;
  t <- str_member t "manufacturer" (Some "manufacturer"%string)
         SYSINFO_ID_SMBIOS_BASEBOARD_MANUFACTURER None ;;
  t <- str_member t "product_name" (Some "product"%string)
         SYSINFO_ID_SMBIOS_BASEBOARD_PRODUCT None ;;
  t <- str_member t "version" (Some "version"%string)
         SYSINFO_ID_SMBIOS_BASEBOARD_VERSION None ;;
  t <- str_member t "serial_number" (Some "serial"%string)
         SYSINFO_ID_SMBIOS_BASEBOARD_SERIAL None ;;
  t <- str_member t "asset_tag_number" (Some "asset-tag"%string)
         SYSINFO_ID_SMBIOS_BASEBOARD_ASSET_TAG None ;;
  t <- int_member t "feature_flags" u8 "feature-flags"
         SYSINFO_ID_SMBIOS_BASEBOARD_FEATURE ;;
  t <- str_member t "chassis_location" (Some "chassis-location"%string)
         SYSINFO_ID_SMBIOS_BASEBOARD_CHASSIS_LOCAT None ;;
  t <- int_member t "board_type" u8 "board-type" SYSINFO_ID_SMBIOS_BASEBOARD_TYPE ;;
  let t := set_member t "chassis_handle" (u16 (handle + 1)) in
  end_struct t.

Definition smbios_write_type3 (handle : Z) : M Z :=
  let elem_size := 0 in
  let len := sizeof_type3 cfg + elem_size in
  t <- begin_struct SMBIOS_SYSTEM_ENCLOSURE len handle ;;
  let eos_addr := s_addr t + len - SMBIOS_STRUCT_EOS_BYTES in
  set_eos eos_addr ;;;
  t <- str_member t "manufacturer" (Some "manufacturer"%string)
         SYSINFO_ID_SMBIOS_ENCLOSURE_MANUFACTURER None ;;
  t <- int_member t "chassis_type" u8 "chassis-type" SYSINFO_ID_SMBIOS_ENCLOSURE_TYPE ;;
  t <- str_member t "version" (Some "version"%string)
         SYSINFO_ID_SMBIOS_ENCLOSURE_VERSION None ;;
  t <- str_member t "serial_number" (Some "serial"%string)
         SYSINFO_ID_SMBIOS_ENCLOSURE_SERIAL None ;;
  t <- str_member t "asset_tag_number" (Some "asset-tag"%string)
         SYSINFO_ID_SMBIOS_BASEBOARD_ASSET_TAG None ;;
  t <- int_member t "bootup_state" u8 "bootup-state" SYSINFO_ID_SMBIOS_ENCLOSURE_BOOTUP ;;
  t <- int_member t "power_supply_state" u8 "power-supply-state"
         SYSINFO_ID_SMBIOS_ENCLOSURE_POW ;;
  t <- int_member t "thermal_state" u8 "thermal-state"
         SYSINFO_ID_SMBIOS_ENCLOSURE_THERMAL ;;
  t <- int_member t "security_status" u8 "security-status"
         SYSINFO_ID_SMBIOS_ENCLOSURE_SECURITY ;;
  t <- int_member t "oem_defined" u32 "oem-defined" SYSINFO_ID_SMBIOS_ENCLOSURE_OEM ;;
  t <- int_member t "height" u8 "height" SYSINFO_ID_SMBIOS_ENCLOSURE_HEIGHT ;;
  t <- int_member t "number_of_power_cords" u8 "number-of-power-cords"
         SYSINFO_ID_SMBIOS_ENCLOSURE_POWCORE_NUM ;;
  t <- str_member t "sku_number" (Some "sku"%string) SYSINFO_ID_SMBIOS_ENCLOSURE_SKU None ;;
  end_struct t.

Definition smbios_write_type4_dm (t : smbios_struct) : M smbios_struct :=
  let processor_family := u16 (SMBIOS_PROCESSOR_FAMILY_UNKNOWN cfg) in
  let '(processor_family, t, vendor, name) :=
    match uclass_first_cpu env with
    | Some plat =>
        (if u16 (family plat) =? 0 then processor_family else u16 (family plat),
         set_member (set_member t "processor_id[0]" (u32 (id0 plat)))
                    "processor_id[1]" (u32 (id1 plat)),
         cpu_get_vendor plat, cpu_get_desc plat)
    | None => (processor_family, t, None, None)
    end in
  processor_family <-
    (if processor_family =? u16 (SMBIOS_PROCESSOR_FAMILY_UNKNOWN cfg)
     then v <- get_val_si (Some "family"%string) SYSINFO_ID_SMBIOS_PROCESSOR_FAMILY ;;
          ret (u16 v)
     else ret processor_family) ;;
  t <- (if processor_family =? u16 (SMBIOS_PROCESSOR_FAMILY_EXT cfg)
        then int_member t "processor_family2" u16 "family2"
               SYSINFO_ID_SMBIOS_PROCESSOR_FAMILY2
        else ret t) ;;
  let t := set_member t "processor_family" (u8 processor_family) in
  t <- str_member t "processor_manufacturer" (Some "manufacturer"%string)
         SYSINFO_ID_SMBIOS_PROCESSOR_MANUFACT vendor ;;
  t <- str_member t "processor_version" (Some "version"%string)
         SYSINFO_ID_SMBIOS_PROCESSOR_VERSION name ;;
  if negb (member t "processor_id[0]" =? 0) || negb (member t "processor_id[1]" =? 0)
  then ret t
  else
    w <- get_state ;;
    id_data <- sysinfo_get_data (dev (w_ctx w)) SYSINFO_ID_SMBIOS_PROCESSOR_ID ;;
    match id_data with
    | None => ret t
    | Some bytes =>
        if Z.of_nat (List.length bytes) =? 8
        then ret (set_member (set_member t "processor_id[0]" (load_u32 bytes 0))
                             "processor_id[1]" (load_u32 bytes 1))
        else ret t
    end.

Definition smbios_write_type4 (handle : Z) : M Z :=
  let len := sizeof_type4 cfg in
  t <- begin_struct SMBIOS_PROCESSOR_INFORMATION len handle ;;
  set_eos (eos_of t len) ;;;
  t <- str_member t "socket_design" (Some "socket-design"%string)
         SYSINFO_ID_SMBIOS_PROCESSOR_SOCKET None ;;
  t <- int_member t "processor_type" u8 "processor-type"
         SYSINFO_ID_SMBIOS_PROCESSOR_TYPE ;;
  t <- smbios_write_type4_dm t ;;
  t <- int_member t "voltage" u8 "voltage" SYSINFO_ID_SMBIOS_PROCESSOR_VOLTAGE ;;
  t <- int_member t "external_clock" u16 "external-clock"
         SYSINFO_ID_SMBIOS_PROCESSOR_EXT_CLOCK ;;
  t <- int_member t "max_speed" u16 "max-speed" SYSINFO_ID_SMBIOS_PROCESSOR_MAX_SPEED ;;
  t <- int_member t "current_speed" u16 "current-speed"
         SYSINFO_ID_SMBIOS_PROCESSOR_CUR_SPEED ;;
  t <- int_member t "status" u8 "processor-status" SYSINFO_ID_SMBIOS_PROCESSOR_STATUS ;;
  t <- int_member t "processor_upgrade" u8 "upgrade" SYSINFO_ID_SMBIOS_PROCESSOR_UPGRADE ;;
  let t := set_member t "l1_cache_handle" (u16 (SMBIOS_CACHE_HANDLE_NONE cfg)) in
  let t := set_member t "l2_cache_handle" (u16 (SMBIOS_CACHE_HANDLE_NONE cfg)) in
  let t := set_member t "l3_cache_handle" (u16 (SMBIOS_CACHE_HANDLE_NONE cfg)) in
  w <- get_state ;;
  hdl <- sysinfo_get_data (dev (w_ctx w)) SYSINFO_ID_SMBIOS_CACHE_HANDLE ;;
  let t :=
    match hdl with
    | Some bytes =>
        if Z.of_nat (List.length bytes) =? SYSINFO_CACHE_LVL_MAX * 2 then
          let t := if load_u16 bytes 0 =? 0 then t
                   else set_member t "l1_cache_handle" (load_u16 bytes 0) in
          let t := if load_u16 bytes 1 =? 0 then t
                   else set_member t "l2_cache_handle" (load_u16 bytes 1) in
          let t := if load_u16 bytes 2 =? 0 then t
                   else set_member t "l3_cache_handle" (load_u16 bytes 2) in
          t
        else t
    | None => t
    end in
  t <- str_member t "serial_number" (Some "serial"%string)
         SYSINFO_ID_SMBIOS_PROCESSOR_SN None ;;
  t <- str_member t "asset_tag" (Some "asset-tag"%string)
         SYSINFO_ID_SMBIOS_PROCESSOR_ASSET_TAG None ;;
  t <- str_member t "part_number" (Some "part-number"%string)
         SYSINFO_ID_SMBIOS_PROCESSOR_PN None ;;
  t <- int_member t "core_count" u8 "core-count" SYSINFO_ID_SMBIOS_PROCESSOR_CORE_CNT ;;
  t <- int_member t "core_enabled" u8 "core-enabled" SYSINFO_ID_SMBIOS_PROCESSOR_CORE_EN ;;
  t <- int_member t "thread_count" u8 "thread-count"
         SYSINFO_ID_SMBIOS_PROCESSOR_THREAD_CNT ;;
  t <- int_member t "processor_characteristics" u16 "characteristics"
         SYSINFO_ID_SMBIOS_PROCESSOR_CHARA ;;
  t <- int_member t "core_count2" u16 "core-count2" SYSINFO_ID_SMBIOS_PROCESSOR_CORE_CNT2 ;;
  t <- int_member t "core_enabled2" u16 "core-enabled2"
         SYSINFO_ID_SMBIOS_PROCESSOR_CORE_EN2 ;;
  t <- int_member t "thread_count2" u16 "thread-count2"
         SYSINFO_ID_SMBIOS_PROCESSOR_THREAD_CNT2 ;;
  t <- int_member t "thread_enabled" u16 "thread-enabled"
         SYSINFO_ID_SMBIOS_PROCESSOR_THREAD_EN ;;
  end_struct t.

Definition smbios_write_type7_1level (handle level : Z) : M Z :=
  let len := sizeof_type7 cfg in
  t <- begin_struct SMBIOS_CACHE_INFORMATION len handle ;;
  set_eos (eos_of t len) ;;;
  t <- str_member t "socket_design" (Some "socket-design"%string)
         (SYSINFO_ID_SMBIOS_CACHE_SOCKET + level) None ;;
  t <- int_member t "config" u16 "config" (SYSINFO_ID_SMBIOS_CACHE_CONFIG + level) ;;
  t <- int_member t "max_size" u16 "max-size" (SYSINFO_ID_SMBIOS_CACHE_MAX_SIZE + level) ;;
  t <- int_member t "inst_size" u16 "installed-size"
         (SYSINFO_ID_SMBIOS_CACHE_INST_SIZE + level) ;;
  t <- int_member t "supp_sram_type" u16 "supported-sram-type"
         (SYSINFO_ID_SMBIOS_CACHE_SUPSRAM_TYPE + level) ;;
  t <- int_member t "curr_sram_type" u16 "current-sram-type"
         (SYSINFO_ID_SMBIOS_CACHE_CURSRAM_TYPE + level) ;;
  t <- int_member t "speed" u8 "speed" (SYSINFO_ID_SMBIOS_CACHE_SPEED + level) ;;
  t <- int_member t "err_corr_type" u8 "error-correction-type"
         (SYSINFO_ID_SMBIOS_CACHE_ERRCOR_TYPE + level) ;;
  t <- int_member t "sys_cache_type" u8 "system-cache-type"
         (SYSINFO_ID_SMBIOS_CACHE_SCACHE_TYPE + level) ;;
  t <- int_member t "associativity" u8 "associativity"
         (SYSINFO_ID_SMBIOS_CACHE_ASSOC + level) ;;
  t <- int_member t "max_size2" u32 "max-size2"
         (SYSINFO_ID_SMBIOS_CACHE_MAX_SIZE2 + level) ;;
  t <- int_member t "inst_size2" u32 "installed-size2"
         (SYSINFO_ID_SMBIOS_CACHE_INST_SIZE2 + level) ;;
  w <- get_state ;;
  hdl <- sysinfo_get_data (dev (w_ctx w)) SYSINFO_ID_SMBIOS_CACHE_HANDLE ;;
  match hdl with
  | Some bytes =>
      if Z.of_nat (List.length bytes) =? SYSINFO_CACHE_LVL_MAX * 2
      then put_data SYSINFO_ID_SMBIOS_CACHE_HANDLE (store_u16 bytes level handle)
      else ret tt
  | None => ret tt
  end ;;;
  end_struct t.

(** [snprintf(buf, size, "l%d-cache", v)]: the contents of [buf] and the
    value returned, the length of the untruncated text. *)
Definition snprintf_cache (size : nat) (v : Z) : string * Z :=
  let text := ("l" ++ NilZero.string_of_int (Z.to_int v) ++ "-cache")%string in
  (substring 0 (size - 1) text, len text).

(** The [for] loop of smbios_write_type7 with [n] iterations left. *)
Fixpoint smbios_write_type7_loop (n : nat) (i handle len : Z)
    (parent : ofnode) (ctx_bak : smbios_ctx) : M Z :=
  match n with
  | O => ret len
  | S k =>
      let '(buf, printed) := snprintf_cache 9 (i + 1) in
      if printed =? 0 then ret 0
      else
        w <- get_state ;;
        let ctx := w_ctx w in
        put_ctx {| node := ofnode_find_subnode parent buf; dev := dev ctx;
                   subnode_name := Some buf; eos := eos ctx;
                   next_ptr := next_ptr ctx; last_str := last_str ctx |} ;;;
        l <- smbios_write_type7_1level handle i ;;
        put_ctx ctx_bak ;;;
        smbios_write_type7_loop k (i + 1) (handle + 1) (len + l) parent ctx_bak
  end.

Definition smbios_write_type7 (handle : Z) : M Z :=
  w <- get_state ;;
  let parent := node (w_ctx w) in
  let ctx_bak := w_ctx w in
  level <- get_val_si None SYSINFO_ID_SMBIOS_CACHE_LEVEL ;;
  if level >=? SYSINFO_CACHE_LVL_MAX then ret 0
  else smbios_write_type7_loop (Z.to_nat (level + 1)) 0 handle 0 parent ctx_bak.

Definition smbios_write_type32 (handle : Z) : M Z :=
  let len := sizeof_type32 cfg in
  t <- begin_struct SMBIOS_SYSTEM_BOOT_INFORMATION len handle ;;
  set_eos (eos_of t len) ;;;
  end_struct_fixed t len.

Definition smbios_write_type127 (handle : Z) : M Z :=
  let len := sizeof_type127 cfg in
  t <- begin_struct SMBIOS_END_OF_TABLE len handle ;;
  end_struct_fixed t len.

(** struct smbios_write_method and the table smbios_write_funcs *)
Record smbios_write_method := {
  write : Z -> M Z;
  method_subnode_name : option string
}.

Definition smbios_write_funcs : list smbios_write_method :=
  [ {| write := smbios_write_type0; method_subnode_name := Some "bios" |};
    {| write := smbios_write_type1; method_subnode_name := Some "system" |};
    {| write := smbios_write_type2; method_subnode_name := Some "baseboard" |};
    {| write := smbios_write_type3; method_subnode_name := Some "chassis" |};
    {| write := smbios_write_type7; method_subnode_name := Some "cache" |};
    {| write := smbios_write_type4; method_subnode_name := Some "processor" |};
    {| write := smbios_write_type32; method_subnode_name := None |};
    {| write := smbios_write_type127; method_subnode_name := None |} ]%string.

(** ** Table assembler *)

(** One iteration of the loop of write_smbios_table: the context is set up
    for the method, which is then run with [handle]. *)
Definition run_method (parent_node : ofnode) (method : smbios_write_method)
    (handle : Z) : M Z :=
  w <- get_state ;;
  let ctx := w_ctx w in
  let ctx :=
    {| node := node ctx; dev := dev ctx; subnode_name := None; eos := eos ctx;
       next_ptr := next_ptr ctx; last_str := last_str ctx |} in
  let ctx :=
    match method_subnode_name method with
    | Some name =>
        {| node := if CONFIG_OF_CONTROL cfg
                   then ofnode_find_subnode parent_node name
                   else node ctx;
           dev := dev ctx; subnode_name := Some name; eos := eos ctx;
           next_ptr := next_ptr ctx; last_str := last_str ctx |}
    | None => ctx
    end in
  put_ctx ctx ;;;
  write method handle.

(** The loop over the methods, from [handle] and the length [len] so far. *)
Fixpoint run_methods (parent_node : ofnode) (methods : list smbios_write_method)
    (handle len : Z) : M Z :=
  match methods with
  | [] => ret len
  | method :: rest =>
      l <- run_method parent_node method handle ;;
      run_methods parent_node rest (handle + 1) (len + l)
  end.

(** Modelled from the spec: struct smbios3_entry of smbios.h, the
    entry-point descriptor: "anchor bytes, length, major/minor version,
    checksum, table address, max size", 24 bytes in the order anchor[5],
    checksum, length, major_ver, minor_ver, doc_rev, entry_point_rev,
    reserved, table_maximum_size (32 bits), struct_table_address
    (64 bits). *)
Definition sizeof_smbios3_entry : Z := 24.
Definition se_anchor : Z := 0.
Definition se_checksum : Z := 5.
Definition se_length : Z := 6.
Definition se_major_ver : Z := 7.
Definition se_minor_ver : Z := 8.
Definition se_doc_rev : Z := 9.
Definition se_entry_point_rev : Z := 10.
Definition se_table_maximum_size : Z := 12.
Definition se_struct_table_address : Z := 16.

(** A member of [n] bytes stored least significant byte first. *)
Fixpoint store_le (m : mem) (a : Z) (n : nat) (v : Z) : mem :=
  match n with
  | O => m
  | S k => store_le (store m a (v mod 256)) (a + 1) k (v / 256)
  end.

(** Modelled from the spec: table_compute_checksum of lib/tables_csum.c,
    which is not among the sources: "the value making the 8-bit sum of all
    descriptor bytes equal zero", computed by subtracting every byte from
    an 8-bit accumulator that starts at zero. *)
Fixpoint table_compute_checksum_from (checksum : Z) (m : mem) (v : Z) (n : nat) : Z :=
  match n with
  | O => checksum
  | S k => table_compute_checksum_from (u8 (checksum - m v)) m (v + 1) k
  end.

Definition table_compute_checksum (m : mem) (v : Z) (n : Z) : Z :=
  table_compute_checksum_from 0 m v (Z.to_nat n).

(** ALIGN(x, a) for a power of two [a] *)
Definition ALIGN (x a : Z) : Z := Z.land (x + (a - 1)) (Z.lnot (a - 1)).

(** Modelled from the spec: map_sysmem, one of "the low-level
    memory-mapping helpers used to address the output buffer": outside the
    sandbox an address maps to itself. *)
Definition map_sysmem (paddr : Z) : Z := paddr.

Definition write_smbios_table (addr : Z) : M Z :=
  w <- get_state ;;
  let d := if CONFIG_SYSINFO cfg then uclass_first_sysinfo env else None in
  let parent_node :=
    match d with
    | Some dv => smbios_subnode dv
    | None => ofnode_null
    end in
  (* the result of sysinfo_detect is logged and ignored *)
  let detected := match d with Some dv => detect dv | None => 0 end in
  put_ctx {| node := ofnode_null; dev := d;
             subnode_name := subnode_name (w_ctx w); eos := eos (w_ctx w);
             next_ptr := next_ptr (w_ctx w); last_str := last_str (w_ctx w) |} ;;;
  let start_addr := addr in
  let addr := ALIGN (addr + sizeof_smbios3_entry) 16 in
  let tables := addr in
  put_current addr ;;;
  len <- run_methods parent_node smbios_write_funcs 0 0 ;;
  let table_addr := map_sysmem tables in
  w <- get_state ;;
  let se := map_sysmem start_addr in
  let m := memset (w_mem w) se 0 (Z.to_nat sizeof_smbios3_entry) in
  let m := memcpy m (se + se_anchor) "_SM3_" 5 in
  let m := store m (se + se_length) (u8 sizeof_smbios3_entry) in
  let m := store m (se + se_major_ver) (u8 (SMBIOS_MAJOR_VER cfg)) in
  let m := store m (se + se_minor_ver) (u8 (SMBIOS_MINOR_VER cfg)) in
  let m := store m (se + se_doc_rev) 0 in
  let m := store m (se + se_entry_point_rev) 1 in
  let m := store_le m (se + se_table_maximum_size) 4 (u32 len) in
  let m := store_le m (se + se_struct_table_address) 8 (u64 table_addr) in
  let m := store m (se + se_checksum)
             (table_compute_checksum m se sizeof_smbios3_entry) in
  put_mem m ;;;
  ret (w_current w).

End Writers.

(** The state a build starts from: the memory, gd->smbios_version and the
    data areas of the sysinfo device as they are, the local [ctx] not yet
    initialised and no structure written. *)
Definition initial_state (m : mem) (version : option Z)
    (data : Z -> option (list Z)) (ctx : smbios_ctx) : wstate :=
  {| w_mem := m; w_ctx := ctx; w_current := 0; w_smbios_version := version;
     w_data := data; w_out := [] |}.

(** The handles of the structures of a table, in the order written. *)
Definition handles (out : list smbios_struct) : list Z :=
  map (fun t => hdr_handle (s_hdr t)) out.

(** The type codes of the structures of a table, in the order written. *)
Definition types (out : list smbios_struct) : list Z :=
  map (fun t => hdr_type (s_hdr t)) out.

(** * Specification-level definitions and sample inputs *)

(** [pool m p ss]: from [p] on, memory holds the non-empty strings [ss],
    each with its terminator, and then a zero byte. *)
Fixpoint pool (m : mem) (p : Z) (ss : list string) : Prop :=
  match ss with
  | [] => m p = 0
  | s :: ss' => s <> EmptyString /\ string_at m p s /\ pool m (p + len s + 1) ss'
  end.

(** The pool has been written to: the byte before [next_ptr] is the
    terminator of the last string and the byte at [next_ptr] is zero. *)
Definition ended (ctx : smbios_ctx) (m : mem) : Prop :=
  eos ctx < next_ptr ctx /\ m (next_ptr ctx - 1) = 0 /\ m (next_ptr ctx) = 0.

(** Memory filled with zero bytes. *)
Definition zero_mem : mem := fun _ => 0.

(** A context with no node and no device. *)
Definition blank_ctx : smbios_ctx :=
  {| node := ofnode_null; dev := None; subnode_name := None;
     eos := 0; next_ptr := 0; last_str := None |}.

(** The context and the memory after "Acme" was added to the fresh pool at
    address 0. *)
Definition acme_ctx : smbios_ctx := smbios_set_eos blank_ctx 0.
Definition acme_ctx1 : smbios_ctx := set_next_ptr (set_last_str acme_ctx 0) 5.
Definition acme_mem1 : mem := store (store (strcpy zero_mem 0 "Acme") 4 0) 5 0.

(** The string [s] without its first [n] characters. *)
Fixpoint drop (n : nat) (s : string) : string :=
  match n, s with
  | O, _ => s
  | S _, EmptyString => EmptyString
  | S k, String _ s' => drop k s'
  end.

(** The string of [n] characters [c]. *)
Definition chars (c : ascii) (n : nat) : string := string_of_list_ascii (repeat c n).

(** [frame w w']: the step from [w] to [w'] keeps the device of the
    context, the data areas and the structures written. *)
Definition frame (w w' : wstate) : Prop :=
  dev (w_ctx w') = dev (w_ctx w) /\ w_data w' = w_data w /\ w_out w' = w_out w.

(** The data area with the cache handles as a writer sees it: none when no
    device is attached. *)
Definition cache_handle_area (d : option udevice) (data : Z -> option (list Z))
  : option (list Z) :=
  match d with
  | Some _ => data SYSINFO_ID_SMBIOS_CACHE_HANDLE
  | None => None
  end.

(** The value of the cache handle member for slot [i], in the words of the
    specification: the slot of the area, and the "no cache" value when the
    area is absent, has not the size of one 16-bit slot per cache level, or
    the slot holds zero. *)
Definition cache_handle_member (cfg : config) (area : option (list Z)) (i : Z) : Z :=
  match area with
  | Some bytes =>
      if Z.of_nat (List.length bytes) =? SYSINFO_CACHE_LVL_MAX * 2 then
        if load_u16 bytes i =? 0 then u16 (SMBIOS_CACHE_HANDLE_NONE cfg)
        else load_u16 bytes i
      else u16 (SMBIOS_CACHE_HANDLE_NONE cfg)
  | None => u16 (SMBIOS_CACHE_HANDLE_NONE cfg)
  end.

(** The data areas after the cache writer of [level] ran with [handle]. *)
Definition data_after_cache (d : option udevice) (data : Z -> option (list Z))
    (level handle : Z) : Z -> option (list Z) :=
  match cache_handle_area d data with
  | Some bytes =>
      if Z.of_nat (List.length bytes) =? SYSINFO_CACHE_LVL_MAX * 2
      then fun i => if i =? SYSINFO_ID_SMBIOS_CACHE_HANDLE
                    then Some (store_u16 bytes level handle)
                    else data i
      else data
  | None => data
  end.

(** The data areas after the cache writers of [n] levels from [level] ran
    with the handles from [handle]. *)
Fixpoint data_after_levels (n : nat) (d : option udevice)
    (data : Z -> option (list Z)) (level handle : Z) : Z -> option (list Z) :=
  match n with
  | O => data
  | S k => data_after_levels k d (data_after_cache d data level handle)
             (level + 1) (handle + 1)
  end.

(** The cache level count as the cache writer resolves it. *)
Definition cache_level (d : option udevice) : Z :=
  match d with
  | Some dv =>
      match get_int dv SYSINFO_ID_SMBIOS_CACHE_LEVEL with
      | Some v => v
      | None => 0
      end
  | None => 0
  end.

(** The number of cache structures written for a level count. *)
Definition cache_count (d : option udevice) : nat :=
  if cache_level d >=? SYSINFO_CACHE_LVL_MAX then O
  else Z.to_nat (cache_level d + 1).

(** The sysinfo device a build works with. *)
Definition build_dev (cfg : config) (env : environment) : option udevice :=
  if CONFIG_SYSINFO cfg then uclass_first_sysinfo env else None.

(** What a writer of one structure guarantees: one structure is appended,
    with the header stamped from its type, size and handle and with the
    member property [P]; the device and the data areas are kept. *)
Definition writes_one (type size handle : Z) (P : smbios_struct -> Prop)
    (w w' : wstate) : Prop :=
  exists t,
    w_out w' = w_out w ++ [t] /\
    s_hdr t = fill_smbios_header type size handle /\
    P t /\
    dev (w_ctx w') = dev (w_ctx w) /\ w_data w' = w_data w.

(** The headers of the cache structures written from [handle]. *)
Definition cache_headers (cfg : config) (handle : Z) (n : nat) : list smbios_header :=
  map (fun k => fill_smbios_header SMBIOS_CACHE_INFORMATION (sizeof_type7 cfg)
                  (handle + Z.of_nat k)) (seq 0 n).

(** The entry-point descriptor as write_smbios_table leaves it at [se],
    for the table of [len] bytes at [table_addr]. *)
Definition entry_written (cfg : config) (m : mem) (se len table_addr : Z) : mem :=
  let m := memset m se 0 (Z.to_nat sizeof_smbios3_entry) in
  let m := memcpy m (se + se_anchor) "_SM3_" 5 in
  let m := store m (se + se_length) (u8 sizeof_smbios3_entry) in
  let m := store m (se + se_major_ver) (u8 (SMBIOS_MAJOR_VER cfg)) in
  let m := store m (se + se_minor_ver) (u8 (SMBIOS_MINOR_VER cfg)) in
  let m := store m (se + se_doc_rev) 0 in
  let m := store m (se + se_entry_point_rev) 1 in
  let m := store_le m (se + se_table_maximum_size) 4 (u32 len) in
  let m := store_le m (se + se_struct_table_address) 8 (u64 table_addr) in
  store m (se + se_checksum) (table_compute_checksum m se sizeof_smbios3_entry).

(** The shape of a table: the structures in the order written, with the
    headers the writers stamped, the chassis handle of the board structure
    and the cache handles of the processor structure, for the device [d]
    and the data areas [data] the build started with. *)
Definition table_shape (cfg : config) (d : option udevice) (data : Z -> option (list Z))
    (out : list smbios_struct) : Prop :=
  exists t0 t1 t2 t3 caches t4 t32 t127,
    out = [t0; t1; t2; t3] ++ caches ++ [t4; t32; t127] /\
    s_hdr t0 = fill_smbios_header SMBIOS_BIOS_INFORMATION (sizeof_type0 cfg) 0 /\
    s_hdr t1 = fill_smbios_header SMBIOS_SYSTEM_INFORMATION (sizeof_type1 cfg) 1 /\
    s_hdr t2 = fill_smbios_header SMBIOS_BOARD_INFORMATION (sizeof_type2 cfg) 2 /\
    member t2 "chassis_handle" = u16 3 /\
    s_hdr t3 = fill_smbios_header SMBIOS_SYSTEM_ENCLOSURE (sizeof_type3 cfg + 0) 3 /\
    map s_hdr caches = cache_headers cfg 4 (cache_count d) /\
    s_hdr t4 = fill_smbios_header SMBIOS_PROCESSOR_INFORMATION (sizeof_type4 cfg) 5 /\
    (let area := cache_handle_area d (data_after_levels (cache_count d) d data 0 4) in
     member t4 "l1_cache_handle" = cache_handle_member cfg area 0 /\
     member t4 "l2_cache_handle" = cache_handle_member cfg area 1 /\
     member t4 "l3_cache_handle" = cache_handle_member cfg area 2) /\
    s_hdr t32 = fill_smbios_header SMBIOS_SYSTEM_BOOT_INFORMATION (sizeof_type32 cfg) 6 /\
    s_hdr t127 = fill_smbios_header SMBIOS_END_OF_TABLE (sizeof_type127 cfg) 7.

(** The sum of a list of bytes. *)
Definition byte_sum (l : list Z) : Z := fold_right Z.add 0 l.

(** A region of memory that holds byte values. *)
Definition bytes_in (m : mem) (p n : Z) : Prop :=
  forall x, p <= x < p + n -> 0 <= m x < 2 ^ 8.

Definition sample_config : config := {|
  CONFIG_OF_CONTROL := true; CONFIG_SYSINFO := true; CONFIG_ROM_SIZE := None;
  CONFIG_GENERATE_ACPI_TABLE := false; CONFIG_EFI_LOADER := true;
  SMBIOS_STR_MAX := 64; PLAIN_VERSION := "2025.01"; U_BOOT_DMI_DATE := "01/01/2025";
  U_BOOT_VERSION_NUM := 2025; U_BOOT_VERSION_NUM_PATCH := 1;
  SMBIOS_MAJOR_VER := 3; SMBIOS_MINOR_VER := 7;
  sizeof_type0 := 26; sizeof_type1 := 29; sizeof_type2 := 17; sizeof_type3 := 24;
  sizeof_type4 := 52; sizeof_type7 := 29; sizeof_type32 := 13; sizeof_type127 := 6;
  BIOS_CHARACTERISTICS_PCI_SUPPORTED := 128; BIOS_CHARACTERISTICS_UPGRADEABLE := 2048;
  BIOS_CHARACTERISTICS_SELECTABLE_BOOT := 65536; BIOS_CHARACTERISTICS_EXT1_ACPI := 1;
  BIOS_CHARACTERISTICS_EXT2_UEFI := 8; BIOS_CHARACTERISTICS_EXT2_TARGET := 4;
  SMBIOS_PROCESSOR_FAMILY_UNKNOWN := 2; SMBIOS_PROCESSOR_FAMILY_EXT := 254;
  SMBIOS_CACHE_HANDLE_NONE := 65535 |}.

(** A sysinfo device that reports a vendor, a version and the cache level
    count [level]. *)
Definition sample_device (level : Z) : udevice := {|
  detect := 0;
  get_int := fun id => if id =? SYSINFO_ID_SMBIOS_CACHE_LEVEL then Some level else None;
  get_str := fun id _ =>
    if id =? SYSINFO_ID_SMBIOS_BIOS_VENDOR then Some "Acme"%string
    else if id =? SYSINFO_ID_SMBIOS_BIOS_VER then Some "1.2"%string
    else None;
  smbios_subnode := ofnode_null |}.

Definition sample_env (level : Z) : environment := {|
  uclass_first_sysinfo := Some (sample_device level);
  ofnode_root := ofnode_null;
  env_serial := None;
  uclass_first_cpu := None |}.

(** The data areas of the sample device: six zero bytes for the cache
    handles. *)
Definition sample_data : Z -> option (list Z) :=
  fun id => if id =? SYSINFO_ID_SMBIOS_CACHE_HANDLE then Some [0; 0; 0; 0; 0; 0] else None.

(** A context with the sample device attached. *)
Definition device_ctx (level : Z) : smbios_ctx :=
  {| node := ofnode_null; dev := Some (sample_device level); subnode_name := None;
     eos := 0; next_ptr := 0; last_str := None |}.

(** The data areas once two cache structures with the handles 4 and 5 have
    been written. *)
Definition cached_data : Z -> option (list Z) :=
  fun id => if id =? SYSINFO_ID_SMBIOS_CACHE_HANDLE then Some [4; 0; 5; 0; 0; 0] else None.

(** The build of the sample table at address 4096. *)
Definition sample_build (level : Z) : option (Z * wstate) :=
  write_smbios_table 64 sample_config (sample_env level) 4096
    (initial_state (fun _ => 170) None sample_data blank_ctx).

(** The handles and the type codes of the table of a build. *)
Definition build_handles (r : option (Z * wstate)) : option (list Z) :=
  option_map (fun r => handles (w_out (snd r))) r.

Definition build_types (r : option (Z * wstate)) : option (list Z) :=
  option_map (fun r => types (w_out (snd r))) r.

(** The [n] bytes that a build left at [addr]. *)
Definition build_bytes (r : option (Z * wstate)) (addr : Z) (n : nat) : option (list Z) :=
  option_map (fun r => load_bytes (w_mem (snd r)) addr n) r.

(** The bytes of the entry-point descriptor that a build left at [addr]. *)
Definition build_entry (r : option (Z * wstate)) (addr : Z) : option (list Z) :=
  build_bytes r addr (Z.to_nat sizeof_smbios3_entry).

(** The byte values of the characters of a string. *)
Definition codes (s : string) : list Z := map code (list_ascii_of_string s).



#[local] Arguments Z.add _ _ : simpl never.
#[local] Arguments Z.sub _ _ : simpl never.
#[local] Arguments Z.mul _ _ : simpl never.
#[local] Arguments Z.of_nat _ : simpl never.

(** * Enough fuel gives a result: definitions *)

(** [returns c w Q]: from the state [w] the computation [c], which takes
    fuel, returns one and the same result for all fuel from some amount
    on, and the result satisfies [Q]. *)
Definition returns {A : Type} (c : nat -> M A) (w : wstate)
    (Q : A -> wstate -> Prop) : Prop :=
  exists f0 a w', Q a w' /\ forall f, (f0 <= f)%nat -> c f w = Some (a, w').

(** The string pool of the structure being written is well formed. *)
Definition pool_ok (w : wstate) : Prop :=
  exists ss, pool (w_mem w) (eos (w_ctx w)) ss.

(** The strings that get_str_from_dt reads at the root of the tree fit its
    buffer of 128 bytes. *)
Definition dt_fits (env : environment) : Prop :=
  forall np, In np sysinfo_to_dt ->
    get_str_from_dt (ofnode_root env) (Some np) 128 <> None.

(** Every structure has room for its header and its [eos] member. *)
Definition config_ok (cfg : config) : Prop :=
  Forall (fun size => SMBIOS_STRUCT_EOS_BYTES <= size)
    [sizeof_type0 cfg; sizeof_type1 cfg; sizeof_type2 cfg; sizeof_type3 cfg;
     sizeof_type4 cfg; sizeof_type7 cfg; sizeof_type32 cfg; sizeof_type127 cfg].

(** The sum of the lengths of the strings of a pool. *)
Definition total_length (ss : list string) : nat :=
  fold_right (fun s n => (String.length s + n)%nat) O ss.

(** A table links its board and chassis structures: a board structure is
    immediately followed by a chassis structure, and in every such pair
    the chassis header handle is the board header handle plus 1 and is the
    chassis-handle member of the board structure. *)
Definition board_chassis_linked (out : list smbios_struct) : Prop :=
  (exists pre board chassis post,
      out = pre ++ board :: chassis :: post /\
      hdr_type (s_hdr board) = SMBIOS_BOARD_INFORMATION /\
      hdr_type (s_hdr chassis) = SMBIOS_SYSTEM_ENCLOSURE) /\
  forall pre board chassis post,
    out = pre ++ board :: chassis :: post ->
    hdr_type (s_hdr board) = SMBIOS_BOARD_INFORMATION ->
    hdr_type (s_hdr chassis) = SMBIOS_SYSTEM_ENCLOSURE ->
    hdr_handle (s_hdr chassis) = hdr_handle (s_hdr board) + 1 /\
    member board "chassis_handle" = hdr_handle (s_hdr chassis).

(** The bytes of the entry-point descriptor at [addr] are 8-bit values
    that sum to 0 modulo 256. *)
Definition entry_sums_to_zero (m : mem) (addr : Z) : Prop :=
  let bytes := load_bytes m addr (Z.to_nat sizeof_smbios3_entry) in
  Forall (fun b => 0 <= b < 2 ^ 8) bytes /\ byte_sum bytes mod 2 ^ 8 = 0.

(** * Pools, layout and builds: definitions *)

(** The address of the zero byte that ends a pool of strings starting at
    [p]. *)
Fixpoint pool_end (p : Z) (ss : list string) : Z :=
  match ss with
  | [] => p
  | s :: ss' => pool_end (p + len s + 1) ss'
  end.

(** The address of string number [k], counted from 0, of a pool starting
    at [p]. *)
Fixpoint pool_pos (p : Z) (ss : list string) (k : nat) : Z :=
  match k, ss with
  | S k', s :: ss' => pool_pos (p + len s + 1) ss' k'
  | _, _ => p
  end.

(** The position, counted from 0, of the first string equal to [t]. *)
Fixpoint index_of (t : string) (ss : list string) : option nat :=
  match ss with
  | [] => None
  | s :: ss' => if String.eqb s t then Some O else option_map S (index_of t ss')
  end.

(** The strings of a pool after [s] was added to it. *)
Definition pool_add (ss : list string) (s : string) : list string :=
  match index_of (c_str s) ss with
  | Some _ => ss
  | None =>
      match c_str s with
      | EmptyString => ss
      | _ => ss ++ [c_str s]
      end
  end.

(** The strings of a pool after the strings [l] were added to it, one after
    the other. *)
Definition pool_adds (ss l : list string) : list string := fold_left pool_add l ss.

(** The bytes of a pool of strings, each string with its terminator. *)
Definition pool_bytes (ss : list string) : list Z :=
  flat_map (fun s => codes s ++ [0]) ss.

(** A fresh pool at the context's [eos] with strings ready to be added:
    the strings are distinct and not empty, and the fuel exceeds their
    number and their lengths. *)
Definition fresh_pool (fuel : nat) (ctx : smbios_ctx) (m : mem) (l : list string) : Prop :=
  m (eos ctx) = 0 /\ next_ptr ctx = eos ctx /\
  NoDup (map c_str l) /\ Forall (fun s => c_str s <> EmptyString) l /\
  (List.length l < fuel)%nat /\ Forall (fun s => strlen_s s < Z.of_nat fuel) l.

(** The characters of a string. *)
Definition has_char (c : ascii) (s : string) : Prop := In c (list_ascii_of_string s).

(** A token as strtok returns it for the delimiter ",": not empty, with no
    comma and no NUL character. *)
Definition is_token (t : string) : Prop :=
  t <> EmptyString /\ ~ has_char ","%char t /\ no_nul t.

(** A tree whose root has the string property [name] with value [v]. *)
Definition root_with (name v : string) : ofnode :=
  Some (DtNode [(name, PropString v)] []).

(** The state after the opening of a writer of a structure of [size]
    bytes: the structure is zeroed and the pool is reset on its last
    [SMBIOS_STRUCT_EOS_BYTES] bytes. *)
Definition opened (size : Z) (w : wstate) : wstate :=
  {| w_mem := memset (w_mem w) (w_current w) 0 (Z.to_nat size);
     w_ctx := smbios_set_eos (w_ctx w) (w_current w + size - SMBIOS_STRUCT_EOS_BYTES);
     w_current := w_current w; w_smbios_version := w_smbios_version w;
     w_data := w_data w; w_out := w_out w |}.

(** A property of the state that adding a property string and updating a
    data area of the device keep. *)
Definition stable (fuel : nat) (cfg : config) (env : environment)
    (I : wstate -> Prop) : Prop :=
  (forall prop id dval w n w',
      I w -> add_prop_si fuel cfg env prop id dval w = Some (n, w') -> I w') /\
  (forall id bytes w u w', I w -> put_data id bytes w = Some (u, w') -> I w').

(** A property of the state that does not depend on gd->smbios_version. *)
Definition version_free (I : wstate -> Prop) : Prop :=
  forall v w u w', I w -> put_smbios_version v w = Some (u, w') -> I w'.

(** Every structure size is one that the 8-bit length of the header can
    hold, with room for the [eos] member. *)
Definition sizes_fit (cfg : config) : Prop :=
  Forall (fun size => SMBIOS_STRUCT_EOS_BYTES <= size < 2 ^ 8 + SMBIOS_STRUCT_EOS_BYTES)
    [sizeof_type0 cfg; sizeof_type1 cfg; sizeof_type2 cfg; sizeof_type3 cfg;
     sizeof_type4 cfg; sizeof_type7 cfg; sizeof_type32 cfg; sizeof_type127 cfg].

(** The state while the strings of the structure at [base] are written,
    against the state [w0] the writer started from: the pool is well
    formed, the cursor is at its end or one byte after it, and only bytes
    of the structure and of its string area have changed. *)
Definition writing (base size : Z) (w0 w : wstate) : Prop :=
  SMBIOS_STRUCT_EOS_BYTES <= size /\
  w_current w = base /\
  eos (w_ctx w) = base + size - SMBIOS_STRUCT_EOS_BYTES /\
  w_out w = w_out w0 /\
  (exists ss, pool (w_mem w) (eos (w_ctx w)) ss /\
     pool_end (eos (w_ctx w)) ss <= next_ptr (w_ctx w) <= pool_end (eos (w_ctx w)) ss + 1) /\
  (forall x, x < base \/ Z.max (eos (w_ctx w) + 2) (next_ptr (w_ctx w) + 1) <= x ->
             w_mem w x = w_mem w0 x).

(** The string that smbios_add_prop_si hands to smbios_add_string: the
    string of the device, else the default for a NULL property name, else
    with the configuration tree the property of the node or the token of
    the root property, the default standing in for an empty string; NULL
    when nothing is added. *)
Definition prop_source (cfg : config) (root : ofnode) (ctx : smbios_ctx)
    (prop : option string) (sysinfo_id : Z) (dval : option string) : option string :=
  let dval := nonempty dval in
  let val :=
    if negb (sysinfo_id =? 0) && is_some (dev ctx)
    then sysinfo_get_str (dev ctx) sysinfo_id (Z.of_nat (SMBIOS_STR_MAX cfg))
    else None in
  match val with
  | Some val => Some val
  | None =>
      match prop with
      | None => dval
      | Some prop =>
          if CONFIG_OF_CONTROL cfg then
            if ofnode_valid (node ctx) then
              or_else (ofnode_read_string (node ctx) prop) dval
            else
              match get_str_from_dt root (convert_sysinfo_to_dt (subnode_name ctx) prop) 128 with
              | Some str_dt => or_else (Some str_dt) dval
              | None => None
              end
          else None
      end
  end.

(** The device reports no empty string in a buffer of SMBIOS_STR_MAX
    bytes. *)
Definition reports_strings (cfg : config) (d : option udevice) : Prop :=
  forall id s,
    sysinfo_get_str d id (Z.of_nat (SMBIOS_STR_MAX cfg)) = Some s -> strlen_s s <> 0.

(** The string area of a structure as a reader of the table finds it:
    from [e] on the strings [ss], each with its terminator, then one more
    zero byte, two zero bytes when there is no string; the area ends
    before [hi]. *)
Definition strings_at (m : mem) (e : Z) (ss : list string) (hi : Z) : Prop :=
  pool m e ss /\ (ss = [] -> m (e + 1) = 0) /\ hi = Z.max (e + 2) (pool_end e ss + 1).

(** The state while the strings of a structure are written, for a device
    [d] that reports no empty string: the cursor is at the end of the
    pool, and an empty pool is followed by a second zero byte. *)
Definition writing_exact (cfg : config) (d : option udevice) (w : wstate) : Prop :=
  dev (w_ctx w) = d /\
  (reports_strings cfg d ->
   exists ss, pool (w_mem w) (eos (w_ctx w)) ss /\
              next_ptr (w_ctx w) = pool_end (eos (w_ctx w)) ss /\
              (ss = [] -> w_mem w (eos (w_ctx w) + 1) = 0)).

(** What a writer that returned [l] has laid out: one structure at the
    address [current] pointed to, [current] moved by [l] past the
    formatted area and the strings, and no byte changed outside the [l]
    bytes; when the device reports no empty string, the strings as a
    reader finds them. *)
Definition laid_out (cfg : config) (w : wstate) (l : Z) (w' : wstate) : Prop :=
  w_current w' = w_current w + l /\
  (forall x, x < w_current w \/ w_current w' <= x -> w_mem w' x = w_mem w x) /\
  dev (w_ctx w') = dev (w_ctx w) /\
  exists t, w_out w' = w_out w ++ [t] /\ s_addr t = w_current w /\
            0 <= hdr_length (s_hdr t) /\
            hdr_length (s_hdr t) + SMBIOS_STRUCT_EOS_BYTES <= l /\
            (reports_strings cfg (dev (w_ctx w)) ->
             exists ss, strings_at (w_mem w') (w_current w + hdr_length (s_hdr t)) ss
                          (w_current w')).

(** From [w1] to [w2] every stable property of the state is kept; when
    [vf] is set only those that do not depend on gd->smbios_version. *)
Definition transfers (fuel : nat) (cfg : config) (env : environment) (vf : bool)
    (w1 w2 : wstate) : Prop :=
  forall I, stable fuel cfg env I -> (vf = true -> version_free I) -> I w1 -> I w2.

(** The course of a writer of a structure with strings: the opening, the
    members, and the common ending on the structure [t]. *)
Definition struct_body (fuel : nat) (cfg : config) (env : environment) (vf : bool)
    (type size handle : Z) (w : wstate) (l : Z) (w' : wstate) : Prop :=
  exists t w2,
    s_hdr t = fill_smbios_header type size handle /\
    s_addr t = w_current w /\
    transfers fuel cfg env vf (opened size w) w2 /\
    end_struct t w2 = Some (l, w').

(** The structures [ts] tile the addresses from [lo] to [hi]: each starts
    where the one before it ends, the first at [lo], and takes at least
    its formatted area and the two bytes of an empty string area. *)
Fixpoint tiled (lo : Z) (ts : list smbios_struct) (hi : Z) : Prop :=
  match ts with
  | [] => lo = hi
  | t :: ts' =>
      s_addr t = lo /\ 0 <= hdr_length (s_hdr t) /\
      exists next,
        lo + hdr_length (s_hdr t) + SMBIOS_STRUCT_EOS_BYTES <= next /\ tiled next ts' hi
  end.

(** The structures [ts] as a reader walks them in the memory [m] from
    [lo] to [hi]: after the formatted area of each, of the length its
    header gives, come its strings and the closing zero byte, and the next
    structure starts right after them. *)
Fixpoint walkable (m : mem) (lo : Z) (ts : list smbios_struct) (hi : Z) : Prop :=
  match ts with
  | [] => lo = hi
  | t :: ts' =>
      s_addr t = lo /\ 0 <= hdr_length (s_hdr t) /\
      exists ss next,
        strings_at m (lo + hdr_length (s_hdr t)) ss next /\ walkable m next ts' hi
  end.

(** What a run of writers that returned [l] has done: [current] moved by
    [l], only the [l] bytes from the old [current] changed, the device
    kept, and the structures appended tile these bytes; a reader can walk
    them when the device reports no empty string. *)
Definition advanced (cfg : config) (w : wstate) (l : Z) (w' : wstate) : Prop :=
  w_current w' = w_current w + l /\ 0 <= l /\
  (forall x, x < w_current w \/ w_current w' <= x -> w_mem w' x = w_mem w x) /\
  dev (w_ctx w') = dev (w_ctx w) /\
  exists ts, w_out w' = w_out w ++ ts /\ tiled (w_current w) ts (w_current w') /\
             (reports_strings cfg (dev (w_ctx w)) ->
              walkable (w_mem w') (w_current w) ts (w_current w')).

(** The value of the [n] bytes at [a], least significant byte first. *)
Fixpoint load_le (m : mem) (a : Z) (n : nat) : Z :=
  match n with
  | O => 0
  | S k => m a + 256 * load_le m (a + 1) k
  end.

(** The pool of the structure being written holds the strings [ss] from
    [e] on, and the cursor is at its end or one byte after it. *)
Definition pool_at (e : Z) (ss : list string) (ctx : smbios_ctx) (m : mem) : Prop :=
  eos ctx = e /\ pool m e ss /\ pool_end e ss <= next_ptr ctx <= pool_end e ss + 1.

(** The strings of a pool after an optional string was added. *)
Definition pool_add_opt (ss : list string) (s : option string) : list string :=
  match s with
  | Some s => pool_add ss s
  | None => ss
  end.

(** Two states with the same [current], gd->smbios_version, data areas and
    structures written, and contexts that take properties from the same
    places. *)
Definition same_frame (w w' : wstate) : Prop :=
  w_current w' = w_current w /\ w_smbios_version w' = w_smbios_version w /\
  w_out w' = w_out w /\ w_data w' = w_data w /\
  dev (w_ctx w') = dev (w_ctx w) /\ node (w_ctx w') = node (w_ctx w) /\
  subnode_name (w_ctx w') = subnode_name (w_ctx w).

(** The "smbios" node of the device a build works with. *)
Definition parent_node (cfg : config) (env : environment) : ofnode :=
  match build_dev cfg env with
  | Some dv => smbios_subnode dv
  | None => ofnode_null
  end.

(** The context in which write_smbios_table runs the firmware writer. *)
Definition bios_ctx (cfg : config) (env : environment) : smbios_ctx :=
  {| node := if CONFIG_OF_CONTROL cfg
             then ofnode_find_subnode (parent_node cfg env) "bios"
             else ofnode_null;
     dev := build_dev cfg env; subnode_name := Some "bios"%string;
     eos := 0; next_ptr := 0; last_str := None |}.

(** The version string of the firmware structure of a build, NULL when
    it has none. *)
Definition version_source (cfg : config) (env : environment) : option string :=
  prop_source cfg (ofnode_root env) (bios_ctx cfg env) (Some "version"%string)
    SYSINFO_ID_SMBIOS_BIOS_VER (Some (PLAIN_VERSION cfg)).

(** The address of the table of a build at [addr]. *)
Definition table_start (addr : Z) : Z := ALIGN (addr + sizeof_smbios3_entry) 16.

(** What a completed build at [addr] that returned [a] has laid out, from
    the state [w] to the state [w']. *)
Definition built (cfg : config) (env : environment) (addr : Z) (w : wstate) (a : Z)
    (w' : wstate) : Prop :=
  exists total m3,
    a = table_start addr + total /\ 0 <= total /\
    (forall x, x < table_start addr \/ a <= x -> m3 x = w_mem w x) /\
    (exists ts, w_out w' = w_out w ++ ts /\ tiled (table_start addr) ts a /\
       (reports_strings cfg (build_dev cfg env) -> walkable m3 (table_start addr) ts a)) /\
    w_mem w' = entry_written cfg m3 (map_sysmem addr) total (map_sysmem (table_start addr)) /\
    match version_source cfg env with
    | None => w_smbios_version w' = w_smbios_version w
    | Some s =>
        exists q V,
          w_smbios_version w' = Some q /\ table_start addr <= q /\
          string_at m3 q V /\ q + len V < a /\
          (c_str s <> EmptyString -> V = c_str s)
    end.

(** [always c w Q]: whatever the fuel, a result of [c] from the state [w]
    satisfies [Q]. *)
Definition always {A : Type} (c : nat -> M A) (w : wstate)
    (Q : A -> wstate -> Prop) : Prop :=
  forall f a w', c f w = Some (a, w') -> Q a w'.

(** [Q] holds of every result of [c], and with enough fuel there is one,
    provided [pre]. *)
Definition ensures {A : Type} (pre : Prop) (c : nat -> M A) (w : wstate)
    (Q : A -> wstate -> Prop) : Prop :=
  always c w Q /\ (pre -> returns c w Q).

(** The memory [m'] differs from [m] only inside [lo, hi). *)
Definition confined_to (lo hi : Z) (m m' : mem) : Prop :=
  forall x, x < lo \/ hi <= x -> m' x = m x.

(** Surroundings without a sysinfo device, a configuration tree, a serial
    number or a CPU device. *)
Definition bare_env : environment := {|
  uclass_first_sysinfo := None; ofnode_root := ofnode_null;
  env_serial := None; uclass_first_cpu := None |}.

(** The sample configuration built without the configuration tree. *)
Definition sample_config_no_of : config := {|
  CONFIG_OF_CONTROL := false; CONFIG_SYSINFO := CONFIG_SYSINFO sample_config;
  CONFIG_ROM_SIZE := CONFIG_ROM_SIZE sample_config;
  CONFIG_GENERATE_ACPI_TABLE := CONFIG_GENERATE_ACPI_TABLE sample_config;
  CONFIG_EFI_LOADER := CONFIG_EFI_LOADER sample_config;
  SMBIOS_STR_MAX := SMBIOS_STR_MAX sample_config;
  PLAIN_VERSION := PLAIN_VERSION sample_config;
  U_BOOT_DMI_DATE := U_BOOT_DMI_DATE sample_config;
  U_BOOT_VERSION_NUM := U_BOOT_VERSION_NUM sample_config;
  U_BOOT_VERSION_NUM_PATCH := U_BOOT_VERSION_NUM_PATCH sample_config;
  SMBIOS_MAJOR_VER := SMBIOS_MAJOR_VER sample_config;
  SMBIOS_MINOR_VER := SMBIOS_MINOR_VER sample_config;
  sizeof_type0 := sizeof_type0 sample_config; sizeof_type1 := sizeof_type1 sample_config;
  sizeof_type2 := sizeof_type2 sample_config; sizeof_type3 := sizeof_type3 sample_config;
  sizeof_type4 := sizeof_type4 sample_config; sizeof_type7 := sizeof_type7 sample_config;
  sizeof_type32 := sizeof_type32 sample_config;
  sizeof_type127 := sizeof_type127 sample_config;
  BIOS_CHARACTERISTICS_PCI_SUPPORTED := BIOS_CHARACTERISTICS_PCI_SUPPORTED sample_config;
  BIOS_CHARACTERISTICS_UPGRADEABLE := BIOS_CHARACTERISTICS_UPGRADEABLE sample_config;
  BIOS_CHARACTERISTICS_SELECTABLE_BOOT := BIOS_CHARACTERISTICS_SELECTABLE_BOOT sample_config;
  BIOS_CHARACTERISTICS_EXT1_ACPI := BIOS_CHARACTERISTICS_EXT1_ACPI sample_config;
  BIOS_CHARACTERISTICS_EXT2_UEFI := BIOS_CHARACTERISTICS_EXT2_UEFI sample_config;
  BIOS_CHARACTERISTICS_EXT2_TARGET := BIOS_CHARACTERISTICS_EXT2_TARGET sample_config;
  SMBIOS_PROCESSOR_FAMILY_UNKNOWN := SMBIOS_PROCESSOR_FAMILY_UNKNOWN sample_config;
  SMBIOS_PROCESSOR_FAMILY_EXT := SMBIOS_PROCESSOR_FAMILY_EXT sample_config;
  SMBIOS_CACHE_HANDLE_NONE := SMBIOS_CACHE_HANDLE_NONE sample_config |}.

(** The state the sample builds start from. *)
Definition sample_start : wstate :=
  initial_state (fun _ => 170) None sample_data blank_ctx.

(** The first two zero bytes in a row at or after [e] are the two bytes
    before [hi]. *)
Definition double_nul (m : mem) (e hi : Z) : Prop :=
  e + 2 <= hi /\ m (hi - 2) = 0 /\ m (hi - 1) = 0 /\
  forall p, e <= p < hi - 2 -> m p <> 0 \/ m (p + 1) <> 0.

(** The structures [ts] as a reader finds them in the memory [m] that
    knows only the length of each formatted area: it skips the formatted
    area, looks for the first two zero bytes in a row and finds the next
    structure right after them. *)
Fixpoint scanned (m : mem) (lo : Z) (ts : list smbios_struct) (hi : Z) : Prop :=
  match ts with
  | [] => lo = hi
  | t :: ts' =>
      s_addr t = lo /\
      exists next,
        double_nul m (lo + hdr_length (s_hdr t)) next /\ scanned m next ts' hi
  end.

(** The context in which the cache writer runs for the sample device. *)
Definition sample_cache_ctx : smbios_ctx :=
  {| node := ofnode_null; dev := Some (sample_device 1); subnode_name := Some "cache"%string;
     eos := 0; next_ptr := 0; last_str := None |}.

(** * Memory and C string lemmas *)

Lemma store_same m a v : store m a v a = v.
Proof. unfold store. now rewrite Z.eqb_refl. Qed.

Lemma store_other m a v x : x <> a -> store m a v x = m x.
Proof. unfold store. intros H. apply Z.eqb_neq in H. now rewrite H. Qed.

Lemma memset_outside n : forall m a v x,
  x < a \/ a + Z.of_nat n <= x -> memset m a v n x = m x.
Proof.
  induction n as [|n IH]; intros m a v x H; simpl; [reflexivity|].
  rewrite IH by lia. apply store_other. lia.
Qed.

Lemma memset_inside n : forall m a v x,
  a <= x < a + Z.of_nat n -> memset m a v n x = v.
Proof.
  induction n as [|n IH]; intros m a v x H; simpl; [lia|].
  destruct (Z.eq_dec x a) as [->|Hne].
  - rewrite memset_outside by lia. apply store_same.
  - apply IH. lia.
Qed.

Lemma strlen_s_nonneg s : 0 <= strlen_s s.
Proof. induction s as [|c s IH]; cbn [strlen_s]; [lia|]. destruct (code c =? 0); lia. Qed.

Lemma strlen_nonneg fuel : forall m p n, strlen fuel m p = Some n -> 0 <= n.
Proof.
  induction fuel as [|f IH]; intros m p n H; simpl in H; [discriminate|].
  destruct (m p =? 0); [injection H as <-; lia|].
  destruct (strlen f m (p + 1)) as [k|] eqn:E; [|discriminate].
  injection H as <-. apply IH in E. lia.
Qed.

Lemma strlen_ext fuel : forall m m' p n,
  strlen fuel m p = Some n ->
  (forall x, p <= x <= p + n -> m' x = m x) ->
  strlen fuel m' p = Some n.
Proof.
  induction fuel as [|f IH]; intros m m' p n H Hx; simpl in *; [discriminate|].
  destruct (m p =? 0) eqn:E0.
  - injection H as <-. rewrite Hx by lia. now rewrite E0.
  - destruct (strlen f m (p + 1)) as [k|] eqn:E; [|discriminate].
    injection H as <-. pose proof (strlen_nonneg _ _ _ _ E).
    rewrite Hx by lia. rewrite E0.
    rewrite (IH m m' (p + 1) k E); [reflexivity|]. intros x Hr. apply Hx. lia.
Qed.

Lemma strcmp_ext s : forall fuel m m' p n,
  strlen fuel m p = Some n ->
  (forall x, p <= x <= p + n -> m' x = m x) ->
  strcmp m' p s = strcmp m p s.
Proof.
  induction s as [|c s IH]; intros fuel m m' p n H Hx; simpl.
  - pose proof (strlen_nonneg _ _ _ _ H). apply Hx. lia.
  - pose proof (strlen_nonneg _ _ _ _ H) as Hn.
    rewrite (Hx p) by lia.
    destruct ((m p =? code c) && negb (code c =? 0)) eqn:E; [|reflexivity].
    apply andb_prop in E as [E1 E2].
    apply Z.eqb_eq in E1. apply negb_true_iff in E2. apply Z.eqb_neq in E2.
    destruct fuel as [|f]; simpl in H; [discriminate|].
    assert (E0 : (m p =? 0) = false) by (apply Z.eqb_neq; congruence).
    rewrite E0 in H.
    destruct (strlen f m (p + 1)) as [k|] eqn:Ek; [|discriminate].
    injection H as <-. pose proof (strlen_nonneg _ _ _ _ Ek).
    apply (IH f m m' (p + 1) k Ek). intros x Hr. apply Hx. lia.
Qed.

Lemma strcpy_outside s : forall m p x,
  x < p \/ p + strlen_s s < x -> strcpy m p s x = m x.
Proof.
  induction s as [|c s IH]; intros m p x H; simpl in *.
  - apply store_other. lia.
  - destruct (code c =? 0) eqn:E.
    + apply store_other. lia.
    + pose proof (strlen_s_nonneg s). rewrite IH by lia. apply store_other. lia.
Qed.

Lemma strcpy_string_at s : forall m p, string_at (strcpy m p s) p (c_str s).
Proof.
  induction s as [|c s IH]; intros m p; simpl.
  - apply store_same.
  - destruct (code c =? 0) eqn:E; simpl.
    + apply store_same.
    + apply Z.eqb_neq in E. split; [|split; [exact E|apply IH]].
      rewrite strcpy_outside by lia. apply store_same.
Qed.

Lemma string_at_ext t : forall m m' p,
  string_at m p t ->
  (forall x, p <= x <= p + len t -> m' x = m x) ->
  string_at m' p t.
Proof.
  unfold len.
  induction t as [|c t IH]; intros m m' p H Hx; simpl in *.
  - rewrite Hx by lia. exact H.
  - destruct H as (H1 & H2 & H3). rewrite Hx by lia.
    split; [exact H1|split; [exact H2|]].
    apply (IH m m' (p + 1) H3). intros x Hr. apply Hx. lia.
Qed.

Lemma len_c_str s : len (c_str s) = strlen_s s.
Proof.
  unfold len. induction s as [|c s IH]; simpl; [reflexivity|].
  destruct (code c =? 0); simpl; [reflexivity|]. lia.
Qed.

Lemma code_inj c1 c2 : code c1 = code c2 -> c1 = c2.
Proof.
  unfold code. intros H. apply Nat2Z.inj in H.
  rewrite <- (ascii_nat_embedding c1), <- (ascii_nat_embedding c2). now rewrite H.
Qed.

Lemma strcmp_string_at t : forall m p s,
  string_at m p t -> (strcmp m p s = 0 <-> t = c_str s).
Proof.
  induction t as [|c t IH]; intros m p s H; simpl in H.
  - destruct s as [|d s]; simpl.
    + split; [reflexivity|intros _; exact H].
    + rewrite H. destruct (code d =? 0) eqn:E.
      * rewrite andb_false_r. apply Z.eqb_eq in E. split; [reflexivity|lia].
      * apply Z.eqb_neq in E.
        replace (0 =? code d) with false by (symmetry; apply Z.eqb_neq; lia).
        simpl. split; [lia|discriminate].
  - destruct H as (H1 & H2 & H3). destruct s as [|d s]; simpl.
    + split; [lia|discriminate].
    + destruct (code d =? 0) eqn:E.
      * rewrite andb_false_r. apply Z.eqb_eq in E. split; [lia|discriminate].
      * simpl. rewrite andb_true_r. destruct (m p =? code d) eqn:E1.
        -- apply Z.eqb_eq in E1. rewrite (IH m (p + 1) s H3).
           assert (c = d) by (apply code_inj; congruence). subst d.
           split; [intros ->; reflexivity|intros [=]; assumption].
        -- apply Z.eqb_neq in E1. split; [lia|].
           intros [= -> _]. congruence.
Qed.

Lemma strlen_string_at t : forall fuel m p,
  string_at m p t -> (String.length t < fuel)%nat ->
  strlen fuel m p = Some (len t).
Proof.
  unfold len.
  induction t as [|c t IH]; intros fuel m p H Hf; simpl in *.
  - destruct fuel as [|f]; [lia|]. simpl. now rewrite H, Z.eqb_refl.
  - destruct H as (H1 & H2 & H3). destruct fuel as [|f]; [lia|]. simpl.
    assert (E : (m p =? 0) = false) by (apply Z.eqb_neq; congruence).
    rewrite E, (IH f m (p + 1) H3) by lia. f_equal. lia.
Qed.

(** * The string table packer *)

(** What one run of the loop does: it stops at some [q] at or after [p],
    either on a string equal to [str], leaving memory and [next_ptr] as
    they were, or on a zero byte, where it writes [str], its terminator and
    one more zero byte. *)
Lemma smbios_add_string_loop_spec fuel n : forall ctx m s p i r ctx1 m1,
  smbios_add_string_loop fuel n ctx m s p i = Some (r, ctx1, m1) ->
  exists q, p <= q /\ eos ctx1 = eos ctx /\ last_str ctx1 = Some q /\
    (forall x, x < q -> m1 x = m x) /\
    ((m1 = m /\ next_ptr ctx1 = next_ptr ctx /\ m q <> 0 /\ strcmp m q s = 0) \/
     (m q = 0 /\ next_ptr ctx1 = q + strlen_s s + 1 /\
      string_at m1 q (c_str s) /\ m1 (q + strlen_s s + 1) = 0 /\
      (forall x, q + strlen_s s + 1 < x -> m1 x = m x))) /\
    (m p = 0 -> q = p /\ r = i).
Proof.
  induction n as [|k IH]; intros ctx m s p i r ctx1 m1 H; simpl in H; [discriminate|].
  destruct (m p =? 0) eqn:E0.
  - injection H as <- <- <-. apply Z.eqb_eq in E0.
    pose proof (strlen_s_nonneg s) as Hs.
    exists p. split; [lia|]. split; [reflexivity|]. split; [reflexivity|].
    split; [|split; [|intros _; split; reflexivity]].
    + intros x Hx. rewrite !store_other by lia. apply strcpy_outside. lia.
    + right. split; [exact E0|]. split; [reflexivity|]. split; [|split].
      * apply string_at_ext with (m := strcpy m p s); [apply strcpy_string_at|].
        rewrite len_c_str. intros x Hx.
        rewrite store_other by lia.
        destruct (Z.eq_dec x (p + strlen_s s)) as [->|Hne].
        -- rewrite store_same.
           clear. revert m p. induction s as [|c s IHs]; intros m p; cbn [strlen_s strcpy].
           ++ rewrite Z.add_0_r. now rewrite store_same.
           ++ destruct (code c =? 0).
              ** rewrite Z.add_0_r. now rewrite store_same.
              ** specialize (IHs (store m p (code c)) (p + 1)).
                 replace (p + (1 + strlen_s s)) with (p + 1 + strlen_s s) by lia.
                 exact IHs.
        -- now rewrite store_other by lia.
      * apply store_same.
      * intros x Hx. rewrite !store_other by lia. apply strcpy_outside. lia.
  - apply Z.eqb_neq in E0.
    destruct (strcmp m p s =? 0) eqn:Ec.
    + injection H as <- <- <-. apply Z.eqb_eq in Ec.
      exists p. split; [lia|]. split; [reflexivity|]. split; [reflexivity|].
      split; [reflexivity|]. split; [|intros; lia].
      left. repeat split; assumption.
    + destruct (strlen fuel m p) as [l|] eqn:El; [|discriminate].
      pose proof (strlen_nonneg _ _ _ _ El) as Hl.
      apply IH in H. destruct H as (q & Hq & He & Hls & Hb & Hc & _).
      exists q. split; [lia|]. split; [exact He|]. split; [exact Hls|].
      split; [exact Hb|]. split; [exact Hc|intros; lia].
Qed.

(** Running the loop again on its own result stops at the same string
    number and leaves the context and every byte as they are. *)
Lemma smbios_add_string_loop_twice fuel n : forall ctx m s p i r ctx1 m1,
  smbios_add_string_loop fuel n ctx m s p i = Some (r, ctx1, m1) ->
  exists m2,
    smbios_add_string_loop fuel n ctx1 m1 s p i = Some (r, ctx1, m2) /\
    forall x, m2 x = m1 x.
Proof.
  induction n as [|k IH]; intros ctx m s p i r ctx1 m1 H; simpl in H; [discriminate|].
  destruct (m p =? 0) eqn:E0.
  - injection H as <- <- <-. apply Z.eqb_eq in E0.
    pose proof (strlen_s_nonneg s) as Hs.
    set (m1 := store (store (strcpy m p s) (p + strlen_s s) 0) (p + strlen_s s + 1) 0).
    assert (Hat : string_at m1 p (c_str s)).
    { destruct (smbios_add_string_loop_spec fuel (S k) ctx m s p i i
                  (set_next_ptr (set_last_str ctx p) (p + strlen_s s + 1)) m1)
        as (q & _ & _ & _ & _ & Hc & Hq).
      - simpl. apply Z.eqb_eq in E0. now rewrite E0.
      - destruct (Hq E0) as [-> _]. destruct Hc as [(_ & _ & Hne & _)|(_ & _ & Hat & _)];
          [contradiction|exact Hat]. }
    simpl.
    destruct (m1 p =? 0) eqn:E1.
    + (* the string is empty: it is written again, in the same place *)
      apply Z.eqb_eq in E1.
      assert (Hl : strlen_s s = 0).
      { destruct s as [|c s']; cbn [strlen_s]; [reflexivity|].
        destruct (code c =? 0) eqn:Ec; [reflexivity|].
        cbn [c_str] in Hat. rewrite Ec in Hat. destruct Hat as (Ha & Hb & _). congruence. }
      eexists. split.
      * destruct ctx; reflexivity.
      * intros x. rewrite Hl, Z.add_0_r.
        destruct (Z.eq_dec x (p + 1)) as [->|H1]; [rewrite store_same|rewrite store_other by lia].
        -- unfold m1. rewrite Hl, Z.add_0_r. now rewrite store_same.
        -- destruct (Z.eq_dec x p) as [->|H2]; [rewrite store_same; congruence|].
           rewrite store_other by lia. apply strcpy_outside. lia.
    + apply (strcmp_string_at _ _ _ s) in Hat.
      replace (strcmp m1 p s =? 0) with true
        by (symmetry; apply Z.eqb_eq, Hat; reflexivity).
      exists m1. split; [destruct ctx; reflexivity|reflexivity].
  - destruct (strcmp m p s =? 0) eqn:Ec.
    + injection H as <- <- <-. exists m. split; [|reflexivity].
      simpl. rewrite E0, Ec. destruct ctx; reflexivity.
    + destruct (strlen fuel m p) as [l|] eqn:El; [|discriminate].
      pose proof (strlen_nonneg _ _ _ _ El) as Hl.
      pose proof H as Hs. apply smbios_add_string_loop_spec in Hs.
      destruct Hs as (q & Hq & _ & _ & Hb & _).
      assert (Hx : forall x, p <= x <= p + l -> m1 x = m x) by (intros x Hx; apply Hb; lia).
      apply IH in H. destruct H as (m2 & H2 & Hm2).
      exists m2. split; [|exact Hm2].
      simpl. rewrite (Hx p) by lia. rewrite E0.
      rewrite (strcmp_ext s fuel m m1 p l El Hx), Ec.
      rewrite (strlen_ext fuel m m1 p l El Hx). exact H2.
Qed.

Lemma len_nonneg s : 0 <= len s.
Proof. unfold len. lia. Qed.

(** On a well-formed pool the loop returns when the fuel exceeds the
    number and the lengths of the strings held, and leaves a well-formed
    pool with at most one more string. *)
Lemma smbios_add_string_loop_total fuel ss : forall n ctx m s p i,
  pool m p ss ->
  (List.length ss < n)%nat ->
  Forall (fun t => (String.length t < fuel)%nat) ss ->
  exists r ctx1 m1 ss1,
    smbios_add_string_loop fuel n ctx m s p i = Some (r, ctx1, m1) /\
    pool m1 p ss1 /\ (ss1 = ss \/ ss1 = ss ++ [c_str s]).
Proof.
  induction ss as [|t ss IH]; intros n ctx m s p i Hp Hn Hf.
  - simpl in Hp. destruct n as [|k]; [simpl in Hn; lia|].
    destruct (smbios_add_string_loop fuel (S k) ctx m s p i) as [[[r ctx1] m1]|] eqn:E.
    2:{ simpl in E. rewrite Hp in E. simpl in E. discriminate. }
    exists r, ctx1, m1.
    apply smbios_add_string_loop_spec in E.
    destruct E as (q & _ & _ & _ & _ & Hc & Hq). destruct (Hq Hp) as [-> _].
    destruct Hc as [(_ & _ & Hne & _)|(_ & _ & Hat & Hz & _)]; [contradiction|].
    destruct (c_str s) as [|c cs] eqn:Ecs.
    + exists []. split; [reflexivity|]. split; [exact Hat|left; reflexivity].
    + exists [c_str s]. rewrite Ecs. split; [reflexivity|]. split; [|right; reflexivity].
      split; [discriminate|]. split; [exact Hat|].
      rewrite <- Ecs, len_c_str. exact Hz.
  - destruct Hp as (Hne & Hat & Hp). destruct n as [|k]; [simpl in Hn; lia|].
    assert (H0 : m p <> 0).
    { destruct t as [|c t']; [contradiction|]. destruct Hat as (Ha & Hb & _). congruence. }
    simpl. apply Z.eqb_neq in H0. rewrite H0.
    destruct (strcmp m p s =? 0) eqn:Ec.
    + exists i, (set_last_str ctx p), m, (t :: ss). split; [reflexivity|].
      split; [|left; reflexivity]. split; [exact Hne|split; assumption].
    + inversion Hf as [|? ? Hft Hfs]; subst.
      rewrite (strlen_string_at t fuel m p Hat Hft).
      replace (p + (len t + 1)) with (p + len t + 1) by lia.
      destruct (IH k ctx m s (p + len t + 1) (i + 1) Hp) as (r & ctx1 & m1 & ss1 & E & Hp1 & Hss);
        [simpl in Hn; lia|exact Hfs|].
      exists r, ctx1, m1, (t :: ss1). split; [exact E|].
      split; [|destruct Hss as [->| ->]; [left|right]; reflexivity].
      split; [exact Hne|]. split; [|exact Hp1].
      apply smbios_add_string_loop_spec in E. destruct E as (q & Hq & _ & _ & Hb & _).
      apply string_at_ext with (m := m); [exact Hat|].
      intros x Hx. apply Hb. lia.
Qed.

Lemma string_at_terminator t : forall m p, string_at m p t -> m (p + len t) = 0.
Proof.
  unfold len. induction t as [|c t IH]; intros m p H; simpl in H.
  - simpl. now rewrite Z.add_0_r.
  - destruct H as (_ & _ & H). apply IH in H.
    replace (p + Z.of_nat (String.length (String c t)))
      with (p + 1 + Z.of_nat (String.length t)) by (simpl String.length; lia).
    exact H.
Qed.

Lemma smbios_add_string_loop_number fuel n : forall ctx m s p i r ctx1 m1,
  smbios_add_string_loop fuel n ctx m s p i = Some (r, ctx1, m1) -> i <= r.
Proof.
  induction n as [|k IH]; intros ctx m s p i r ctx1 m1 H; simpl in H; [discriminate|].
  destruct (m p =? 0); [injection H as <- _ _; lia|].
  destruct (strcmp m p s =? 0); [injection H as <- _ _; lia|].
  destruct (strlen fuel m p); [|discriminate]. apply IH in H. lia.
Qed.

Lemma smbios_add_string_step fuel ctx m s ss :
  pool m (eos ctx) ss ->
  (List.length ss < fuel)%nat ->
  Forall (fun t => (String.length t < fuel)%nat) ss ->
  (next_ptr ctx = eos ctx /\ ss = []) \/ ended ctx m ->
  exists r ctx1 m1 ss1,
    smbios_add_string fuel ctx m (Some s) = Some (r, ctx1, m1) /\
    eos ctx1 = eos ctx /\ pool m1 (eos ctx1) ss1 /\
    (ss1 = ss \/ ss1 = ss ++ [c_str s]) /\ ended ctx1 m1.
Proof.
  intros Hp Hn Hf Hstate. unfold smbios_add_string.
  destruct (smbios_add_string_loop_total fuel ss fuel ctx m s (eos ctx) 1 Hp Hn Hf)
    as (r & ctx1 & m1 & ss1 & E & Hp1 & Hss).
  exists r, ctx1, m1, ss1. split; [exact E|].
  apply smbios_add_string_loop_spec in E.
  destruct E as (q & Hq & He & _ & _ & Hc & Hfirst).
  split; [exact He|]. rewrite He. split; [exact Hp1|]. split; [exact Hss|].
  unfold ended. rewrite He.
  destruct Hc as [(-> & Hnp & Hne & _)|(_ & Hnp & Hat & Hz & _)].
  - rewrite Hnp. destruct Hstate as [[_ ->]|Hend]; [|exact Hend].
    simpl in Hp. destruct (Hfirst Hp) as [-> _]. contradiction.
  - rewrite Hnp. pose proof (strlen_s_nonneg s).
    split; [lia|]. split; [|exact Hz].
    apply string_at_terminator in Hat. rewrite len_c_str in Hat.
    replace (q + strlen_s s + 1 - 1) with (q + strlen_s s) by lia. exact Hat.
Qed.

Lemma length_c_str s : Z.of_nat (String.length (c_str s)) = strlen_s s.
Proof. apply len_c_str. Qed.

Lemma add_strings_total fuel l : forall ctx m ss,
  pool m (eos ctx) ss ->
  (List.length ss + List.length l < fuel)%nat ->
  Forall (fun t => (String.length t < fuel)%nat) ss ->
  Forall (fun s => strlen_s s < Z.of_nat fuel) l ->
  (next_ptr ctx = eos ctx /\ ss = []) \/ ended ctx m ->
  exists ns ctx' m',
    add_strings fuel ctx m l = Some (ns, ctx', m') /\
    eos ctx' = eos ctx /\
    (l <> [] -> ended ctx' m').
Proof.
  induction l as [|s l IH]; intros ctx m ss Hp Hn Hf Hl Hstate.
  - exists [], ctx, m. split; [reflexivity|]. split; [reflexivity|]. intros H; contradiction.
  - simpl in Hn. inversion Hl as [|? ? Hs Hl']; subst.
    destruct (smbios_add_string_step fuel ctx m s ss Hp ltac:(lia) Hf Hstate)
      as (r & ctx1 & m1 & ss1 & E & He & Hp1 & Hss & Hend).
    destruct (IH ctx1 m1 ss1 Hp1) as (ns & ctx' & m' & E' & He' & Hend').
    + destruct Hss as [->| ->]; [lia|]. rewrite length_app. simpl. lia.
    + destruct Hss as [->| ->]; [exact Hf|].
      apply Forall_app. split; [exact Hf|]. constructor; [|constructor].
      pose proof (length_c_str s). lia.
    + exact Hl'.
    + right. exact Hend.
    + exists (r :: ns), ctx', m'. cbn [add_strings]. rewrite E, E'.
      split; [reflexivity|]. split; [congruence|]. intros _.
      destruct l as [|s' l']; [|apply Hend'; discriminate].
      simpl in E'. injection E' as _ <- <-. exact Hend.
Qed.

Lemma load_bytes_app n1 : forall n2 m a,
  load_bytes m a (n1 + n2) = load_bytes m a n1 ++ load_bytes m (a + Z.of_nat n1) n2.
Proof.
  induction n1 as [|n1 IH]; intros n2 m a; simpl.
  - now rewrite Z.add_0_r.
  - rewrite IH. do 3 f_equal. lia.
Qed.

Lemma load_bytes_ext n : forall m m' a,
  (forall x, m' x = m x) -> load_bytes m' a n = load_bytes m a n.
Proof.
  induction n as [|n IH]; intros m m' a H; simpl; [reflexivity|].
  now rewrite H, (IH m m' (a + 1) H).
Qed.

(** * The version patch *)

Lemma strnlen_s_min s : forall n, strnlen_s s n = Z.min (strlen_s s) (Z.of_nat n).
Proof.
  induction s as [|c s IH]; intros [|n]; cbn [strnlen_s strlen_s]; try lia.
  - pose proof (strlen_s_nonneg (String c s)). cbn [strlen_s] in H.
    destruct (code c =? 0); lia.
  - destruct (code c =? 0); [lia|]. rewrite IH. lia.
Qed.

Lemma strnlen_string_at t : forall m p n,
  string_at m p t -> strnlen m p n = Z.min (len t) (Z.of_nat n).
Proof.
  unfold len.
  induction t as [|c t IH]; intros m p [|n] H; cbn [strnlen String.length]; simpl in H; try lia.
  - rewrite H. simpl. lia.
  - destruct H as (H1 & H2 & H3).
    assert (E : (m p =? 0) = false) by (apply Z.eqb_neq; congruence).
    rewrite E, (IH m (p + 1) n H3). lia.
Qed.

Lemma memcpy_outside n : forall m p s x,
  x < p \/ p + Z.of_nat n <= x -> memcpy m p s n x = m x.
Proof.
  induction n as [|n IH]; intros m p s x H; cbn [memcpy]; [reflexivity|].
  destruct s as [|c s]; rewrite IH by lia; apply store_other; lia.
Qed.

(** The bytes that memcpy writes when the count does not exceed the length
    of the source string. *)
Lemma memcpy_inside n : forall m p s i c,
  Z.of_nat n <= strlen_s s ->
  (i < n)%nat ->
  String.get i (c_str s) = Some c ->
  memcpy m p s n (p + Z.of_nat i) = code c.
Proof.
  induction n as [|n IH]; intros m p s i c Hn Hi Hg; [lia|].
  destruct s as [|d s]; cbn [strlen_s] in Hn; [lia|].
  destruct (code d =? 0) eqn:Ed; [lia|].
  cbn [c_str] in Hg. rewrite Ed in Hg. cbn [memcpy].
  destruct i as [|i].
  - simpl in Hg. injection Hg as <-. rewrite memcpy_outside by lia.
    rewrite Z.add_0_r. apply store_same.
  - simpl in Hg.
    replace (p + Z.of_nat (S i)) with (p + 1 + Z.of_nat i) by lia.
    apply IH; [lia|lia|exact Hg].
Qed.

Lemma string_at_memcpy s : forall n m p old,
  Z.of_nat n = strlen_s s ->
  string_at m p old ->
  Z.of_nat n <= len old ->
  string_at (memcpy m p s n) p (c_str s ++ drop n old).
Proof.
  unfold len.
  induction s as [|c s IH]; intros n m p old Hn Hat Hle; cbn [strlen_s] in Hn.
  - assert (n = O) by lia. subst n. exact Hat.
  - destruct (code c =? 0) eqn:Ec.
    + assert (n = O) by lia. subst n. cbn [c_str]. rewrite Ec. exact Hat.
    + destruct n as [|n]; [pose proof (strlen_s_nonneg s); lia|].
      destruct old as [|d old]; [simpl in Hle; lia|].
      cbn [c_str]. rewrite Ec. cbn [memcpy drop append string_at].
      apply Z.eqb_neq in Ec. split; [|split; [exact Ec|]].
      * rewrite memcpy_outside by lia. apply store_same.
      * apply IH; [lia| |simpl String.length in Hle; lia].
        destruct Hat as (_ & _ & Hat).
        apply string_at_ext with (m := m); [exact Hat|].
        intros x Hx. apply store_other. lia.
Qed.

Lemma string_at_get t : forall m p i c,
  string_at m p t -> String.get i t = Some c -> m (p + Z.of_nat i) = code c.
Proof.
  induction t as [|d t IH]; intros m p i c H Hg; [destruct i; discriminate|].
  destruct H as (H1 & _ & H3). destruct i as [|i]; simpl in Hg.
  - injection Hg as <-. now rewrite Z.add_0_r.
  - replace (p + Z.of_nat (S i)) with (p + 1 + Z.of_nat i) by lia.
    now apply IH.
Qed.

(** C4 (corrected): smbios_update_version returns -ENOENT, the
    not-yet-written error, when no version-string location is recorded;
    otherwise it compares the lengths capped at SMBIOS_STR_MAX: it returns
    -ENOSPC, the length-exceeded error, and leaves memory alone when the
    capped new length exceeds the capped stored length, and succeeds with 0
    otherwise.  For a new string of at most SMBIOS_STR_MAX characters this
    is the comparison of the true lengths. *)
Theorem smbios_update_version_status str_max m version :
  smbios_update_version str_max None m version = (- ENOENT, m) /\
  forall ptr old,
    string_at m ptr old ->
    let r := smbios_update_version str_max (Some ptr) m version in
    let cap := Z.of_nat str_max in
    (Z.min (len old) cap < Z.min (strlen_s version) cap -> r = (- ENOSPC, m)) /\
    (Z.min (strlen_s version) cap <= Z.min (len old) cap -> fst r = 0) /\
    (strlen_s version <= cap ->
       (len old < strlen_s version -> r = (- ENOSPC, m)) /\
       (strlen_s version <= len old -> fst r = 0)).
Proof.
  split; [reflexivity|].
  intros ptr old Hat r cap. subst r cap. unfold smbios_update_version.
  rewrite strnlen_s_min, (strnlen_string_at old m ptr str_max Hat).
  assert (Hgt : forall a b, a < b -> (b >? a) = true) by (intros; apply Z.gtb_lt; lia).
  assert (Hle : forall a b, b <= a -> (b >? a) = false)
    by (intros a b H; destruct (b >? a) eqn:E; [apply Z.gtb_lt in E; lia|reflexivity]).
  split; [|split; [|intros Hcap; split]].
  - intros H. now rewrite (Hgt _ _ H).
  - intros H. now rewrite (Hle _ _ H).
  - intros H. rewrite Hgt; [reflexivity|]. pose proof (len_nonneg old). lia.
  - intros H. rewrite Hle; [reflexivity|]. lia.
Qed.

Lemma smbios_update_version_status_witness :
  string_at (strcpy zero_mem 0 "v1.0.0") 0 "v1.0.0" /\
  fst (smbios_update_version 64 (Some 0) (strcpy zero_mem 0 "v1.0.0") "v2") = 0 /\
  smbios_update_version 64 (Some 0) (strcpy zero_mem 0 "v1.0.0") "v10.0.0"
    = (- ENOSPC, strcpy zero_mem 0 "v1.0.0").
Proof.
  assert (Hat : string_at (strcpy zero_mem 0 "v1.0.0") 0 "v1.0.0")
    by apply (strcpy_string_at "v1.0.0" zero_mem 0).
  split; [exact Hat|].
  destruct (smbios_update_version_status 64 (strcpy zero_mem 0 "v1.0.0") "v2") as [_ H2].
  destruct (smbios_update_version_status 64 (strcpy zero_mem 0 "v1.0.0") "v10.0.0") as [_ H10].
  split.
  - apply (H2 0 "v1.0.0"%string Hat); [vm_compute; discriminate|vm_compute; discriminate].
  - apply (H10 0 "v1.0.0"%string Hat); [vm_compute; discriminate|reflexivity].
Defined.

Lemma smbios_update_version_cap_counterexample :
  string_at (strcpy zero_mem 0 (chars "a" 64)) 0 (chars "a" 64) /\
  len (chars "a" 64) < strlen_s (chars "a" 65) /\
  fst (smbios_update_version 64 (Some 0) (strcpy zero_mem 0 (chars "a" 64)) (chars "a" 65)) = 0.
Proof.
  split; [apply (strcpy_string_at (chars "a" 64) zero_mem 0)|].
  split; reflexivity.
Qed.

(** C10 (corrected): a successful smbios_update_version copies the first
    min(length of the new string, SMBIOS_STR_MAX) bytes of the new string,
    without a terminator, and leaves every other byte as it is; for a new
    string of at most SMBIOS_STR_MAX characters the stored string becomes
    the new string followed by the remaining suffix of the old one. *)
Theorem smbios_update_version_frame str_max ptr m version old m' :
  string_at m ptr old ->
  smbios_update_version str_max (Some ptr) m version = (0, m') ->
  let n := Z.min (strlen_s version) (Z.of_nat str_max) in
  n <= len old /\
  (forall x, x < ptr \/ ptr + n <= x -> m' x = m x) /\
  (forall i c, Z.of_nat i < n -> String.get i (c_str version) = Some c ->
               m' (ptr + Z.of_nat i) = code c) /\
  (strlen_s version <= Z.of_nat str_max ->
     string_at m' ptr (c_str version ++ drop (Z.to_nat (strlen_s version)) old)).
Proof.
  intros Hat H n. unfold smbios_update_version in H.
  rewrite strnlen_s_min, (strnlen_string_at old m ptr str_max Hat) in H.
  fold n in H. pose proof (strlen_s_nonneg version) as Hv.
  destruct (n >? Z.min (len old) (Z.of_nat str_max)) eqn:E; [discriminate|].
  injection H as <-.
  assert (Hn : n <= Z.min (len old) (Z.of_nat str_max))
    by (destruct (Z.gtb_spec n (Z.min (len old) (Z.of_nat str_max))); [discriminate|lia]).
  split; [lia|]. split; [|split].
  - intros x Hx. apply memcpy_outside. rewrite Z2Nat.id by lia. exact Hx.
  - intros i c Hi Hg. apply memcpy_inside; [rewrite Z2Nat.id by lia; lia|lia|exact Hg].
  - intros Hcap. assert (Hn' : n = strlen_s version) by lia. rewrite Hn'.
    apply string_at_memcpy; [rewrite Z2Nat.id by lia; reflexivity|exact Hat|].
    rewrite Z2Nat.id by lia. lia.
Qed.

Lemma smbios_update_version_frame_witness :
  string_at (store (strcpy zero_mem 0 "v1.0.0") 7 66) 0 "v1.0.0" /\
  string_at (memcpy (store (strcpy zero_mem 0 "v1.0.0") 7 66) 0 "v2" 2) 0 "v2.0.0" /\
  memcpy (store (strcpy zero_mem 0 "v1.0.0") 7 66) 0 "v2" 2 7 = 66.
Proof.
  assert (Hat : string_at (store (strcpy zero_mem 0 "v1.0.0") 7 66) 0 "v1.0.0").
  { apply string_at_ext with (m := strcpy zero_mem 0 "v1.0.0").
    - apply (strcpy_string_at "v1.0.0" zero_mem 0).
    - intros x Hx. apply store_other. change (len "v1.0.0") with 6 in Hx. lia. }
  split; [exact Hat|].
  destruct (smbios_update_version_frame 64 0 (store (strcpy zero_mem 0 "v1.0.0") 7 66)
              "v2" "v1.0.0" (memcpy (store (strcpy zero_mem 0 "v1.0.0") 7 66) 0 "v2" 2)
              Hat eq_refl) as (_ & Hout & _ & Hs).
  split.
  - apply Hs. vm_compute. discriminate.
  - rewrite Hout; [reflexivity|right; vm_compute; discriminate].
Defined.

Lemma smbios_update_version_truncates_counterexample :
  string_at (strcpy zero_mem 0 (chars "a" 66)) 0 (chars "a" 66) /\
  strlen_s (chars "b" 65) < len (chars "a" 66) /\
  fst (smbios_update_version 64 (Some 0) (strcpy zero_mem 0 (chars "a" 66)) (chars "b" 65)) = 0 /\
  ~ string_at
      (snd (smbios_update_version 64 (Some 0) (strcpy zero_mem 0 (chars "a" 66)) (chars "b" 65)))
      0 (chars "b" 65 ++ drop 65 (chars "a" 66)).
Proof.
  split; [apply (strcpy_string_at (chars "a" 66) zero_mem 0)|].
  split; [reflexivity|]. split; [reflexivity|].
  intros H. apply (string_at_get _ _ 0 64%nat "b"%char) in H; [|reflexivity].
  vm_compute in H. discriminate.
Qed.

(** * The writers: what they leave alone and what they emit *)

Lemma frame_refl w : frame w w.
Proof. repeat split. Qed.

Lemma frame_trans w1 w2 w3 : frame w1 w2 -> frame w2 w3 -> frame w1 w3.
Proof. unfold frame. intros (? & ? & ?) (? & ? & ?). repeat split; congruence. Qed.

Lemma bind_inv {A B : Type} (c : M A) (k : A -> M B) w r :
  bind c k w = Some r -> exists a w1, c w = Some (a, w1) /\ k a w1 = Some r.
Proof.
  unfold bind. destruct (c w) as [[a w1]|]; [|discriminate].
  intros H. exists a, w1. split; [reflexivity|exact H].
Qed.

Lemma some_pair_inv {A B : Type} (a a' : A) (b b' : B) :
  Some (a, b) = Some (a', b') -> a = a' /\ b = b'.
Proof. intros H. injection H as -> ->. split; reflexivity. Qed.

Section WriterFacts.

Variable fuel : nat.
Variable cfg : config.
Variable env : environment.

Lemma smbios_add_string_dev s : forall ctx m n ctx1 m1,
  smbios_add_string fuel ctx m s = Some (n, ctx1, m1) -> dev ctx1 = dev ctx.
Proof.
  intros ctx m n ctx1 m1 H. destruct s as [s|]; simpl in H.
  - revert H. generalize (eos ctx) as p, 1 as i. generalize fuel at 2 as k.
    induction k as [|k IH]; intros p i H; simpl in H; [discriminate|].
    destruct (m p =? 0); [injection H as _ <- _; reflexivity|].
    destruct (strcmp m p s =? 0); [injection H as _ <- _; reflexivity|].
    destruct (strlen fuel m p); [|discriminate]. eapply IH, H.
  - injection H as _ <- _. reflexivity.
Qed.

Lemma smbios_add_prop_si_dev root ctx m prop id dval n ctx1 m1 :
  smbios_add_prop_si fuel cfg root ctx m prop id dval = Some (n, ctx1, m1) ->
  dev ctx1 = dev ctx.
Proof.
  unfold smbios_add_prop_si. intros H.
  repeat match type of H with
         | context [match ?x with _ => _ end] => destruct x eqn:?
         end;
    try discriminate;
    try (eapply smbios_add_string_dev; eassumption);
    try (injection H as _ <- _; reflexivity).
Qed.

Lemma add_prop_si_frame prop id dval w n w' :
  add_prop_si fuel cfg env prop id dval w = Some (n, w') -> frame w w'.
Proof.
  unfold add_prop_si. intros H.
  destruct (smbios_add_prop_si fuel cfg (ofnode_root env) (w_ctx w) (w_mem w) prop id dval)
    as [[[k ctx] m]|] eqn:E; [|discriminate].
  apply smbios_add_prop_si_dev in E. cbv in H. injection H as _ <-.
  repeat split. exact E.
Qed.

Lemma begin_struct_spec type size handle w t w' :
  begin_struct type size handle w = Some (t, w') ->
  t = {| s_addr := w_current w; s_hdr := fill_smbios_header type size handle;
         s_members := [] |} /\ frame w w'.
Proof. intros H. cbv [begin_struct bind get_state put_mem ret] in H.
  injection H as <- <-. split; [reflexivity|repeat split]. Qed.

Lemma set_eos_frame e w u w' : set_eos e w = Some (u, w') -> frame w w'.
Proof. intros H. cbv [set_eos bind get_state put_ctx] in H.
  injection H as _ <-. repeat split. Qed.

Lemma str_member_spec t name prop id dval w t' w' :
  str_member fuel cfg env t name prop id dval w = Some (t', w') ->
  (exists v, t' = set_member t name v) /\ frame w w'.
Proof.
  unfold str_member. intros H. apply bind_inv in H. destruct H as (n & w1 & Hc & H).
  apply add_prop_si_frame in Hc. cbv [ret] in H. injection H as <- <-.
  split; [eexists; reflexivity|exact Hc].
Qed.

Lemma int_member_spec t name width prop id w t' w' :
  int_member cfg t name width prop id w = Some (t', w') ->
  (exists v, t' = set_member t name v) /\ frame w w'.
Proof.
  intros H. cbv [int_member bind get_val_si get_state ret] in H. injection H as <- <-.
  split; [eexists; reflexivity|apply frame_refl].
Qed.

Lemma end_struct_spec t w l w' :
  end_struct t w = Some (l, w') ->
  dev (w_ctx w') = dev (w_ctx w) /\ w_data w' = w_data w /\ w_out w' = w_out w ++ [t].
Proof. intros H. cbv [end_struct bind get_state put_current emit ret] in H.
  injection H as _ <-. repeat split. Qed.

Lemma end_struct_fixed_spec t size w l w' :
  end_struct_fixed t size w = Some (l, w') ->
  l = size /\
  dev (w_ctx w') = dev (w_ctx w) /\ w_data w' = w_data w /\ w_out w' = w_out w ++ [t].
Proof. intros H. cbv [end_struct_fixed bind get_state put_current emit ret] in H.
  injection H as <- <-. repeat split. Qed.

Ltac spec Hc :=
  first [ apply str_member_spec in Hc; destruct Hc as [[? ->] Hc]
        | apply int_member_spec in Hc; destruct Hc as [[? ->] Hc]
        | apply begin_struct_spec in Hc; destruct Hc as [-> Hc]
        | apply set_eos_frame in Hc ].

Ltac step H :=
  let a := fresh "t" in
  let w1 := fresh "w" in
  let Hc := fresh "Hc" in
  apply bind_inv in H; destruct H as (a & w1 & Hc & H); cbv beta zeta in H;
  try spec Hc.

Ltac frames :=
  repeat match goal with
         | H : frame _ _ |- _ => destruct H as (? & ? & ?)
         | H : _ /\ _ |- _ => destruct H
         end.

Lemma smbios_write_type0_spec handle w l w' :
  smbios_write_type0 fuel cfg env handle w = Some (l, w') ->
  writes_one SMBIOS_BIOS_INFORMATION (sizeof_type0 cfg) handle (fun _ => True) w w'.
Proof.
  unfold smbios_write_type0. intros H. cbv beta zeta in H.
  do 4 step H. step H.
  assert (Hv : frame w3 w4).
  { destruct (member _ _ =? 0).
    - cbv [ret] in Hc3. injection Hc3 as _ <-. apply frame_refl.
    - cbv [bind get_state put_smbios_version] in Hc3. injection Hc3 as _ <-.
      repeat split. }
  step H. apply end_struct_spec in H. frames.
  eexists. split; [etransitivity; [eassumption|]; f_equal; congruence|].
  split; [|split; [exact I|split; congruence]].
  destruct (CONFIG_ROM_SIZE cfg) as [rom|]; [destruct (rom <? SZ_16M)|];
    destruct (CONFIG_GENERATE_ACPI_TABLE cfg); destruct (CONFIG_EFI_LOADER cfg);
    reflexivity.
Qed.

Lemma strlcpy_members_hdr names : forall t s,
  s_hdr (strlcpy_members t names s) = s_hdr t.
Proof.
  induction names as [|nm names IH]; intros t s; [reflexivity|].
  cbn [strlcpy_members]. destruct names as [|nm' names']; [reflexivity|].
  destruct s as [|c s]; [reflexivity|].
  destruct (code c =? 0); [reflexivity|]. now rewrite IH.
Qed.

Lemma smbios_write_type1_spec handle w l w' :
  smbios_write_type1 fuel cfg env handle w = Some (l, w') ->
  writes_one SMBIOS_SYSTEM_INFORMATION (sizeof_type1 cfg) handle (fun _ => True) w w'.
Proof.
  unfold smbios_write_type1. intros H. cbv beta zeta in H.
  do 5 step H. step H.
  assert (Hs : s_hdr t0 = fill_smbios_header SMBIOS_SYSTEM_INFORMATION
                            (sizeof_type1 cfg) handle /\ frame w4 w5).
  { destruct (env_serial env) as [serial|].
    - apply bind_inv in Hc4. destruct Hc4 as (n & w6 & Ha & Hr).
      apply add_prop_si_frame in Ha. unfold ret in Hr. cbv beta in Hr.
      apply some_pair_inv in Hr. destruct Hr as [<- <-].
      split; [rewrite strlcpy_members_hdr; reflexivity|exact Ha].
    - spec Hc4. split; [reflexivity|exact Hc4]. }
  clear Hc4.
  do 3 step H. apply end_struct_spec in H. frames.
  eexists. split; [etransitivity; [eassumption|]; f_equal; congruence|].
  split; [simpl; assumption|]. split; [exact I|split; congruence].
Qed.

Lemma smbios_write_type2_spec handle w l w' :
  smbios_write_type2 fuel cfg env handle w = Some (l, w') ->
  writes_one SMBIOS_BOARD_INFORMATION (sizeof_type2 cfg) handle
    (fun t => member t "chassis_handle" = u16 (handle + 1)) w w'.
Proof.
  unfold smbios_write_type2. intros H. cbv beta zeta in H.
  do 10 step H. apply end_struct_spec in H. frames.
  eexists. split; [etransitivity; [eassumption|]; f_equal; congruence|].
  split; [reflexivity|]. split; [reflexivity|split; congruence].
Qed.

Lemma smbios_write_type3_spec handle w l w' :
  smbios_write_type3 fuel cfg env handle w = Some (l, w') ->
  writes_one SMBIOS_SYSTEM_ENCLOSURE (sizeof_type3 cfg + 0) handle (fun _ => True) w w'.
Proof.
  unfold smbios_write_type3. intros H. cbv beta zeta in H.
  do 15 step H. apply end_struct_spec in H. frames.
  eexists. split; [etransitivity; [eassumption|]; f_equal; congruence|].
  split; [reflexivity|]. split; [exact I|split; congruence].
Qed.

Lemma smbios_write_type32_spec handle w l w' :
  smbios_write_type32 cfg handle w = Some (l, w') ->
  writes_one SMBIOS_SYSTEM_BOOT_INFORMATION (sizeof_type32 cfg) handle (fun _ => True) w w'.
Proof.
  unfold smbios_write_type32. intros H. cbv beta zeta in H.
  do 2 step H. apply end_struct_fixed_spec in H. frames.
  eexists. split; [etransitivity; [eassumption|]; f_equal; congruence|].
  split; [reflexivity|]. split; [exact I|split; congruence].
Qed.

Lemma smbios_write_type127_spec handle w l w' :
  smbios_write_type127 cfg handle w = Some (l, w') ->
  writes_one SMBIOS_END_OF_TABLE (sizeof_type127 cfg) handle (fun _ => True) w w'.
Proof.
  unfold smbios_write_type127. intros H. cbv beta zeta in H.
  step H. apply end_struct_fixed_spec in H. frames.
  eexists. split; [etransitivity; [eassumption|]; f_equal; congruence|].
  split; [reflexivity|]. split; [exact I|split; congruence].
Qed.

Lemma get_state_spec w a w' : get_state w = Some (a, w') -> a = w /\ w' = w.
Proof. intros H. injection H as <- <-. split; reflexivity. Qed.

Lemma sysinfo_get_data_spec d id w a w' :
  sysinfo_get_data d id w = Some (a, w') ->
  a = match d with Some _ => w_data w id | None => None end /\ w' = w.
Proof. unfold sysinfo_get_data. destruct d; intros H; injection H as <- <-; split; reflexivity. Qed.

Lemma smbios_write_type4_dm_spec t w t' w' :
  smbios_write_type4_dm fuel cfg env t w = Some (t', w') ->
  s_hdr t' = s_hdr t /\ frame w w'.
Proof.
  unfold smbios_write_type4_dm. intros H.
  destruct (uclass_first_cpu env) as [plat|]; cbv beta zeta iota in H.
  all: apply bind_inv in H; destruct H as (pf & w1 & Hpf & H).
  all: assert (Hf1 : frame w w1)
    by (match type of Hpf with
        | (if ?b then _ else _) _ = _ => destruct b
        end; cbv [bind get_val_si get_state ret] in Hpf;
        apply some_pair_inv in Hpf; destruct Hpf as [_ <-]; apply frame_refl).
  all: clear Hpf; apply bind_inv in H; destruct H as (t1 & w2 & Ht1 & H).
  all: assert (Hf2 : s_hdr t1 = s_hdr t /\ frame w1 w2)
    by (match type of Ht1 with
        | (if ?b then _ else _) _ = _ => destruct b
        end;
        [apply int_member_spec in Ht1; destruct Ht1 as [[? ->] ?]; split; [reflexivity|assumption]
        |unfold ret in Ht1; apply some_pair_inv in Ht1; destruct Ht1 as [<- <-];
         split; [reflexivity|apply frame_refl]]).
  all: clear Ht1; cbv beta zeta in H; do 2 step H.
  all: match type of H with
       | (if ?b then _ else _) _ = _ => destruct b
       end.
  all: try (unfold ret in H; apply some_pair_inv in H; destruct H as [<- <-];
            frames; split; [simpl; congruence|repeat split; congruence]).
  all: apply bind_inv in H; destruct H as (w5 & w6 & Hg & H); apply get_state_spec in Hg;
    destruct Hg as [-> ->]; apply bind_inv in H; destruct H as (idd & w7 & Hd & H);
    apply sysinfo_get_data_spec in Hd; destruct Hd as [_ ->].
  all: destruct idd as [bytes|]; [destruct (Z.of_nat (List.length bytes) =? 8)|].
  all: unfold ret in H; apply some_pair_inv in H; destruct H as [<- <-];
    frames; split; [simpl; congruence|repeat split; congruence].
Qed.

Lemma cache_handle_area_frame w w' :
  dev (w_ctx w') = dev (w_ctx w) -> w_data w' = w_data w ->
  cache_handle_area (dev (w_ctx w)) (w_data w)
  = cache_handle_area (dev (w_ctx w')) (w_data w').
Proof. intros -> ->. reflexivity. Qed.

Lemma smbios_write_type4_spec handle w l w' :
  smbios_write_type4 fuel cfg env handle w = Some (l, w') ->
  writes_one SMBIOS_PROCESSOR_INFORMATION (sizeof_type4 cfg) handle
    (fun t => member t "l1_cache_handle" = cache_handle_member cfg (cache_handle_area (dev (w_ctx w)) (w_data w)) 0 /\
              member t "l2_cache_handle" = cache_handle_member cfg (cache_handle_area (dev (w_ctx w)) (w_data w)) 1 /\
              member t "l3_cache_handle" = cache_handle_member cfg (cache_handle_area (dev (w_ctx w)) (w_data w)) 2)
    w w'.
Proof.
  unfold smbios_write_type4. intros H. cbv beta zeta in H.
  do 4 step H.
  apply bind_inv in H. destruct H as (tdm & wdm & Hdm & H).
  apply smbios_write_type4_dm_spec in Hdm. destruct Hdm as [Hhdr Hdm].
  do 6 step H.
  apply bind_inv in H. destruct H as (wa & wb & Hg & H). apply get_state_spec in Hg.
  destruct Hg as [-> ->].
  apply bind_inv in H. destruct H as (hdl & wc & Hd & H).
  apply sysinfo_get_data_spec in Hd. destruct Hd as [Hhdl ->]. cbv beta zeta in H.
  do 11 step H. apply end_struct_spec in H.
  assert (Harea : hdl = cache_handle_area (dev (w_ctx w)) (w_data w)).
  { rewrite Hhdl. symmetry. frames.
    apply cache_handle_area_frame; congruence. }
  clear Hhdl. rewrite <- Harea.
  frames.
  eexists. split; [etransitivity; [eassumption|]; f_equal; congruence|].
  unfold cache_handle_member.
  destruct hdl as [bytes|];
    [destruct (Z.of_nat (List.length bytes) =? SYSINFO_CACHE_LVL_MAX * 2);
     [destruct (load_u16 bytes 0 =? 0); destruct (load_u16 bytes 1 =? 0);
      destruct (load_u16 bytes 2 =? 0)|]|].
  all: split; [simpl; rewrite Hhdr; reflexivity|].
  all: split; [repeat split; reflexivity|split; congruence].
Qed.

Lemma smbios_write_type7_1level_spec handle level w l w' :
  smbios_write_type7_1level fuel cfg env handle level w = Some (l, w') ->
  exists t,
    w_out w' = w_out w ++ [t] /\
    s_hdr t = fill_smbios_header SMBIOS_CACHE_INFORMATION (sizeof_type7 cfg) handle /\
    dev (w_ctx w') = dev (w_ctx w) /\
    w_data w' = data_after_cache (dev (w_ctx w)) (w_data w) level handle.
Proof.
  unfold smbios_write_type7_1level. intros H. cbv beta zeta in H.
  do 14 step H.
  apply bind_inv in H. destruct H as (wa & wb & Hg & H). apply get_state_spec in Hg.
  destruct Hg as [-> ->].
  apply bind_inv in H. destruct H as (hdl & wd & Hd & H).
  apply sysinfo_get_data_spec in Hd. destruct Hd as [Hhdl ->].
  apply bind_inv in H. destruct H as (u & wc & Hput & H).
  apply end_struct_spec in H.
  assert (Harea : hdl = cache_handle_area (dev (w_ctx w)) (w_data w)).
  { rewrite Hhdl. symmetry. frames.
    apply cache_handle_area_frame; congruence. }
  clear Hhdl.
  assert (Hput' : exists wp, frame w wp /\
                  dev (w_ctx wc) = dev (w_ctx wp) /\ w_out wc = w_out wp /\
                  w_data wc = data_after_cache (dev (w_ctx w)) (w_data w) level handle).
  { eexists. split; [repeat (eapply frame_trans; [eassumption|]); apply frame_refl|].
    unfold data_after_cache. rewrite <- Harea. frames.
    destruct hdl as [bytes|];
      [destruct (Z.of_nat (List.length bytes) =? SYSINFO_CACHE_LVL_MAX * 2)|].
    - cbv [put_data] in Hput. apply some_pair_inv in Hput. destruct Hput as [_ <-].
      simpl. repeat split.
      match goal with |- context [w_data ?wx] =>
        replace (w_data wx) with (w_data w) by congruence end. reflexivity.
    - unfold ret in Hput. apply some_pair_inv in Hput. destruct Hput as [_ <-].
      repeat split. congruence.
    - unfold ret in Hput. apply some_pair_inv in Hput. destruct Hput as [_ <-].
      repeat split. congruence. }
  destruct Hput' as (wp & Hwp & Hput').
  clear Hput. frames.
  eexists. split; [etransitivity; [eassumption|]; f_equal; congruence|].
  split; [reflexivity|]. split; congruence.
Qed.

Lemma put_ctx_spec ctx w u w' :
  put_ctx ctx w = Some (u, w') ->
  w_ctx w' = ctx /\ w_data w' = w_data w /\ w_out w' = w_out w.
Proof. intros H. cbv [put_ctx] in H. apply some_pair_inv in H. destruct H as [_ <-].
  repeat split. Qed.

Lemma snprintf_cache_printed size v : snd (snprintf_cache size v) <> 0.
Proof. unfold snprintf_cache, len. simpl. lia. Qed.

Lemma cache_headers_S handle n :
  cache_headers cfg handle (S n) =
  fill_smbios_header SMBIOS_CACHE_INFORMATION (sizeof_type7 cfg) handle
    :: cache_headers cfg (handle + 1) n.
Proof.
  unfold cache_headers. cbn [seq map]. f_equal; [f_equal; lia|].
  rewrite <- seq_shift, map_map. apply map_ext. intros k. f_equal. lia.
Qed.

Lemma smbios_write_type7_loop_spec n : forall i handle len parent ctx_bak w l w',
  smbios_write_type7_loop fuel cfg env n i handle len parent ctx_bak w = Some (l, w') ->
  dev ctx_bak = dev (w_ctx w) ->
  exists ts,
    w_out w' = w_out w ++ ts /\
    map s_hdr ts = cache_headers cfg handle n /\
    dev (w_ctx w') = dev (w_ctx w) /\
    w_data w' = data_after_levels n (dev (w_ctx w)) (w_data w) i handle.
Proof.
  induction n as [|n IH]; intros i handle len parent ctx_bak w l w' H Hbak.
  - cbn [smbios_write_type7_loop] in H. unfold ret in H.
    apply some_pair_inv in H. destruct H as [_ <-].
    exists []. rewrite app_nil_r. repeat split.
  - cbn [smbios_write_type7_loop] in H.
    pose proof (snprintf_cache_printed 9 (i + 1)) as Hp.
    destruct (snprintf_cache 9 (i + 1)) as [buf printed]. simpl in Hp.
    apply Z.eqb_neq in Hp. rewrite Hp in H.
    apply bind_inv in H. destruct H as (wa & wb & Hg & H). apply get_state_spec in Hg.
    destruct Hg as [-> ->].
    apply bind_inv in H. destruct H as (u1 & w1 & H1 & H). apply put_ctx_spec in H1.
    destruct H1 as (Hc1 & Hd1 & Ho1).
    apply bind_inv in H. destruct H as (l1 & w2 & H2 & H).
    apply smbios_write_type7_1level_spec in H2. destruct H2 as (t & Ho2 & Hh2 & Hc2 & Hd2).
    apply bind_inv in H. destruct H as (u3 & w3 & H3 & H). apply put_ctx_spec in H3.
    destruct H3 as (Hc3 & Hd3 & Ho3).
    apply IH in H; [|congruence]. destruct H as (ts & Ho & Hh & Hc & Hd).
    assert (Hdev1 : dev (w_ctx w1) = dev (w_ctx w)) by (rewrite Hc1; reflexivity).
    exists (t :: ts). split; [|split; [|split]].
    + rewrite Ho, Ho3, Ho2, Ho1, <- app_assoc. reflexivity.
    + rewrite cache_headers_S. cbn [map]. now rewrite Hh2, Hh.
    + congruence.
    + rewrite Hd. cbn [data_after_levels].
      rewrite Hc3, Hd3, Hd2, Hdev1, Hd1, Hbak. reflexivity.
Qed.

Lemma smbios_get_val_si_level ctx :
  smbios_get_val_si cfg ctx None SYSINFO_ID_SMBIOS_CACHE_LEVEL = cache_level (dev ctx).
Proof.
  unfold smbios_get_val_si, cache_level, sysinfo_get_int.
  destruct (dev ctx) as [dv|]; [|reflexivity].
  change (SYSINFO_ID_SMBIOS_CACHE_LEVEL =? 0) with false. cbn [orb is_some negb].
  destruct (get_int dv SYSINFO_ID_SMBIOS_CACHE_LEVEL); reflexivity.
Qed.

Lemma smbios_write_type7_spec handle w l w' :
  smbios_write_type7 fuel cfg env handle w = Some (l, w') ->
  exists ts,
    w_out w' = w_out w ++ ts /\
    map s_hdr ts = cache_headers cfg handle (cache_count (dev (w_ctx w))) /\
    dev (w_ctx w') = dev (w_ctx w) /\
    w_data w' = data_after_levels (cache_count (dev (w_ctx w))) (dev (w_ctx w))
                  (w_data w) 0 handle.
Proof.
  unfold smbios_write_type7. intros H.
  apply bind_inv in H. destruct H as (wa & wb & Hg & H). apply get_state_spec in Hg.
  destruct Hg as [-> ->]. cbv beta zeta in H.
  apply bind_inv in H. destruct H as (level & w1 & Hl & H).
  cbv [get_val_si bind get_state ret] in Hl. apply some_pair_inv in Hl.
  destruct Hl as [<- <-]. rewrite smbios_get_val_si_level in H.
  unfold cache_count.
  destruct (cache_level (dev (w_ctx w)) >=? SYSINFO_CACHE_LVL_MAX).
  - unfold ret in H. apply some_pair_inv in H. destruct H as [_ <-].
    exists []. rewrite app_nil_r. repeat split.
  - apply smbios_write_type7_loop_spec in H; [exact H|reflexivity].
Qed.

(** When the level count is not below the maximum the cache writer does
    nothing and returns length 0. *)
Lemma smbios_write_type7_skipped handle w :
  cache_level (dev (w_ctx w)) >= SYSINFO_CACHE_LVL_MAX ->
  smbios_write_type7 fuel cfg env handle w = Some (0, w).
Proof.
  intros Hl. unfold smbios_write_type7.
  cbv [bind get_state get_val_si ret]. rewrite smbios_get_val_si_level.
  replace (cache_level (dev (w_ctx w)) >=? SYSINFO_CACHE_LVL_MAX) with true; [reflexivity|].
  symmetry. apply Z.geb_le. lia.
Qed.

Lemma run_method_inv parent method handle w r :
  run_method cfg parent method handle w = Some r ->
  exists w1,
    dev (w_ctx w1) = dev (w_ctx w) /\ w_data w1 = w_data w /\ w_out w1 = w_out w /\
    write method handle w1 = Some r.
Proof.
  unfold run_method. intros H.
  apply bind_inv in H. destruct H as (wa & wb & Hg & H). apply get_state_spec in Hg.
  destruct Hg as [-> ->]. cbv beta zeta in H.
  apply bind_inv in H. destruct H as (u & w1 & Hp & H). apply put_ctx_spec in Hp.
  destruct Hp as (Hc & Hd & Ho).
  exists w1. split; [|split; [exact Hd|split; [exact Ho|exact H]]].
  rewrite Hc. destruct (method_subnode_name method); reflexivity.
Qed.

Lemma run_methods_spec parent w l w' :
  run_methods cfg parent (smbios_write_funcs fuel cfg env) 0 0 w = Some (l, w') ->
  exists out,
    w_out w' = w_out w ++ out /\ table_shape cfg (dev (w_ctx w)) (w_data w) out.
Proof.
  unfold smbios_write_funcs. cbn [run_methods]. intros H.
  apply bind_inv in H. destruct H as (l0 & w0 & H0 & H).
  apply run_method_inv in H0. destruct H0 as (v0 & Hc0 & Hd0 & Ho0 & H0). cbn [write] in H0.
  apply smbios_write_type0_spec in H0. destruct H0 as (t0 & Hw0 & Hh0 & _ & Hc0' & Hd0').
  apply bind_inv in H. destruct H as (l1 & w1 & H1 & H).
  apply run_method_inv in H1. destruct H1 as (v1 & Hc1 & Hd1 & Ho1 & H1). cbn [write] in H1.
  apply smbios_write_type1_spec in H1. destruct H1 as (t1 & Hw1 & Hh1 & _ & Hc1' & Hd1').
  apply bind_inv in H. destruct H as (l2 & w2 & H2 & H).
  apply run_method_inv in H2. destruct H2 as (v2 & Hc2 & Hd2 & Ho2 & H2). cbn [write] in H2.
  apply smbios_write_type2_spec in H2. destruct H2 as (t2 & Hw2 & Hh2 & Hm2 & Hc2' & Hd2').
  apply bind_inv in H. destruct H as (l3 & w3 & H3 & H).
  apply run_method_inv in H3. destruct H3 as (v3 & Hc3 & Hd3 & Ho3 & H3). cbn [write] in H3.
  apply smbios_write_type3_spec in H3. destruct H3 as (t3 & Hw3 & Hh3 & _ & Hc3' & Hd3').
  apply bind_inv in H. destruct H as (l7 & w7 & H7 & H).
  apply run_method_inv in H7. destruct H7 as (v7 & Hc7 & Hd7 & Ho7 & H7). cbn [write] in H7.
  apply smbios_write_type7_spec in H7. destruct H7 as (caches & Hw7 & Hh7 & Hc7' & Hd7').
  apply bind_inv in H. destruct H as (l4 & w4 & H4 & H).
  apply run_method_inv in H4. destruct H4 as (v4 & Hc4 & Hd4 & Ho4 & H4). cbn [write] in H4.
  apply smbios_write_type4_spec in H4. destruct H4 as (t4 & Hw4 & Hh4 & Hm4 & Hc4' & Hd4').
  apply bind_inv in H. destruct H as (l32 & w32 & H32 & H).
  apply run_method_inv in H32. destruct H32 as (v32 & Hc32 & Hd32 & Ho32 & H32).
  cbn [write] in H32.
  apply smbios_write_type32_spec in H32.
  destruct H32 as (t32 & Hw32 & Hh32 & _ & Hc32' & Hd32').
  apply bind_inv in H. destruct H as (l127 & w127 & H127 & H).
  apply run_method_inv in H127. destruct H127 as (v127 & Hc127 & Hd127 & Ho127 & H127).
  cbn [write] in H127.
  apply smbios_write_type127_spec in H127.
  destruct H127 as (t127 & Hw127 & Hh127 & _ & Hc127' & Hd127').
  unfold ret in H. apply some_pair_inv in H. destruct H as [_ <-].
  assert (Hdev7 : dev (w_ctx v7) = dev (w_ctx w)) by congruence.
  assert (Hdat7 : w_data v7 = w_data w) by congruence.
  exists ([t0; t1; t2; t3] ++ caches ++ [t4; t32; t127]). split.
  - rewrite Hw127, Ho127, Hw32, Ho32, Hw4, Ho4, Hw7, Ho7, Hw3, Ho3, Hw2, Ho2, Hw1, Ho1,
      Hw0, Ho0.
    rewrite <- !app_assoc. reflexivity.
  - exists t0, t1, t2, t3, caches, t4, t32, t127.
    split; [reflexivity|].
    split; [exact Hh0|]. split; [exact Hh1|]. split; [exact Hh2|]. split; [exact Hm2|].
    split; [exact Hh3|].
    split; [rewrite Hh7, Hdev7; reflexivity|].
    split; [exact Hh4|].
    split; [|split; [exact Hh32|exact Hh127]].
    assert (Ha : cache_handle_area (dev (w_ctx v4)) (w_data v4)
                 = cache_handle_area (dev (w_ctx w))
                     (data_after_levels (cache_count (dev (w_ctx w))) (dev (w_ctx w))
                        (w_data w) 0 4)).
    { rewrite Hd4, Hd7', Hdev7, Hdat7. f_equal. congruence. }
    rewrite Ha in Hm4. exact Hm4.
Qed.

Lemma write_smbios_table_spec addr w a w' :
  write_smbios_table fuel cfg env addr w = Some (a, w') ->
  (exists out,
     w_out w' = w_out w ++ out /\ table_shape cfg (build_dev cfg env) (w_data w) out) /\
  (exists m len table_addr,
     w_mem w' = entry_written cfg m (map_sysmem addr) len table_addr).
Proof.
  unfold write_smbios_table. intros H.
  apply bind_inv in H. destruct H as (wa & wb & Hg & H). apply get_state_spec in Hg.
  destruct Hg as [-> ->]. cbv beta zeta in H.
  apply bind_inv in H. destruct H as (u & w1 & Hp & H). apply put_ctx_spec in Hp.
  destruct Hp as (Hc1 & Hd1 & Ho1).
  apply bind_inv in H. destruct H as (u2 & w2 & Hp & H).
  cbv [put_current] in Hp. apply some_pair_inv in Hp. destruct Hp as [_ <-].
  apply bind_inv in H. destruct H as (len & w3 & Hr & H).
  apply run_methods_spec in Hr. destruct Hr as (out & Ho & Hs).
  cbn [w_out w_data w_ctx] in Ho, Hs.
  apply bind_inv in H. destruct H as (wc & wd & Hg & H). apply get_state_spec in Hg.
  destruct Hg as [-> ->].
  apply bind_inv in H. destruct H as (u3 & w4 & Hp & H).
  cbv [put_mem] in Hp. apply some_pair_inv in Hp. destruct Hp as [_ <-].
  unfold ret in H. apply some_pair_inv in H. destruct H as [_ <-].
  cbn [w_out w_mem].
  split.
  - exists out. split; [congruence|].
    rewrite Hc1, Hd1 in Hs. exact Hs.
  - eexists _, _, _. unfold entry_written. reflexivity.
Qed.

End WriterFacts.

(** * Enough fuel gives a result *)

Lemma returns_pure {A : Type} (c : M A) w a w' (Q : A -> wstate -> Prop) :
  c w = Some (a, w') -> Q a w' -> returns (fun _ => c) w Q.
Proof. intros H HQ. exists O, a, w'. split; [exact HQ|]. intros f _. exact H. Qed.

Lemma returns_bind {A B : Type} (c : nat -> M A) (k : nat -> A -> M B) w
    (Q1 : A -> wstate -> Prop) (Q : B -> wstate -> Prop) :
  returns c w Q1 ->
  (forall a w1, Q1 a w1 -> returns (fun f => k f a) w1 Q) ->
  returns (fun f => bind (c f) (k f)) w Q.
Proof.
  intros (f1 & a & w1 & HQ1 & H1) Hk.
  destruct (Hk a w1 HQ1) as (f2 & b & w2 & HQ & H2).
  exists (Nat.max f1 f2), b, w2. split; [exact HQ|].
  intros f Hf. unfold bind. rewrite H1 by lia. apply H2. lia.
Qed.

Lemma returns_weaken {A : Type} (c : nat -> M A) w (Q Q' : A -> wstate -> Prop) :
  returns c w Q -> (forall a w', Q a w' -> Q' a w') -> returns c w Q'.
Proof.
  intros (f0 & a & w' & HQ & H) Himp. exists f0, a, w'. split; [apply Himp, HQ|exact H].
Qed.

(** A computation that returns with enough fuel returns what its results
    at any fuel are known to satisfy. *)
Lemma returns_partial {A : Type} (c : nat -> M A) w (Q Q' : A -> wstate -> Prop) :
  returns c w Q ->
  (forall f a w', c f w = Some (a, w') -> Q' a w') ->
  returns c w Q'.
Proof.
  intros (f0 & a & w' & _ & H) Hp. exists f0, a, w'.
  split; [apply (Hp f0), H; lia|exact H].
Qed.

Lemma strlen_mono f : forall f' m p n,
  strlen f m p = Some n -> (f <= f')%nat -> strlen f' m p = Some n.
Proof.
  induction f as [|f IH]; intros f' m p n H Hf; simpl in H; [discriminate|].
  destruct f' as [|f']; [lia|]. simpl.
  destruct (m p =? 0); [exact H|].
  destruct (strlen f m (p + 1)) as [k|] eqn:E; [|discriminate].
  rewrite (IH f' m (p + 1) k E) by lia. exact H.
Qed.

Lemma smbios_add_string_loop_mono fuel n : forall fuel' n' ctx m s p i r,
  smbios_add_string_loop fuel n ctx m s p i = Some r ->
  (fuel <= fuel')%nat -> (n <= n')%nat ->
  smbios_add_string_loop fuel' n' ctx m s p i = Some r.
Proof.
  induction n as [|n IH]; intros fuel' n' ctx m s p i r H Hf Hn; simpl in H; [discriminate|].
  destruct n' as [|n']; [lia|]. simpl.
  destruct (m p =? 0); [exact H|].
  destruct (strcmp m p s =? 0); [exact H|].
  destruct (strlen fuel m p) as [l|] eqn:E; [|discriminate].
  rewrite (strlen_mono fuel fuel' m p l E Hf). apply IH; [exact H|exact Hf|lia].
Qed.

Lemma total_length_bound ss :
  Forall (fun t => (String.length t < S (total_length ss))%nat) ss.
Proof.
  induction ss as [|s ss IH]; constructor; cbn [total_length fold_right].
  - fold (total_length ss). lia.
  - fold (total_length ss). eapply Forall_impl; [|exact IH].
    intros t Ht. cbn beta in Ht. lia.
Qed.

(** On a well-formed pool smbios_add_string returns, with one result for
    all sufficient fuel, and leaves a well-formed pool at the same place,
    with the rest of the context as it was. *)
Lemma smbios_add_string_returns ctx m s ss :
  pool m (eos ctx) ss ->
  exists f0 n ctx1 m1 ss1,
    (forall f, (f0 <= f)%nat -> smbios_add_string f ctx m s = Some (n, ctx1, m1)) /\
    eos ctx1 = eos ctx /\ pool m1 (eos ctx1) ss1.
Proof.
  intros Hp. destruct s as [s|].
  - set (f0 := S (List.length ss + total_length ss)).
    destruct (smbios_add_string_loop_total f0 ss f0 ctx m s (eos ctx) 1 Hp)
      as (r & ctx1 & m1 & ss1 & E & Hp1 & _).
    + unfold f0. lia.
    + eapply Forall_impl; [|apply total_length_bound]. intros t Ht. cbn beta in Ht.
      unfold f0. lia.
    + pose proof E as Hs. apply smbios_add_string_loop_spec in Hs.
      destruct Hs as (_ & _ & He & _).
      exists f0, r, ctx1, m1, ss1. split; [|split; [exact He|rewrite He; exact Hp1]].
      intros f Hf. unfold smbios_add_string.
      apply (smbios_add_string_loop_mono f0 f0 f f _ _ _ _ _ _ E Hf Hf).
  - exists O, 0, ctx, m, ss. split; [|split; [reflexivity|exact Hp]].
    intros f _. reflexivity.
Qed.

(** Which string smbios_add_prop_si adds does not depend on the fuel. *)
Lemma smbios_add_prop_si_cases cfg root ctx m prop id dval :
  (forall np, In np sysinfo_to_dt -> get_str_from_dt root (Some np) 128 <> None) ->
  (exists s, forall f,
      smbios_add_prop_si f cfg root ctx m prop id dval = smbios_add_string f ctx m s) \/
  (forall f, smbios_add_prop_si f cfg root ctx m prop id dval = Some (0, ctx, m)).
Proof.
  intros Hfit. unfold smbios_add_prop_si.
  destruct (if negb (id =? 0) && is_some (dev ctx)
            then sysinfo_get_str (dev ctx) id (Z.of_nat (SMBIOS_STR_MAX cfg))
            else None) as [val|].
  { left. eexists. intros f. reflexivity. }
  destruct prop as [prop|]; [|left; eexists; intros f; reflexivity].
  destruct (CONFIG_OF_CONTROL cfg); [|right; intros f; reflexivity].
  destruct (ofnode_valid (node ctx)); [left; eexists; intros f; reflexivity|].
  destruct (get_str_from_dt root (convert_sysinfo_to_dt (subnode_name ctx) prop) 128)
    as [str_dt|] eqn:E; [left; eexists; intros f; reflexivity|].
  exfalso. unfold convert_sysinfo_to_dt in E.
  destruct (convert_sysinfo_to_dt_from sysinfo_to_dt (subnode_name ctx) prop) as [np|] eqn:Ec;
     [|discriminate].
  apply (Hfit np); [|exact E].
  clear -Ec. revert Ec. generalize sysinfo_to_dt as tbl.
  induction tbl as [|e tbl IH]; intros Ec; cbn [convert_sysinfo_to_dt_from] in Ec;
    [discriminate|].
  destruct (subnode_name ctx) as [n|].
  - destruct (String.eqb n (si_node e) && String.eqb prop (si_str e)).
    + injection Ec as ->. left. reflexivity.
    + right. apply IH, Ec.
  - right. apply IH, Ec.
Qed.

Section Returns.

Variable cfg : config.
Variable env : environment.
Hypothesis Hdt : dt_fits env.

Lemma returns_add_prop_si prop id dval w :
  pool_ok w ->
  returns (fun f => add_prop_si f cfg env prop id dval) w (fun _ w' => pool_ok w').
Proof.
  intros [ss Hp]. unfold add_prop_si.
  destruct (smbios_add_prop_si_cases cfg (ofnode_root env) (w_ctx w) (w_mem w) prop id dval Hdt)
    as [[s Hs]|Hs].
  - destruct (smbios_add_string_returns (w_ctx w) (w_mem w) s ss Hp)
      as (f0 & n & ctx1 & m1 & ss1 & Hr & He & Hp1).
    eexists f0, n, _. split; [|intros f Hf; rewrite Hs, (Hr f Hf); reflexivity].
    exists ss1. exact Hp1.
  - eexists O, 0, _. split; [|intros f _; rewrite Hs; reflexivity].
    exists ss. exact Hp.
Qed.

Lemma returns_str_member t name prop id dval w :
  pool_ok w ->
  returns (fun f => str_member f cfg env t name prop id dval) w (fun _ w' => pool_ok w').
Proof.
  intros Hp. unfold str_member.
  apply returns_bind with (Q1 := fun _ w' => pool_ok w');
    [apply returns_add_prop_si, Hp|].
  intros n w1 Hp1. cbv beta. eapply returns_pure; [reflexivity|exact Hp1].
Qed.

Lemma returns_int_member t name width prop id w :
  pool_ok w ->
  returns (fun _ : nat => int_member cfg t name width prop id) w (fun _ w' => pool_ok w').
Proof.
  intros Hp. eapply returns_pure;
    [cbv [int_member bind get_val_si get_state ret]; reflexivity|exact Hp].
Qed.

(** The opening of a writer followed by the reset of the pool on the last
    bytes of the structure leaves a well-formed, empty pool. *)
Lemma returns_begin_struct type size handle w (Q : smbios_struct -> wstate -> Prop) :
  (forall t w', s_addr t = w_current w ->
                (SMBIOS_STRUCT_EOS_BYTES <= size ->
                 w_mem w' (s_addr t + size - SMBIOS_STRUCT_EOS_BYTES) = 0) ->
                Q t w') ->
  returns (fun _ : nat => begin_struct type size handle) w Q.
Proof.
  intros HQ. eapply returns_pure;
    [cbv [begin_struct bind get_state put_mem ret]; reflexivity|].
  apply HQ; [reflexivity|].
  intros Hs. cbn [w_mem s_addr]. unfold SMBIOS_STRUCT_EOS_BYTES in *.
  apply memset_inside. rewrite Z2Nat.id by lia. lia.
Qed.

Lemma returns_set_eos e w :
  w_mem w e = 0 ->
  returns (fun _ : nat => set_eos e) w (fun _ w' => pool_ok w').
Proof.
  intros Hz. eapply returns_pure; [cbv [set_eos bind get_state put_ctx]; reflexivity|].
  exists []. exact Hz.
Qed.

Lemma returns_end_struct t w :
  returns (fun _ : nat => end_struct t) w (fun _ _ => True).
Proof.
  eapply returns_pure;
    [cbv [end_struct bind get_state put_current emit ret]; reflexivity|exact I].
Qed.

Lemma returns_end_struct_fixed t size w :
  returns (fun _ : nat => end_struct_fixed t size) w (fun _ _ => True).
Proof.
  eapply returns_pure;
    [cbv [end_struct_fixed bind get_state put_current emit ret]; reflexivity|exact I].
Qed.

Lemma pool_ok_put_data id bytes w u w' :
  pool_ok w -> put_data id bytes w = Some (u, w') -> pool_ok w'.
Proof. intros Hp H. cbv [put_data] in H. injection H as _ <-. exact Hp. Qed.

Lemma returns_get_state w :
  pool_ok w -> returns (fun _ : nat => get_state) w (fun _ w' => pool_ok w').
Proof. intros Hp. eapply returns_pure; [reflexivity|exact Hp]. Qed.

Lemma returns_sysinfo_get_data d id w :
  pool_ok w ->
  returns (fun _ : nat => sysinfo_get_data d id) w (fun _ w' => pool_ok w').
Proof.
  intros Hp. destruct d; (eapply returns_pure; [reflexivity|exact Hp]).
Qed.

Lemma returns_record_version (b : bool) w :
  pool_ok w ->
  returns (fun _ : nat =>
             if b then ret tt
             else w <- get_state ;; put_smbios_version (last_str (w_ctx w)))
          w (fun _ w' => pool_ok w').
Proof.
  intros Hp. destruct b;
    (eapply returns_pure;
     [cbv [ret bind get_state put_smbios_version]; reflexivity|exact Hp]).
Qed.

Lemma returns_save_handle (hdl : option (list Z)) level handle w :
  pool_ok w ->
  returns (fun _ : nat =>
             match hdl with
             | Some bytes =>
                 if Z.of_nat (List.length bytes) =? SYSINFO_CACHE_LVL_MAX * 2
                 then put_data SYSINFO_ID_SMBIOS_CACHE_HANDLE (store_u16 bytes level handle)
                 else ret tt
             | None => ret tt
             end)
          w (fun _ w' => pool_ok w').
Proof.
  intros Hp.
  destruct hdl as [bytes|];
    [destruct (Z.of_nat (List.length bytes) =? SYSINFO_CACHE_LVL_MAX * 2)|];
    (eapply returns_pure; [cbv [ret put_data]; reflexivity|exact Hp]).
Qed.

(** One step of a writer: the first computation of a bind is discharged by
    the lemma that fits, and its postcondition is kept for the rest. *)
Ltac rstep :=
  lazymatch goal with
  | |- returns (fun f => bind _ _) _ _ =>
      eapply returns_bind;
      [ first [ apply returns_str_member; assumption
              | apply returns_int_member; assumption
              | apply returns_set_eos; solve [auto]
              | apply returns_add_prop_si; assumption
              | apply returns_record_version; assumption
              | apply returns_get_state; assumption
              | apply returns_sysinfo_get_data; assumption
              | apply returns_save_handle; assumption ]
      | cbv beta; intros ? ? ? ]
  end.

(** The opening of a writer, for a structure with room for [eos]. *)
Ltac rbegin Hs :=
  cbv beta zeta;
  eapply returns_bind;
  [ apply returns_begin_struct; intros ? ? ? Hz; exact (Hz Hs)
  | cbv beta; intros ? ? ? ].

Lemma returns_write_type0 handle w :
  SMBIOS_STRUCT_EOS_BYTES <= sizeof_type0 cfg ->
  returns (fun f => smbios_write_type0 f cfg env handle) w (fun _ _ => True).
Proof.
  intros Hs. unfold smbios_write_type0. rbegin Hs.
  do 5 rstep. apply returns_end_struct.
Qed.

Lemma returns_write_type1 handle w :
  SMBIOS_STRUCT_EOS_BYTES <= sizeof_type1 cfg ->
  returns (fun f => smbios_write_type1 f cfg env handle) w (fun _ _ => True).
Proof.
  intros Hs. unfold smbios_write_type1. rbegin Hs.
  do 4 rstep.
  eapply returns_bind with (Q1 := fun _ w' => pool_ok w').
  { destruct (env_serial env) as [serial|].
    - eapply returns_bind; [apply returns_add_prop_si; assumption|].
      cbv beta. intros n w5 Hp. eapply returns_pure; [reflexivity|exact Hp].
    - apply returns_str_member. assumption. }
  cbv beta. intros ? ? ?.
  do 3 rstep. apply returns_end_struct.
Qed.

Lemma returns_write_type2 handle w :
  SMBIOS_STRUCT_EOS_BYTES <= sizeof_type2 cfg ->
  returns (fun f => smbios_write_type2 f cfg env handle) w (fun _ _ => True).
Proof.
  intros Hs. unfold smbios_write_type2. rbegin Hs.
  do 9 rstep. apply returns_end_struct.
Qed.

Lemma returns_write_type3 handle w :
  SMBIOS_STRUCT_EOS_BYTES <= sizeof_type3 cfg ->
  returns (fun f => smbios_write_type3 f cfg env handle) w (fun _ _ => True).
Proof.
  intros Hs. unfold smbios_write_type3.
  assert (Hs' : SMBIOS_STRUCT_EOS_BYTES <= sizeof_type3 cfg + 0) by lia.
  rbegin Hs'. do 14 rstep. apply returns_end_struct.
Qed.

Lemma returns_write_type4_dm t w :
  pool_ok w ->
  returns (fun f => smbios_write_type4_dm f cfg env t) w (fun _ w' => pool_ok w').
Proof.
  intros Hp. unfold smbios_write_type4_dm.
  destruct (uclass_first_cpu env) as [plat|]; cbv beta zeta iota.
  all: eapply returns_bind with (Q1 := fun _ w' => pool_ok w');
    [match goal with
     | |- returns (fun _ => if ?b then _ else _) _ _ => destruct b
     end;
     (eapply returns_pure; [cbv [bind get_val_si get_state ret]; reflexivity|exact Hp])
    |cbv beta; intros ? ? ?].
  all: eapply returns_bind with (Q1 := fun _ w' => pool_ok w');
    [match goal with
     | |- returns (fun _ => if ?b then _ else _) _ _ => destruct b
     end;
     [apply returns_int_member; assumption
     |eapply returns_pure; [reflexivity|assumption]]
    |cbv beta zeta; intros ? ? ?].
  all: do 2 rstep.
  all: match goal with
       | |- returns (fun _ => if ?b then _ else _) _ _ => destruct b
       end;
    [eapply returns_pure; [reflexivity|assumption]|].
  all: do 2 rstep.
  all: match goal with
       | |- returns (fun _ => match ?x with _ => _ end) _ _ =>
           destruct x as [bytes|];
           [destruct (Z.of_nat (List.length bytes) =? 8)|]
       end;
    (eapply returns_pure; [reflexivity|assumption]).
Qed.

Lemma returns_write_type4 handle w :
  SMBIOS_STRUCT_EOS_BYTES <= sizeof_type4 cfg ->
  returns (fun f => smbios_write_type4 f cfg env handle) w (fun _ _ => True).
Proof.
  intros Hs. unfold smbios_write_type4. rbegin Hs.
  do 3 rstep.
  eapply returns_bind; [apply returns_write_type4_dm; assumption|].
  cbv beta zeta. intros ? ? ?.
  do 19 rstep. apply returns_end_struct.
Qed.

Lemma returns_write_type7_1level handle level w :
  SMBIOS_STRUCT_EOS_BYTES <= sizeof_type7 cfg ->
  returns (fun f => smbios_write_type7_1level f cfg env handle level) w (fun _ _ => True).
Proof.
  intros Hs. unfold smbios_write_type7_1level. rbegin Hs.
  do 16 rstep. apply returns_end_struct.
Qed.

Lemma returns_write_type32 handle w :
  SMBIOS_STRUCT_EOS_BYTES <= sizeof_type32 cfg ->
  returns (fun _ : nat => smbios_write_type32 cfg handle) w (fun _ _ => True).
Proof.
  intros Hs. unfold smbios_write_type32. rbegin Hs.
  rstep. apply returns_end_struct_fixed.
Qed.

Lemma returns_write_type127 handle w :
  returns (fun _ : nat => smbios_write_type127 cfg handle) w (fun _ _ => True).
Proof.
  unfold smbios_write_type127. cbv beta zeta.
  eapply returns_bind;
    [apply returns_begin_struct with (Q := fun _ _ => True); intros; exact I|].
  cbv beta. intros ? ? ?. apply returns_end_struct_fixed.
Qed.

Lemma returns_bind_pure {A B : Type} (c : M A) (k : nat -> A -> M B) w a w1
    (Q : B -> wstate -> Prop) :
  c w = Some (a, w1) ->
  returns (fun f => k f a) w1 Q ->
  returns (fun f => bind c (k f)) w Q.
Proof.
  intros Hc Hk. apply returns_bind with (Q1 := fun a' w' => a' = a /\ w' = w1).
  - eapply returns_pure; [exact Hc|split; reflexivity].
  - intros a' w' [-> ->]. exact Hk.
Qed.

Lemma returns_write_type7_loop n : forall i handle len parent ctx_bak w,
  SMBIOS_STRUCT_EOS_BYTES <= sizeof_type7 cfg ->
  returns (fun f => smbios_write_type7_loop f cfg env n i handle len parent ctx_bak) w
          (fun _ _ => True).
Proof.
  induction n as [|n IH]; intros i handle len parent ctx_bak w Hs;
    cbn [smbios_write_type7_loop].
  - eapply returns_pure; [reflexivity|exact I].
  - pose proof (snprintf_cache_printed 9 (i + 1)) as Hp.
    destruct (snprintf_cache 9 (i + 1)) as [buf printed]. cbn [snd] in Hp.
    apply Z.eqb_neq in Hp. rewrite Hp.
    eapply returns_bind_pure; [reflexivity|]. cbv beta zeta.
    eapply returns_bind_pure; [reflexivity|]. cbv beta.
    eapply returns_bind; [apply returns_write_type7_1level; exact Hs|].
    cbv beta. intros l w2 _.
    eapply returns_bind_pure; [reflexivity|]. cbv beta.
    apply IH. exact Hs.
Qed.

Lemma returns_write_type7 handle w :
  SMBIOS_STRUCT_EOS_BYTES <= sizeof_type7 cfg ->
  returns (fun f => smbios_write_type7 f cfg env handle) w (fun _ _ => True).
Proof.
  intros Hs. unfold smbios_write_type7.
  eapply returns_bind_pure; [reflexivity|]. cbv beta zeta.
  eapply returns_bind_pure; [cbv [get_val_si bind get_state ret]; reflexivity|]. cbv beta.
  match goal with
  | |- returns (fun _ => if ?b then _ else _) _ _ => destruct b
  end.
  - eapply returns_pure; [reflexivity|exact I].
  - apply returns_write_type7_loop. exact Hs.
Qed.

Lemma returns_run_method (wr : nat -> Z -> M Z) name parent handle w :
  (forall w1, returns (fun f => wr f handle) w1 (fun _ _ => True)) ->
  returns (fun f => run_method cfg parent
                      {| write := wr f; method_subnode_name := name |} handle)
          w (fun _ _ => True).
Proof.
  intros Hw. unfold run_method. cbn [write method_subnode_name].
  eapply returns_bind_pure; [reflexivity|]. cbv beta zeta.
  eapply returns_bind_pure; [reflexivity|]. cbv beta.
  apply Hw.
Qed.

Hypothesis Hcfg : config_ok cfg.

Lemma returns_run_methods parent w :
  returns (fun f => run_methods cfg parent (smbios_write_funcs f cfg env) 0 0) w
          (fun _ _ => True).
Proof.
  unfold config_ok in Hcfg.
  repeat match goal with
         | H : Forall _ (_ :: _) |- _ => inversion H; clear H; subst
         end.
  unfold smbios_write_funcs. cbn [run_methods].
  eapply returns_bind;
    [apply (returns_run_method (fun f => smbios_write_type0 f cfg env));
     intros; apply returns_write_type0; assumption|cbv beta; intros ? ? _].
  eapply returns_bind;
    [apply (returns_run_method (fun f => smbios_write_type1 f cfg env));
     intros; apply returns_write_type1; assumption|cbv beta; intros ? ? _].
  eapply returns_bind;
    [apply (returns_run_method (fun f => smbios_write_type2 f cfg env));
     intros; apply returns_write_type2; assumption|cbv beta; intros ? ? _].
  eapply returns_bind;
    [apply (returns_run_method (fun f => smbios_write_type3 f cfg env));
     intros; apply returns_write_type3; assumption|cbv beta; intros ? ? _].
  eapply returns_bind;
    [apply (returns_run_method (fun f => smbios_write_type7 f cfg env));
     intros; apply returns_write_type7; assumption|cbv beta; intros ? ? _].
  eapply returns_bind;
    [apply (returns_run_method (fun f => smbios_write_type4 f cfg env));
     intros; apply returns_write_type4; assumption|cbv beta; intros ? ? _].
  eapply returns_bind;
    [apply (returns_run_method (fun _ => smbios_write_type32 cfg));
     intros; apply returns_write_type32; assumption|cbv beta; intros ? ? _].
  eapply returns_bind;
    [apply (returns_run_method (fun _ => smbios_write_type127 cfg));
     intros; apply returns_write_type127|cbv beta; intros ? ? _].
  eapply returns_pure; [reflexivity|exact I].
Qed.

(** With enough fuel a build returns, whatever the state it starts from. *)
Lemma write_smbios_table_returns addr w :
  returns (fun f => write_smbios_table f cfg env addr) w (fun _ _ => True).
Proof.
  unfold write_smbios_table.
  eapply returns_bind_pure; [reflexivity|]. cbv beta zeta.
  eapply returns_bind_pure; [reflexivity|]. cbv beta.
  eapply returns_bind_pure; [reflexivity|]. cbv beta.
  eapply returns_bind; [apply returns_run_methods|]. cbv beta. intros len w3 _.
  eapply returns_bind_pure; [reflexivity|]. cbv beta zeta.
  eapply returns_bind_pure; [reflexivity|]. cbv beta.
  eapply returns_pure; [reflexivity|exact I].
Qed.

End Returns.

(** * The property resolver *)




(** * The table assembler *)

Section Assembler.

Variable fuel : nat.
Variable cfg : config.
Variable env : environment.

Lemma cache_headers_type handle n t caches :
  map s_hdr caches = cache_headers cfg handle n -> In t caches ->
  hdr_type (s_hdr t) = SMBIOS_CACHE_INFORMATION.
Proof.
  intros Hm Hin. apply (in_map s_hdr) in Hin. rewrite Hm in Hin.
  unfold cache_headers in Hin. apply in_map_iff in Hin.
  destruct Hin as (k & <- & _). reflexivity.
Qed.

Lemma cache_headers_handles handle n caches :
  map s_hdr caches = cache_headers cfg handle n ->
  handles caches = map (fun k => u16 (handle + Z.of_nat k)) (seq 0 n).
Proof.
  intros Hm. unfold handles. rewrite <- (map_map s_hdr hdr_handle), Hm.
  unfold cache_headers. rewrite map_map. reflexivity.
Qed.

Lemma cache_headers_length handle n caches :
  map s_hdr caches = cache_headers cfg handle n -> List.length caches = n.
Proof.
  intros Hm. apply (f_equal (@List.length _)) in Hm.
  unfold cache_headers in Hm. now rewrite !length_map, length_seq in Hm.
Qed.

(** The handles of a table: 0 to 3, one per cache structure from 4, then
    5, 6 and 7. *)
Lemma table_shape_handles d data out :
  table_shape cfg d data out ->
  handles out =
    [0; 1; 2; 3] ++ map (fun k => u16 (4 + Z.of_nat k)) (seq 0 (cache_count d)) ++ [5; 6; 7].
Proof.
  intros (t0 & t1 & t2 & t3 & caches & t4 & t32 & t127 & -> & H0 & H1 & H2 & _ & H3 &
          Hc & H4 & _ & H32 & H127).
  unfold handles. rewrite !map_app. cbn [map].
  rewrite H0, H1, H2, H3, H4, H32, H127.
  fold (handles caches). rewrite (cache_headers_handles _ _ _ Hc). reflexivity.
Qed.

Lemma table_shape_types d data out :
  table_shape cfg d data out ->
  types out = [0; 1; 2; 3] ++ repeat 7 (cache_count d) ++ [4; 32; 127].
Proof.
  intros (t0 & t1 & t2 & t3 & caches & t4 & t32 & t127 & -> & H0 & H1 & H2 & _ & H3 &
          Hc & H4 & _ & H32 & H127).
  unfold types. rewrite !map_app. cbn [map].
  rewrite H0, H1, H2, H3, H4, H32, H127.
  replace (map (fun t => hdr_type (s_hdr t)) caches) with (repeat 7 (cache_count d));
    [reflexivity|].
  rewrite <- (cache_headers_length _ _ _ Hc).
  assert (Hall : forall t, In t caches -> hdr_type (s_hdr t) = 7)
    by (intros t Ht; apply (cache_headers_type _ _ _ _ Hc Ht)).
  clear Hc. induction caches as [|c cs IH]; [reflexivity|].
  cbn [List.length repeat map]. rewrite Hall by (left; reflexivity).
  f_equal. apply IH. intros t Ht. apply Hall. right. exact Ht.
Qed.

Lemma table_shape_board_chassis d data out :
  table_shape cfg d data out ->
  (exists pre board chassis post,
      out = pre ++ board :: chassis :: post /\
      hdr_type (s_hdr board) = SMBIOS_BOARD_INFORMATION /\
      hdr_type (s_hdr chassis) = SMBIOS_SYSTEM_ENCLOSURE) /\
  forall pre board chassis post,
    out = pre ++ board :: chassis :: post ->
    hdr_type (s_hdr board) = SMBIOS_BOARD_INFORMATION ->
    hdr_type (s_hdr chassis) = SMBIOS_SYSTEM_ENCLOSURE ->
    hdr_handle (s_hdr chassis) = hdr_handle (s_hdr board) + 1 /\
    member board "chassis_handle" = hdr_handle (s_hdr chassis).
Proof.
  intros (t0 & t1 & t2 & t3 & caches & t4 & t32 & t127 & -> & H0 & H1 & H2 & Hm & H3 &
          Hc & H4 & _ & H32 & H127).
  split.
  - exists [t0; t1], t2, t3, (caches ++ [t4; t32; t127]).
    split; [reflexivity|]. rewrite H2, H3. split; reflexivity.
  - intros pre board chassis post Hout Hb Hch.
    destruct pre as [|x0 [|x1 [|x2 pre]]]; cbn [app] in Hout.
    + injection Hout as <- _. rewrite H0 in Hb. discriminate.
    + injection Hout as _ <- _. rewrite H1 in Hb. discriminate.
    + injection Hout as _ _ <- <- _. rewrite H2, H3, Hm. split; reflexivity.
    + exfalso. injection Hout as _ _ _ Hrest.
      assert (Hin : In board (t3 :: caches ++ [t4; t32; t127])).
      { rewrite Hrest. apply in_or_app. right. left. reflexivity. }
      destruct Hin as [<-|Hin]; [rewrite H3 in Hb; discriminate|].
      apply in_app_or in Hin. destruct Hin as [Hin|Hin].
      * rewrite (cache_headers_type _ _ _ _ Hc Hin) in Hb. discriminate.
      * destruct Hin as [<-|[<-|[<-|[]]]]; [rewrite H4 in Hb|rewrite H32 in Hb|rewrite H127 in Hb];
          discriminate.
Qed.

(** C3: in the table of every completed build there is a board structure
    immediately followed by a chassis structure, and for every such pair
    the chassis header handle is the board header handle plus 1 and equals
    the chassis-handle member stored in the board structure; and when
    every structure has room for its end-of-strings bytes and the strings
    of the tree fit the buffer, a build with enough fuel completes, with
    such a table. *)
Theorem chassis_handle_follows_board addr m version data ctx :
  (forall a w',
      write_smbios_table fuel cfg env addr (initial_state m version data ctx)
        = Some (a, w') ->
      board_chassis_linked (w_out w')) /\
  (config_ok cfg -> dt_fits env ->
   returns (fun f => write_smbios_table f cfg env addr)
     (initial_state m version data ctx)
     (fun _ w' => board_chassis_linked (w_out w'))).
Proof.
  assert (Hp : forall f a w',
             write_smbios_table f cfg env addr (initial_state m version data ctx)
               = Some (a, w') ->
             board_chassis_linked (w_out w')).
  { intros f a w' H. apply write_smbios_table_spec in H.
    destruct H as [(out & Ho & Hs) _]. cbn [initial_state w_out app] in Ho. rewrite Ho.
    exact (table_shape_board_chassis _ _ _ Hs). }
  split; [apply Hp|]. intros Hcfg Hdt.
  eapply returns_partial; [apply write_smbios_table_returns; assumption|exact Hp].
Qed.

(** C5: when the resolved cache level count is the maximum plus one, the
    cache writer returns length 0 and leaves the state as it is, writing no
    structure, and a completed build holds exactly the firmware, system,
    board, chassis, processor, boot and end structures, with the handles
    0, 1, 2, 3, 5, 6 and 7; and when every structure has room for its
    end-of-strings bytes and the strings of the tree fit the buffer, a
    build with enough fuel completes, with such a table. *)
Theorem cache_level_exceeded :
  cache_level (build_dev cfg env) = SYSINFO_CACHE_LVL_MAX + 1 ->
  let without_caches out :=
    types out =
      [SMBIOS_BIOS_INFORMATION; SMBIOS_SYSTEM_INFORMATION; SMBIOS_BOARD_INFORMATION;
       SMBIOS_SYSTEM_ENCLOSURE; SMBIOS_PROCESSOR_INFORMATION;
       SMBIOS_SYSTEM_BOOT_INFORMATION; SMBIOS_END_OF_TABLE] /\
    handles out = [0; 1; 2; 3; 5; 6; 7] in
  (forall handle w,
      dev (w_ctx w) = build_dev cfg env ->
      smbios_write_type7 fuel cfg env handle w = Some (0, w)) /\
  (forall addr m version data ctx a w',
      write_smbios_table fuel cfg env addr (initial_state m version data ctx)
        = Some (a, w') ->
      without_caches (w_out w')) /\
  (config_ok cfg -> dt_fits env ->
   forall addr m version data ctx,
     returns (fun f => write_smbios_table f cfg env addr)
       (initial_state m version data ctx)
       (fun _ w' => without_caches (w_out w'))).
Proof.
  intros Hl without_caches.
  assert (Hp : forall addr m version data ctx f a w',
             write_smbios_table f cfg env addr (initial_state m version data ctx)
               = Some (a, w') ->
             without_caches (w_out w')).
  { intros addr m version data ctx f a w' H. apply write_smbios_table_spec in H.
    destruct H as [(out & Ho & Hs) _]. cbn [initial_state w_out app] in Ho. rewrite Ho.
    assert (Hn : cache_count (build_dev cfg env) = O)
      by (unfold cache_count; rewrite Hl; reflexivity).
    unfold without_caches.
    rewrite (table_shape_types _ _ _ Hs), (table_shape_handles _ _ _ Hs), Hn.
    split; reflexivity. }
  split; [|split].
  - intros handle w Hd. apply smbios_write_type7_skipped. rewrite Hd, Hl.
    unfold SYSINFO_CACHE_LVL_MAX. lia.
  - intros addr m version data ctx. apply Hp.
  - intros Hcfg Hdt addr m version data ctx.
    eapply returns_partial; [apply write_smbios_table_returns; assumption|apply Hp].
Qed.

Lemma length_set_nth l : forall n v, List.length (set_nth l n v) = List.length l.
Proof.
  induction l as [|x l IH]; intros [|n] v; cbn [set_nth List.length]; try reflexivity.
  now rewrite IH.
Qed.

Lemma nth_set_nth_same l : forall n v, (n < List.length l)%nat -> nth n (set_nth l n v) 0 = v.
Proof.
  induction l as [|x l IH]; intros [|n] v H; cbn [List.length] in H; try lia;
    cbn [set_nth nth]; [reflexivity|]. apply IH. lia.
Qed.

Lemma nth_set_nth_other l : forall n k v, k <> n -> nth k (set_nth l n v) 0 = nth k l 0.
Proof.
  induction l as [|x l IH]; intros [|n] [|k] v H; cbn [set_nth nth]; try reflexivity;
    try contradiction. apply IH. lia.
Qed.

Lemma length_store_u16 bytes i v : List.length (store_u16 bytes i v) = List.length bytes.
Proof. unfold store_u16. now rewrite !length_set_nth. Qed.

Lemma load_store_u16_same bytes i v :
  0 <= i -> 2 * i + 1 < Z.of_nat (List.length bytes) ->
  load_u16 (store_u16 bytes i v) i = u16 v.
Proof.
  intros Hi Hl. unfold load_u16, store_u16.
  rewrite nth_set_nth_other by lia.
  rewrite !nth_set_nth_same by (rewrite ?length_set_nth; lia).
  pose proof (Z.div_mod (u16 v) (2 ^ 8) ltac:(lia)). lia.
Qed.

Lemma load_store_u16_other bytes i j v :
  0 <= i -> 0 <= j -> j <> i ->
  load_u16 (store_u16 bytes i v) j = load_u16 bytes j.
Proof.
  intros Hi Hj Hne. unfold load_u16, store_u16.
  rewrite !nth_set_nth_other by lia. reflexivity.
Qed.

(** C9: the processor writer sets its three cache-handle members to the
    "no cache" value when the cache-handle data area is absent or has not
    the size of one 16-bit slot per cache level, and otherwise to the slots
    of the area, a zero slot giving the "no cache" value; and the cache
    writer of a level stores its handle in the slot of that level, leaving
    the other slots as they are; and when the structure has room for its
    end-of-strings bytes and the strings of the tree fit the buffer, each
    of the two writers, with enough fuel, returns and has appended one
    structure. *)
Theorem processor_cache_handles :
  (forall handle w l w',
      smbios_write_type4 fuel cfg env handle w = Some (l, w') ->
      exists t,
        w_out w' = w_out w ++ [t] /\
        let area := cache_handle_area (dev (w_ctx w)) (w_data w) in
        let none := u16 (SMBIOS_CACHE_HANDLE_NONE cfg) in
        let members := [member t "l1_cache_handle"; member t "l2_cache_handle";
                        member t "l3_cache_handle"] in
        (area = None -> members = [none; none; none]) /\
        (forall bytes,
            area = Some bytes ->
            Z.of_nat (List.length bytes) <> SYSINFO_CACHE_LVL_MAX * 2 ->
            members = [none; none; none]) /\
        (forall bytes,
            area = Some bytes ->
            Z.of_nat (List.length bytes) = SYSINFO_CACHE_LVL_MAX * 2 ->
            members = map (fun i => if load_u16 bytes i =? 0 then none
                                    else load_u16 bytes i) [0; 1; 2])) /\
  (forall handle level w l w' bytes,
      smbios_write_type7_1level fuel cfg env handle level w = Some (l, w') ->
      cache_handle_area (dev (w_ctx w)) (w_data w) = Some bytes ->
      Z.of_nat (List.length bytes) = SYSINFO_CACHE_LVL_MAX * 2 ->
      0 <= level < SYSINFO_CACHE_LVL_MAX ->
      exists bytes',
        cache_handle_area (dev (w_ctx w')) (w_data w') = Some bytes' /\
        List.length bytes' = List.length bytes /\
        load_u16 bytes' level = u16 handle /\
        forall j, 0 <= j -> j <> level -> load_u16 bytes' j = load_u16 bytes j) /\
  (SMBIOS_STRUCT_EOS_BYTES <= sizeof_type4 cfg -> dt_fits env ->
   forall handle w,
     returns (fun f => smbios_write_type4 f cfg env handle) w
       (fun _ w' => exists t, w_out w' = w_out w ++ [t])) /\
  (SMBIOS_STRUCT_EOS_BYTES <= sizeof_type7 cfg -> dt_fits env ->
   forall handle level w,
     returns (fun f => smbios_write_type7_1level f cfg env handle level) w
       (fun _ w' => exists t, w_out w' = w_out w ++ [t])).
Proof.
  split; [|split; [|split]].
  - intros handle w l w' H. apply smbios_write_type4_spec in H.
    destruct H as (t & Ho & _ & (H1 & H2 & H3) & _).
    exists t. split; [exact Ho|]. cbv zeta. rewrite H1, H2, H3.
    unfold cache_handle_member. split; [|split].
    + intros ->. reflexivity.
    + intros bytes -> Hne. apply Z.eqb_neq in Hne. rewrite Hne. reflexivity.
    + intros bytes -> He. apply Z.eqb_eq in He. rewrite He. reflexivity.
  - intros handle level w l w' bytes H Ha Hs Hl.
    apply smbios_write_type7_1level_spec in H. destruct H as (t & _ & _ & Hd & Hdata).
    unfold data_after_cache in Hdata. rewrite Ha in Hdata.
    apply Z.eqb_eq in Hs. rewrite Hs in Hdata. apply Z.eqb_eq in Hs.
    exists (store_u16 bytes level handle).
    unfold SYSINFO_CACHE_LVL_MAX in *.
    split; [|split; [apply length_store_u16|split]].
    + unfold cache_handle_area in *. rewrite Hd, Hdata.
      destruct (dev (w_ctx w)); [|discriminate]. now rewrite Z.eqb_refl.
    + apply load_store_u16_same; lia.
    + intros j Hj Hne. apply load_store_u16_other; lia.
  - intros Hsize Hdt handle w.
    eapply returns_partial; [apply returns_write_type4; assumption|].
    intros f l w' H. apply smbios_write_type4_spec in H.
    destruct H as (t & Ho & _). exists t. exact Ho.
  - intros Hsize Hdt handle level w.
    eapply returns_partial; [apply returns_write_type7_1level; assumption|].
    intros f l w' H. apply smbios_write_type7_1level_spec in H.
    destruct H as (t & Ho & _). exists t. exact Ho.
Qed.

Lemma table_compute_checksum_from_sum n : forall c m v,
  (table_compute_checksum_from c m v n) mod 2 ^ 8
  = (c - byte_sum (load_bytes m v n)) mod 2 ^ 8.
Proof.
  induction n as [|n IH]; intros c m v; cbn [table_compute_checksum_from load_bytes].
  - unfold byte_sum. cbn [fold_right]. now rewrite Z.sub_0_r.
  - rewrite IH. unfold byte_sum, u8. cbn [fold_right].
    rewrite Zminus_mod_idemp_l. f_equal. lia.
Qed.

Lemma table_compute_checksum_from_range n : forall c m v,
  0 <= c < 2 ^ 8 -> 0 <= table_compute_checksum_from c m v n < 2 ^ 8.
Proof.
  induction n as [|n IH]; intros c m v Hc; cbn [table_compute_checksum_from]; [exact Hc|].
  apply IH. unfold u8. apply Z.mod_pos_bound. lia.
Qed.

Lemma load_bytes_store_outside n : forall m p a v,
  a < p \/ p + Z.of_nat n <= a ->
  load_bytes (store m a v) p n = load_bytes m p n.
Proof.
  induction n as [|n IH]; intros m p a v H; [reflexivity|].
  cbn [load_bytes]. rewrite store_other by lia. now rewrite IH by lia.
Qed.

Lemma byte_sum_store n : forall m p a v,
  p <= a < p + Z.of_nat n ->
  byte_sum (load_bytes (store m a v) p n) = byte_sum (load_bytes m p n) - m a + v.
Proof.
  induction n as [|n IH]; intros m p a v H; [lia|].
  cbn [load_bytes]. unfold byte_sum in *. cbn [fold_right].
  destruct (Z.eq_dec a p) as [->|Hne].
  - rewrite store_same, load_bytes_store_outside by lia. lia.
  - rewrite store_other by lia. rewrite IH by lia. lia.
Qed.

Lemma Forall_load_bytes (P : Z -> Prop) n : forall m p,
  (forall x, p <= x < p + Z.of_nat n -> P (m x)) -> Forall P (load_bytes m p n).
Proof.
  induction n as [|n IH]; intros m p H; cbn [load_bytes]; constructor.
  - apply H. lia.
  - apply IH. intros x Hx. apply H. lia.
Qed.

Lemma store_le_outside n : forall m a v x,
  x < a \/ a + Z.of_nat n <= x -> store_le m a n v x = m x.
Proof.
  induction n as [|n IH]; intros m a v x H; cbn [store_le]; [reflexivity|].
  rewrite IH by lia. apply store_other. lia.
Qed.

Lemma bytes_in_store m p n a v :
  bytes_in m p n -> 0 <= v < 2 ^ 8 -> bytes_in (store m a v) p n.
Proof.
  intros H Hv x Hx. destruct (Z.eq_dec x a) as [->|Hne];
    [now rewrite store_same|rewrite store_other by exact Hne; apply H, Hx].
Qed.

Lemma bytes_in_store_le k : forall m p n a v,
  bytes_in m p n -> bytes_in (store_le m a k v) p n.
Proof.
  induction k as [|k IH]; intros m p n a v H; cbn [store_le]; [exact H|].
  apply IH, bytes_in_store; [exact H|]. apply Z.mod_pos_bound. lia.
Qed.

Lemma code_range c : 0 <= code c < 2 ^ 8.
Proof.
  unfold code. pose proof (nat_ascii_bounded c).
  change (2 ^ 8) with 256. lia.
Qed.

Lemma bytes_in_memcpy k : forall m p n a s,
  bytes_in m p n -> bytes_in (memcpy m a s k) p n.
Proof.
  induction k as [|k IH]; intros m p n a s H; cbn [memcpy]; [exact H|].
  destruct s as [|c s]; apply IH, bytes_in_store; try exact H; [lia|apply code_range].
Qed.

Lemma u8_range v : 0 <= u8 v < 2 ^ 8.
Proof. unfold u8. apply Z.mod_pos_bound. lia. Qed.

(** The descriptor that [entry_written] leaves holds byte values that sum
    to zero modulo 256. *)
Lemma entry_written_checksum m se len table_addr :
  let bytes := load_bytes (entry_written cfg m se len table_addr) se
                 (Z.to_nat sizeof_smbios3_entry) in
  Forall (fun b => 0 <= b < 2 ^ 8) bytes /\ byte_sum bytes mod 2 ^ 8 = 0.
Proof.
  unfold entry_written.
  set (m0 := memset m se 0 (Z.to_nat sizeof_smbios3_entry)).
  set (m1 := store_le _ _ 8 _).
  assert (Hin : bytes_in m1 se sizeof_smbios3_entry).
  { unfold m1. do 2 apply bytes_in_store_le.
    do 5 (apply bytes_in_store; [|first [apply u8_range|lia]]).
    apply bytes_in_memcpy. intros x Hx. unfold m0.
    rewrite memset_inside by (rewrite Z2Nat.id by (unfold sizeof_smbios3_entry; lia); lia).
    lia. }
  assert (Hz : m1 (se + se_checksum) = 0).
  { unfold m1, se_checksum, se_struct_table_address, se_table_maximum_size,
      se_entry_point_rev, se_doc_rev, se_minor_ver, se_major_ver, se_length, se_anchor.
    rewrite !store_le_outside by lia. rewrite !store_other by lia.
    rewrite memcpy_outside by lia. unfold m0.
    apply memset_inside. unfold sizeof_smbios3_entry. lia. }
  cbv zeta. split.
  - apply Forall_load_bytes. intros x Hx.
    apply bytes_in_store with (p := se) (n := sizeof_smbios3_entry).
    + exact Hin.
    + apply table_compute_checksum_from_range. lia.
    + unfold sizeof_smbios3_entry in *. lia.
  - rewrite byte_sum_store by (unfold se_checksum, sizeof_smbios3_entry; lia).
    rewrite Hz, Z.sub_0_r. unfold table_compute_checksum.
    rewrite <- Zplus_mod_idemp_r, table_compute_checksum_from_sum, Zplus_mod_idemp_r.
    match goal with |- (?a + (0 - ?b)) mod _ = 0 => replace (a + (0 - b)) with 0 by lia end.
    reflexivity.
Qed.

(** C8: after every completed build the bytes of the entry-point
    descriptor are 8-bit values whose sum, the checksum byte included, is 0
    modulo 256; and when every structure has room for its end-of-strings
    bytes and the strings of the tree fit the buffer, a build with enough
    fuel completes, with such a descriptor. *)
Theorem entry_point_checksum addr w :
  (forall a w',
      write_smbios_table fuel cfg env addr w = Some (a, w') ->
      entry_sums_to_zero (w_mem w') addr) /\
  (config_ok cfg -> dt_fits env ->
   returns (fun f => write_smbios_table f cfg env addr) w
     (fun _ w' => entry_sums_to_zero (w_mem w') addr)).
Proof.
  assert (Hp : forall f a w',
             write_smbios_table f cfg env addr w = Some (a, w') ->
             entry_sums_to_zero (w_mem w') addr).
  { intros f a w' H. apply write_smbios_table_spec in H.
    destruct H as [_ (m & len & table_addr & Hm)]. rewrite Hm.
    apply entry_written_checksum. }
  split; [apply Hp|]. intros Hcfg Hdt.
  eapply returns_partial; [apply write_smbios_table_returns; assumption|exact Hp].
Qed.

End Assembler.

(** The slots of the cache-handle area after the cache writers of [n]
    levels ran: the slots of these levels hold the handles given out, the
    others are as before. *)
Lemma data_after_levels_area n : forall d data i h bytes,
  cache_handle_area d data = Some bytes ->
  Z.of_nat (List.length bytes) = SYSINFO_CACHE_LVL_MAX * 2 ->
  0 <= i -> i + Z.of_nat n <= SYSINFO_CACHE_LVL_MAX ->
  exists bytes',
    cache_handle_area d (data_after_levels n d data i h) = Some bytes' /\
    Z.of_nat (List.length bytes') = SYSINFO_CACHE_LVL_MAX * 2 /\
    forall j, 0 <= j ->
      load_u16 bytes' j =
        if (i <=? j) && (j <? i + Z.of_nat n) then u16 (h + (j - i))
        else load_u16 bytes j.
Proof.
  unfold SYSINFO_CACHE_LVL_MAX.
  induction n as [|n IH]; intros d data i h bytes Ha Hl Hi Hn.
  - exists bytes. split; [exact Ha|]. split; [exact Hl|]. intros j Hj.
    replace ((i <=? j) && (j <? i + Z.of_nat 0)) with false; [reflexivity|].
    symmetry. apply andb_false_iff. destruct (Z.leb_spec i j); [right|left; reflexivity].
    apply Z.ltb_ge. lia.
  - cbn [data_after_levels].
    assert (Ha1 : cache_handle_area d (data_after_cache d data i h)
                  = Some (store_u16 bytes i h)).
    { unfold data_after_cache. rewrite Ha.
      replace (Z.of_nat (List.length bytes) =? SYSINFO_CACHE_LVL_MAX * 2) with true
        by (symmetry; apply Z.eqb_eq; exact Hl).
      unfold cache_handle_area in *. destruct d; [|discriminate].
      now rewrite Z.eqb_refl. }
    destruct (IH d (data_after_cache d data i h) (i + 1) (h + 1) (store_u16 bytes i h) Ha1)
      as (bytes' & Ha' & Hl' & Hs'); [rewrite length_store_u16; exact Hl|lia|lia|].
    exists bytes'. split; [exact Ha'|]. split; [exact Hl'|]. intros j Hj.
    rewrite (Hs' j Hj).
    destruct (Z.leb_spec (i + 1) j), (Z.ltb_spec j (i + 1 + Z.of_nat n)),
      (Z.leb_spec i j), (Z.ltb_spec j (i + Z.of_nat (S n))); cbn [andb]; try lia.
    all: first [ apply load_store_u16_other; lia
               | assert (j = i) by lia; subst j; rewrite load_store_u16_same by lia;
                 f_equal; lia
               | f_equal; lia ].
Qed.

Lemma cache_count_bound d : Z.of_nat (cache_count d) <= SYSINFO_CACHE_LVL_MAX.
Proof.
  unfold cache_count, SYSINFO_CACHE_LVL_MAX.
  destruct (Z.geb_spec (cache_level d) 3); lia.
Qed.

(** In a completed build over a cache-handle area of the right size the
    processor structure refers to the cache structures written before it:
    the member of a level that has a cache structure holds the handle of
    that structure, 4 plus the level; the other members are taken from the
    area the build started with. *)
Lemma processor_links_caches fuel cfg env addr m version data ctx a w' bytes :
  write_smbios_table fuel cfg env addr (initial_state m version data ctx) = Some (a, w') ->
  cache_handle_area (build_dev cfg env) data = Some bytes ->
  Z.of_nat (List.length bytes) = SYSINFO_CACHE_LVL_MAX * 2 ->
  exists pre t4 post,
    w_out w' = pre ++ t4 :: post /\
    hdr_type (s_hdr t4) = SMBIOS_PROCESSOR_INFORMATION /\
    let n := Z.of_nat (cache_count (build_dev cfg env)) in
    let slot k := if k <? n then 4 + k
                  else if load_u16 bytes k =? 0 then u16 (SMBIOS_CACHE_HANDLE_NONE cfg)
                       else load_u16 bytes k in
    member t4 "l1_cache_handle" = slot 0 /\
    member t4 "l2_cache_handle" = slot 1 /\
    member t4 "l3_cache_handle" = slot 2.
Proof.
  intros H Ha Hl. apply write_smbios_table_spec in H.
  destruct H as [(out & Ho & Hs) _]. cbn [initial_state w_out w_data app] in Ho, Hs.
  destruct Hs as (t0 & t1 & t2 & t3 & caches & t4 & t32 & t127 & -> & _ & _ & _ & _ & _ &
                  _ & H4 & Hm & _).
  exists ([t0; t1; t2; t3] ++ caches), t4, [t32; t127].
  split; [rewrite Ho, <- app_assoc; reflexivity|]. split; [rewrite H4; reflexivity|].
  pose proof (cache_count_bound (build_dev cfg env)) as Hb.
  destruct (data_after_levels_area (cache_count (build_dev cfg env)) (build_dev cfg env)
              data 0 4 bytes Ha Hl) as (bytes' & Ha' & Hl' & Hs'); [lia|lia|].
  cbv zeta in Hm. rewrite Ha' in Hm. unfold cache_handle_member in Hm.
  replace (Z.of_nat (List.length bytes') =? SYSINFO_CACHE_LVL_MAX * 2) with true in Hm
    by (symmetry; apply Z.eqb_eq; exact Hl').
  destruct Hm as (H1 & H2 & H3). rewrite H1, H2, H3. cbv zeta.
  rewrite !Hs' by lia. unfold SYSINFO_CACHE_LVL_MAX in Hb.
  repeat split.
  all: match goal with
       | |- context [(0 <=? ?k) && (?k <? 0 + ?n)] =>
           replace ((0 <=? k) && (k <? 0 + n)) with (k <? n)
             by (destruct (Z.ltb_spec k n), (Z.ltb_spec k (0 + n)); cbn; lia);
           destruct (k <? n); reflexivity
       end.
Qed.

(** * Sample builds *)

(** C1 (code defect): in the build of the sample table with two cache
    levels the second cache structure and the processor structure both
    carry handle 5, so the handles are not unique. *)
Theorem handles_with_two_cache_levels :
  build_types (sample_build 1) = Some [0; 1; 2; 3; 7; 7; 4; 32; 127] /\
  build_handles (sample_build 1) = Some [0; 1; 2; 3; 4; 5; 5; 6; 7] /\
  ~ NoDup [0; 1; 2; 3; 4; 5; 5; 6; 7].
Proof.
  split; [vm_compute; reflexivity|]. split; [vm_compute; reflexivity|].
  intros Hn.
  repeat match goal with
         | H : NoDup (_ :: _) |- _ => inversion H; clear H; subst
         end.
  match goal with H : ~ In 5 (5 :: _) |- _ => apply H; left; reflexivity end.
Qed.

(** With one cache level the handles are the numbers 0 to 7. *)
Example handles_with_one_cache_level :
  build_handles (sample_build 0) = Some [0; 1; 2; 3; 4; 5; 6; 7].
Proof. vm_compute. reflexivity. Qed.

(** The handles of every completed build: 0 to 3, one per cache structure
    from 4 on, and then 5, 6 and 7 whatever the number of cache
    structures. *)
Lemma write_smbios_table_handles fuel cfg env addr m version data ctx a w' :
  write_smbios_table fuel cfg env addr (initial_state m version data ctx) = Some (a, w') ->
  handles (w_out w') =
    [0; 1; 2; 3]
    ++ map (fun k => u16 (4 + Z.of_nat k)) (seq 0 (cache_count (build_dev cfg env)))
    ++ [5; 6; 7].
Proof.
  intros H. apply write_smbios_table_spec in H.
  destruct H as [(out & Ho & Hs) _]. cbn [initial_state w_out app] in Ho. rewrite Ho.
  exact (table_shape_handles _ _ _ _ Hs).
Qed.

Lemma NoDup_app_disjoint (l l' : list Z) x :
  NoDup (l ++ l') -> In x l -> In x l' -> False.
Proof.
  induction l as [|y l IH]; intros Hn Hl Hl'; [destruct Hl|].
  cbn [app] in Hn. inversion Hn as [|? ? Hy Hn']; subst.
  destruct Hl as [->|Hl]; [apply Hy, in_or_app; right; exact Hl'|].
  exact (IH Hn' Hl Hl').
Qed.

(** With two or more cache structures handle 5 is given twice. *)
Lemma write_smbios_table_handles_repeat fuel cfg env addr m version data ctx a w' :
  write_smbios_table fuel cfg env addr (initial_state m version data ctx) = Some (a, w') ->
  (2 <= cache_count (build_dev cfg env))%nat ->
  ~ NoDup (handles (w_out w')).
Proof.
  intros H Hn Hnd. rewrite (write_smbios_table_handles _ _ _ _ _ _ _ _ _ _ H) in Hnd.
  apply NoDup_app_remove_l in Hnd.
  apply (NoDup_app_disjoint _ _ 5 Hnd); [|left; reflexivity].
  apply in_map_iff. exists 1%nat. split; [reflexivity|]. apply in_seq. lia.
Qed.

(** The string area of the firmware structure of the sample table: the
    vendor and the version reported by the device, the release date and
    the closing zero byte. *)
Example sample_firmware_strings :
  build_bytes (sample_build 0) (4128 + 24) 21
  = Some (codes "Acme" ++ [0] ++ codes "1.2" ++ [0] ++ codes "01/01/2025" ++ [0] ++ [0]).
Proof. vm_compute. reflexivity. Qed.

(** Patching the version of the sample table: a shorter string is accepted
    and leaves the tail of the old one, a longer string is refused. *)
Example sample_version_patch :
  option_map (fun r =>
      let '(status, m) := smbios_update_version 64 (w_smbios_version (snd r))
                            (w_mem (snd r)) "9" in
      (status, load_bytes m 4157 4)) (sample_build 0)
  = Some (0, codes "9.2" ++ [0]) /\
  option_map (fun r =>
      fst (smbios_update_version 64 (w_smbios_version (snd r)) (w_mem (snd r)) "1.2.3"))
    (sample_build 0)
  = Some (- ENOSPC).
Proof. split; vm_compute; reflexivity. Qed.

(** The processor structure of the sample table with two cache levels
    refers to the handles 4 and 5 and has no third cache. *)
Example sample_processor_cache_handles :
  option_map
    (fun r => map (fun t => (member t "l1_cache_handle", member t "l2_cache_handle",
                             member t "l3_cache_handle"))
                  (filter (fun t => hdr_type (s_hdr t) =? SMBIOS_PROCESSOR_INFORMATION)
                          (w_out (snd r))))
    (sample_build 1)
  = Some [(4, 5, 65535)].
Proof. vm_compute. reflexivity. Qed.

(** The sample configuration and the sample tree meet the conditions
    under which a build completes. *)
Ltac sample_config_ok := unfold config_ok; repeat constructor; vm_compute; discriminate.
Ltac sample_size_ok := vm_compute; discriminate.
Ltac sample_dt_fits :=
  let np := fresh "np" in
  let Hin := fresh "Hin" in
  intros np Hin; cbv [sysinfo_to_dt In] in Hin;
  repeat (destruct Hin as [<-|Hin]; [vm_compute; discriminate|]);
  destruct Hin.

Lemma chassis_handle_follows_board_witness :
  (exists a w', sample_build 0 = Some (a, w') /\ board_chassis_linked (w_out w')) /\
  returns (fun f => write_smbios_table f sample_config (sample_env 0) 4096)
    (initial_state (fun _ => 170) None sample_data blank_ctx)
    (fun _ w' => board_chassis_linked (w_out w')).
Proof.
  destruct (chassis_handle_follows_board 64 sample_config (sample_env 0) 4096
              (fun _ => 170) None sample_data blank_ctx) as [Hp Ht].
  split.
  - unfold sample_build.
    destruct (write_smbios_table _ _ _ _ _) as [[a w']|] eqn:E;
      [|vm_compute in E; discriminate].
    exists a, w'. split; [reflexivity|exact (Hp a w' eq_refl)].
  - apply Ht; [sample_config_ok|sample_dt_fits].
Defined.

Lemma cache_level_exceeded_witness :
  cache_level (build_dev sample_config (sample_env 4)) = SYSINFO_CACHE_LVL_MAX + 1 /\
  smbios_write_type7 64 sample_config (sample_env 4) 4
    (initial_state (fun _ => 170) None sample_data
       {| node := ofnode_null; dev := Some (sample_device 4); subnode_name := None;
          eos := 0; next_ptr := 0; last_str := None |})
  = Some (0, initial_state (fun _ => 170) None sample_data
               {| node := ofnode_null; dev := Some (sample_device 4);
                  subnode_name := None; eos := 0; next_ptr := 0; last_str := None |}) /\
  (exists a w',
      sample_build 4 = Some (a, w') /\
      types (w_out w') = [0; 1; 2; 3; 4; 32; 127] /\
      handles (w_out w') = [0; 1; 2; 3; 5; 6; 7]) /\
  returns (fun f => write_smbios_table f sample_config (sample_env 4) 4096)
    (initial_state (fun _ => 170) None sample_data blank_ctx)
    (fun _ w' => types (w_out w') = [0; 1; 2; 3; 4; 32; 127] /\
                 handles (w_out w') = [0; 1; 2; 3; 5; 6; 7]).
Proof.
  assert (Hl : cache_level (build_dev sample_config (sample_env 4))
               = SYSINFO_CACHE_LVL_MAX + 1) by reflexivity.
  destruct (cache_level_exceeded 64 sample_config (sample_env 4) Hl) as (H7 & Hb & Ht).
  split; [exact Hl|]. split; [apply H7; reflexivity|]. split.
  - unfold sample_build.
    destruct (write_smbios_table _ _ _ _ _) as [[a w']|] eqn:E;
      [|vm_compute in E; discriminate].
    exists a, w'. split; [reflexivity|].
    exact (Hb 4096 (fun _ => 170) None sample_data blank_ctx a w' E).
  - apply Ht; [sample_config_ok|sample_dt_fits].
Defined.

Lemma processor_cache_handles_witness :
  (exists l w' t,
      smbios_write_type4 64 sample_config (sample_env 1) 5
        (initial_state (fun _ => 170) None cached_data (device_ctx 1)) = Some (l, w') /\
      w_out w' = [t] /\
      [member t "l1_cache_handle"; member t "l2_cache_handle"; member t "l3_cache_handle"]
      = [4; 5; 65535]) /\
  (exists l w' bytes',
      smbios_write_type7_1level 64 sample_config (sample_env 1) 5 1
        (initial_state (fun _ => 170) None sample_data (device_ctx 1)) = Some (l, w') /\
      cache_handle_area (dev (w_ctx w')) (w_data w') = Some bytes' /\
      load_u16 bytes' 1 = 5) /\
  returns (fun f => smbios_write_type4 f sample_config (sample_env 1) 5)
    (initial_state (fun _ => 170) None cached_data (device_ctx 1))
    (fun _ w' => exists t, w_out w' = [t]) /\
  returns (fun f => smbios_write_type7_1level f sample_config (sample_env 1) 5 1)
    (initial_state (fun _ => 170) None sample_data (device_ctx 1))
    (fun _ w' => exists t, w_out w' = [t]).
Proof.
  split; [|split; [|split]].
  - destruct (smbios_write_type4 _ _ _ _ _) as [[l w']|] eqn:E;
      [|vm_compute in E; discriminate].
    destruct (proj1 (processor_cache_handles 64 sample_config (sample_env 1)) _ _ l w' E)
      as (t & Ho & _ & _ & H3).
    exists l, w', t. split; [reflexivity|]. split; [exact Ho|].
    rewrite (H3 [4; 0; 5; 0; 0; 0] eq_refl eq_refl). reflexivity.
  - destruct (smbios_write_type7_1level _ _ _ _ _ _) as [[l w']|] eqn:E;
      [|vm_compute in E; discriminate].
    destruct (proj1 (proj2 (processor_cache_handles 64 sample_config (sample_env 1))) _ _ _ l w'
                [0; 0; 0; 0; 0; 0] E eq_refl eq_refl)
      as (bytes' & Ha & _ & Hs & _); [unfold SYSINFO_CACHE_LVL_MAX; lia|].
    exists l, w', bytes'. split; [reflexivity|]. split; [exact Ha|exact Hs].
  - apply (proj1 (proj2 (proj2 (processor_cache_handles 64 sample_config (sample_env 1)))));
      [sample_size_ok|sample_dt_fits].
  - apply (proj2 (proj2 (proj2 (processor_cache_handles 64 sample_config (sample_env 1)))));
      [sample_size_ok|sample_dt_fits].
Defined.

Lemma entry_point_checksum_witness :
  (exists a w',
      sample_build 1 = Some (a, w') /\ entry_sums_to_zero (w_mem w') 4096) /\
  returns (fun f => write_smbios_table f sample_config (sample_env 1) 4096)
    (initial_state (fun _ => 170) None sample_data blank_ctx)
    (fun _ w' => entry_sums_to_zero (w_mem w') 4096).
Proof.
  destruct (entry_point_checksum 64 sample_config (sample_env 1) 4096
              (initial_state (fun _ => 170) None sample_data blank_ctx)) as [Hp Ht].
  split.
  - unfold sample_build.
    destruct (write_smbios_table _ _ _ _ _) as [[a w']|] eqn:E;
      [|vm_compute in E; discriminate].
    exists a, w'. split; [reflexivity|exact (Hp a w' eq_refl)].
  - apply Ht; [sample_config_ok|sample_dt_fits].
Defined.

(** The descriptor of the sample table. *)
Example sample_entry_point :
  build_entry (sample_build 1) 4096
  = Some [95; 83; 77; 51; 95; 40; 24; 3; 7; 0; 1; 0; 244; 0; 0; 0; 32; 16; 0; 0; 0; 0; 0; 0].
Proof. vm_compute. reflexivity. Qed.

(** * The string pool, exactly *)

Lemma strlen_of_string_at t : forall fuel m p l,
  strlen fuel m p = Some l -> string_at m p t -> l = len t.
Proof.
  unfold len.
  induction t as [|c t IH]; intros fuel m p l H Hat; simpl in Hat;
    (destruct fuel as [|f]; simpl in H; [discriminate|]).
  - rewrite Hat in H. simpl in H. injection H as <-. reflexivity.
  - destruct Hat as (H1 & H2 & H3).
    assert (E : (m p =? 0) = false) by (apply Z.eqb_neq; congruence).
    rewrite E in H. destruct (strlen f m (p + 1)) as [k|] eqn:Ek; [|discriminate].
    injection H as <-. rewrite (IH f m (p + 1) k Ek H3). simpl String.length. lia.
Qed.

Lemma pool_end_le ss : forall p, p <= pool_end p ss.
Proof.
  induction ss as [|s ss IH]; intros p; cbn [pool_end]; [lia|].
  specialize (IH (p + len s + 1)). pose proof (len_nonneg s). lia.
Qed.

Lemma pool_end_app ss : forall p t,
  pool_end p (ss ++ [t]) = pool_end p ss + len t + 1.
Proof.
  induction ss as [|s ss IH]; intros p t; cbn [pool_end app]; [reflexivity|apply IH].
Qed.

Lemma pool_pos_le ss : forall k p, p <= pool_pos p ss k.
Proof.
  induction ss as [|s ss IH]; intros [|k] p; cbn [pool_pos]; try lia.
  specialize (IH k (p + len s + 1)). pose proof (len_nonneg s). lia.
Qed.

Lemma string_head_nonzero m p t : t <> EmptyString -> string_at m p t -> m p <> 0.
Proof.
  destruct t as [|c t]; [congruence|]. intros _ (Ha & Hb & _). congruence.
Qed.

Lemma index_of_some t ss : forall k,
  index_of t ss = Some k -> nth_error ss k = Some t.
Proof.
  induction ss as [|s ss IH]; intros k H; cbn [index_of] in H; [discriminate|].
  destruct (String.eqb s t) eqn:E.
  - injection H as <-. apply String.eqb_eq in E. now subst.
  - destruct (index_of t ss) as [j|]; [|discriminate]. injection H as <-.
    cbn [nth_error]. now apply IH.
Qed.

(** What the loop of smbios_add_string does on a well-formed pool: it
    stops on the first string equal to [s], or at the end of the pool,
    where it writes [s]. *)
Lemma smbios_add_string_loop_exact fuel ss : forall n ctx m s p i r ctx1 m1,
  pool m p ss ->
  smbios_add_string_loop fuel n ctx m s p i = Some (r, ctx1, m1) ->
  match index_of (c_str s) ss with
  | Some k =>
      r = i + Z.of_nat k /\ m1 = m /\ ctx1 = set_last_str ctx (pool_pos p ss k)
  | None =>
      let q := pool_end p ss in
      r = i + Z.of_nat (List.length ss) /\
      ctx1 = set_next_ptr (set_last_str ctx q) (q + strlen_s s + 1) /\
      m1 = store (store (strcpy m q s) (q + strlen_s s) 0) (q + strlen_s s + 1) 0
  end.
Proof.
  induction ss as [|t ss IH]; intros n ctx m s p i r ctx1 m1 Hp H;
    (destruct n as [|n]; cbn [smbios_add_string_loop] in H; [discriminate|]).
  - cbn [pool] in Hp. rewrite Hp in H. cbn [Z.eqb] in H.
    injection H as <- <- <-. cbn [index_of pool_end List.length].
    split; [lia|split; reflexivity].
  - destruct Hp as (Hne & Hat & Hp).
    assert (E0 : (m p =? 0) = false)
      by (apply Z.eqb_neq; eapply string_head_nonzero; eassumption).
    rewrite E0 in H. cbn [index_of].
    destruct (strcmp m p s =? 0) eqn:Ec.
    + injection H as <- <- <-. apply Z.eqb_eq in Ec.
      apply (strcmp_string_at t m p s Hat) in Ec.
      replace (String.eqb t (c_str s)) with true by (symmetry; apply String.eqb_eq, Ec).
      cbn [pool_pos]. split; [lia|split; reflexivity].
    + apply Z.eqb_neq in Ec.
      assert (En : String.eqb t (c_str s) = false).
      { apply String.eqb_neq. intros Heq. apply Ec.
        apply (strcmp_string_at t m p s Hat). exact Heq. }
      rewrite En.
      destruct (strlen fuel m p) as [l|] eqn:El; [|discriminate].
      rewrite (strlen_of_string_at t fuel m p l El Hat) in H.
      replace (p + (len t + 1)) with (p + len t + 1) in H by lia.
      specialize (IH n ctx m s (p + len t + 1) (i + 1) r ctx1 m1 Hp H).
      destruct (index_of (c_str s) ss) as [k|]; cbn [option_map pool_pos pool_end List.length].
      * destruct IH as (Hr & Hm & Hc). split; [lia|split; assumption].
      * cbv zeta in IH |- *. destruct IH as (Hr & Hc & Hm). split; [lia|split; assumption].
Qed.

(** A pool grows by a string written at its end. *)
Lemma pool_extend ss : forall m m1 p t,
  pool m p ss ->
  (forall x, x < pool_end p ss -> m1 x = m x) ->
  string_at m1 (pool_end p ss) t ->
  m1 (pool_end p ss + len t + 1) = 0 ->
  pool m1 p (match t with EmptyString => ss | _ => ss ++ [t] end).
Proof.
  induction ss as [|s ss IH]; intros m m1 p t Hp Hx Hat Hz; cbn [pool_end] in *.
  - destruct t as [|c t]; [exact Hat|].
    cbn [app pool]. split; [discriminate|split; [exact Hat|exact Hz]].
  - destruct Hp as (Hne & Hs & Hp).
    assert (Hs1 : string_at m1 p s).
    { apply string_at_ext with (m := m); [exact Hs|]. intros x Hr. apply Hx.
      pose proof (pool_end_le ss (p + len s + 1)). lia. }
    specialize (IH m m1 (p + len s + 1) t Hp Hx Hat Hz).
    destruct t as [|c t]; cbn [app pool]; (split; [exact Hne|split; [exact Hs1|exact IH]]).
Qed.

Lemma strcpy_terminated s : forall m p, strcpy m p s (p + strlen_s s) = 0.
Proof.
  induction s as [|c s IH]; intros m p; cbn [strlen_s strcpy].
  - rewrite Z.add_0_r. apply store_same.
  - destruct (code c =? 0).
    + rewrite Z.add_0_r. apply store_same.
    + replace (p + (1 + strlen_s s)) with (p + 1 + strlen_s s) by lia. apply IH.
Qed.

(** The bytes that an insertion at [q] writes. *)
Lemma inserted_string s m q :
  let m1 := store (store (strcpy m q s) (q + strlen_s s) 0) (q + strlen_s s + 1) 0 in
  string_at m1 q (c_str s) /\ m1 (q + strlen_s s + 1) = 0 /\
  forall x, x < q \/ q + strlen_s s + 1 < x -> m1 x = m x.
Proof.
  intros m1. pose proof (strlen_s_nonneg s) as Hs. split; [|split].
  - apply string_at_ext with (m := strcpy m q s); [apply strcpy_string_at|].
    rewrite len_c_str. intros x Hx. unfold m1. rewrite store_other by lia.
    destruct (Z.eq_dec x (q + strlen_s s)) as [->|Hne].
    + rewrite store_same. symmetry. apply strcpy_terminated.
    + now rewrite store_other.
  - apply store_same.
  - intros x Hx. unfold m1. rewrite !store_other by lia. apply strcpy_outside. lia.
Qed.

Lemma pool_pos_string m ss : forall k p t,
  pool m p ss -> nth_error ss k = Some t -> string_at m (pool_pos p ss k) t.
Proof.
  induction ss as [|s ss IH]; intros [|k] p t Hp Hn; cbn [nth_error] in Hn; try discriminate.
  - injection Hn as <-. destruct Hp as (_ & Hs & _). exact Hs.
  - destruct Hp as (_ & _ & Hp). cbn [pool_pos]. now apply IH.
Qed.

Lemma pool_pos_before_end ss : forall k p t,
  nth_error ss k = Some t -> pool_pos p ss k + len t < pool_end p ss.
Proof.
  induction ss as [|s ss IH]; intros [|k] p t Hn; cbn [nth_error] in Hn; try discriminate.
  - injection Hn as <-. cbn [pool_pos pool_end].
    pose proof (pool_end_le ss (p + len s + 1)). lia.
  - cbn [pool_pos pool_end]. now apply IH.
Qed.

(** smbios_add_string on a well-formed pool: the number returned, the pool
    left and the pointers of the context. *)
Lemma smbios_add_string_pool fuel ctx m s ss n ctx1 m1 :
  pool m (eos ctx) ss ->
  smbios_add_string fuel ctx m (Some s) = Some (n, ctx1, m1) ->
  eos ctx1 = eos ctx /\
  pool m1 (eos ctx1) (pool_add ss s) /\
  match index_of (c_str s) ss with
  | Some k =>
      n = Z.of_nat k + 1 /\ m1 = m /\ next_ptr ctx1 = next_ptr ctx /\
      last_str ctx1 = Some (pool_pos (eos ctx) ss k)
  | None =>
      n = Z.of_nat (List.length ss) + 1 /\
      last_str ctx1 = Some (pool_end (eos ctx) ss) /\
      next_ptr ctx1 = pool_end (eos ctx) ss + strlen_s s + 1 /\
      (forall x, x < pool_end (eos ctx) ss \/ next_ptr ctx1 < x -> m1 x = m x)
  end.
Proof.
  intros Hp H. unfold smbios_add_string in H.
  pose proof (smbios_add_string_loop_exact fuel ss fuel ctx m s (eos ctx) 1 n ctx1 m1 Hp H)
    as Hx.
  unfold pool_add. destruct (index_of (c_str s) ss) as [k|] eqn:Ei.
  - destruct Hx as (-> & -> & ->). cbn [set_last_str eos next_ptr last_str].
    split; [reflexivity|]. split; [exact Hp|]. split; [lia|repeat split].
  - cbv zeta in Hx. destruct Hx as (-> & -> & ->).
    cbn [set_last_str set_next_ptr eos next_ptr last_str].
    destruct (inserted_string s m (pool_end (eos ctx) ss)) as (Hat & Hz & Hout).
    split; [reflexivity|]. split.
    + apply pool_extend with (m := m); [exact Hp| |exact Hat|].
      * intros x Hlt. apply Hout. lia.
      * rewrite len_c_str. exact Hz.
    + split; [lia|]. split; [reflexivity|]. split; [reflexivity|].
      intros x Hlt. apply Hout. lia.
Qed.

Lemma index_of_not_in t ss : ~ In t ss -> index_of t ss = None.
Proof.
  induction ss as [|s ss IH]; cbn [index_of In]; intros H; [reflexivity|].
  destruct (String.eqb s t) eqn:E.
  - apply String.eqb_eq in E. exfalso. apply H. left. exact E.
  - rewrite IH; [reflexivity|]. intros Hin. apply H. right. exact Hin.
Qed.

Lemma index_of_nodup ss : forall k t,
  NoDup ss -> nth_error ss k = Some t -> index_of t ss = Some k.
Proof.
  induction ss as [|s ss IH]; intros [|k] t Hnd Hn; cbn [nth_error] in Hn; try discriminate.
  - injection Hn as <-. cbn [index_of]. now rewrite String.eqb_refl.
  - inversion Hnd as [|? ? Hni Hnd']; subst. cbn [index_of].
    destruct (String.eqb s t) eqn:E.
    + apply String.eqb_eq in E. subst. exfalso. apply Hni.
      eapply nth_error_In. exact Hn.
    + now rewrite (IH k t Hnd' Hn).
Qed.

(** Adding strings that are distinct, not empty and not yet in the pool:
    they are numbered on from the strings held and appended in order. *)
Lemma add_strings_exact fuel l : forall ctx m ss ns ctx' m',
  pool m (eos ctx) ss ->
  NoDup (map c_str l) ->
  Forall (fun s => c_str s <> EmptyString /\ ~ In (c_str s) ss) l ->
  add_strings fuel ctx m l = Some (ns, ctx', m') ->
  ns = map Z.of_nat (seq (S (List.length ss)) (List.length l)) /\
  eos ctx' = eos ctx /\
  pool m' (eos ctx) (ss ++ map c_str l) /\
  (l <> [] -> next_ptr ctx' = pool_end (eos ctx) (ss ++ map c_str l)) /\
  (forall x, x < pool_end (eos ctx) ss -> m' x = m x).
Proof.
  induction l as [|s l IH]; intros ctx m ss ns ctx' m' Hp Hnd Hl H; cbn [add_strings] in H.
  - injection H as <- <- <-. cbn [map List.length seq]. rewrite app_nil_r.
    split; [reflexivity|]. split; [reflexivity|]. split; [exact Hp|].
    split; [intros C; contradiction|reflexivity].
  - destruct (smbios_add_string fuel ctx m (Some s)) as [[[n ctx1] m1]|] eqn:E; [|discriminate].
    destruct (add_strings fuel ctx1 m1 l) as [[[ns1 ctx2] m2]|] eqn:E2; [|discriminate].
    injection H as <- <- <-.
    inversion Hl as [|? ? [Hne Hni] Hl']; subst.
    cbn [map] in Hnd. inversion Hnd as [|? ? Hni' Hnd']; subst.
    destruct (smbios_add_string_pool fuel ctx m s ss n ctx1 m1 Hp E) as (He & Hp1 & Hx).
    unfold pool_add in Hp1. rewrite (index_of_not_in _ _ Hni) in Hp1, Hx.
    destruct Hx as (Hn & Hls & Hnp & Hout).
    assert (Hadd : match c_str s with EmptyString => ss | _ => ss ++ [c_str s] end
                   = ss ++ [c_str s]) by (destruct (c_str s); [contradiction|reflexivity]).
    rewrite Hadd, He in Hp1.
    rewrite <- He in Hp1.
    destruct (IH ctx1 m1 (ss ++ [c_str s]) ns1 ctx2 m2 Hp1 Hnd') as (Hns & He2 & Hp2 & Hnp2 & Hout2);
      [|exact E2|].
    { rewrite Forall_forall in Hl' |- *. intros t Ht. destruct (Hl' t Ht) as [Ha Hb].
      split; [exact Ha|]. intros Hin. apply in_app_or in Hin. destruct Hin as [Hin|[Heq|[]]].
      - contradiction.
      - apply Hni'. rewrite Heq. apply in_map. exact Ht. }
    rewrite He in Hp2, Hnp2, Hout2. rewrite <- app_assoc in Hp2, Hnp2. cbn [app] in Hp2, Hnp2.
    split; [|split; [congruence|split; [exact Hp2|split]]].
    + cbn [List.length seq map]. rewrite Hns, length_app. cbn [List.length].
      f_equal; [lia|]. f_equal. f_equal. lia.
    + intros _. cbn [map]. destruct l as [|s' l'].
      * cbn [add_strings] in E2. injection E2 as _ <- <-. cbn [map].
        rewrite Hnp, pool_end_app, len_c_str. reflexivity.
      * apply Hnp2. discriminate.
    + intros x Hx. rewrite Hout2.
      * apply Hout. left. exact Hx.
      * rewrite pool_end_app. pose proof (len_nonneg (c_str s)). lia.
Qed.

Lemma load_bytes_string_at t : forall m p,
  string_at m p t -> load_bytes m p (S (String.length t)) = codes t ++ [0].
Proof.
  induction t as [|c t IH]; intros m p H; cbn [string_at] in H.
  - cbn. now rewrite H.
  - destruct H as (H1 & _ & H3). cbn [load_bytes String.length]. rewrite H1.
    change (codes (String c t)) with (code c :: codes t). cbn [app]. f_equal.
    exact (IH m (p + 1) H3).
Qed.

(** The bytes of a well-formed pool, with the zero byte that ends it. *)
Lemma load_bytes_pool ss : forall m p,
  pool m p ss ->
  load_bytes m p (Z.to_nat (pool_end p ss - p + 1)) = pool_bytes ss ++ [0].
Proof.
  induction ss as [|s ss IH]; intros m p Hp; cbn [pool pool_end pool_bytes flat_map] in *.
  - replace (Z.to_nat (p - p + 1)) with 1%nat by (rewrite Z.sub_diag; reflexivity).
    cbn [load_bytes app]. now rewrite Hp.
  - destruct Hp as (_ & Hs & Hp).
    pose proof (pool_end_le ss (p + len s + 1)) as Hle. unfold len in *.
    replace (Z.to_nat (pool_end (p + Z.of_nat (String.length s) + 1) ss - p + 1))
      with (S (String.length s)
            + Z.to_nat (pool_end (p + Z.of_nat (String.length s) + 1) ss
                        - (p + Z.of_nat (String.length s) + 1) + 1))%nat by lia.
    rewrite load_bytes_app, (load_bytes_string_at s m p Hs).
    replace (p + Z.of_nat (S (String.length s))) with (p + Z.of_nat (String.length s) + 1) by lia.
    rewrite (IH m _ Hp). fold (pool_bytes ss). now rewrite <- !app_assoc.
Qed.

Lemma length_pool_bytes ss : forall p,
  Z.of_nat (List.length (pool_bytes ss)) = pool_end p ss - p.
Proof.
  induction ss as [|s ss IH]; intros p; cbn [pool_bytes flat_map pool_end List.length].
  - lia.
  - fold (pool_bytes ss). rewrite !length_app, Nat2Z.inj_add, (IH (p + len s + 1)).
    unfold codes. rewrite Nat2Z.inj_add, length_map. cbn [List.length].
    replace (List.length (list_ascii_of_string s)) with (String.length s).
    + unfold len. lia.
    + clear. induction s as [|c s IHs]; cbn; [reflexivity|now rewrite IHs].
Qed.

Lemma strcmp_zero_string_at s : forall m p, strcmp m p s = 0 -> string_at m p (c_str s).
Proof.
  induction s as [|c s IH]; intros m p H; cbn [strcmp c_str] in *.
  - exact H.
  - destruct (code c =? 0) eqn:Ec.
    + rewrite andb_false_r in H. apply Z.eqb_eq in Ec. cbn [string_at]. lia.
    + cbn [negb] in H. rewrite andb_true_r in H.
      destruct (m p =? code c) eqn:E1.
      * apply Z.eqb_eq in E1. apply Z.eqb_neq in Ec.
        cbn [string_at]. split; [exact E1|split; [exact Ec|apply IH, H]].
      * apply Z.eqb_neq in E1. lia.
Qed.

Lemma fresh_pool_adds fuel ctx m l :
  fresh_pool fuel ctx m l ->
  exists ns ctx' m',
    add_strings fuel ctx m l = Some (ns, ctx', m') /\
    ns = map Z.of_nat (seq 1 (List.length l)) /\
    eos ctx' = eos ctx /\
    pool m' (eos ctx) (map c_str l) /\
    (l <> [] -> next_ptr ctx' = pool_end (eos ctx) (map c_str l)) /\
    (forall x, x < eos ctx -> m' x = m x).
Proof.
  intros (Hz & Hnp & Hnd & Hne & Hn & Hf).
  destruct (add_strings_total fuel l ctx m [] Hz) as (ns & ctx' & m' & E & He & _).
  - exact Hn. - constructor. - exact Hf. - left. split; [exact Hnp|reflexivity].
  - exists ns, ctx', m'. split; [exact E|].
    destruct (add_strings_exact fuel l ctx m [] ns ctx' m' Hz Hnd) as (H1 & H2 & H3 & H4 & H5).
    + eapply Forall_impl; [|exact Hne]. intros s Hs. split; [exact Hs|intros []].
    + exact E.
    + cbn [app List.length] in *. repeat split; assumption.
Qed.

(** X1: in a well-formed pool smbios_add_string returns the 1-based position
    of the first string equal to its argument and changes no byte and not
    the pool cursor; when the pool holds no such string it returns the
    number of strings plus one and writes the string at the end of the
    pool; with enough fuel it returns. *)
Theorem smbios_add_string_position ctx m s ss :
  pool m (eos ctx) ss ->
  (exists f0 n ctx1 m1, forall f, (f0 <= f)%nat ->
      smbios_add_string f ctx m (Some s) = Some (n, ctx1, m1)) /\
  forall fuel n ctx1 m1,
    smbios_add_string fuel ctx m (Some s) = Some (n, ctx1, m1) ->
    pool m1 (eos ctx) (pool_add ss s) /\
    match index_of (c_str s) ss with
    | Some k => n = Z.of_nat k + 1 /\ m1 = m /\ next_ptr ctx1 = next_ptr ctx
    | None =>
        n = Z.of_nat (List.length ss) + 1 /\
        next_ptr ctx1 = pool_end (eos ctx) ss + strlen_s s + 1
    end.
Proof.
  intros Hp. split.
  - destruct (smbios_add_string_returns ctx m (Some s) ss Hp)
      as (f0 & n & ctx1 & m1 & _ & Hr & _).
    exists f0, n, ctx1, m1. exact Hr.
  - intros fuel n ctx1 m1 H.
    destruct (smbios_add_string_pool fuel ctx m s ss n ctx1 m1 Hp H) as (He & Hp1 & Hx).
    rewrite He in Hp1. split; [exact Hp1|].
    destruct (index_of (c_str s) ss).
    + destruct Hx as (Hn & Hm & Hnp & _). repeat split; assumption.
    + destruct Hx as (Hn & _ & Hnp & _). split; assumption.
Qed.

Lemma smbios_add_string_position_witness :
  pool acme_mem1 (eos acme_ctx1) ["Acme"%string] /\
  (exists ctx1 m1,
      smbios_add_string 8 acme_ctx1 acme_mem1 (Some "Acme"%string) = Some (1, ctx1, m1) /\
      m1 = acme_mem1) /\
  (exists ctx1 m1,
      smbios_add_string 8 acme_ctx1 acme_mem1 (Some "1.2"%string) = Some (2, ctx1, m1) /\
      pool m1 (eos acme_ctx1) ["Acme"; "1.2"]%string /\ next_ptr ctx1 = 9).
Proof.
  assert (Hp : pool acme_mem1 (eos acme_ctx1) ["Acme"%string]).
  { cbn [pool]. split; [discriminate|]. split; [|reflexivity].
    cbn [string_at]. repeat split; try reflexivity; discriminate. }
  destruct (smbios_add_string_position acme_ctx1 acme_mem1 "Acme" ["Acme"%string] Hp)
    as [_ Ha].
  destruct (smbios_add_string_position acme_ctx1 acme_mem1 "1.2" ["Acme"%string] Hp)
    as [_ Hb].
  split; [exact Hp|]. split.
  - destruct (smbios_add_string 8 acme_ctx1 acme_mem1 (Some "Acme"%string))
      as [[[n ctx1] m1]|] eqn:E; [|vm_compute in E; discriminate].
    destruct (Ha 8%nat n ctx1 m1 E) as (_ & Hn & Hm & _).
    exists ctx1, m1. cbn in Hn. subst n. split; [reflexivity|exact Hm].
  - destruct (smbios_add_string 8 acme_ctx1 acme_mem1 (Some "1.2"%string))
      as [[[n ctx1] m1]|] eqn:E; [|vm_compute in E; discriminate].
    destruct (Hb 8%nat n ctx1 m1 E) as (Hp1 & Hn & Hnp).
    exists ctx1, m1. cbn in Hn. subst n. split; [reflexivity|]. split; [exact Hp1|].
    rewrite Hnp. reflexivity.
Defined.

(** X2: distinct non-empty strings added to a fresh pool are numbered 1, 2,
    ..., in the order added. *)
Theorem add_strings_distinct_numbers fuel ctx m l :
  fresh_pool fuel ctx m l ->
  exists ctx' m',
    add_strings fuel ctx m l = Some (map Z.of_nat (seq 1 (List.length l)), ctx', m').
Proof.
  intros H. destruct (fresh_pool_adds fuel ctx m l H) as (ns & ctx' & m' & E & -> & _).
  exists ctx', m'. exact E.
Qed.

Lemma add_strings_distinct_numbers_witness :
  exists ctx' m',
    add_strings 16 acme_ctx zero_mem ["Acme"; "1.2"; "01/01/2025"; "x"]%string
    = Some ([1; 2; 3; 4], ctx', m').
Proof.
  apply (add_strings_distinct_numbers 16 acme_ctx zero_mem
           ["Acme"; "1.2"; "01/01/2025"; "x"]%string).
  unfold fresh_pool. split; [reflexivity|]. split; [reflexivity|].
  split; [|split; [|split]].
  - cbn [map c_str]. simpl.
    repeat constructor; cbn [In]; intros H;
      repeat (destruct H as [H|H]; [discriminate|]); exact H.
  - repeat constructor; discriminate.
  - cbn [List.length]. lia.
  - repeat constructor.
Defined.

(** A tactic for the side conditions of [fresh_pool] on given strings. *)
Ltac fresh_pool_given :=
  unfold fresh_pool; split; [reflexivity|]; split; [reflexivity|];
  split; [|split; [|split]];
  [ simpl;
    repeat (constructor;
            [cbn [In]; let H := fresh in
             intros H; repeat (destruct H as [H|H]; [discriminate H|]); exact H|]);
    constructor
  | repeat constructor; discriminate
  | cbn [List.length]; lia
  | repeat constructor ].

(** X3: the string area left by distinct non-empty strings added to a fresh
    pool is the strings in the order added, each with its terminator,
    followed by one zero byte, and smbios_string_table_len is its
    length. *)
Theorem string_area_serialized fuel ctx m l :
  fresh_pool fuel ctx m l -> l <> [] ->
  exists ns ctx' m',
    add_strings fuel ctx m l = Some (ns, ctx', m') /\
    string_area ctx' m' = pool_bytes (map c_str l) ++ [0] /\
    smbios_string_table_len ctx'
      = Z.of_nat (List.length (pool_bytes (map c_str l))) + 1.
Proof.
  intros H Hl.
  destruct (fresh_pool_adds fuel ctx m l H) as (ns & ctx' & m' & E & _ & He & Hp & Hnp & _).
  exists ns, ctx', m'. split; [exact E|].
  specialize (Hnp Hl).
  assert (Hlt : eos ctx < pool_end (eos ctx) (map c_str l)).
  { destruct l as [|s l']; [contradiction|]. cbn [map pool_end].
    pose proof (pool_end_le (map c_str l') (eos ctx + len (c_str s) + 1)).
    pose proof (len_nonneg (c_str s)). lia. }
  assert (Hlen : smbios_string_table_len ctx'
                 = pool_end (eos ctx) (map c_str l) - eos ctx + 1).
  { unfold smbios_string_table_len. rewrite Hnp, He.
    destruct (pool_end (eos ctx) (map c_str l) =? eos ctx) eqn:Eq;
      [apply Z.eqb_eq in Eq; lia|lia]. }
  split.
  - unfold string_area. rewrite Hlen, He. apply load_bytes_pool. exact Hp.
  - rewrite Hlen, (length_pool_bytes _ (eos ctx)). reflexivity.
Qed.

Lemma string_area_serialized_witness :
  exists ns ctx' m',
    add_strings 8 acme_ctx zero_mem ["Acme"; "1.2"]%string = Some (ns, ctx', m') /\
    string_area ctx' m' = [65; 99; 109; 101; 0; 49; 46; 50; 0; 0] /\
    smbios_string_table_len ctx' = 10.
Proof.
  apply (string_area_serialized 8 acme_ctx zero_mem ["Acme"; "1.2"]%string);
    [fresh_pool_given|discriminate].
Defined.

(** X4: after distinct non-empty strings were added to a fresh pool, adding
    the string of position [k] again returns [k + 1] and leaves memory and
    the pool cursor as they are. *)
Theorem add_strings_lookup fuel ctx m l :
  fresh_pool fuel ctx m l ->
  exists ns ctx' m',
    add_strings fuel ctx m l = Some (ns, ctx', m') /\
    forall k s, nth_error l k = Some s ->
      exists ctx'',
        smbios_add_string fuel ctx' m' (Some s) = Some (Z.of_nat k + 1, ctx'', m') /\
        next_ptr ctx'' = next_ptr ctx' /\
        exists q, last_str ctx'' = Some q /\ string_at m' q (c_str s).
Proof.
  intros H.
  destruct (fresh_pool_adds fuel ctx m l H) as (ns & ctx' & m' & E & _ & He & Hp & _ & _).
  destruct H as (_ & _ & Hnd & _ & Hn & Hf).
  exists ns, ctx', m'. split; [exact E|].
  intros k s Hk. rewrite <- He in Hp.
  destruct (smbios_add_string_loop_total fuel (map c_str l) fuel ctx' m' s (eos ctx') 1 Hp)
    as (r & ctx'' & m'' & ss1 & E1 & _).
  - rewrite length_map. exact Hn.
  - rewrite Forall_map. eapply Forall_impl; [|exact Hf].
    intros t Ht. cbn beta in Ht. pose proof (length_c_str t). lia.
  - assert (E2 : smbios_add_string fuel ctx' m' (Some s) = Some (r, ctx'', m'')) by exact E1.
    destruct (smbios_add_string_pool fuel ctx' m' s (map c_str l) r ctx'' m'' Hp E2)
      as (_ & _ & Hx).
    assert (Hi : index_of (c_str s) (map c_str l) = Some k).
    { apply index_of_nodup; [exact Hnd|]. rewrite nth_error_map, Hk. reflexivity. }
    rewrite Hi in Hx. destruct Hx as (-> & -> & Hnp & Hls).
    exists ctx''. split; [exact E2|]. split; [exact Hnp|].
    eexists. split; [exact Hls|].
    apply pool_pos_string; [exact Hp|]. rewrite nth_error_map, Hk. reflexivity.
Qed.

Lemma add_strings_lookup_witness :
  exists ns ctx' m',
    add_strings 8 acme_ctx zero_mem ["Acme"; "1.2"; "x"]%string = Some (ns, ctx', m') /\
    exists ctx'',
      smbios_add_string 8 ctx' m' (Some "1.2"%string) = Some (2, ctx'', m') /\
      next_ptr ctx'' = next_ptr ctx'.
Proof.
  destruct (add_strings_lookup 8 acme_ctx zero_mem ["Acme"; "1.2"; "x"]%string)
    as (ns & ctx' & m' & E & Hk); [fresh_pool_given|].
  exists ns, ctx', m'. split; [exact E|].
  destruct (Hk 1%nat "1.2"%string eq_refl) as (ctx'' & E2 & Hnp & _).
  exists ctx''. split; [exact E2|exact Hnp].
Defined.

(** X5: whatever the memory holds, a call of smbios_add_string that returns
    keeps [eos] and writes nothing below it: for a null string it returns
    0 and changes nothing; else it returns a number from 1 on, [last_str]
    points at or after [eos] to a copy of the string with its terminator,
    and the bytes changed are at most the string, its terminator and one
    more byte at that place. On a well-formed pool the call returns. *)
Theorem smbios_add_string_effect ctx m s :
  (forall fuel n ctx1 m1,
      smbios_add_string fuel ctx m s = Some (n, ctx1, m1) ->
      eos ctx1 = eos ctx /\
      match s with
      | None => n = 0 /\ ctx1 = ctx /\ m1 = m
      | Some s =>
          1 <= n /\
          exists q, last_str ctx1 = Some q /\ eos ctx <= q /\
            string_at m1 q (c_str s) /\
            forall x, x < q \/ q + strlen_s s + 1 < x -> m1 x = m x
      end) /\
  (forall ss, pool m (eos ctx) ss ->
     exists f0 n ctx1 m1, forall f, (f0 <= f)%nat ->
       smbios_add_string f ctx m s = Some (n, ctx1, m1)).
Proof.
  split.
  - intros fuel n ctx1 m1 H. destruct s as [s|]; cbn [smbios_add_string] in H.
    + pose proof (smbios_add_string_loop_number _ _ _ _ _ _ _ _ _ _ H) as Hn.
      apply smbios_add_string_loop_spec in H.
      destruct H as (q & Hq & He & Hls & Hb & Hc & _).
      split; [exact He|]. split; [exact Hn|]. exists q.
      split; [exact Hls|]. split; [exact Hq|]. split.
      * destruct Hc as [(-> & _ & _ & Hcmp)|(_ & _ & Hat & _)]; [|exact Hat].
        apply strcmp_zero_string_at. exact Hcmp.
      * intros x [Hx|Hx]; [apply Hb, Hx|].
        destruct Hc as [(-> & _)|(_ & _ & _ & _ & Ha)]; [reflexivity|apply Ha, Hx].
    + injection H as <- <- <-. repeat split.
  - intros ss Hp.
    destruct (smbios_add_string_returns ctx m s ss Hp) as (f0 & n & ctx1 & m1 & _ & E & _).
    exists f0, n, ctx1, m1. exact E.
Qed.

Lemma smbios_add_string_effect_witness :
  eos acme_ctx1 = eos acme_ctx /\
  (exists q, last_str acme_ctx1 = Some q /\ eos acme_ctx <= q /\
     string_at acme_mem1 q "Acme" /\
     forall x, x < q \/ q + strlen_s "Acme" + 1 < x -> acme_mem1 x = zero_mem x) /\
  exists f0 n ctx1 m1, forall f, (f0 <= f)%nat ->
    smbios_add_string f acme_ctx zero_mem (Some "Acme"%string) = Some (n, ctx1, m1).
Proof.
  destruct (smbios_add_string_effect acme_ctx zero_mem (Some "Acme"%string)) as [Ha Hr].
  destruct (Ha 8%nat 1 acme_ctx1 acme_mem1 eq_refl) as (He & _ & Hq).
  split; [exact He|]. split; [exact Hq|].
  apply (Hr []). reflexivity.
Defined.

(** * The configuration-tree fallback of the resolver *)

Lemma convert_sysinfo_to_dt_from_sound tbl n si e :
  convert_sysinfo_to_dt_from tbl (Some n) si = Some e ->
  In e tbl /\ si_node e = n /\ si_str e = si.
Proof.
  induction tbl as [|a tbl IH]; cbn [convert_sysinfo_to_dt_from]; [discriminate|].
  destruct (String.eqb n (si_node a) && String.eqb si (si_str a)) eqn:E.
  - intros [= <-]. apply andb_prop in E as [E1 E2].
    apply String.eqb_eq in E1, E2. split; [left; reflexivity|split; congruence].
  - intros H. destruct (IH H) as (Hin & H1 & H2). split; [right; exact Hin|split; assumption].
Qed.

Lemma convert_sysinfo_to_dt_from_null tbl si :
  convert_sysinfo_to_dt_from tbl None si = None.
Proof. induction tbl as [|a tbl IH]; cbn [convert_sysinfo_to_dt_from]; [reflexivity|exact IH]. Qed.

(** X6: convert_sysinfo_to_dt returns NULL for a NULL node name, and for a
    node name the entry of sysinfo_to_dt with that node and sysinfo string,
    which is unique; so only "product" and "manufacturer" of "system" and
    "baseboard" are mapped, to "model" with 2 tokens and to "compatible"
    with 1 token. *)
Theorem convert_sysinfo_to_dt_entry :
  (forall si, convert_sysinfo_to_dt None si = None) /\
  (forall n si e,
      convert_sysinfo_to_dt (Some n) si = Some e <->
      In e sysinfo_to_dt /\ si_node e = n /\ si_str e = si) /\
  (forall n si e,
      convert_sysinfo_to_dt (Some n) si = Some e ->
      (n = "system" \/ n = "baseboard")%string /\
      ((si = "product" /\ dt_str e = "model" /\ max e = 2%nat) \/
       (si = "manufacturer" /\ dt_str e = "compatible" /\ max e = 1%nat))%string).
Proof.
  split; [intros si; apply convert_sysinfo_to_dt_from_null|]. split.
  - intros n si e. split; [apply convert_sysinfo_to_dt_from_sound|].
    intros (Hin & <- & <-). unfold sysinfo_to_dt in Hin. cbn [In] in Hin.
    destruct Hin as [<-|[<-|[<-|[<-|[]]]]]; reflexivity.
  - intros n si e H. apply convert_sysinfo_to_dt_from_sound in H.
    destruct H as (Hin & <- & <-). unfold sysinfo_to_dt in Hin. cbn [In] in Hin.
    destruct Hin as [<-|[<-|[<-|[<-|[]]]]]; cbn [si_node si_str dt_str max];
      (split; [first [left; reflexivity|right; reflexivity]|]);
      first [left; repeat split; reflexivity|right; repeat split; reflexivity].
Qed.

Lemma last_default {A : Type} (l : list A) (d d' : A) : l <> [] -> last l d = last l d'.
Proof.
  induction l as [|a l IH]; [congruence|]. intros _. cbn [last].
  destruct l as [|b l]; [reflexivity|]. apply IH. discriminate.
Qed.

Lemma get_str_from_dt_loop_last tokens : forall str n,
  get_str_from_dt_loop str tokens n = last (firstn n tokens) str.
Proof.
  induction tokens as [|t tokens IH]; intros str [|n]; cbn [get_str_from_dt_loop firstn last];
    try reflexivity.
  rewrite IH. destruct (firstn n tokens) eqn:E; [reflexivity|].
  apply last_default. discriminate.
Qed.

Lemma has_char_string_of_list c l :
  has_char c (string_of_list_ascii l) <-> In c l.
Proof. unfold has_char. now rewrite list_ascii_of_string_of_list_ascii. Qed.

Lemma no_nul_string_of_list l :
  (forall c, In c l -> code c <> 0) -> no_nul (string_of_list_ascii l).
Proof.
  induction l as [|a l IH]; intros H; cbn [string_of_list_ascii no_nul]; [exact I|].
  split; [apply H; left; reflexivity|apply IH; intros c Hc; apply H; right; exact Hc].
Qed.

(** The tokens that strtok returns: none is empty and none holds a comma
    or a NUL character. *)
Lemma strtok_all_tokens s : forall cur,
  (forall c, In c cur -> c <> ","%char /\ code c <> 0) ->
  Forall is_token (strtok_all s cur).
Proof.
  assert (Hflush : forall cur rest,
             (forall c, In c cur -> c <> ","%char /\ code c <> 0) ->
             Forall is_token rest ->
             Forall is_token (match cur with
                              | [] => rest
                              | _ => string_of_list_ascii (rev cur) :: rest
                              end)).
  { intros cur rest Hc Hr. destruct cur as [|a cur]; [exact Hr|].
    constructor; [|exact Hr]. split; [|split].
    - intros He. apply (f_equal list_ascii_of_string) in He.
      rewrite list_ascii_of_string_of_list_ascii in He. cbn [list_ascii_of_string] in He.
      apply (f_equal (@List.length ascii)) in He. rewrite length_rev in He. discriminate.
    - rewrite has_char_string_of_list. intros Hin. apply in_rev in Hin.
      destruct (Hc _ Hin) as [Hne _]. congruence.
    - apply no_nul_string_of_list. intros c Hin. apply in_rev in Hin.
      apply (Hc _ Hin). }
  induction s as [|c s IH]; intros cur Hc; cbn [strtok_all].
  - apply Hflush; [exact Hc|constructor].
  - destruct (code c =? 0) eqn:E0; [apply Hflush; [exact Hc|constructor]|].
    destruct (Ascii.eqb c ","%char) eqn:Ec.
    + apply Hflush; [exact Hc|]. apply IH. intros ? [].
    + apply IH. intros d [<-|Hd]; [|apply Hc, Hd].
      apply Ascii.eqb_neq in Ec. apply Z.eqb_neq in E0. split; assumption.
Qed.

Lemma last_in {A : Type} (l : list A) (d : A) : l <> [] -> In (last l d) l.
Proof.
  induction l as [|a l IH]; [congruence|]. intros _. destruct l as [|b l].
  - left. reflexivity.
  - right. apply IH. discriminate.
Qed.

(** X7: for a property of the root node that fits the buffer, get_str_from_dt
    leaves in the buffer the last of the first [max] comma-separated
    tokens of the property, which holds no comma, and the property value
    as it is when it has no token. *)
Theorem get_str_from_dt_token root np size dt :
  ofnode_read_string root (dt_str np) = Some dt ->
  max np <> O ->
  strlen_s dt < size ->
  let tokens := strtok_all dt [] in
  get_str_from_dt root (Some np) size
    = Some (last (firstn (max np) tokens) (c_str dt)) /\
  (tokens = [] -> get_str_from_dt root (Some np) size = Some (c_str dt)) /\
  (tokens <> [] ->
   exists t, get_str_from_dt root (Some np) size = Some t /\
             nth_error tokens (Nat.min (max np) (List.length tokens) - 1) = Some t /\
             is_token t).
Proof.
  intros Hr Hm Hs tokens.
  assert (E : get_str_from_dt root (Some np) size
              = Some (last (firstn (max np) tokens) (c_str dt))).
  { unfold get_str_from_dt. rewrite Hr.
    destruct (max np) as [|k] eqn:Ek; [contradiction|].
    replace (size <=? strlen_s dt) with false by (symmetry; apply Z.leb_gt; exact Hs).
    now rewrite get_str_from_dt_loop_last. }
  split; [exact E|]. split.
  - intros Ht. rewrite E, Ht. now rewrite firstn_nil.
  - intros Hne. eexists. split; [exact E|].
    assert (Hf : firstn (max np) tokens <> []).
    { destruct (max np); [contradiction|]. destruct tokens; [contradiction|discriminate]. }
    split.
    + clear E. generalize (c_str dt). intros d.
      assert (Hlen : List.length (firstn (max np) tokens)
                     = Nat.min (max np) (List.length tokens)) by apply length_firstn.
      rewrite <- Hlen. clear Hlen.
      assert (Hpre : forall k, (k < List.length (firstn (max np) tokens))%nat ->
                 nth_error tokens k = nth_error (firstn (max np) tokens) k).
      { intros k Hk. rewrite nth_error_firstn.
        rewrite length_firstn in Hk.
        destruct (Nat.ltb_spec k (max np)); [reflexivity|lia]. }
      rewrite Hpre.
      * generalize dependent (firstn (max np) tokens). intros l Hl _.
        induction l as [|a l IH]; [contradiction|].
        destruct l as [|b l]; [reflexivity|].
        cbn [List.length last]. replace (S (S (List.length l)) - 1)%nat
          with (S (List.length (b :: l) - 1)) by (cbn [List.length]; lia).
        cbn [nth_error]. apply IH. discriminate.
      * destruct (firstn (max np) tokens); [contradiction|cbn [List.length]; lia].
    + assert (Hin : In (last (firstn (max np) tokens) (c_str dt)) tokens).
      { assert (Hsub : forall n (l : list string) x, In x (firstn n l) -> In x l).
        { intros n l. revert n. induction l as [|a l IHl]; intros [|n] x Hx;
            cbn [firstn In] in *; try contradiction.
          destruct Hx as [Hx|Hx]; [left; exact Hx|right; eapply IHl; exact Hx]. }
        eapply Hsub. apply last_in. exact Hf. }
      pose proof (strtok_all_tokens dt [] ltac:(intros ? [])) as Hall.
      rewrite Forall_forall in Hall. apply Hall. exact Hin.
Qed.

Lemma get_str_from_dt_token_witness :
  get_str_from_dt (root_with "model" "acme,board-x,rev2")
    (convert_sysinfo_to_dt (Some "system"%string) "product") 128
  = Some "board-x"%string /\
  get_str_from_dt (root_with "compatible" "acme,board-x")
    (convert_sysinfo_to_dt (Some "baseboard"%string) "manufacturer") 128
  = Some "acme"%string /\
  get_str_from_dt (root_with "model" "solo")
    (convert_sysinfo_to_dt (Some "system"%string) "product") 128
  = Some "solo"%string.
Proof.
  split; [|split].
  - destruct (get_str_from_dt_token (root_with "model" "acme,board-x,rev2")
                {| si_node := "system"; si_str := "product"; dt_str := "model"; max := 2 |}
                128 "acme,board-x,rev2") as [E _];
      [reflexivity|discriminate|reflexivity|exact E].
  - destruct (get_str_from_dt_token (root_with "compatible" "acme,board-x")
                {| si_node := "baseboard"; si_str := "manufacturer";
                   dt_str := "compatible"; max := 1 |}
                128 "acme,board-x") as [E _];
      [reflexivity|discriminate|reflexivity|exact E].
  - destruct (get_str_from_dt_token (root_with "model" "solo")
                {| si_node := "system"; si_str := "product"; dt_str := "model"; max := 2 |}
                128 "solo") as [E _];
      [reflexivity|discriminate|reflexivity|exact E].
Defined.

(** * The course of a writer *)

Lemma writing_opened size w :
  SMBIOS_STRUCT_EOS_BYTES <= size ->
  writing (w_current w) size w (opened size w).
Proof.
  unfold SMBIOS_STRUCT_EOS_BYTES. intros Hs.
  unfold writing, opened. cbn [w_current w_ctx w_out w_mem smbios_set_eos eos next_ptr].
  unfold SMBIOS_STRUCT_EOS_BYTES.
  split; [exact Hs|]. split; [reflexivity|]. split; [reflexivity|]. split; [reflexivity|].
  split.
  - exists []. cbn [pool pool_end]. split; [|lia].
    apply memset_inside. rewrite Z2Nat.id by lia. lia.
  - intros x Hx. apply memset_outside. rewrite Z2Nat.id by lia. lia.
Qed.

Lemma smbios_add_prop_si_source fuel cfg root ctx m prop id dval r :
  smbios_add_prop_si fuel cfg root ctx m prop id dval = Some r ->
  (exists s, smbios_add_string fuel ctx m s = Some r) \/ r = (0, ctx, m).
Proof.
  unfold smbios_add_prop_si. intros H.
  repeat match type of H with
         | context [match ?x with _ => _ end] => destruct x eqn:?
         end;
    try discriminate;
    first [ left; eexists; exact H | right; injection H as <-; reflexivity ].
Qed.

Lemma add_prop_si_state fuel cfg env prop id dval w n w' :
  add_prop_si fuel cfg env prop id dval w = Some (n, w') ->
  exists ctx m,
    smbios_add_prop_si fuel cfg (ofnode_root env) (w_ctx w) (w_mem w) prop id dval
      = Some (n, ctx, m) /\
    w' = {| w_mem := m; w_ctx := ctx; w_current := w_current w;
            w_smbios_version := w_smbios_version w; w_data := w_data w;
            w_out := w_out w |}.
Proof.
  unfold add_prop_si. intros H.
  destruct (smbios_add_prop_si fuel cfg (ofnode_root env) (w_ctx w) (w_mem w) prop id dval)
    as [[[k ctx] m]|]; [|discriminate].
  cbv [bind put_ctx put_mem ret] in H. apply some_pair_inv in H. destruct H as [<- <-].
  exists ctx, m. split; reflexivity.
Qed.

Lemma writing_stable fuel cfg env base size w0 :
  stable fuel cfg env (writing base size w0).
Proof.
  split.
  - intros prop id dval w n w' (Hs & Hc & He & Ho & (ss & Hp & Hnp) & Hm) H.
    apply add_prop_si_state in H. destruct H as (ctx & m & H & ->).
    apply smbios_add_prop_si_source in H. destruct H as [[s H]|H].
    2:{ injection H as _ -> ->.
        unfold writing. cbn [w_current w_ctx w_out w_mem].
        split; [exact Hs|]. split; [exact Hc|]. split; [exact He|]. split; [exact Ho|].
        split; [exists ss; split; assumption|exact Hm]. }
    destruct s as [s|].
    2:{ cbn [smbios_add_string] in H. injection H as _ <- <-.
        unfold writing. cbn [w_current w_ctx w_out w_mem].
        split; [exact Hs|]. split; [exact Hc|]. split; [exact He|]. split; [exact Ho|].
        split; [exists ss; split; assumption|exact Hm]. }
    destruct (smbios_add_string_pool fuel (w_ctx w) (w_mem w) s ss n ctx m Hp H)
      as (He1 & Hp1 & Hx).
    unfold writing. cbn [w_current w_ctx w_out w_mem]. rewrite He1.
    split; [exact Hs|]. split; [exact Hc|]. split; [exact He|]. split; [exact Ho|].
    rewrite He1 in Hp1. unfold pool_add in Hp1.
    pose proof (pool_end_le ss (eos (w_ctx w))) as Hge.
    pose proof (strlen_s_nonneg s) as Hl.
    unfold SMBIOS_STRUCT_EOS_BYTES in *.
    destruct (index_of (c_str s) ss) as [k|].
    + destruct Hx as (_ & -> & Hn & _). rewrite Hn.
      split; [exists ss; split; assumption|exact Hm].
    + destruct Hx as (_ & _ & Hn & Hout). rewrite Hn in *. split.
      * destruct (c_str s) as [|c cs] eqn:Ec.
        -- exists ss. split; [exact Hp1|].
           assert (strlen_s s = 0) by (rewrite <- len_c_str, Ec; reflexivity). lia.
        -- exists (ss ++ [String c cs]). split; [exact Hp1|].
           rewrite pool_end_app, <- Ec, len_c_str. lia.
      * intros x Hx. rewrite Hout by lia. apply Hm. lia.
  - intros id bytes w u w' HI H. cbv [put_data] in H.
    apply some_pair_inv in H. destruct H as [_ <-]. exact HI.
Qed.

Lemma writing_version_free base size w0 : version_free (writing base size w0).
Proof.
  intros v w u w' HI H. cbv [put_smbios_version] in H.
  apply some_pair_inv in H. destruct H as [_ <-]. exact HI.
Qed.

Lemma u8_small v : 0 <= v < 2 ^ 8 -> u8 v = v.
Proof. intros H. unfold u8. apply Z.mod_small. exact H. Qed.

Lemma smbios_add_prop_si_eq fuel cfg root ctx m prop id dval r :
  smbios_add_prop_si fuel cfg root ctx m prop id dval = Some r ->
  smbios_add_string fuel ctx m (prop_source cfg root ctx prop id dval) = Some r.
Proof.
  unfold smbios_add_prop_si, prop_source. intros H.
  repeat match type of H with
         | context [match ?x with _ => _ end] => destruct x eqn:?
         end;
    try discriminate; exact H.
Qed.

Lemma prop_source_ext cfg root ctx ctx' prop id dval :
  dev ctx' = dev ctx -> node ctx' = node ctx -> subnode_name ctx' = subnode_name ctx ->
  prop_source cfg root ctx' prop id dval = prop_source cfg root ctx prop id dval.
Proof. unfold prop_source. intros -> -> ->. reflexivity. Qed.

(** The fields of the context that say where properties come from are
    not changed by smbios_add_string. *)
Lemma smbios_add_string_from fuel s : forall ctx m n ctx1 m1,
  smbios_add_string fuel ctx m s = Some (n, ctx1, m1) ->
  dev ctx1 = dev ctx /\ node ctx1 = node ctx /\ subnode_name ctx1 = subnode_name ctx.
Proof.
  intros ctx m n ctx1 m1 H. destruct s as [s|]; cbn [smbios_add_string] in H.
  - revert H. generalize (eos ctx) as p, 1 as i. generalize fuel at 2 as k.
    induction k as [|k IH]; intros p i H; cbn [smbios_add_string_loop] in H; [discriminate|].
    destruct (m p =? 0); [injection H as _ <- _; repeat split|].
    destruct (strcmp m p s =? 0); [injection H as _ <- _; repeat split|].
    destruct (strlen fuel m p); [|discriminate]. eapply IH, H.
  - injection H as _ <- _. repeat split.
Qed.

Lemma nonempty_some o s : nonempty o = Some s -> strlen_s s <> 0.
Proof.
  unfold nonempty. destruct o as [t|]; [|discriminate].
  destruct (strlen_s t =? 0) eqn:E; [discriminate|]. intros [= <-].
  apply Z.eqb_neq, E.
Qed.

Lemma or_else_some o dval s :
  or_else o (nonempty dval) = Some s -> strlen_s s <> 0.
Proof.
  unfold or_else. destruct (nonempty o) as [t|] eqn:E.
  - intros [= <-]. apply (nonempty_some _ _ E).
  - apply nonempty_some.
Qed.

(** The string handed to smbios_add_string is not empty when the device
    reports no empty string. *)
Lemma prop_source_nonempty cfg root ctx prop id dval s :
  reports_strings cfg (dev ctx) ->
  prop_source cfg root ctx prop id dval = Some s -> strlen_s s <> 0.
Proof.
  intros Hd. unfold prop_source.
  destruct (negb (id =? 0) && is_some (dev ctx)).
  - destruct (sysinfo_get_str (dev ctx) id (Z.of_nat (SMBIOS_STR_MAX cfg))) as [val|] eqn:E.
    + intros [= <-]. apply (Hd _ _ E).
    + destruct prop as [prop|]; [|apply nonempty_some].
      destruct (CONFIG_OF_CONTROL cfg); [|discriminate].
      destruct (ofnode_valid (node ctx)); [apply or_else_some|].
      destruct (get_str_from_dt root _ 128); [apply or_else_some|discriminate].
  - destruct prop as [prop|]; [|apply nonempty_some].
    destruct (CONFIG_OF_CONTROL cfg); [|discriminate].
    destruct (ofnode_valid (node ctx)); [apply or_else_some|].
    destruct (get_str_from_dt root _ 128); [apply or_else_some|discriminate].
Qed.

Lemma writing_exact_opened cfg size w :
  SMBIOS_STRUCT_EOS_BYTES <= size ->
  writing_exact cfg (dev (w_ctx w)) (opened size w).
Proof.
  unfold SMBIOS_STRUCT_EOS_BYTES. intros Hs.
  unfold writing_exact, opened. cbn [w_ctx w_mem smbios_set_eos dev eos next_ptr].
  unfold SMBIOS_STRUCT_EOS_BYTES.
  split; [reflexivity|]. intros _. exists []. cbn [pool pool_end].
  split; [|split; [reflexivity|intros _]];
    apply memset_inside; rewrite Z2Nat.id by lia; lia.
Qed.

Lemma writing_exact_stable fuel cfg env d : stable fuel cfg env (writing_exact cfg d).
Proof.
  split.
  - intros prop id dval w n w' (Hd & Hx) H.
    apply add_prop_si_state in H. destruct H as (ctx & m & H & ->).
    apply smbios_add_prop_si_eq in H.
    destruct (smbios_add_string_from _ _ _ _ _ _ _ H) as (Hd1 & _ & _).
    unfold writing_exact. cbn [w_ctx w_mem].
    split; [congruence|]. intros Hr. destruct (Hx Hr) as (ss & Hp & Hn & Hz).
    destruct (prop_source cfg (ofnode_root env) (w_ctx w) prop id dval) as [s|] eqn:Es.
    2:{ cbn [smbios_add_string] in H. injection H as _ <- <-.
        exists ss. split; [exact Hp|split; assumption]. }
    assert (Hs : strlen_s s <> 0).
    { eapply prop_source_nonempty; [|exact Es]. rewrite Hd. exact Hr. }
    destruct (smbios_add_string_pool fuel (w_ctx w) (w_mem w) s ss n ctx m Hp H)
      as (He1 & Hp1 & Hc).
    unfold pool_add in Hp1. rewrite He1 in *.
    destruct (index_of (c_str s) ss) as [k|].
    + destruct Hc as (_ & -> & Hn1 & _). exists ss.
      split; [exact Hp1|]. split; [congruence|exact Hz].
    + destruct Hc as (_ & _ & Hn1 & _).
      destruct (c_str s) as [|c cs] eqn:Ec.
      { exfalso. apply Hs. rewrite <- len_c_str, Ec. reflexivity. }
      exists (ss ++ [String c cs]). split; [exact Hp1|]. split.
      * rewrite Hn1, pool_end_app, <- Ec, len_c_str. reflexivity.
      * intros C. destruct ss; discriminate.
  - intros id bytes w u w' HI H. cbv [put_data] in H.
    apply some_pair_inv in H. destruct H as [_ <-]. exact HI.
Qed.

Lemma writing_exact_version_free cfg d : version_free (writing_exact cfg d).
Proof.
  intros v w u w' HI H. cbv [put_smbios_version] in H.
  apply some_pair_inv in H. destruct H as [_ <-]. exact HI.
Qed.

(** The ending of a writer, from the state in which its strings were
    written. *)
Lemma end_struct_laid_out cfg base size w0 w t l w' :
  writing base size w0 w ->
  writing_exact cfg (dev (w_ctx w0)) w ->
  base = w_current w0 ->
  size < 2 ^ 8 + SMBIOS_STRUCT_EOS_BYTES ->
  hdr_length (s_hdr t) = u8 (size - SMBIOS_STRUCT_EOS_BYTES) ->
  s_addr t = base ->
  end_struct t w = Some (l, w') ->
  laid_out cfg w0 l w' /\ size <= l.
Proof.
  intros (Hs & Hc & He & Ho & (ss & Hp & Hnp) & Hm) (Hd & Hx) -> Hsz Hh Ha H.
  cbv [end_struct bind get_state put_current emit ret] in H.
  apply some_pair_inv in H. destruct H as [<- <-].
  unfold laid_out. cbn [w_current w_mem w_out w_ctx].
  pose proof (pool_end_le ss (eos (w_ctx w))) as Hge.
  unfold SMBIOS_STRUCT_EOS_BYTES in *.
  rewrite Hh, u8_small by lia.
  assert (Hlen : smbios_string_table_len (w_ctx w)
                 = Z.max (eos (w_ctx w) + 2) (next_ptr (w_ctx w) + 1) - eos (w_ctx w)).
  { unfold smbios_string_table_len.
    destruct (next_ptr (w_ctx w) =? eos (w_ctx w)) eqn:E;
      [apply Z.eqb_eq in E|apply Z.eqb_neq in E]; lia. }
  rewrite Hlen, Hc.
  split; [|lia]. split; [reflexivity|]. split; [|split; [exact Hd|]].
  - intros x Hx'. apply Hm. lia.
  - exists t. split; [now rewrite Ho|]. split; [exact Ha|].
    rewrite Hh, u8_small by lia. split; [lia|]. split; [lia|].
    intros Hr. destruct (Hx Hr) as (ss' & Hp' & Hn' & Hz').
    exists ss'. unfold strings_at.
    replace (w_current w0 + (size - 2)) with (eos (w_ctx w)) by lia.
    split; [exact Hp'|]. split; [exact Hz'|]. rewrite Hn'. lia.
Qed.

Section Bodies.

Variable fuel : nat.
Variable cfg : config.
Variable env : environment.
Variable vf : bool.

Lemma transfers_refl w : transfers fuel cfg env vf w w.
Proof. intros I _ _ H. exact H. Qed.

Lemma transfers_add_prop_si o w prop id dval n w' :
  transfers fuel cfg env vf o w ->
  add_prop_si fuel cfg env prop id dval w = Some (n, w') ->
  transfers fuel cfg env vf o w'.
Proof.
  intros HT H I Hst Hv H0. destruct Hst as [Ha Hd].
  eapply Ha; [|exact H]. apply HT; [split; assumption|exact Hv|exact H0].
Qed.

Lemma transfers_str_member o w t name prop id dval t' w' :
  transfers fuel cfg env vf o w ->
  str_member fuel cfg env t name prop id dval w = Some (t', w') ->
  transfers fuel cfg env vf o w' /\ exists v, t' = set_member t name v.
Proof.
  intros HT H. unfold str_member in H. apply bind_inv in H.
  destruct H as (n & w1 & Hc & H). unfold ret in H. apply some_pair_inv in H.
  destruct H as [<- <-]. split; [|eexists; reflexivity].
  eapply transfers_add_prop_si; eassumption.
Qed.

Lemma transfers_int_member o w t name width prop id t' w' :
  transfers fuel cfg env vf o w ->
  int_member cfg t name width prop id w = Some (t', w') ->
  transfers fuel cfg env vf o w' /\ exists v, t' = set_member t name v.
Proof.
  intros HT H. cbv [int_member bind get_val_si get_state ret] in H.
  apply some_pair_inv in H. destruct H as [<- <-]. split; [exact HT|eexists; reflexivity].
Qed.

Lemma transfers_get_state o w a w' :
  transfers fuel cfg env vf o w -> get_state w = Some (a, w') ->
  transfers fuel cfg env vf o w' /\ a = w.
Proof. intros HT H. apply get_state_spec in H. destruct H as [-> ->]. split; [exact HT|reflexivity]. Qed.

Lemma transfers_sysinfo_get_data o w d id a w' :
  transfers fuel cfg env vf o w -> sysinfo_get_data d id w = Some (a, w') ->
  transfers fuel cfg env vf o w'.
Proof. intros HT H. apply sysinfo_get_data_spec in H. destruct H as [_ ->]. exact HT. Qed.

Lemma transfers_put_data o w id bytes u w' :
  transfers fuel cfg env vf o w -> put_data id bytes w = Some (u, w') ->
  transfers fuel cfg env vf o w'.
Proof.
  intros HT H I Hst Hv H0. destruct Hst as [Ha Hd].
  eapply Hd; [|exact H]. apply HT; [split; assumption|exact Hv|exact H0].
Qed.

Lemma transfers_ret {A : Type} o w (a a' : A) w' :
  transfers fuel cfg env vf o w -> ret a w = Some (a', w') ->
  transfers fuel cfg env vf o w' /\ a' = a.
Proof.
  intros HT H. unfold ret in H. apply some_pair_inv in H. destruct H as [<- <-].
  split; [exact HT|reflexivity].
Qed.

(** One step of the body of a writer. *)
Ltac bstep H HT :=
  let a := fresh "t" in
  let w1 := fresh "w" in
  let Hc := fresh "Hc" in
  let HT' := fresh "HT" in
  apply bind_inv in H; destruct H as (a & w1 & Hc & H); cbv beta zeta in H;
  first [ destruct (transfers_str_member _ _ _ _ _ _ _ _ _ HT Hc) as [HT' [? ->]]
        | destruct (transfers_int_member _ _ _ _ _ _ _ _ _ HT Hc) as [HT' [? ->]]
        | destruct (transfers_get_state _ _ _ _ HT Hc) as [HT' ->]
        | pose proof (transfers_sysinfo_get_data _ _ _ _ _ _ HT Hc) as HT'
        | pose proof (transfers_add_prop_si _ _ _ _ _ _ _ HT Hc) as HT'
        | pose proof (transfers_put_data _ _ _ _ _ _ HT Hc) as HT' ];
  clear HT Hc; rename HT' into HT.

(** The opening of a writer: the structure as begin_struct returns it and
    the state after the pool was reset at [e], the address of the [eos]
    member. *)
Ltac bopen H HT :=
  let t := fresh "t" in
  let wa := fresh "w" in
  let Hb := fresh "Hb" in
  let u := fresh "u" in
  let wb := fresh "w" in
  let Hs := fresh "Hs" in
  cbv beta zeta in H;
  apply bind_inv in H; destruct H as (t & wa & Hb & H);
  cbv [begin_struct bind get_state put_mem ret] in Hb;
  apply some_pair_inv in Hb; destruct Hb as [<- <-]; cbv beta zeta in H;
  apply bind_inv in H; destruct H as (u & wb & Hs & H);
  cbv [set_eos bind get_state put_ctx] in Hs;
  apply some_pair_inv in Hs; destruct Hs as [_ <-]; cbv beta zeta in H;
  match type of H with
  | _ ?w0 = Some _ =>
      match goal with
      | |- struct_body _ _ _ _ _ ?size _ ?w _ _ =>
          assert (HT : transfers fuel cfg env vf (opened size w) w0)
            by (apply transfers_refl)
      end
  end.

Ltac bclose H HT :=
  eexists _, _; split; [|split; [|split; [exact HT|exact H]]]; reflexivity.

Lemma smbios_write_type2_body handle w l w' :
  smbios_write_type2 fuel cfg env handle w = Some (l, w') ->
  struct_body fuel cfg env vf SMBIOS_BOARD_INFORMATION (sizeof_type2 cfg) handle w l w'.
Proof.
  unfold smbios_write_type2. intros H. bopen H HT.
  do 8 bstep H HT. bclose H HT.
Qed.

Lemma smbios_write_type3_body handle w l w' :
  smbios_write_type3 fuel cfg env handle w = Some (l, w') ->
  struct_body fuel cfg env vf SMBIOS_SYSTEM_ENCLOSURE (sizeof_type3 cfg + 0) handle w l w'.
Proof.
  unfold smbios_write_type3. intros H. bopen H HT.
  do 13 bstep H HT. bclose H HT.
Qed.

Lemma strlcpy_members_addr names : forall t s,
  s_addr (strlcpy_members t names s) = s_addr t.
Proof.
  induction names as [|nm names IH]; intros t s; [reflexivity|].
  cbn [strlcpy_members]. destruct names as [|nm' names']; [reflexivity|].
  destruct s as [|c s]; [reflexivity|].
  destruct (code c =? 0); [reflexivity|]. now rewrite IH.
Qed.

Lemma smbios_write_type1_body handle w l w' :
  smbios_write_type1 fuel cfg env handle w = Some (l, w') ->
  struct_body fuel cfg env vf SMBIOS_SYSTEM_INFORMATION (sizeof_type1 cfg) handle w l w'.
Proof.
  unfold smbios_write_type1. intros H. bopen H HT.
  do 3 bstep H HT.
  apply bind_inv in H. destruct H as (ts & ws & Hc & H).
  assert (Hs : transfers fuel cfg env vf (opened (sizeof_type1 cfg) w) ws /\
               s_hdr ts = fill_smbios_header SMBIOS_SYSTEM_INFORMATION
                            (sizeof_type1 cfg) handle /\
               s_addr ts = w_current w).
  { destruct (env_serial env) as [serial|].
    - apply bind_inv in Hc. destruct Hc as (n & wn & Ha & Hr).
      unfold ret in Hr. apply some_pair_inv in Hr. destruct Hr as [<- <-].
      split; [eapply transfers_add_prop_si; eassumption|].
      rewrite strlcpy_members_hdr, strlcpy_members_addr. split; reflexivity.
    - destruct (transfers_str_member _ _ _ _ _ _ _ _ _ HT Hc) as [HT' [? ->]].
      split; [exact HT'|split; reflexivity]. }
  clear Hc HT. destruct Hs as (HT & Hh & Ha). cbv beta zeta in H.
  do 3 bstep H HT.
  eexists _, _. split; [|split; [|split; [exact HT|exact H]]]; cbn [s_hdr s_addr set_member];
    assumption.
Qed.

Lemma smbios_write_type4_dm_body o t w t' w' :
  transfers fuel cfg env vf o w ->
  smbios_write_type4_dm fuel cfg env t w = Some (t', w') ->
  transfers fuel cfg env vf o w' /\ s_hdr t' = s_hdr t /\ s_addr t' = s_addr t.
Proof.
  unfold smbios_write_type4_dm. intros HT H.
  destruct (uclass_first_cpu env) as [plat|]; cbv beta zeta iota in H.
  all: apply bind_inv in H; destruct H as (pf & w1 & Hpf & H).
  all: assert (HT1 : transfers fuel cfg env vf o w1)
    by (match type of Hpf with
        | (if ?b then _ else _) _ = _ => destruct b
        end; cbv [bind get_val_si get_state ret] in Hpf;
        apply some_pair_inv in Hpf; destruct Hpf as [_ <-]; exact HT).
  all: clear Hpf HT; apply bind_inv in H; destruct H as (t1 & w2 & Ht1 & H).
  all: assert (HT2 : transfers fuel cfg env vf o w2 /\
                     s_hdr t1 = s_hdr t /\ s_addr t1 = s_addr t)
    by (match type of Ht1 with
        | (if ?b then _ else _) _ = _ => destruct b
        end;
        [destruct (transfers_int_member _ _ _ _ _ _ _ _ _ HT1 Ht1) as [HT' [? ->]];
         split; [exact HT'|split; reflexivity]
        |destruct (transfers_ret _ _ _ _ _ HT1 Ht1) as [HT' ->];
         split; [exact HT'|split; reflexivity]]).
  all: clear Ht1 HT1; destruct HT2 as (HT & Hh & Ha); cbv beta zeta in H.
  all: do 2 bstep H HT.
  all: match type of H with
       | (if ?b then _ else _) _ = _ => destruct b
       end.
  all: try (destruct (transfers_ret _ _ _ _ _ HT H) as [HT' ->];
            split; [exact HT'|split; cbn [s_hdr s_addr set_member]; assumption]).
  all: do 2 bstep H HT.
  all: match type of H with
       | match ?x with _ => _ end _ = _ =>
           destruct x as [bytes|]; [destruct (Z.of_nat (List.length bytes) =? 8)|]
       end.
  all: destruct (transfers_ret _ _ _ _ _ HT H) as [HT' ->];
    split; [exact HT'|split; cbn [s_hdr s_addr set_member]; assumption].
Qed.

Lemma smbios_write_type4_body handle w l w' :
  smbios_write_type4 fuel cfg env handle w = Some (l, w') ->
  struct_body fuel cfg env vf SMBIOS_PROCESSOR_INFORMATION (sizeof_type4 cfg) handle w l w'.
Proof.
  unfold smbios_write_type4. intros H. bopen H HT.
  do 2 bstep H HT.
  apply bind_inv in H. destruct H as (tdm & wdm & Hdm & H).
  destruct (smbios_write_type4_dm_body _ _ _ _ _ HT Hdm) as (HT' & Hh & Ha).
  clear HT Hdm. rename HT' into HT. cbv beta zeta in H.
  do 6 bstep H HT. do 2 bstep H HT. cbv beta zeta in H.
  do 11 bstep H HT.
  eexists _, _. split; [|split; [|split; [exact HT|exact H]]].
  - repeat match goal with
           | |- context [match ?x with _ => _ end] => destruct x
           end; cbn [s_hdr set_member]; exact Hh.
  - repeat match goal with
           | |- context [match ?x with _ => _ end] => destruct x
           end; cbn [s_addr set_member]; exact Ha.
Qed.

Lemma smbios_write_type7_1level_body handle level w l w' :
  smbios_write_type7_1level fuel cfg env handle level w = Some (l, w') ->
  struct_body fuel cfg env vf SMBIOS_CACHE_INFORMATION (sizeof_type7 cfg) handle w l w'.
Proof.
  unfold smbios_write_type7_1level. intros H. bopen H HT.
  do 12 bstep H HT. do 2 bstep H HT.
  apply bind_inv in H. destruct H as (up & wc & Hput & H).
  assert (HT' : transfers fuel cfg env vf (opened (sizeof_type7 cfg) w) wc).
  { match type of Hput with
    | match ?x with _ => _ end _ = _ =>
        destruct x as [bytes|];
        [destruct (Z.of_nat (List.length bytes) =? SYSINFO_CACHE_LVL_MAX * 2)|]
    end.
    - eapply transfers_put_data; eassumption.
    - destruct (transfers_ret _ _ _ _ _ HT Hput) as [HT' _]. exact HT'.
    - destruct (transfers_ret _ _ _ _ _ HT Hput) as [HT' _]. exact HT'. }
  clear HT Hput. bclose H HT'.
Qed.

Lemma transfers_put_smbios_version o w v u w' :
  vf = true ->
  transfers fuel cfg env vf o w -> put_smbios_version v w = Some (u, w') ->
  transfers fuel cfg env vf o w'.
Proof.
  intros Hvf HT H I Hst Hv H0.
  eapply (Hv Hvf); [|exact H]. apply HT; [exact Hst|exact Hv|exact H0].
Qed.

Lemma smbios_write_type0_body handle w l w' :
  vf = true ->
  smbios_write_type0 fuel cfg env handle w = Some (l, w') ->
  struct_body fuel cfg env vf SMBIOS_BIOS_INFORMATION (sizeof_type0 cfg) handle w l w'.
Proof.
  unfold smbios_write_type0. intros Hvf H. bopen H HT.
  do 2 bstep H HT.
  apply bind_inv in H. destruct H as (uv & wv & Hv & H).
  assert (HT' : transfers fuel cfg env vf (opened (sizeof_type0 cfg) w) wv).
  { destruct (member _ _ =? 0).
    - destruct (transfers_ret _ _ _ _ _ HT Hv) as [HT' _]. exact HT'.
    - apply bind_inv in Hv. destruct Hv as (wg & wg' & Hg & Hv).
      apply get_state_spec in Hg. destruct Hg as [-> ->].
      eapply transfers_put_smbios_version; eassumption. }
  clear HT Hv. rename HT' into HT. cbv beta zeta in H.
  bstep H HT.
  eexists _, _. split; [|split; [|split; [exact HT|exact H]]].
  - destruct (CONFIG_ROM_SIZE cfg) as [rom|]; [destruct (rom <? SZ_16M)|];
      destruct (CONFIG_GENERATE_ACPI_TABLE cfg); destruct (CONFIG_EFI_LOADER cfg);
      reflexivity.
  - destruct (CONFIG_ROM_SIZE cfg) as [rom|]; [destruct (rom <? SZ_16M)|];
      destruct (CONFIG_GENERATE_ACPI_TABLE cfg); destruct (CONFIG_EFI_LOADER cfg);
      reflexivity.
Qed.

End Bodies.

(** * Layout of the structures *)

Lemma tiled_app ts1 : forall lo mid ts2 hi,
  tiled lo ts1 mid -> tiled mid ts2 hi -> tiled lo (ts1 ++ ts2) hi.
Proof.
  induction ts1 as [|t ts1 IH]; intros lo mid ts2 hi H1 H2; cbn [tiled app] in *.
  - subst mid. exact H2.
  - destruct H1 as (Ha & Hh & next & Hn & H1). split; [exact Ha|]. split; [exact Hh|].
    exists next. split; [exact Hn|]. eapply IH; eassumption.
Qed.

Lemma pool_ext ss : forall m m' p,
  pool m p ss -> (forall x, p <= x <= pool_end p ss -> m' x = m x) -> pool m' p ss.
Proof.
  induction ss as [|s ss IH]; intros m m' p H Hx; cbn [pool pool_end] in *.
  - rewrite Hx by lia. exact H.
  - destruct H as (Hne & Hat & H).
    pose proof (pool_end_le ss (p + len s + 1)) as Hle.
    pose proof (len_nonneg s) as Hl.
    split; [exact Hne|]. split.
    + apply string_at_ext with (m := m); [exact Hat|]. intros x Hr. apply Hx. lia.
    + apply (IH m m' _ H). intros x Hr. apply Hx. lia.
Qed.

Lemma strings_at_bounds m e ss hi :
  strings_at m e ss hi -> e + 2 <= hi /\ pool_end e ss < hi.
Proof. intros (_ & _ & ->). lia. Qed.

Lemma walkable_le m ts : forall lo hi, walkable m lo ts hi -> lo <= hi.
Proof.
  induction ts as [|t ts IH]; intros lo hi H; cbn [walkable] in H; [lia|].
  destruct H as (_ & Hh & ss & next & Hs & H). apply IH in H.
  apply strings_at_bounds in Hs. lia.
Qed.

(** A walk depends only on the bytes walked. *)
Lemma walkable_ext m m' ts : forall lo hi,
  walkable m lo ts hi -> (forall x, lo <= x < hi -> m' x = m x) -> walkable m' lo ts hi.
Proof.
  induction ts as [|t ts IH]; intros lo hi H Hx; cbn [walkable] in *; [exact H|].
  destruct H as (Ha & Hh & ss & next & Hs & H).
  pose proof (walkable_le _ _ _ _ H) as Hle.
  pose proof (strings_at_bounds _ _ _ _ Hs) as [Hb1 Hb2].
  split; [exact Ha|]. split; [exact Hh|]. exists ss, next. split.
  - destruct Hs as (Hp & Hz & Hn). unfold strings_at.
    split; [|split; [|exact Hn]].
    + apply (pool_ext ss m m' _ Hp). intros x Hr. apply Hx. lia.
    + intros E. rewrite Hx by lia. apply Hz, E.
  - apply IH; [exact H|]. intros x Hr. apply Hx. lia.
Qed.

Lemma walkable_app m ts1 : forall lo mid ts2 hi,
  walkable m lo ts1 mid -> walkable m mid ts2 hi -> walkable m lo (ts1 ++ ts2) hi.
Proof.
  induction ts1 as [|t ts1 IH]; intros lo mid ts2 hi H1 H2; cbn [walkable app] in *.
  - subst mid. exact H2.
  - destruct H1 as (Ha & Hh & ss & next & Hs & H1). split; [exact Ha|]. split; [exact Hh|].
    exists ss, next. split; [exact Hs|]. eapply IH; eassumption.
Qed.

Lemma advanced_refl cfg w : advanced cfg w 0 w.
Proof.
  unfold advanced. split; [lia|]. split; [lia|]. split; [reflexivity|].
  split; [reflexivity|].
  exists []. rewrite app_nil_r. split; [reflexivity|]. cbn [tiled walkable].
  split; [reflexivity|intros _; reflexivity].
Qed.

Lemma advanced_trans cfg w l1 w1 l2 w2 :
  advanced cfg w l1 w1 -> advanced cfg w1 l2 w2 -> advanced cfg w (l1 + l2) w2.
Proof.
  intros (Hc1 & Hl1 & Hm1 & Hd1 & ts1 & Ho1 & Hs1 & Hw1)
         (Hc2 & Hl2 & Hm2 & Hd2 & ts2 & Ho2 & Hs2 & Hw2).
  unfold advanced. split; [lia|]. split; [lia|]. split; [|split; [congruence|]].
  - intros x Hx. rewrite Hm2 by lia. apply Hm1. lia.
  - exists (ts1 ++ ts2). split; [rewrite Ho2, Ho1, app_assoc; reflexivity|]. split.
    + eapply tiled_app; eassumption.
    + intros Hr. apply walkable_app with (mid := w_current w1).
      * apply walkable_ext with (m := w_mem w1); [apply Hw1, Hr|].
        intros x Hx. apply Hm2. lia.
      * apply Hw2. rewrite Hd1. exact Hr.
Qed.

(** A step that changes only the context, and not its device. *)
Lemma advanced_put_ctx cfg w l w' ctx u w1 :
  put_ctx ctx w = Some (u, w1) -> dev ctx = dev (w_ctx w) ->
  advanced cfg w1 l w' -> advanced cfg w l w'.
Proof.
  intros H Hd. cbv [put_ctx] in H. apply some_pair_inv in H. destruct H as [_ <-].
  unfold advanced. cbn [w_current w_mem w_out w_ctx]. rewrite Hd.
  intros Ha. exact Ha.
Qed.

Lemma laid_out_advanced cfg w l w' :
  laid_out cfg w l w' -> SMBIOS_STRUCT_EOS_BYTES <= l -> advanced cfg w l w'.
Proof.
  unfold SMBIOS_STRUCT_EOS_BYTES.
  intros (Hc & Hm & Hd & t & Ho & Ha & Hh0 & Hh & Hw) Hl. unfold advanced.
  split; [exact Hc|]. split; [lia|]. split; [exact Hm|]. split; [exact Hd|].
  exists [t]. split; [exact Ho|]. cbn [tiled walkable]. split.
  - split; [exact Ha|]. split; [exact Hh0|].
    exists (w_current w'). split; [lia|reflexivity].
  - intros Hr. destruct (Hw Hr) as (ss & Hs).
    split; [exact Ha|]. split; [exact Hh0|]. exists ss, (w_current w').
    split; [exact Hs|reflexivity].
Qed.

Section Layout.

Variable fuel : nat.
Variable cfg : config.
Variable env : environment.

Lemma struct_body_laid_out vf type size handle w l w' :
  SMBIOS_STRUCT_EOS_BYTES <= size < 2 ^ 8 + SMBIOS_STRUCT_EOS_BYTES ->
  struct_body fuel cfg env vf type size handle w l w' ->
  laid_out cfg w l w' /\ size <= l.
Proof.
  intros Hs (t & w2 & Hh & Ha & HT & H).
  apply (end_struct_laid_out cfg (w_current w) size w w2 t l w').
  - apply HT; [apply writing_stable|intros _; apply writing_version_free|].
    apply writing_opened. lia.
  - apply HT; [apply writing_exact_stable|intros _; apply writing_exact_version_free|].
    apply writing_exact_opened. lia.
  - reflexivity.
  - lia.
  - rewrite Hh. reflexivity.
  - exact Ha.
  - exact H.
Qed.

Lemma fixed_laid_out type size handle w wb t l w' :
  SMBIOS_STRUCT_EOS_BYTES <= size < 2 ^ 8 + SMBIOS_STRUCT_EOS_BYTES ->
  s_addr t = w_current w ->
  s_hdr t = fill_smbios_header type size handle ->
  w_mem wb = memset (w_mem w) (w_current w) 0 (Z.to_nat size) ->
  w_current wb = w_current w ->
  w_out wb = w_out w ->
  dev (w_ctx wb) = dev (w_ctx w) ->
  end_struct_fixed t size wb = Some (l, w') ->
  laid_out cfg w l w' /\ size <= l.
Proof.
  unfold SMBIOS_STRUCT_EOS_BYTES. intros Hs Ha Hh Hm Hc Ho Hd H.
  cbv [end_struct_fixed bind get_state put_current emit ret] in H.
  apply some_pair_inv in H. destruct H as [<- <-].
  unfold laid_out. cbn [w_current w_mem w_out w_ctx]. rewrite Hm, Hc, Ho.
  split; [|lia]. split; [reflexivity|]. split; [|split; [exact Hd|]].
  - intros x Hx. apply memset_outside. rewrite Z2Nat.id by lia. lia.
  - exists t. split; [reflexivity|]. split; [exact Ha|].
    rewrite Hh. cbn [hdr_length fill_smbios_header]. unfold SMBIOS_STRUCT_EOS_BYTES.
    rewrite u8_small by lia. split; [lia|]. split; [lia|].
    intros _. exists []. unfold strings_at. cbn [pool pool_end].
    split; [|split; [intros _|lia]];
      apply memset_inside; rewrite Z2Nat.id by lia; lia.
Qed.

Lemma smbios_write_type32_laid_out handle w l w' :
  SMBIOS_STRUCT_EOS_BYTES <= sizeof_type32 cfg < 2 ^ 8 + SMBIOS_STRUCT_EOS_BYTES ->
  smbios_write_type32 cfg handle w = Some (l, w') ->
  laid_out cfg w l w' /\ sizeof_type32 cfg <= l.
Proof.
  intros Hs H. unfold smbios_write_type32 in H. cbv beta zeta in H.
  apply bind_inv in H. destruct H as (t & wa & Hb & H).
  cbv [begin_struct bind get_state put_mem ret] in Hb.
  apply some_pair_inv in Hb. destruct Hb as [<- <-].
  apply bind_inv in H. destruct H as (u & wb & He & H).
  cbv [set_eos bind get_state put_ctx] in He.
  apply some_pair_inv in He. destruct He as [_ <-].
  eapply (fixed_laid_out SMBIOS_SYSTEM_BOOT_INFORMATION _ handle);
    [exact Hs| | | | | | |exact H]; reflexivity.
Qed.

Lemma smbios_write_type127_laid_out handle w l w' :
  SMBIOS_STRUCT_EOS_BYTES <= sizeof_type127 cfg < 2 ^ 8 + SMBIOS_STRUCT_EOS_BYTES ->
  smbios_write_type127 cfg handle w = Some (l, w') ->
  laid_out cfg w l w' /\ sizeof_type127 cfg <= l.
Proof.
  intros Hs H. unfold smbios_write_type127 in H. cbv beta zeta in H.
  apply bind_inv in H. destruct H as (t & wa & Hb & H).
  cbv [begin_struct bind get_state put_mem ret] in Hb.
  apply some_pair_inv in Hb. destruct Hb as [<- <-].
  eapply (fixed_laid_out SMBIOS_END_OF_TABLE _ handle);
    [exact Hs| | | | | | |exact H]; reflexivity.
Qed.

End Layout.

Section Groups.

Variable fuel : nat.
Variable cfg : config.
Variable env : environment.
Hypothesis Hfit : sizes_fit cfg.

Lemma sizes_fit_each :
  let ok size := SMBIOS_STRUCT_EOS_BYTES <= size < 2 ^ 8 + SMBIOS_STRUCT_EOS_BYTES in
  ok (sizeof_type0 cfg) /\ ok (sizeof_type1 cfg) /\ ok (sizeof_type2 cfg) /\
  ok (sizeof_type3 cfg) /\ ok (sizeof_type4 cfg) /\ ok (sizeof_type7 cfg) /\
  ok (sizeof_type32 cfg) /\ ok (sizeof_type127 cfg).
Proof.
  unfold sizes_fit in Hfit.
  repeat match goal with
         | H : Forall _ (_ :: _) |- _ => inversion H; clear H; subst
         end.
  cbv zeta. repeat split; lia.
Qed.

Lemma smbios_write_type7_loop_advanced n : forall i handle len parent ctx_bak w l w',
  smbios_write_type7_loop fuel cfg env n i handle len parent ctx_bak w = Some (l, w') ->
  dev ctx_bak = dev (w_ctx w) ->
  exists d, l = len + d /\ advanced cfg w d w' /\
            w_ctx w' = match n with O => w_ctx w | S _ => ctx_bak end /\
            w_smbios_version w' = w_smbios_version w.
Proof.
  destruct sizes_fit_each as (_ & _ & _ & _ & _ & H7 & _).
  induction n as [|n IH]; intros i handle len parent ctx_bak w l w' H Hbak.
  - cbn [smbios_write_type7_loop] in H. unfold ret in H.
    apply some_pair_inv in H. destruct H as [<- <-].
    exists 0. split; [lia|]. split; [apply advanced_refl|split; reflexivity].
  - cbn [smbios_write_type7_loop] in H.
    pose proof (snprintf_cache_printed 9 (i + 1)) as Hp.
    destruct (snprintf_cache 9 (i + 1)) as [buf printed]. cbn [snd] in Hp.
    apply Z.eqb_neq in Hp. rewrite Hp in H.
    apply bind_inv in H. destruct H as (wa & wb & Hg & H). apply get_state_spec in Hg.
    destruct Hg as [-> ->]. cbv beta zeta in H.
    apply bind_inv in H. destruct H as (u1 & w1 & H1 & H).
    apply bind_inv in H. destruct H as (l1 & w2 & H2 & H).
    apply bind_inv in H. destruct H as (u3 & w3 & H3 & H).
    pose proof (smbios_write_type7_1level_body fuel cfg env false _ _ _ _ _ H2) as Hb.
    assert (Hv : w_smbios_version w2 = w_smbios_version w1).
    { destruct Hb as (t & wz & _ & _ & HT & He).
      cbv [end_struct bind get_state put_current emit ret] in He.
      apply some_pair_inv in He. destruct He as [_ <-]. cbn [w_smbios_version].
      apply (HT (fun x => w_smbios_version x = w_smbios_version w1)).
      - split.
        + intros prop id dval x n0 x' Hx Ha. apply add_prop_si_state in Ha.
          destruct Ha as (? & ? & _ & ->). exact Hx.
        + intros id bytes x u x' Hx Ha. cbv [put_data] in Ha.
          apply some_pair_inv in Ha. destruct Ha as [_ <-]. exact Hx.
      - discriminate.
      - reflexivity. }
    apply struct_body_laid_out in Hb; [|exact H7]. destruct Hb as [Hb Hl1].
    apply laid_out_advanced in Hb; [|lia].
    assert (Hd1 : dev (w_ctx w1) = dev (w_ctx w)).
    { cbv [put_ctx] in H1. apply some_pair_inv in H1. destruct H1 as [_ <-]. reflexivity. }
    assert (Hd2 : dev (w_ctx w2) = dev (w_ctx w)).
    { destruct Hb as (_ & _ & _ & Hd & _). congruence. }
    assert (Hc3 : w_ctx w3 = ctx_bak).
    { cbv [put_ctx] in H3. apply some_pair_inv in H3. destruct H3 as [_ <-]. reflexivity. }
    apply IH in H; [|rewrite Hc3; reflexivity].
    destruct H as (d & -> & Ha & Hc & Hv3).
    exists (l1 + d). split; [lia|]. split; [|split].
    + eapply advanced_put_ctx; [exact H1|reflexivity|].
      eapply advanced_trans; [exact Hb|].
      eapply advanced_put_ctx; [exact H3|congruence|exact Ha].
    + rewrite Hc. destruct n; [exact Hc3|reflexivity].
    + rewrite Hv3.
      cbv [put_ctx] in H3. apply some_pair_inv in H3. destruct H3 as [_ <-].
      cbn [w_smbios_version]. rewrite Hv.
      cbv [put_ctx] in H1. apply some_pair_inv in H1. destruct H1 as [_ <-]. reflexivity.
Qed.

Lemma smbios_write_type7_advanced handle w l w' :
  smbios_write_type7 fuel cfg env handle w = Some (l, w') ->
  advanced cfg w l w' /\ w_ctx w' = w_ctx w /\ w_smbios_version w' = w_smbios_version w.
Proof.
  unfold smbios_write_type7. intros H.
  apply bind_inv in H. destruct H as (wa & wb & Hg & H). apply get_state_spec in Hg.
  destruct Hg as [-> ->]. cbv beta zeta in H.
  apply bind_inv in H. destruct H as (level & w1 & Hl & H).
  cbv [get_val_si bind get_state ret] in Hl. apply some_pair_inv in Hl.
  destruct Hl as [_ <-].
  match type of H with (if ?b then _ else _) _ = _ => destruct b end.
  - unfold ret in H. apply some_pair_inv in H. destruct H as [<- <-].
    split; [apply advanced_refl|split; reflexivity].
  - apply smbios_write_type7_loop_advanced in H; [|reflexivity].
    destruct H as (d & -> & Ha & Hc & Hv).
    rewrite Z.add_0_l. split; [exact Ha|]. split; [|exact Hv].
    rewrite Hc. destruct (Z.to_nat _); reflexivity.
Qed.

End Groups.

(** * The version string of the firmware structure *)

Lemma pool_add_prefix ss s : exists tl, pool_add ss s = ss ++ tl.
Proof.
  unfold pool_add. destruct (index_of (c_str s) ss); [exists []; now rewrite app_nil_r|].
  destruct (c_str s); [exists []; now rewrite app_nil_r|eexists; reflexivity].
Qed.

Lemma pool_add_length ss s :
  (List.length (pool_add ss s) <= S (List.length ss))%nat.
Proof.
  unfold pool_add. destruct (index_of (c_str s) ss); [lia|].
  destruct (c_str s); [lia|]. rewrite length_app. cbn [List.length]. lia.
Qed.

Lemma pool_pos_app ss : forall k p tl,
  (k <= List.length ss)%nat -> pool_pos p (ss ++ tl) k = pool_pos p ss k.
Proof.
  induction ss as [|s ss IH]; intros [|k] p tl Hk; cbn [List.length] in Hk;
    cbn [pool_pos app]; try reflexivity; try lia.
  - destruct tl; reflexivity.
  - apply IH. lia.
Qed.

Lemma pool_pos_length ss : forall p, pool_pos p ss (List.length ss) = pool_end p ss.
Proof.
  induction ss as [|s ss IH]; intros p; cbn [pool_pos pool_end List.length];
    [reflexivity|apply IH].
Qed.

Lemma pool_end_zero m ss : forall p, pool m p ss -> m (pool_end p ss) = 0.
Proof.
  induction ss as [|s ss IH]; intros p Hp; cbn [pool pool_end] in *; [exact Hp|].
  destruct Hp as (_ & _ & Hp). apply IH, Hp.
Qed.

(** One string added to a pool that is being written. *)
Lemma pool_at_add fuel e ss ctx m s n ctx1 m1 :
  pool_at e ss ctx m ->
  smbios_add_string fuel ctx m s = Some (n, ctx1, m1) ->
  pool_at e (pool_add_opt ss s) ctx1 m1 /\
  (forall x, x < pool_end e ss \/ next_ptr ctx1 < x -> m1 x = m x) /\
  next_ptr ctx <= next_ptr ctx1 /\
  match s with
  | None => n = 0 /\ ctx1 = ctx /\ m1 = m
  | Some s =>
      exists k, n = Z.of_nat k + 1 /\ (k <= List.length ss)%nat /\
                last_str ctx1 = Some (pool_pos e (pool_add ss s) k) /\
                (c_str s <> EmptyString -> nth_error (pool_add ss s) k = Some (c_str s))
  end.
Proof.
  intros (He & Hp & Hnp) H. destruct s as [s|].
  2:{ cbn [smbios_add_string] in H. injection H as <- <- <-. cbn [pool_add_opt].
      split; [split; [exact He|split; assumption]|]. split; [reflexivity|].
      split; [lia|repeat split]. }
  subst e. cbn [pool_add_opt]. unfold pool_at.
  destruct (smbios_add_string_pool fuel ctx m s ss n ctx1 m1 Hp H) as (He1 & Hp1 & Hx).
  rewrite He1 in Hp1.
  pose proof (strlen_s_nonneg s) as Hl.
  destruct (pool_add_prefix ss s) as [tl Htl].
  unfold pool_add in *. destruct (index_of (c_str s) ss) as [k|] eqn:Ei.
  - destruct Hx as (-> & -> & Hn & Hls). rewrite Hn.
    pose proof (index_of_some _ _ _ Ei) as Hnth.
    assert (Hk : (k < List.length ss)%nat) by (apply nth_error_Some; congruence).
    split; [split; [exact He1|split; assumption]|]. split; [reflexivity|].
    split; [lia|]. exists k. split; [reflexivity|]. split; [lia|].
    split; [exact Hls|intros _; exact Hnth].
  - destruct Hx as (-> & Hls & Hn & Hout). rewrite Hn in *.
    destruct (c_str s) as [|c cs] eqn:Ec.
    + assert (strlen_s s = 0) by (rewrite <- len_c_str, Ec; reflexivity).
      split; [split; [exact He1|split; [exact Hp1|lia]]|]. split; [exact Hout|].
      split; [lia|]. exists (List.length ss). split; [reflexivity|]. split; [lia|].
      split; [rewrite Hls, pool_pos_length; reflexivity|intros C; contradiction].
    + split; [split; [exact He1|split; [exact Hp1|]]|].
      { rewrite pool_end_app, <- Ec, len_c_str. lia. }
      split; [exact Hout|]. split; [lia|].
      exists (List.length ss). split; [reflexivity|]. split; [lia|].
      split; [rewrite Hls, pool_pos_app, pool_pos_length by lia; reflexivity|].
      intros _. rewrite nth_error_app2, Nat.sub_diag by lia. reflexivity.
Qed.

(** A string of a pool is still there, in the same place, after further
    strings were added. *)
Lemma pool_at_string e pre tl ctx m k V :
  pool_at e (pre ++ tl) ctx m ->
  nth_error pre k = Some V ->
  string_at m (pool_pos e pre k) V /\ pool_pos e pre k + len V < next_ptr ctx.
Proof.
  intros (_ & Hp & Hnp) Hk.
  assert (Hlt : (k < List.length pre)%nat) by (apply nth_error_Some; congruence).
  assert (Hk' : nth_error (pre ++ tl) k = Some V) by (rewrite nth_error_app1; assumption).
  rewrite <- (pool_pos_app pre k e tl) by lia. split.
  - apply pool_pos_string; assumption.
  - pose proof (pool_pos_before_end (pre ++ tl) k e V Hk'). lia.
Qed.

(** At the place where a pool ended there is still a string after further
    strings were added: the first of them, or the empty string. *)
Lemma pool_at_end_string e pre tl ctx m :
  pool_at e (pre ++ tl) ctx m ->
  exists V, string_at m (pool_end e pre) V /\ pool_end e pre + len V <= next_ptr ctx.
Proof.
  intros (_ & Hp & Hnp).
  destruct tl as [|t tl].
  - exists EmptyString. rewrite app_nil_r in *. cbn [string_at].
    split; [apply pool_end_zero, Hp|]. unfold len. cbn [String.length]. lia.
  - exists t. rewrite <- pool_pos_length.
    rewrite <- (pool_pos_app pre (List.length pre) e (t :: tl)) by lia.
    assert (Hn : nth_error (pre ++ t :: tl) (List.length pre) = Some t)
      by (rewrite nth_error_app2, Nat.sub_diag by lia; reflexivity).
    split; [apply pool_pos_string; assumption|].
    pose proof (pool_pos_before_end _ _ e _ Hn). lia.
Qed.

Section Version.

Variable fuel : nat.
Variable cfg : config.
Variable env : environment.

Lemma str_member_pool e ss t name prop id dval w t' w' :
  pool_at e ss (w_ctx w) (w_mem w) ->
  str_member fuel cfg env t name prop id dval w = Some (t', w') ->
  let s := prop_source cfg (ofnode_root env) (w_ctx w) prop id dval in
  exists n,
    t' = set_member t name (u8 n) /\
    same_frame w w' /\
    pool_at e (pool_add_opt ss s) (w_ctx w') (w_mem w') /\
    (forall x, x < pool_end e ss \/ next_ptr (w_ctx w') < x -> w_mem w' x = w_mem w x) /\
    match s with
    | None => n = 0
    | Some s =>
        exists k, n = Z.of_nat k + 1 /\ (k <= List.length ss)%nat /\
                  last_str (w_ctx w') = Some (pool_pos e (pool_add ss s) k) /\
                  (c_str s <> EmptyString -> nth_error (pool_add ss s) k = Some (c_str s))
    end.
Proof.
  intros Hp H s. unfold str_member in H. apply bind_inv in H.
  destruct H as (n & w1 & Ha & H). unfold ret in H. apply some_pair_inv in H.
  destruct H as [<- <-]. exists n. split; [reflexivity|].
  apply add_prop_si_state in Ha. destruct Ha as (ctx & m & Ha & ->).
  apply smbios_add_prop_si_eq in Ha. fold s in Ha.
  destruct (smbios_add_string_from fuel s _ _ _ _ _ Ha) as (Hd & Hn & Hsn).
  destruct (pool_at_add fuel e ss _ _ s n ctx m Hp Ha) as (Hp1 & Hout & _ & Hs).
  cbn [w_ctx w_mem]. split; [repeat split; assumption|]. split; [exact Hp1|].
  split; [exact Hout|]. destruct s as [s0|]; [exact Hs|]. destruct Hs as [Hs _]. exact Hs.
Qed.

Lemma same_frame_trans w1 w2 w3 : same_frame w1 w2 -> same_frame w2 w3 -> same_frame w1 w3.
Proof.
  unfold same_frame. intros (? & ? & ? & ? & ? & ? & ?) (? & ? & ? & ? & ? & ? & ?).
  repeat split; congruence.
Qed.

Lemma member_set_same t name v : member (set_member t name v) name = v.
Proof. unfold member, set_member. cbn [s_members assoc]. now rewrite String.eqb_refl. Qed.

(** The firmware writer and gd->smbios_version: without a version string
    it is left as it was; with one it is made to point to the string in
    the string area of the structure. *)
Lemma smbios_write_type0_version handle w l w' :
  SMBIOS_STRUCT_EOS_BYTES <= sizeof_type0 cfg < 2 ^ 8 + SMBIOS_STRUCT_EOS_BYTES ->
  smbios_write_type0 fuel cfg env handle w = Some (l, w') ->
  match prop_source cfg (ofnode_root env) (w_ctx w) (Some "version"%string)
          SYSINFO_ID_SMBIOS_BIOS_VER (Some (PLAIN_VERSION cfg)) with
  | None => w_smbios_version w' = w_smbios_version w
  | Some s =>
      exists q V,
        w_smbios_version w' = Some q /\ w_current w <= q /\
        string_at (w_mem w') q V /\ q + len V < w_current w' /\
        (c_str s <> EmptyString -> V = c_str s)
  end.
Proof.
  unfold SMBIOS_STRUCT_EOS_BYTES. intros Hsz H.
  unfold smbios_write_type0 in H. cbv beta zeta in H.
  apply bind_inv in H. destruct H as (t0 & wa & Hb & H).
  cbv [begin_struct bind get_state put_mem ret] in Hb.
  apply some_pair_inv in Hb. destruct Hb as [<- <-]. cbv beta zeta in H.
  apply bind_inv in H. destruct H as (u & wb & Hs & H).
  cbv [set_eos eos_of bind get_state put_ctx] in Hs.
  cbn [s_addr w_ctx w_current w_mem w_smbios_version w_data w_out] in Hs.
  apply some_pair_inv in Hs. destruct Hs as [_ <-]. cbv beta zeta in H.
  unfold SMBIOS_STRUCT_EOS_BYTES in H.
  set (e := w_current w + sizeof_type0 cfg - 2) in *.
  match type of H with
  | bind _ _ ?wo = _ => set (wo' := wo) in *
  end.
  assert (Hp0 : pool_at e [] (w_ctx wo') (w_mem wo')).
  { unfold pool_at, wo'. cbn [w_ctx w_mem smbios_set_eos eos next_ptr pool pool_end].
    split; [reflexivity|]. split; [|lia].
    apply memset_inside. unfold e. rewrite Z2Nat.id by lia. lia. }
  assert (Hf0 : same_frame w wo').
  { unfold wo', same_frame. cbn. repeat split. }
  (* vendor *)
  apply bind_inv in H. destruct H as (t1 & w1 & H1 & H).
  destruct (str_member_pool _ _ _ _ _ _ _ _ _ _ Hp0 H1) as (n1 & -> & Hf1 & Hp1 & _ & _).
  clear H1. cbv beta zeta in H.
  (* version *)
  apply bind_inv in H. destruct H as (t2 & w2 & H2 & H).
  destruct (str_member_pool _ _ _ _ _ _ _ _ _ _ Hp1 H2) as (n2 & -> & Hf2 & Hp2 & _ & Hs2).
  clear H2. cbv beta zeta in H.
  pose proof (same_frame_trans _ _ _ Hf0 Hf1) as Hf01.
  assert (Hsrc : prop_source cfg (ofnode_root env) (w_ctx w1) (Some "version"%string)
                   SYSINFO_ID_SMBIOS_BIOS_VER (Some (PLAIN_VERSION cfg))
                 = prop_source cfg (ofnode_root env) (w_ctx w) (Some "version"%string)
                     SYSINFO_ID_SMBIOS_BIOS_VER (Some (PLAIN_VERSION cfg))).
  { destruct Hf01 as (_ & _ & _ & _ & Hd & Hn & Hsn). apply prop_source_ext; assumption. }
  rewrite Hsrc in Hp2, Hs2. clear Hsrc.
  set (src := prop_source cfg (ofnode_root env) (w_ctx w) (Some "version"%string)
                SYSINFO_ID_SMBIOS_BIOS_VER (Some (PLAIN_VERSION cfg))) in *.
  set (ss1 := pool_add_opt [] _) in *.
  assert (Hl1 : (List.length ss1 <= 1)%nat).
  { unfold ss1, pool_add_opt. destruct (prop_source _ _ _ _ _ _); [|cbn; lia].
    pose proof (pool_add_length [] s). cbn [List.length] in *. lia. }
  (* the version is recorded *)
  apply bind_inv in H. destruct H as (uv & w3 & H3 & H).
  rewrite member_set_same in H3.
  (* release date *)
  apply bind_inv in H. destruct H as (t4 & w4 & H4 & H). cbv beta zeta in H.
  (* the ending *)
  assert (Hend : forall t, hdr_length (s_hdr t) = u8 (sizeof_type0 cfg - 2) ->
                 forall w5, end_struct t w5 = Some (l, w') ->
                 w_mem w' = w_mem w5 /\ w_smbios_version w' = w_smbios_version w5 /\
                 w_current w' = w_current w5 + (sizeof_type0 cfg - 2)
                                + smbios_string_table_len (w_ctx w5)).
  { intros t Ht w5 He. cbv [end_struct bind get_state put_current emit ret] in He.
    apply some_pair_inv in He. destruct He as [_ <-]. cbn [w_mem w_smbios_version w_current].
    rewrite Ht, u8_small by lia. repeat split; lia. }
  assert (Hhdr : forall t, s_hdr t = fill_smbios_header SMBIOS_BIOS_INFORMATION
                                      (sizeof_type0 cfg) handle ->
                 hdr_length (s_hdr t) = u8 (sizeof_type0 cfg - 2))
    by (intros t ->; reflexivity).
  assert (Hlen : forall ctx ss, pool_at e ss ctx (w_mem w4) ->
                 next_ptr ctx < e + smbios_string_table_len ctx).
  { intros ctx ss (He & _ & Hn). pose proof (pool_end_le ss e).
    unfold smbios_string_table_len. rewrite He.
    destruct (next_ptr ctx =? e) eqn:E; [apply Z.eqb_eq in E|apply Z.eqb_neq in E]; lia. }
  destruct src as [s|].
  - (* a version string was added *)
    destruct Hs2 as (k & -> & Hk & Hls & Hnth).
    assert (Hn0 : (u8 (Z.of_nat k + 1) =? 0) = false).
    { apply Z.eqb_neq. rewrite u8_small by lia. lia. }
    rewrite Hn0 in H3.
    apply bind_inv in H3. destruct H3 as (wg & wg' & Hg & H3).
    apply get_state_spec in Hg. destruct Hg as [-> ->].
    cbv [put_smbios_version] in H3. apply some_pair_inv in H3. destruct H3 as [_ <-].
    match type of H4 with
    | str_member _ _ _ _ _ _ _ _ ?wv = _ =>
        assert (Hpv : pool_at e (pool_add_opt ss1 (Some s)) (w_ctx wv) (w_mem wv)) by exact Hp2
    end.
    destruct (str_member_pool _ _ _ _ _ _ _ _ _ _ Hpv H4) as (n4 & -> & Hf4 & Hp4 & _ & _).
    clear H4. cbn [pool_add_opt] in Hp4, Hpv.
    assert (Htl : forall pl x, exists tl, pool_add_opt pl x = pl ++ tl)
      by (intros pl [x|]; [apply pool_add_prefix|exists []; now rewrite app_nil_r]).
    match type of Hp4 with
    | pool_at _ (pool_add_opt ?pl ?x) _ _ => specialize (Htl pl x)
    end.
    destruct Htl as [tl Htl]. rewrite Htl in Hp4. clear Htl.
    match type of H with
    | end_struct ?t _ = _ =>
        destruct (Hend t) with (w5 := w4) as (Hm & Hv & Hc); [|exact H|]
    end.
    { apply Hhdr.
      destruct (CONFIG_ROM_SIZE cfg) as [rom|]; [destruct (rom <? SZ_16M)|];
        destruct (CONFIG_GENERATE_ACPI_TABLE cfg); destruct (CONFIG_EFI_LOADER cfg);
        reflexivity. }
    pose proof (Hlen _ _ Hp4) as Hnp. clear Hend Hhdr Hlen H.
    destruct Hf4 as (Hc4 & Hv4 & _). cbn [w_current w_smbios_version w_ctx] in Hc4, Hv4.
    destruct Hf2 as (Hc2 & _). destruct Hf01 as (Hc1 & _).
    exists (pool_pos e (pool_add ss1 s) k).
    assert (Hq : w_current w <= pool_pos e (pool_add ss1 s) k).
    { pose proof (pool_pos_le (pool_add ss1 s) k e). unfold e in *. lia. }
    assert (Hcur : w_current w' = e + smbios_string_table_len (w_ctx w4)).
    { rewrite Hc, Hc4, Hc2, Hc1. unfold e. lia. }
    assert (Hver : w_smbios_version w' = Some (pool_pos e (pool_add ss1 s) k)).
    { rewrite Hv, Hv4. exact Hls. }
    destruct (pool_add_prefix ss1 s) as [tl1 Htl1].
    assert (Hk2 : (k <= List.length (pool_add ss1 s))%nat)
      by (rewrite Htl1, length_app; lia).
    destruct (nth_error (pool_add ss1 s) k) as [V|] eqn:EV.
    + exists V. destruct (pool_at_string e _ tl _ _ k V Hp4 EV) as [Hat Hb].
      split; [exact Hver|]. split; [exact Hq|]. split; [rewrite Hm; exact Hat|].
      split; [lia|]. intros Hne. specialize (Hnth Hne). congruence.
    + apply nth_error_None in EV.
      assert (k = List.length (pool_add ss1 s)) by lia. subst k.
      destruct (pool_at_end_string e _ tl _ _ Hp4) as (V & Hat & Hb).
      rewrite pool_pos_length in *.
      exists V. split; [exact Hver|]. split; [exact Hq|]. split; [rewrite Hm; exact Hat|].
      split; [lia|]. intros Hne. specialize (Hnth Hne). discriminate Hnth.
  - (* no version string *)
    subst n2. change (u8 0 =? 0) with true in H3.
    unfold ret in H3. apply some_pair_inv in H3. destruct H3 as [_ <-].
    cbn [pool_add_opt] in Hp2.
    destruct (str_member_pool _ _ _ _ _ _ _ _ _ _ Hp2 H4) as (n4 & -> & Hf4 & Hp4 & _ & _).
    match type of H with
    | end_struct ?t _ = _ =>
        destruct (Hend t) with (w5 := w4) as (Hm & Hv & Hc); [|exact H|]
    end.
    { apply Hhdr.
      destruct (CONFIG_ROM_SIZE cfg) as [rom|]; [destruct (rom <? SZ_16M)|];
        destruct (CONFIG_GENERATE_ACPI_TABLE cfg); destruct (CONFIG_EFI_LOADER cfg);
        reflexivity. }
    destruct Hf4 as (_ & Hv4 & _). destruct Hf2 as (_ & Hv2 & _).
    destruct Hf01 as (_ & Hv1 & _). congruence.
Qed.

End Version.

(** * The completed build *)

Lemma advanced_from cfg w w1 l w' :
  w_mem w1 = w_mem w -> w_current w1 = w_current w -> w_out w1 = w_out w ->
  dev (w_ctx w1) = dev (w_ctx w) ->
  advanced cfg w1 l w' -> advanced cfg w l w'.
Proof.
  intros Hm Hc Ho Hd (H1 & H2 & H3 & H4 & ts & H5 & H6 & H7). unfold advanced.
  rewrite <- Hm, <- Hc, <- Ho, <- Hd. split; [exact H1|]. split; [exact H2|].
  split; [exact H3|]. split; [exact H4|]. exists ts. split; [exact H5|split; assumption].
Qed.

Section Build.

Variable fuel : nat.
Variable cfg : config.
Variable env : environment.
Hypothesis Hfit : sizes_fit cfg.

Lemma struct_body_version type size handle w l w' :
  struct_body fuel cfg env false type size handle w l w' ->
  w_smbios_version w' = w_smbios_version w.
Proof.
  intros (t & wz & _ & _ & HT & He).
  cbv [end_struct bind get_state put_current emit ret] in He.
  apply some_pair_inv in He. destruct He as [_ <-]. cbn [w_smbios_version].
  apply (HT (fun x => w_smbios_version x = w_smbios_version w)).
  - split.
    + intros prop id dval x n0 x' Hx Ha. apply add_prop_si_state in Ha.
      destruct Ha as (? & ? & _ & ->). exact Hx.
    + intros id bytes x u x' Hx Ha. cbv [put_data] in Ha.
      apply some_pair_inv in Ha. destruct Ha as [_ <-]. exact Hx.
  - discriminate.
  - reflexivity.
Qed.

Lemma struct_body_advanced vf type size handle w l w' :
  SMBIOS_STRUCT_EOS_BYTES <= size < 2 ^ 8 + SMBIOS_STRUCT_EOS_BYTES ->
  struct_body fuel cfg env vf type size handle w l w' ->
  advanced cfg w l w'.
Proof.
  intros Hs Hb. apply struct_body_laid_out in Hb; [|exact Hs]. destruct Hb as [Hb Hl].
  apply laid_out_advanced; [exact Hb|lia].
Qed.

Lemma fixed_version t size w l w' :
  end_struct_fixed t size w = Some (l, w') -> w_smbios_version w' = w_smbios_version w.
Proof.
  intros H. cbv [end_struct_fixed bind get_state put_current emit ret] in H.
  apply some_pair_inv in H. destruct H as [_ <-]. reflexivity.
Qed.

Lemma smbios_write_type32_version handle w l w' :
  smbios_write_type32 cfg handle w = Some (l, w') ->
  w_smbios_version w' = w_smbios_version w.
Proof.
  intros H. unfold smbios_write_type32 in H. cbv beta zeta in H.
  apply bind_inv in H. destruct H as (t & wa & Hb & H).
  cbv [begin_struct bind get_state put_mem ret] in Hb.
  apply some_pair_inv in Hb. destruct Hb as [<- <-].
  apply bind_inv in H. destruct H as (u & wb & He & H).
  cbv [set_eos bind get_state put_ctx] in He.
  apply some_pair_inv in He. destruct He as [_ <-].
  apply fixed_version in H. exact H.
Qed.

Lemma smbios_write_type127_version handle w l w' :
  smbios_write_type127 cfg handle w = Some (l, w') ->
  w_smbios_version w' = w_smbios_version w.
Proof.
  intros H. unfold smbios_write_type127 in H. cbv beta zeta in H.
  apply bind_inv in H. destruct H as (t & wa & Hb & H).
  cbv [begin_struct bind get_state put_mem ret] in Hb.
  apply some_pair_inv in Hb. destruct Hb as [<- <-].
  apply fixed_version in H. exact H.
Qed.

(** One iteration of the loop of write_smbios_table: the state in which
    the method is run. *)
Lemma run_method_state parent method handle w r :
  run_method cfg parent method handle w = Some r ->
  exists w1,
    w_mem w1 = w_mem w /\ w_current w1 = w_current w /\ w_out w1 = w_out w /\
    w_smbios_version w1 = w_smbios_version w /\
    dev (w_ctx w1) = dev (w_ctx w) /\
    subnode_name (w_ctx w1) = method_subnode_name method /\
    node (w_ctx w1) = match method_subnode_name method with
                      | Some name => if CONFIG_OF_CONTROL cfg
                                     then ofnode_find_subnode parent name
                                     else node (w_ctx w)
                      | None => node (w_ctx w)
                      end /\
    write method handle w1 = Some r.
Proof.
  unfold run_method. intros H.
  apply bind_inv in H. destruct H as (wa & wb & Hg & H). apply get_state_spec in Hg.
  destruct Hg as [-> ->]. cbv beta zeta in H.
  apply bind_inv in H. destruct H as (u & w1 & Hp & H).
  cbv [put_ctx] in Hp. apply some_pair_inv in Hp. destruct Hp as [_ <-].
  match type of H with write _ _ ?wx = _ => exists wx end.
  split; [reflexivity|]. split; [reflexivity|]. split; [reflexivity|].
  split; [reflexivity|]. split; [|split; [|split; [|exact H]]]; cbn [w_ctx];
    destruct (method_subnode_name method); reflexivity.
Qed.

(** The writers after the firmware writer: they move [current] on, change
    only bytes from the old [current] on and keep gd->smbios_version. *)
Lemma run_methods_rest parent w l0 l w' :
  run_methods cfg parent (tl (smbios_write_funcs fuel cfg env)) 1 l0 w = Some (l, w') ->
  exists d, l = l0 + d /\ advanced cfg w d w' /\ w_smbios_version w' = w_smbios_version w.
Proof.
  destruct (sizes_fit_each cfg Hfit) as (_ & S1 & S2 & S3 & S4 & S7 & S32 & S127).
  unfold smbios_write_funcs. cbn [tl run_methods]. intros H.
  apply bind_inv in H. destruct H as (l1 & w1 & H1 & H).
  apply run_method_state in H1.
  destruct H1 as (v1 & Hm1 & Hc1 & Ho1 & Hv1 & Hd1 & _ & _ & H1). cbn [write] in H1.
  apply (smbios_write_type1_body fuel cfg env false) in H1.
  pose proof (struct_body_version _ _ _ _ _ _ H1) as V1.
  apply struct_body_advanced in H1; [|exact S1].
  apply (advanced_from cfg w) in H1; [|assumption..].
  apply bind_inv in H. destruct H as (l2 & w2 & H2 & H).
  apply run_method_state in H2.
  destruct H2 as (v2 & Hm2 & Hc2 & Ho2 & Hv2 & Hd2 & _ & _ & H2). cbn [write] in H2.
  apply (smbios_write_type2_body fuel cfg env false) in H2.
  pose proof (struct_body_version _ _ _ _ _ _ H2) as V2.
  apply struct_body_advanced in H2; [|exact S2].
  apply (advanced_from cfg w1) in H2; [|assumption..].
  apply bind_inv in H. destruct H as (l3 & w3 & H3 & H).
  apply run_method_state in H3.
  destruct H3 as (v3 & Hm3 & Hc3 & Ho3 & Hv3 & Hd3 & _ & _ & H3). cbn [write] in H3.
  apply (smbios_write_type3_body fuel cfg env false) in H3.
  pose proof (struct_body_version _ _ _ _ _ _ H3) as V3.
  apply struct_body_advanced in H3; [|lia].
  apply (advanced_from cfg w2) in H3; [|assumption..].
  apply bind_inv in H. destruct H as (l7 & w7 & H7 & H).
  apply run_method_state in H7.
  destruct H7 as (v7 & Hm7 & Hc7 & Ho7 & Hv7 & Hd7 & _ & _ & H7). cbn [write] in H7.
  apply (smbios_write_type7_advanced fuel cfg env Hfit) in H7. destruct H7 as (H7 & _ & V7).
  apply (advanced_from cfg w3) in H7; [|assumption..].
  apply bind_inv in H. destruct H as (l4 & w4 & H4 & H).
  apply run_method_state in H4.
  destruct H4 as (v4 & Hm4 & Hc4 & Ho4 & Hv4 & Hd4 & _ & _ & H4). cbn [write] in H4.
  apply (smbios_write_type4_body fuel cfg env false) in H4.
  pose proof (struct_body_version _ _ _ _ _ _ H4) as V4.
  apply struct_body_advanced in H4; [|exact S4].
  apply (advanced_from cfg w7) in H4; [|assumption..].
  apply bind_inv in H. destruct H as (l32 & w32 & H32 & H).
  apply run_method_state in H32.
  destruct H32 as (v32 & Hm32 & Hc32 & Ho32 & Hv32 & Hd32 & _ & _ & H32). cbn [write] in H32.
  pose proof (smbios_write_type32_version _ _ _ _ H32) as V32.
  apply smbios_write_type32_laid_out in H32; [|exact S32]. destruct H32 as [H32 L32].
  apply laid_out_advanced in H32; [|lia].
  apply (advanced_from cfg w4) in H32; [|assumption..].
  apply bind_inv in H. destruct H as (l127 & w127 & H127 & H).
  apply run_method_state in H127.
  destruct H127 as (v127 & Hm127 & Hc127 & Ho127 & Hv127 & Hd127 & _ & _ & H127).
  cbn [write] in H127.
  pose proof (smbios_write_type127_version _ _ _ _ H127) as V127.
  apply smbios_write_type127_laid_out in H127; [|exact S127]. destruct H127 as [H127 L127].
  apply laid_out_advanced in H127; [|lia].
  apply (advanced_from cfg w32) in H127; [|assumption..].
  unfold ret in H. apply some_pair_inv in H. destruct H as [<- <-].
  exists (l1 + (l2 + (l3 + (l7 + (l4 + (l32 + l127)))))). split; [lia|]. split.
  - repeat (eapply advanced_trans; [eassumption|]). exact H127.
  - congruence.
Qed.

(** A completed build: where the table lies, what memory it changed and
    where gd->smbios_version points. *)
Lemma write_smbios_table_built addr w a w' :
  write_smbios_table fuel cfg env addr w = Some (a, w') ->
  built cfg env addr w a w'.
Proof.
  destruct (sizes_fit_each cfg Hfit) as (S0 & _).
  unfold write_smbios_table. intros H.
  apply bind_inv in H. destruct H as (wa & wb & Hg & H). apply get_state_spec in Hg.
  destruct Hg as [-> ->]. cbv beta zeta in H.
  apply bind_inv in H. destruct H as (u1 & w1 & Hp1 & H).
  cbv [put_ctx] in Hp1. apply some_pair_inv in Hp1. destruct Hp1 as [_ <-].
  apply bind_inv in H. destruct H as (u2 & w2 & Hp2 & H).
  cbv [put_current] in Hp2. apply some_pair_inv in Hp2. destruct Hp2 as [_ <-].
  cbn [w_mem w_ctx w_current w_smbios_version w_data w_out] in H.
  apply bind_inv in H. destruct H as (total & w3 & Hr & H).
  apply bind_inv in H. destruct H as (wc & wd & Hg & H). apply get_state_spec in Hg.
  destruct Hg as [-> ->]. cbv beta zeta in H.
  apply bind_inv in H. destruct H as (u3 & w4 & Hp & H).
  cbv [put_mem] in Hp. apply some_pair_inv in Hp. destruct Hp as [_ <-].
  unfold ret in H. apply some_pair_inv in H. destruct H as [<- <-].
  fold (table_start addr) in *. fold (build_dev cfg env) in *.
  fold (parent_node cfg env) in *.
  (* the firmware writer, then the others *)
  change (smbios_write_funcs fuel cfg env)
    with (hd {| write := smbios_write_type0 fuel cfg env;
                method_subnode_name := Some "bios"%string |}
             (smbios_write_funcs fuel cfg env)
          :: tl (smbios_write_funcs fuel cfg env)) in Hr.
  cbn [run_methods hd] in Hr.
  apply bind_inv in Hr. destruct Hr as (l0 & v0' & H0 & Hr).
  apply run_method_state in H0.
  destruct H0 as (v0 & Hm0 & Hc0 & Ho0 & Hv0 & Hd0 & Hs0 & Hn0 & H0).
  cbn [write method_subnode_name w_mem w_ctx w_current w_out w_smbios_version
       dev node subnode_name] in *.
  pose proof (smbios_write_type0_version fuel cfg env 0 v0 l0 v0' S0 H0) as Hver.
  apply (smbios_write_type0_body fuel cfg env true _ _ _ _ eq_refl) in H0.
  apply struct_body_advanced in H0; [|exact S0].
  apply run_methods_rest in Hr. destruct Hr as (d & -> & Hrest & Hvrest).
  pose proof (advanced_trans _ _ _ _ _ _ H0 Hrest) as Hall.
  destruct Hall as (Hcur & Hpos & Hmem & _ & ts & Hout & Hsep & Hwalk).
  rewrite Hc0, Hm0, Ho0 in *.
  exists (l0 + d), (w_mem w3). cbn [w_mem w_out w_smbios_version].
  split; [lia|]. split; [exact Hpos|]. split; [|split; [|split]].
  - intros x Hx. apply Hmem. lia.
  - exists ts. split; [exact Hout|]. split; [exact Hsep|].
    intros Hr. apply Hwalk. rewrite Hd0. exact Hr.
  - unfold entry_written. rewrite Z.add_0_l. reflexivity.
  - assert (Hsrc : prop_source cfg (ofnode_root env) (w_ctx v0) (Some "version"%string)
                     SYSINFO_ID_SMBIOS_BIOS_VER (Some (PLAIN_VERSION cfg))
                   = version_source cfg env).
    { unfold version_source. apply prop_source_ext; unfold bios_ctx; cbn [dev node subnode_name].
      - exact Hd0.
      - rewrite Hn0. reflexivity.
      - exact Hs0. }
    rewrite Hsrc in Hver. destruct (version_source cfg env) as [s|].
    + destruct Hver as (q & V & Hq & Hle & Hat & Hlt & HV).
      destruct H0 as (Hc1 & _ & _). destruct Hrest as (Hc3 & Hd3 & Hm3 & _).
      exists q, V. split; [congruence|]. split; [lia|]. split; [|split; [lia|exact HV]].
      apply string_at_ext with (m := w_mem v0'); [exact Hat|].
      intros x Hx. apply Hm3. lia.
    + congruence.
Qed.

End Build.

Lemma ALIGN_16 x : ALIGN x 16 = 16 * ((x + 15) / 16).
Proof.
  unfold ALIGN. change (16 - 1) with (Z.ones 4).
  rewrite <- Z.ldiff_land, Z.ldiff_ones_r by lia.
  rewrite Z.shiftl_mul_pow2, Z.shiftr_div_pow2 by lia.
  change (Z.ones 4) with 15. change (2 ^ 4) with 16. lia.
Qed.

Lemma table_start_bounds addr :
  table_start addr mod 16 = 0 /\
  addr + sizeof_smbios3_entry <= table_start addr < addr + sizeof_smbios3_entry + 16.
Proof.
  unfold table_start. rewrite ALIGN_16. unfold sizeof_smbios3_entry. split.
  - rewrite Z.mul_comm. apply Z.mod_mul. lia.
  - pose proof (Z.div_mod (addr + 24 + 15) 16 ltac:(lia)).
    pose proof (Z.mod_pos_bound (addr + 24 + 15) 16 ltac:(lia)). lia.
Qed.

Lemma load_le_store_le n : forall m a v,
  load_le (store_le m a n v) a n = v mod 256 ^ Z.of_nat n.
Proof.
  induction n as [|n IH]; intros m a v; cbn [load_le store_le].
  - change (256 ^ Z.of_nat 0) with 1. now rewrite Z.mod_1_r.
  - rewrite store_le_outside by lia. rewrite store_same, IH.
    rewrite Nat2Z.inj_succ, Z.pow_succ_r by lia.
    rewrite Z.rem_mul_r by (try apply Z.pow_pos_nonneg; lia). reflexivity.
Qed.

Lemma load_le_ext n : forall m m' a,
  (forall x, a <= x < a + Z.of_nat n -> m' x = m x) -> load_le m' a n = load_le m a n.
Proof.
  induction n as [|n IH]; intros m m' a H; cbn [load_le]; [reflexivity|].
  rewrite H by lia. rewrite (IH m m' (a + 1)); [reflexivity|].
  intros x Hx. apply H. lia.
Qed.

(** The descriptor is written inside its 24 bytes. *)
Lemma entry_written_outside cfg m se total table_addr x :
  x < se \/ se + sizeof_smbios3_entry <= x ->
  entry_written cfg m se total table_addr x = m x.
Proof.
  unfold entry_written, sizeof_smbios3_entry, se_anchor, se_checksum, se_length,
    se_major_ver, se_minor_ver, se_doc_rev, se_entry_point_rev, se_table_maximum_size,
    se_struct_table_address.
  intros Hx.
  rewrite store_other by lia.
  rewrite !store_le_outside by lia.
  rewrite !store_other by lia.
  rewrite memcpy_outside by lia.
  apply memset_outside. lia.
Qed.

(** The fields of the descriptor. *)
Lemma entry_written_fields cfg m se total table_addr :
  let m' := entry_written cfg m se total table_addr in
  load_bytes m' se 5 = codes "_SM3_" /\
  m' (se + se_length) = sizeof_smbios3_entry /\
  m' (se + se_major_ver) = u8 (SMBIOS_MAJOR_VER cfg) /\
  m' (se + se_minor_ver) = u8 (SMBIOS_MINOR_VER cfg) /\
  m' (se + se_doc_rev) = 0 /\
  m' (se + se_entry_point_rev) = 1 /\
  load_le m' (se + se_table_maximum_size) 4 = u32 total /\
  load_le m' (se + se_struct_table_address) 8 = u64 table_addr.
Proof.
  unfold entry_written, sizeof_smbios3_entry, se_anchor, se_checksum, se_length,
    se_major_ver, se_minor_ver, se_doc_rev, se_entry_point_rev, se_table_maximum_size,
    se_struct_table_address.
  cbv zeta.
  set (m0 := memset m se 0 (Z.to_nat 24)).
  set (m1 := memcpy m0 (se + 0) "_SM3_" 5).
  set (m2 := store m1 (se + 6) (u8 24)).
  set (m3 := store m2 (se + 7) (u8 (SMBIOS_MAJOR_VER cfg))).
  set (m4 := store m3 (se + 8) (u8 (SMBIOS_MINOR_VER cfg))).
  set (m5 := store m4 (se + 9) 0).
  set (m6 := store m5 (se + 10) 1).
  set (m7 := store_le m6 (se + 12) 4 (u32 total)).
  set (m8 := store_le m7 (se + 16) 8 (u64 table_addr)).
  set (ck := table_compute_checksum m8 se 24).
  assert (H8 : forall x, x <> se + 5 -> store m8 (se + 5) ck x = m8 x)
    by (intros x Hx; apply store_other; exact Hx).
  assert (H87 : forall x, x < se + 16 -> m8 x = m7 x)
    by (intros x Hx; apply store_le_outside; lia).
  assert (H76 : forall x, x < se + 12 -> m7 x = m6 x)
    by (intros x Hx; apply store_le_outside; lia).
  assert (Hlow : forall x, x < se + 12 -> x <> se + 5 -> store m8 (se + 5) ck x = m6 x)
    by (intros x Hx Hne; rewrite H8, H87, H76 by lia; reflexivity).
  split; [|split; [|split; [|split; [|split; [|split; [|split]]]]]].
  - cbn [load_bytes]. unfold codes. cbn [list_ascii_of_string map].
    assert (Ha : forall i c, (i < 5)%nat -> String.get i "_SM3_" = Some c ->
               store m8 (se + 5) ck (se + Z.of_nat i) = code c).
    { intros i c Hi Hg. rewrite Hlow by lia. unfold m6, m5, m4, m3, m2.
      rewrite !store_other by lia. unfold m1.
      replace (se + Z.of_nat i) with (se + 0 + Z.of_nat i) by lia.
      apply memcpy_inside; [reflexivity|exact Hi|exact Hg]. }
    pose proof (Ha 0%nat "_"%char ltac:(lia) eq_refl) as A0.
    pose proof (Ha 1%nat "S"%char ltac:(lia) eq_refl) as A1.
    pose proof (Ha 2%nat "M"%char ltac:(lia) eq_refl) as A2.
    pose proof (Ha 3%nat "3"%char ltac:(lia) eq_refl) as A3.
    pose proof (Ha 4%nat "_"%char ltac:(lia) eq_refl) as A4.
    replace (se + Z.of_nat 0) with se in A0 by lia.
    replace (se + Z.of_nat 1) with (se + 1) in A1 by lia.
    replace (se + Z.of_nat 2) with (se + 1 + 1) in A2 by lia.
    replace (se + Z.of_nat 3) with (se + 1 + 1 + 1) in A3 by lia.
    replace (se + Z.of_nat 4) with (se + 1 + 1 + 1 + 1) in A4 by lia.
    rewrite A0, A1, A2, A3, A4. reflexivity.
  - rewrite Hlow by lia. unfold m6, m5, m4, m3. rewrite !store_other by lia.
    unfold m2. rewrite store_same. reflexivity.
  - rewrite Hlow by lia. unfold m6, m5, m4. rewrite !store_other by lia.
    unfold m3. apply store_same.
  - rewrite Hlow by lia. unfold m6, m5. rewrite !store_other by lia.
    unfold m4. apply store_same.
  - rewrite Hlow by lia. unfold m6. rewrite !store_other by lia.
    unfold m5. apply store_same.
  - rewrite Hlow by lia. unfold m6. apply store_same.
  - rewrite (load_le_ext 4 m7).
    + unfold m7. rewrite load_le_store_le. unfold u32.
      change (256 ^ Z.of_nat 4) with (2 ^ 32). apply Z.mod_mod. lia.
    + intros x Hx. rewrite H8, H87 by lia. reflexivity.
  - rewrite (load_le_ext 8 m8).
    + unfold m8. rewrite load_le_store_le. unfold u64.
      change (256 ^ Z.of_nat 8) with (2 ^ 64). apply Z.mod_mod. lia.
    + intros x Hx. apply H8. lia.
Qed.

Lemma sizes_fit_config_ok cfg : sizes_fit cfg -> config_ok cfg.
Proof.
  unfold sizes_fit, config_ok. intros H. eapply Forall_impl; [|exact H].
  cbv beta. intros size Hs. lia.
Qed.

(** A property of every completed build holds of the result that a build
    with enough fuel returns. *)
Lemma build_ensures cfg env addr w (Q : Z -> wstate -> Prop) :
  sizes_fit cfg ->
  (forall f a w', write_smbios_table f cfg env addr w = Some (a, w') -> Q a w') ->
  ensures (dt_fits env) (fun f => write_smbios_table f cfg env addr) w Q.
Proof.
  intros Hfit HQ. split; [exact HQ|]. intros Hdt.
  eapply returns_partial; [|exact HQ].
  apply write_smbios_table_returns; [exact Hdt|apply sizes_fit_config_ok, Hfit].
Qed.

Ltac sample_sizes_fit :=
  unfold sizes_fit;
  repeat (constructor; [split; [vm_compute; discriminate|reflexivity]|]); constructor.

Ltac sample_dt :=
  let np := fresh "np" in
  let Hin := fresh "Hin" in
  intros np Hin; cbv [sysinfo_to_dt In] in Hin;
  repeat (destruct Hin as [<-|Hin]; [vm_compute; discriminate|]);
  destruct Hin.

(** X8: a completed build changes no byte below the address it was given
    and none at or after the address it returns; the address returned is
    past the entry-point descriptor. *)
Theorem write_smbios_table_confined cfg env addr w :
  sizes_fit cfg ->
  ensures (dt_fits env) (fun f => write_smbios_table f cfg env addr) w
    (fun a w' => addr + sizeof_smbios3_entry <= a /\
                 confined_to addr a (w_mem w) (w_mem w')).
Proof.
  intros Hfit. apply build_ensures; [exact Hfit|].
  intros f a w' H. apply (write_smbios_table_built f cfg env Hfit) in H.
  destruct H as (total & m3 & Ha & Ht & Hm & _ & Hw & _).
  destruct (table_start_bounds addr) as [_ Hb]. unfold map_sysmem in Hw.
  split; [lia|]. intros x Hx. rewrite Hw.
  rewrite entry_written_outside by lia. apply Hm.
  unfold sizeof_smbios3_entry in Hb. lia.
Qed.

Lemma write_smbios_table_confined_witness :
  (exists a w',
      write_smbios_table 64 sample_config (sample_env 1) 4096 sample_start = Some (a, w') /\
      4096 + 24 <= a /\ confined_to 4096 a (fun _ => 170) (w_mem w')) /\
  returns (fun f => write_smbios_table f sample_config (sample_env 1) 4096) sample_start
    (fun a w' => 4096 + 24 <= a /\ confined_to 4096 a (fun _ => 170) (w_mem w')).
Proof.
  destruct (write_smbios_table_confined sample_config (sample_env 1) 4096 sample_start)
    as [Ha Hr]; [sample_sizes_fit|].
  split.
  - destruct (write_smbios_table 64 sample_config (sample_env 1) 4096 sample_start)
      as [[a w']|] eqn:E; [|vm_compute in E; discriminate].
    exists a, w'. split; [reflexivity|]. exact (Ha 64%nat a w' E).
  - apply Hr. sample_dt.
Defined.

(** X9: the structures of a completed build tile the addresses from the
    start of the table to the address returned: the first is at the start
    of the table, each of the others starts where the one before it ends,
    and each takes at least its formatted area and two more bytes; the
    table starts on a 16-byte boundary, at most 15 bytes after the
    entry-point descriptor. *)
Theorem write_smbios_table_tiled cfg env addr w :
  sizes_fit cfg ->
  ensures (dt_fits env) (fun f => write_smbios_table f cfg env addr) w
    (fun a w' =>
       table_start addr mod 16 = 0 /\
       addr + sizeof_smbios3_entry <= table_start addr < addr + sizeof_smbios3_entry + 16 /\
       exists ts, w_out w' = w_out w ++ ts /\ tiled (table_start addr) ts a).
Proof.
  intros Hfit. apply build_ensures; [exact Hfit|].
  intros f a w' H. apply (write_smbios_table_built f cfg env Hfit) in H.
  destruct H as (total & m3 & _ & _ & _ & (ts & Ho & Hts & _) & _).
  destruct (table_start_bounds addr) as [Hm Hb].
  split; [exact Hm|]. split; [exact Hb|]. exists ts. split; assumption.
Qed.

Lemma write_smbios_table_tiled_witness :
  (exists a w' ts,
      write_smbios_table 64 sample_config (sample_env 1) 4096 sample_start = Some (a, w') /\
      w_out w' = ts /\ tiled 4128 ts a) /\
  returns (fun f => write_smbios_table f sample_config (sample_env 1) 4096) sample_start
    (fun a w' =>
       table_start 4096 mod 16 = 0 /\
       4096 + sizeof_smbios3_entry <= table_start 4096 < 4096 + sizeof_smbios3_entry + 16 /\
       exists ts, w_out w' = w_out sample_start ++ ts /\ tiled (table_start 4096) ts a).
Proof.
  destruct (write_smbios_table_tiled sample_config (sample_env 1) 4096 sample_start)
    as [Ha Hr]; [sample_sizes_fit|].
  split.
  - destruct (write_smbios_table 64 sample_config (sample_env 1) 4096 sample_start)
      as [[a w']|] eqn:E; [|vm_compute in E; discriminate].
    destruct (Ha 64%nat a w' E) as (_ & _ & ts & Ho & Hs).
    exists a, w', ts. split; [reflexivity|]. split; [exact Ho|exact Hs].
  - apply Hr. sample_dt.
Defined.

(** X10: the entry-point descriptor of a completed build holds the anchor
    "_SM3_", its own length, the format version, revision 0 and entry
    point revision 1, the address of the table and, as the maximum size,
    the distance from the table to the address returned. *)
Theorem write_smbios_table_entry cfg env addr w :
  sizes_fit cfg ->
  ensures (dt_fits env) (fun f => write_smbios_table f cfg env addr) w
    (fun a w' =>
       let m' := w_mem w' in
       load_bytes m' addr 5 = codes "_SM3_" /\
       m' (addr + se_length) = sizeof_smbios3_entry /\
       m' (addr + se_major_ver) = u8 (SMBIOS_MAJOR_VER cfg) /\
       m' (addr + se_minor_ver) = u8 (SMBIOS_MINOR_VER cfg) /\
       m' (addr + se_doc_rev) = 0 /\
       m' (addr + se_entry_point_rev) = 1 /\
       load_le m' (addr + se_table_maximum_size) 4 = u32 (a - table_start addr) /\
       load_le m' (addr + se_struct_table_address) 8 = u64 (table_start addr)).
Proof.
  intros Hfit. apply build_ensures; [exact Hfit|].
  intros f a w' H. apply (write_smbios_table_built f cfg env Hfit) in H.
  destruct H as (total & m3 & Ha & _ & _ & _ & Hw & _).
  cbv zeta. rewrite Hw. unfold map_sysmem.
  replace (a - table_start addr) with total by lia.
  apply entry_written_fields.
Qed.

Lemma write_smbios_table_entry_witness :
  (exists a w',
      write_smbios_table 64 sample_config (sample_env 1) 4096 sample_start = Some (a, w') /\
      load_bytes (w_mem w') 4096 5 = [95; 83; 77; 51; 95] /\
      load_le (w_mem w') (4096 + se_table_maximum_size) 4 = u32 (a - table_start 4096) /\
      load_le (w_mem w') (4096 + se_struct_table_address) 8 = 4128) /\
  returns (fun f => write_smbios_table f sample_config (sample_env 1) 4096) sample_start
    (fun a w' => load_le (w_mem w') (4096 + se_struct_table_address) 8 = 4128).
Proof.
  destruct (write_smbios_table_entry sample_config (sample_env 1) 4096 sample_start)
    as [Ha Hr]; [sample_sizes_fit|].
  split.
  - destruct (write_smbios_table 64 sample_config (sample_env 1) 4096 sample_start)
      as [[a w']|] eqn:E; [|vm_compute in E; discriminate].
    destruct (Ha 64%nat a w' E) as (H1 & _ & _ & _ & _ & _ & H7 & H8).
    exists a, w'. split; [reflexivity|]. split; [exact H1|]. split; [exact H7|exact H8].
  - eapply returns_weaken; [apply Hr; sample_dt|].
    cbv beta. intros a w' H. apply H.
Defined.

Lemma smbios_update_version_on_string str_max m q V v :
  string_at m q V ->
  strlen_s v <= Z.of_nat str_max ->
  (strlen_s v <= len V -> fst (smbios_update_version str_max (Some q) m v) = 0) /\
  (len V < strlen_s v -> smbios_update_version str_max (Some q) m v = (- ENOSPC, m)).
Proof.
  intros Hat Hv. unfold smbios_update_version.
  rewrite strnlen_s_min, (strnlen_string_at V m q str_max Hat).
  pose proof (len_nonneg V). pose proof (strlen_s_nonneg v). split; intros H1.
  - destruct (Z.gtb_spec (Z.min (strlen_s v) (Z.of_nat str_max))
                (Z.min (len V) (Z.of_nat str_max))); [lia|reflexivity].
  - destruct (Z.gtb_spec (Z.min (strlen_s v) (Z.of_nat str_max))
                (Z.min (len V) (Z.of_nat str_max))); [reflexivity|lia].
Qed.

(** X11: after a completed build whose firmware structure received a
    version string, gd->smbios_version points into the table, to a
    string that is still in memory with its terminator and that is the
    version string received when that is not empty; when the structure
    received none gd->smbios_version is left as it was. *)
Theorem write_smbios_table_version cfg env addr w :
  sizes_fit cfg ->
  ensures (dt_fits env) (fun f => write_smbios_table f cfg env addr) w
    (fun a w' =>
       match version_source cfg env with
       | None => w_smbios_version w' = w_smbios_version w
       | Some s =>
           exists q V,
             w_smbios_version w' = Some q /\ table_start addr <= q /\
             string_at (w_mem w') q V /\ q + len V < a /\
             (c_str s <> EmptyString -> V = c_str s)
       end).
Proof.
  intros Hfit. apply build_ensures; [exact Hfit|].
  intros f a w' H. apply (write_smbios_table_built f cfg env Hfit) in H.
  destruct H as (total & m3 & Ha & _ & _ & _ & Hw & Hv).
  destruct (version_source cfg env) as [s|]; [|exact Hv].
  destruct Hv as (q & V & Hq & Hle & Hat & Hlt & HV).
  exists q, V. split; [exact Hq|]. split; [exact Hle|]. split; [|split; [exact Hlt|exact HV]].
  apply string_at_ext with (m := m3); [exact Hat|].
  intros x Hx. rewrite Hw. unfold map_sysmem. apply entry_written_outside.
  destruct (table_start_bounds addr) as [_ Hb]. lia.
Qed.

Lemma write_smbios_table_version_witness :
  version_source sample_config (sample_env 1) = Some "1.2"%string /\
  (exists a w' q,
      write_smbios_table 64 sample_config (sample_env 1) 4096 sample_start = Some (a, w') /\
      w_smbios_version w' = Some q /\ string_at (w_mem w') q "1.2") /\
  returns (fun f => write_smbios_table f sample_config (sample_env 1) 4096) sample_start
    (fun a w' => exists q, w_smbios_version w' = Some q /\ string_at (w_mem w') q "1.2").
Proof.
  assert (Hs : version_source sample_config (sample_env 1) = Some "1.2"%string)
    by reflexivity.
  destruct (write_smbios_table_version sample_config (sample_env 1) 4096 sample_start)
    as [Ha Hr]; [sample_sizes_fit|].
  split; [exact Hs|]. split.
  - destruct (write_smbios_table 64 sample_config (sample_env 1) 4096 sample_start)
      as [[a w']|] eqn:E; [|vm_compute in E; discriminate].
    pose proof (Ha 64%nat a w' E) as H. rewrite Hs in H.
    destruct H as (q & V & Hq & _ & Hat & _ & HV).
    exists a, w', q. split; [reflexivity|]. split; [exact Hq|].
    rewrite <- (HV ltac:(discriminate)) at 1. exact Hat.
  - eapply returns_weaken; [apply Hr; sample_dt|].
    cbv beta. rewrite Hs. intros a w' (q & V & Hq & _ & Hat & _ & HV).
    exists q. split; [exact Hq|]. rewrite <- (HV ltac:(discriminate)) at 1. exact Hat.
Defined.

Lemma string_at_chars t : forall m p,
  string_at m p t ->
  m (p + len t) = 0 /\ forall q, p <= q < p + len t -> m q <> 0.
Proof.
  unfold len.
  induction t as [|c t IH]; intros m p H; cbn [string_at String.length] in *.
  - rewrite Z.add_0_r. split; [exact H|]. intros q Hq. lia.
  - destruct H as (H1 & H2 & H3). destruct (IH _ _ H3) as [Hz Hn].
    rewrite Nat2Z.inj_succ. split.
    + replace (p + Z.succ (Z.of_nat (String.length t)))
        with (p + 1 + Z.of_nat (String.length t)) by lia. exact Hz.
    + intros q Hq. destruct (Z.eq_dec q p) as [->|Hne]; [congruence|].
      apply Hn. lia.
Qed.

(** In a pool with a string the two zero bytes that close it are the
    first two in a row. *)
Lemma pool_double_nul m ss : forall s p,
  pool m p (s :: ss) ->
  p + 2 <= pool_end p (s :: ss) /\
  m (pool_end p (s :: ss) - 1) = 0 /\
  forall q, p <= q < pool_end p (s :: ss) - 1 -> m q <> 0 \/ m (q + 1) <> 0.
Proof.
  induction ss as [|s2 ss IH]; intros s p (Hne & Hat & Hp).
  - cbn [pool pool_end] in *. destruct (string_at_chars _ _ _ Hat) as [Hz Hn].
    assert (Hl : 1 <= len s).
    { unfold len. destruct s; [contradiction|]. cbn [String.length]. lia. }
    split; [lia|]. split.
    + replace (p + len s + 1 - 1) with (p + len s) by lia. exact Hz.
    + intros q Hq. left. apply Hn. lia.
  - destruct (IH s2 _ Hp) as (Hb & Hz & Hn).
    destruct (string_at_chars _ _ _ Hat) as [Hz1 Hn1].
    assert (Hl : 1 <= len s).
    { unfold len. destruct s; [contradiction|]. cbn [String.length]. lia. }
    change (pool_end p (s :: s2 :: ss)) with (pool_end (p + len s + 1) (s2 :: ss)).
    split; [lia|]. split; [exact Hz|].
    intros q Hq.
    destruct (Z_lt_le_dec q (p + len s)) as [Hlt|Hge]; [left; apply Hn1; lia|].
    destruct (Z.eq_dec q (p + len s)) as [->|Hne2].
    + right. destruct Hp as (Hne2 & Hat2 & _).
      destruct (string_at_chars _ _ _ Hat2) as [_ Hn2].
      assert (1 <= len s2).
      { unfold len. destruct s2; [contradiction|]. cbn [String.length]. lia. }
      apply Hn2. lia.
    + apply Hn. lia.
Qed.

Lemma strings_at_double_nul m e ss hi : strings_at m e ss hi -> double_nul m e hi.
Proof.
  intros (Hp & Hz & ->). unfold double_nul. destruct ss as [|s ss].
  - cbn [pool pool_end] in *.
    replace (Z.max (e + 2) (e + 1)) with (e + 2) by lia.
    split; [lia|]. split; [replace (e + 2 - 2) with e by lia; exact Hp|]. split.
    + replace (e + 2 - 1) with (e + 1) by lia. apply Hz. reflexivity.
    + intros p Hr. lia.
  - destruct (pool_double_nul m ss s e Hp) as (Hb & Hz1 & Hn).
    replace (Z.max (e + 2) (pool_end e (s :: ss) + 1)) with (pool_end e (s :: ss) + 1) by lia.
    split; [lia|]. split.
    + replace (pool_end e (s :: ss) + 1 - 2) with (pool_end e (s :: ss) - 1) by lia. exact Hz1.
    + split.
      * replace (pool_end e (s :: ss) + 1 - 1) with (pool_end e (s :: ss)) by lia.
        apply (pool_end_zero m (s :: ss) e Hp).
      * intros p Hr. apply Hn. lia.
Qed.

Lemma walkable_scanned m ts : forall lo hi, walkable m lo ts hi -> scanned m lo ts hi.
Proof.
  induction ts as [|t ts IH]; intros lo hi H; cbn [walkable scanned] in *; [exact H|].
  destruct H as (Ha & _ & ss & next & Hs & H). split; [exact Ha|].
  exists next. split; [apply (strings_at_double_nul _ _ ss), Hs|apply IH, H].
Qed.

Lemma sample_device_reports level :
  reports_strings sample_config (Some (sample_device level)).
Proof.
  intros id s H. cbn [sysinfo_get_str sample_device get_str] in H.
  destruct (id =? SYSINFO_ID_SMBIOS_BIOS_VENDOR); [injection H as <-; discriminate|].
  destruct (id =? SYSINFO_ID_SMBIOS_BIOS_VER); [injection H as <-; discriminate|].
  discriminate.
Qed.

(** The table of a completed build in the memory it leaves. *)
Lemma built_walkable cfg env addr w a w' :
  built cfg env addr w a w' ->
  reports_strings cfg (build_dev cfg env) ->
  exists ts, w_out w' = w_out w ++ ts /\ walkable (w_mem w') (table_start addr) ts a.
Proof.
  intros (total & m3 & Ha & _ & _ & (ts & Ho & _ & Hw) & Hm & _) Hdev.
  exists ts. split; [exact Ho|].
  apply walkable_ext with (m := m3); [apply Hw, Hdev|].
  intros x Hx. rewrite Hm. unfold map_sysmem. apply entry_written_outside.
  destruct (table_start_bounds addr) as [_ Hb]. lia.
Qed.

(** X12: when the sysinfo device reports no empty string, a reader can walk
    the table of a completed build from its start to the address
    returned: after the formatted area of each structure, whose length
    the header gives, come the strings of the structure, each with its
    terminator, and one more zero byte (two zero bytes when there is no
    string), these two zero bytes being the first two in a row, and the
    next structure starts right after them. *)
Theorem write_smbios_table_walkable cfg env addr w :
  sizes_fit cfg ->
  reports_strings cfg (build_dev cfg env) ->
  ensures (dt_fits env) (fun f => write_smbios_table f cfg env addr) w
    (fun a w' =>
       exists ts,
         w_out w' = w_out w ++ ts /\
         walkable (w_mem w') (table_start addr) ts a /\
         scanned (w_mem w') (table_start addr) ts a).
Proof.
  intros Hfit Hdev. apply build_ensures; [exact Hfit|].
  intros f a w' H. apply (write_smbios_table_built f cfg env Hfit) in H.
  destruct (built_walkable _ _ _ _ _ _ H Hdev) as (ts & Ho & Hwalk).
  exists ts. split; [exact Ho|].
  split; [exact Hwalk|apply walkable_scanned, Hwalk].
Qed.

Lemma write_smbios_table_walkable_witness :
  (exists a w',
      write_smbios_table 64 sample_config (sample_env 1) 4096 sample_start = Some (a, w') /\
      walkable (w_mem w') 4128 (w_out w') a /\ scanned (w_mem w') 4128 (w_out w') a) /\
  returns (fun f => write_smbios_table f sample_config (sample_env 1) 4096) sample_start
    (fun a w' => scanned (w_mem w') (table_start 4096) (w_out w') a).
Proof.
  destruct (write_smbios_table_walkable sample_config (sample_env 1) 4096 sample_start)
    as [Ha Hr]; [sample_sizes_fit|apply sample_device_reports|].
  split.
  - destruct (write_smbios_table 64 sample_config (sample_env 1) 4096 sample_start)
      as [[a w']|] eqn:E; [|vm_compute in E; discriminate].
    destruct (Ha 64%nat a w' E) as (ts & Ho & Hw & Hs).
    exists a, w'. split; [reflexivity|]. rewrite Ho. split; [exact Hw|exact Hs].
  - eapply returns_weaken; [apply Hr; sample_dt|].
    cbv beta. intros a w' (ts & Ho & _ & Hs). rewrite Ho. exact Hs.
Defined.

Lemma memcpy_nonzero n : forall m p s x,
  Z.of_nat n <= strlen_s s -> p <= x < p + Z.of_nat n -> memcpy m p s n x <> 0.
Proof.
  induction n as [|n IH]; intros m p s x Hn Hx; [lia|].
  cbn [memcpy]. destruct s as [|c s]; cbn [strlen_s] in Hn; [lia|].
  destruct (code c =? 0) eqn:Ec; [lia|]. apply Z.eqb_neq in Ec.
  destruct (Z.eq_dec x p) as [->|Hne].
  - rewrite memcpy_outside by lia. rewrite store_same. exact Ec.
  - apply IH; lia.
Qed.

(** What a reader finds depends only on which bytes are zero. *)
Lemma scanned_zeros m m' ts : forall lo hi,
  (forall x, m' x = 0 <-> m x = 0) -> scanned m lo ts hi -> scanned m' lo ts hi.
Proof.
  intros lo hi Hz. revert lo.
  induction ts as [|t ts IH]; intros lo H; cbn [scanned] in *; [exact H|].
  destruct H as (Ha & next & (Hb & H1 & H2 & Hn) & H). split; [exact Ha|].
  exists next. split; [|apply IH, H]. unfold double_nul.
  split; [exact Hb|]. split; [apply Hz, H1|]. split; [apply Hz, H2|].
  intros p Hp. destruct (Hn p Hp) as [Hp1|Hp1]; [left|right];
    intros C; apply Hp1, Hz, C.
Qed.

(** X13: smbios_update_version never breaks the table of a completed build
    that started with no version recorded, for a device that reports no
    empty string: whatever the new version and whether the call succeeds
    or not, afterwards a reader still finds every structure where it was,
    since only non-zero bytes of the version string are replaced, by
    non-zero bytes. *)
Theorem smbios_update_version_keeps_table cfg env addr w str_max v :
  sizes_fit cfg ->
  reports_strings cfg (build_dev cfg env) ->
  w_smbios_version w = None ->
  ensures (dt_fits env) (fun f => write_smbios_table f cfg env addr) w
    (fun a w' =>
       exists ts,
         w_out w' = w_out w ++ ts /\
         scanned (snd (smbios_update_version str_max (w_smbios_version w') (w_mem w') v))
           (table_start addr) ts a).
Proof.
  intros Hfit Hdev Hnone. apply build_ensures; [exact Hfit|].
  intros f a w' H. apply (write_smbios_table_built f cfg env Hfit) in H.
  destruct (built_walkable _ _ _ _ _ _ H Hdev) as (ts & Ho & Hwalk).
  apply walkable_scanned in Hwalk.
  exists ts. split; [exact Ho|].
  destruct H as (total & m3 & Ha & _ & _ & _ & Hm & Hver).
  destruct (version_source cfg env) as [s|].
  2:{ rewrite Hver, Hnone. exact Hwalk. }
  destruct Hver as (q & V & Hq & Hle & Hat & Hlt & _).
  assert (Hat' : string_at (w_mem w') q V).
  { apply string_at_ext with (m := m3); [exact Hat|].
    intros x Hx. rewrite Hm. unfold map_sysmem. apply entry_written_outside.
    destruct (table_start_bounds addr) as [_ Hb]. lia. }
  rewrite Hq. unfold smbios_update_version.
  rewrite strnlen_s_min, (strnlen_string_at V _ q str_max Hat').
  destruct (Z.gtb_spec (Z.min (strlen_s v) (Z.of_nat str_max))
              (Z.min (len V) (Z.of_nat str_max))) as [Hgt|Hle']; [exact Hwalk|].
  cbn [snd]. apply (scanned_zeros (w_mem w')); [|exact Hwalk].
  pose proof (strlen_s_nonneg v) as Hv. pose proof (len_nonneg V) as HV.
  set (n := Z.min (strlen_s v) (Z.of_nat str_max)) in *.
  intros x.
  destruct (Z_lt_le_dec x q) as [Hx|Hx]; [rewrite memcpy_outside by lia; reflexivity|].
  destruct (Z_lt_le_dec x (q + n)) as [Hx2|Hx2].
  - destruct (string_at_chars _ _ _ Hat') as [_ Hnz].
    split; intros C; exfalso.
    + revert C. apply memcpy_nonzero; rewrite Z2Nat.id by lia; lia.
    + revert C. apply Hnz. lia.
  - rewrite memcpy_outside by (rewrite Z2Nat.id by lia; lia). reflexivity.
Qed.

Lemma smbios_update_version_keeps_table_witness :
  exists a w',
    write_smbios_table 64 sample_config (sample_env 1) 4096 sample_start = Some (a, w') /\
    fst (smbios_update_version 64 (w_smbios_version w') (w_mem w') "9.9") = 0 /\
    scanned (snd (smbios_update_version 64 (w_smbios_version w') (w_mem w') "9.9"))
      (table_start 4096) (w_out w') a.
Proof.
  destruct (smbios_update_version_keeps_table sample_config (sample_env 1) 4096
              sample_start 64 "9.9") as [Ha _];
    [sample_sizes_fit|apply sample_device_reports|reflexivity|].
  destruct (write_smbios_table 64 sample_config (sample_env 1) 4096 sample_start)
    as [[a w']|] eqn:E; [|vm_compute in E; discriminate].
  destruct (Ha 64%nat a w' E) as (ts & Ho & Hs).
  exists a, w'. split; [reflexivity|]. split.
  - revert E. vm_compute. intros [= <- <-]. reflexivity.
  - rewrite Ho. exact Hs.
Defined.

(** X14: smbios_update_version after a completed build that started with no
    version recorded: when the firmware structure received a non-empty
    version string, a new version of at most SMBIOS_STR_MAX characters is
    accepted when it is not longer than that string and refused with
    -ENOSPC, memory unchanged, when it is longer; when the structure
    received no version string the call fails with -ENOENT. *)
Theorem smbios_update_version_after_build cfg env addr w str_max v :
  sizes_fit cfg ->
  w_smbios_version w = None ->
  strlen_s v <= Z.of_nat str_max ->
  ensures (dt_fits env) (fun f => write_smbios_table f cfg env addr) w
    (fun a w' =>
       let r := smbios_update_version str_max (w_smbios_version w') (w_mem w') v in
       match version_source cfg env with
       | None => r = (- ENOENT, w_mem w')
       | Some s =>
           c_str s <> EmptyString ->
           (strlen_s v <= strlen_s s -> fst r = 0) /\
           (strlen_s s < strlen_s v -> r = (- ENOSPC, w_mem w'))
       end).
Proof.
  intros Hfit Hnone Hv. apply build_ensures; [exact Hfit|].
  intros f a w' H. apply (write_smbios_table_built f cfg env Hfit) in H.
  destruct H as (total & m3 & Ha & _ & _ & _ & Hw & Hver).
  cbv zeta. destruct (version_source cfg env) as [s|].
  - intros Hne. destruct Hver as (q & V & Hq & Hle & Hat & Hlt & HV).
    rewrite Hq. specialize (HV Hne). subst V.
    assert (Hat' : string_at (w_mem w') q (c_str s)).
    { apply string_at_ext with (m := m3); [exact Hat|].
      intros x Hx. rewrite Hw. unfold map_sysmem. apply entry_written_outside.
      destruct (table_start_bounds addr) as [_ Hb]. lia. }
    rewrite <- (len_c_str s).
    apply smbios_update_version_on_string; assumption.
  - rewrite Hver, Hnone. reflexivity.
Qed.

Lemma smbios_update_version_after_build_witness :
  exists a w',
    write_smbios_table 64 sample_config (sample_env 1) 4096 sample_start = Some (a, w') /\
    fst (smbios_update_version 64 (w_smbios_version w') (w_mem w') "9.9") = 0 /\
    smbios_update_version 64 (w_smbios_version w') (w_mem w') "2025.01"
      = (- ENOSPC, w_mem w').
Proof.
  destruct (write_smbios_table 64 sample_config (sample_env 1) 4096 sample_start)
    as [[a w']|] eqn:E; [|vm_compute in E; discriminate].
  exists a, w'. split; [reflexivity|]. split.
  - destruct (smbios_update_version_after_build sample_config (sample_env 1) 4096
                sample_start 64 "9.9") as [Ha _];
      [sample_sizes_fit|reflexivity|vm_compute; discriminate|].
    apply (Ha 64%nat a w' E); [discriminate|vm_compute; discriminate].
  - destruct (smbios_update_version_after_build sample_config (sample_env 1) 4096
                sample_start 64 "2025.01") as [Ha _];
      [sample_sizes_fit|reflexivity|vm_compute; discriminate|].
    apply (Ha 64%nat a w' E); [discriminate|reflexivity].
Defined.

Lemma version_source_without_device cfg env :
  build_dev cfg env = None ->
  version_source cfg env
  = if CONFIG_OF_CONTROL cfg then nonempty (Some (PLAIN_VERSION cfg)) else None.
Proof.
  intros Hd. unfold version_source, prop_source, bios_ctx, parent_node.
  rewrite Hd. cbn [dev node subnode_name is_some andb sysinfo_get_str].
  rewrite andb_false_r.
  destruct (CONFIG_OF_CONTROL cfg); [|reflexivity].
  cbn [ofnode_find_subnode ofnode_null ofnode_valid].
  change (convert_sysinfo_to_dt (Some "bios"%string) "version") with (@None map_sysinfo).
  cbn [get_str_from_dt]. unfold or_else. cbn [nonempty strlen_s Z.eqb].
  reflexivity.
Qed.

(** X15: a build without a sysinfo device: with the configuration tree
    compiled in, a non-empty PLAIN_VERSION is the version string of the
    table and gd->smbios_version points to it; without it no version
    string is written and gd->smbios_version is left as it was. *)
Theorem write_smbios_table_without_device cfg env addr w :
  sizes_fit cfg ->
  build_dev cfg env = None ->
  ensures (dt_fits env) (fun f => write_smbios_table f cfg env addr) w
    (fun a w' =>
       if CONFIG_OF_CONTROL cfg then
         strlen_s (PLAIN_VERSION cfg) <> 0 ->
         exists q,
           w_smbios_version w' = Some q /\ table_start addr <= q /\
           string_at (w_mem w') q (c_str (PLAIN_VERSION cfg)) /\
           q + strlen_s (PLAIN_VERSION cfg) < a
       else w_smbios_version w' = w_smbios_version w).
Proof.
  intros Hfit Hd. apply build_ensures; [exact Hfit|].
  intros f a w' H. apply (write_smbios_table_built f cfg env Hfit) in H.
  destruct H as (total & m3 & Ha & _ & _ & _ & Hw & Hver).
  rewrite (version_source_without_device cfg env Hd) in Hver.
  destruct (CONFIG_OF_CONTROL cfg); [|exact Hver].
  intros Hne. cbn [nonempty] in Hver.
  apply Z.eqb_neq in Hne. rewrite Hne in Hver. apply Z.eqb_neq in Hne.
  destruct Hver as (q & V & Hq & Hle & Hat & Hlt & HV).
  assert (Hc : c_str (PLAIN_VERSION cfg) <> EmptyString).
  { intros Hc. apply Hne. rewrite <- len_c_str, Hc. reflexivity. }
  specialize (HV Hc). subst V. rewrite len_c_str in Hlt.
  exists q. split; [exact Hq|]. split; [exact Hle|]. split; [|exact Hlt].
  apply string_at_ext with (m := m3); [exact Hat|].
  intros x Hx. rewrite Hw. unfold map_sysmem. apply entry_written_outside.
  destruct (table_start_bounds addr) as [_ Hb]. lia.
Qed.

Lemma write_smbios_table_without_device_witness :
  (exists a w' q,
      write_smbios_table 64 sample_config bare_env 4096 sample_start = Some (a, w') /\
      w_smbios_version w' = Some q /\ string_at (w_mem w') q "2025.01") /\
  (exists a w',
      write_smbios_table 64 sample_config_no_of bare_env 4096 sample_start = Some (a, w') /\
      w_smbios_version w' = None) /\
  returns (fun f => write_smbios_table f sample_config_no_of bare_env 4096) sample_start
    (fun _ w' => w_smbios_version w' = None).
Proof.
  split; [|split].
  - destruct (write_smbios_table_without_device sample_config bare_env 4096 sample_start)
      as [Ha _]; [sample_sizes_fit|reflexivity|].
    destruct (write_smbios_table 64 sample_config bare_env 4096 sample_start)
      as [[a w']|] eqn:E; [|vm_compute in E; discriminate].
    destruct (Ha 64%nat a w' E) as (q & Hq & _ & Hat & _); [discriminate|].
    exists a, w', q. split; [reflexivity|]. split; [exact Hq|exact Hat].
  - destruct (write_smbios_table_without_device sample_config_no_of bare_env 4096
                sample_start) as [Ha _]; [sample_sizes_fit|reflexivity|].
    destruct (write_smbios_table 64 sample_config_no_of bare_env 4096 sample_start)
      as [[a w']|] eqn:E; [|vm_compute in E; discriminate].
    exists a, w'. split; [reflexivity|]. exact (Ha 64%nat a w' E).
  - destruct (write_smbios_table_without_device sample_config_no_of bare_env 4096
                sample_start) as [_ Hr]; [sample_sizes_fit|reflexivity|].
    apply Hr. sample_dt.
Defined.

(** X16: smbios_write_type7 leaves the context as it found it, keeps
    gd->smbios_version, and writes one cache structure per level, none
    when the level count is not below SYSINFO_CACHE_LVL_MAX: the
    structures have type 7 and the handles [handle], [handle + 1], ...,
    tile the addresses from the old [current] to the new one, and
    [current] is moved by the length returned, outside of which no byte
    changes. *)
Theorem smbios_write_type7_group cfg env handle w :
  sizes_fit cfg ->
  ensures (dt_fits env) (fun f => smbios_write_type7 f cfg env handle) w
    (fun l w' =>
       w_ctx w' = w_ctx w /\ w_smbios_version w' = w_smbios_version w /\
       w_current w' = w_current w + l /\
       confined_to (w_current w) (w_current w') (w_mem w) (w_mem w') /\
       exists ts,
         w_out w' = w_out w ++ ts /\
         map s_hdr ts = cache_headers cfg handle (cache_count (dev (w_ctx w))) /\
         tiled (w_current w) ts (w_current w')).
Proof.
  intros Hfit.
  assert (HQ : forall f l w',
             smbios_write_type7 f cfg env handle w = Some (l, w') ->
             w_ctx w' = w_ctx w /\ w_smbios_version w' = w_smbios_version w /\
             w_current w' = w_current w + l /\
             confined_to (w_current w) (w_current w') (w_mem w) (w_mem w') /\
             exists ts,
               w_out w' = w_out w ++ ts /\
               map s_hdr ts = cache_headers cfg handle (cache_count (dev (w_ctx w))) /\
               tiled (w_current w) ts (w_current w')).
  { intros f l w' H.
    destruct (smbios_write_type7_advanced f cfg env Hfit handle w l w' H)
      as ((Hc & _ & Hm & _ & ts & Ho & Hs & _) & Hx & Hv).
    apply smbios_write_type7_spec in H. destruct H as (ts' & Ho' & Hh & _).
    assert (ts' = ts) by (apply (app_inv_head (w_out w)); congruence). subst ts'.
    split; [exact Hx|]. split; [exact Hv|]. split; [exact Hc|]. split; [exact Hm|].
    exists ts. split; [exact Ho|]. split; [exact Hh|exact Hs]. }
  split; [exact HQ|]. intros Hdt.
  eapply returns_partial; [|exact HQ].
  apply returns_write_type7; [exact Hdt|].
  destruct (sizes_fit_each cfg Hfit) as (_ & _ & _ & _ & _ & [H7 _] & _). exact H7.
Qed.

Lemma smbios_write_type7_group_witness :
  exists l w' ts,
    smbios_write_type7 64 sample_config (sample_env 1) 4
      (initial_state zero_mem None sample_data sample_cache_ctx) = Some (l, w') /\
    w_ctx w' = sample_cache_ctx /\ w_current w' = l /\
    w_out w' = ts /\ handles ts = [4; 5] /\ types ts = [7; 7].
Proof.
  destruct (smbios_write_type7_group sample_config (sample_env 1) 4
              (initial_state zero_mem None sample_data sample_cache_ctx))
    as [Ha _]; [sample_sizes_fit|].
  destruct (smbios_write_type7 64 sample_config (sample_env 1) 4
              (initial_state zero_mem None sample_data sample_cache_ctx))
    as [[l w']|] eqn:E; [|vm_compute in E; discriminate].
  destruct (Ha 64%nat l w' E) as (Hc & _ & Hl & _ & ts & Ho & Hh & _).
  exists l, w', ts. split; [reflexivity|]. split; [exact Hc|]. split; [exact Hl|].
  split; [exact Ho|].
  unfold handles, types.
  rewrite <- (map_map s_hdr hdr_handle), <- (map_map s_hdr hdr_type), Hh.
  split; reflexivity.
Defined.

(** X17: every completed build writes the structures in the order of
    smbios_write_funcs: types 0, 1, 2 and 3, one structure of type 7 per
    cache level, then types 4 and 32 and, last and only there, the
    end-of-table structure of type 127; between 7 and 10 structures in
    all. *)
Theorem write_smbios_table_order cfg env addr w :
  sizes_fit cfg ->
  ensures (dt_fits env) (fun f => write_smbios_table f cfg env addr) w
    (fun a w' =>
       exists ts,
         w_out w' = w_out w ++ ts /\
         types ts = [0; 1; 2; 3] ++ repeat 7 (cache_count (build_dev cfg env))
                    ++ [4; 32; 127] /\
         (7 <= List.length ts <= 10)%nat).
Proof.
  intros Hfit. apply build_ensures; [exact Hfit|].
  intros f a w' H. apply write_smbios_table_spec in H.
  destruct H as [(ts & Ho & Hs) _].
  exists ts. split; [exact Ho|].
  pose proof (table_shape_types _ _ _ _ Hs) as Ht.
  split; [exact Ht|].
  assert (Hl : List.length (types ts) = List.length ts) by apply length_map.
  rewrite Ht in Hl. rewrite !length_app, repeat_length in Hl. cbn [List.length] in Hl.
  pose proof (cache_count_bound (build_dev cfg env)) as Hb.
  unfold SYSINFO_CACHE_LVL_MAX in Hb. lia.
Qed.

Lemma write_smbios_table_order_witness :
  (exists a w',
      write_smbios_table 64 sample_config (sample_env 1) 4096 sample_start = Some (a, w') /\
      types (w_out w') = [0; 1; 2; 3; 7; 7; 4; 32; 127]) /\
  returns (fun f => write_smbios_table f sample_config (sample_env 1) 4096) sample_start
    (fun a w' => types (w_out w') = [0; 1; 2; 3; 7; 7; 4; 32; 127]).
Proof.
  destruct (write_smbios_table_order sample_config (sample_env 1) 4096 sample_start)
    as [Ha Hr]; [sample_sizes_fit|].
  split.
  - destruct (write_smbios_table 64 sample_config (sample_env 1) 4096 sample_start)
      as [[a w']|] eqn:E; [|vm_compute in E; discriminate].
    destruct (Ha 64%nat a w' E) as (ts & Ho & Ht & _).
    exists a, w'. split; [reflexivity|]. rewrite Ho. exact Ht.
  - eapply returns_weaken; [apply Hr; sample_dt|].
    cbv beta. intros a w' (ts & Ho & Ht & _). rewrite Ho. exact Ht.
Defined.

(** * The string resolver *)

(** X18: the number smbios_add_prop_si returns is a reference into the pool
    for a device that reports no empty string: it is 0, with nothing
    changed, exactly when the resolver has no string (no device string
    and, for a NULL property name, no default; for a property name, no
    configuration tree, or neither a value nor a default); else it is the
    1-based position, in the pool after the call, of the string the
    resolver chose, the strings that were in the pool keep their place and
    bytes, and [eos] is kept. With root properties that fit the buffer
    the call returns. *)
Theorem smbios_add_prop_si_reference cfg root ctx m prop id dval ss :
  pool m (eos ctx) ss ->
  reports_strings cfg (dev ctx) ->
  (forall fuel n ctx1 m1,
      smbios_add_prop_si fuel cfg root ctx m prop id dval = Some (n, ctx1, m1) ->
      match prop_source cfg root ctx prop id dval with
      | None => n = 0 /\ ctx1 = ctx /\ m1 = m
      | Some s =>
          exists tl,
            pool m1 (eos ctx) (ss ++ tl) /\ eos ctx1 = eos ctx /\
            1 <= n <= Z.of_nat (List.length (ss ++ tl)) /\
            nth_error (ss ++ tl) (Z.to_nat (n - 1)) = Some (c_str s) /\
            (forall x, x < pool_end (eos ctx) ss -> m1 x = m x)
      end) /\
  ((forall np, In np sysinfo_to_dt -> get_str_from_dt root (Some np) 128 <> None) ->
   exists f0 n ctx1 m1, forall f, (f0 <= f)%nat ->
     smbios_add_prop_si f cfg root ctx m prop id dval = Some (n, ctx1, m1)).
Proof.
  intros Hp Hdev. split.
  - intros fuel n ctx1 m1 H. apply smbios_add_prop_si_eq in H.
    destruct (prop_source cfg root ctx prop id dval) as [s|] eqn:Es.
    2:{ cbn [smbios_add_string] in H. injection H as <- <- <-. repeat split. }
    pose proof (prop_source_nonempty _ _ _ _ _ _ _ Hdev Es) as Hs.
    assert (Hne : c_str s <> EmptyString).
    { intros C. apply Hs. rewrite <- len_c_str, C. reflexivity. }
    destruct (smbios_add_string_pool fuel ctx m s ss n ctx1 m1 Hp H) as (He & Hp1 & Hc).
    rewrite He in Hp1. unfold pool_add in Hp1.
    destruct (index_of (c_str s) ss) as [k|] eqn:Ei.
    + destruct Hc as (-> & -> & _). exists []. rewrite app_nil_r.
      pose proof (index_of_some _ _ _ Ei) as Hnth.
      assert (Hk : (k < List.length ss)%nat) by (apply nth_error_Some; congruence).
      split; [exact Hp1|]. split; [exact He|]. split; [lia|]. split; [|reflexivity].
      replace (Z.to_nat (Z.of_nat k + 1 - 1)) with k by lia. exact Hnth.
    + destruct Hc as (-> & _ & _ & Hout).
      destruct (c_str s) as [|c cs] eqn:Ec; [contradiction|].
      exists [String c cs]. split; [exact Hp1|]. split; [exact He|].
      rewrite length_app. cbn [List.length]. split; [lia|]. split.
      * replace (Z.to_nat (Z.of_nat (List.length ss) + 1 - 1)) with (List.length ss) by lia.
        rewrite nth_error_app2, Nat.sub_diag by lia. reflexivity.
      * intros x Hx. apply Hout. left. exact Hx.
  - intros Hdt.
    destruct (smbios_add_prop_si_cases cfg root ctx m prop id dval Hdt) as [[s Hs]|Hz].
    + destruct (smbios_add_string_returns ctx m s ss Hp) as (f0 & n & ctx1 & m1 & _ & E & _).
      exists f0, n, ctx1, m1. intros f Hf. rewrite Hs. apply E, Hf.
    + exists O, 0, ctx, m. intros f _. apply Hz.
Qed.

Lemma smbios_add_prop_si_reference_witness :
  exists ctx1 m1,
    smbios_add_prop_si 8 sample_config ofnode_null (device_ctx 1) acme_mem1
      (Some "version"%string) SYSINFO_ID_SMBIOS_BIOS_VER (Some "2025.01"%string)
    = Some (2, ctx1, m1) /\
    exists tl,
      pool m1 0 (["Acme"%string] ++ tl) /\
      nth_error (["Acme"%string] ++ tl) 1 = Some "1.2"%string.
Proof.
  destruct (smbios_add_prop_si_reference sample_config ofnode_null (device_ctx 1) acme_mem1
              (Some "version"%string) SYSINFO_ID_SMBIOS_BIOS_VER (Some "2025.01"%string)
              ["Acme"%string]) as [Ha _].
  - cbn [pool string_at]. repeat split; try discriminate; vm_compute; reflexivity || discriminate.
  - apply sample_device_reports.
  - destruct (smbios_add_prop_si 8 sample_config ofnode_null (device_ctx 1) acme_mem1
                (Some "version"%string) SYSINFO_ID_SMBIOS_BIOS_VER (Some "2025.01"%string))
      as [[[n ctx1] m1]|] eqn:E; [|vm_compute in E; discriminate].
    assert (Hn : n = 2) by (revert E; vm_compute; intros [= <- _ _]; reflexivity).
    subst n. exists ctx1, m1. split; [reflexivity|].
    destruct (Ha 8%nat 2 ctx1 m1 E) as (tl & Hp & _ & _ & Hnth & _).
    exists tl. split; [exact Hp|exact Hnth].
Defined.

(** * The string pool with repeated strings *)

Lemma pool_add_stored ss s :
  strlen_s s <> 0 ->
  pool_add ss s = match index_of (c_str s) ss with
                  | Some _ => ss
                  | None => ss ++ [c_str s]
                  end.
Proof.
  intros Hs. unfold pool_add. destruct (index_of (c_str s) ss); [reflexivity|].
  destruct (c_str s) eqn:E; [|reflexivity].
  exfalso. apply Hs. rewrite <- len_c_str, E. reflexivity.
Qed.

Lemma index_of_app t ss tl : forall k,
  index_of t ss = Some k -> index_of t (ss ++ tl) = Some k.
Proof.
  induction ss as [|s ss IH]; intros k H; cbn [index_of app] in *; [discriminate|].
  destruct (String.eqb s t); [exact H|].
  destruct (index_of t ss) as [j|]; [|discriminate].
  rewrite (IH j eq_refl). exact H.
Qed.

Lemma index_of_last t ss :
  index_of t ss = None -> index_of t (ss ++ [t]) = Some (List.length ss).
Proof.
  induction ss as [|s ss IH]; cbn [index_of app List.length]; intros H.
  - now rewrite String.eqb_refl.
  - destruct (String.eqb s t); [discriminate|].
    destruct (index_of t ss) as [j|]; [discriminate|]. now rewrite IH.
Qed.

Lemma pool_adds_prefix l : forall ss, exists tl, pool_adds ss l = ss ++ tl.
Proof.
  unfold pool_adds.
  induction l as [|s l IH]; intros ss; cbn [fold_left].
  - exists []. now rewrite app_nil_r.
  - destruct (IH (pool_add ss s)) as [tl ->].
    destruct (pool_add_prefix ss s) as [tl0 ->].
    exists (tl0 ++ tl). now rewrite app_assoc.
Qed.

(** Adding non-empty strings to a well-formed pool: with fuel above the
    number and the lengths of the strings there is a result, the pool
    holds the strings it held and then the new ones in the order first
    added, and a cursor at the end of the pool stays there. *)
Lemma add_strings_pool fuel l : forall ctx m ss,
  pool m (eos ctx) ss ->
  (List.length ss + List.length l < fuel)%nat ->
  Forall (fun t => (String.length t < fuel)%nat) ss ->
  Forall (fun s => strlen_s s <> 0 /\ strlen_s s < Z.of_nat fuel) l ->
  exists ns ctx' m',
    add_strings fuel ctx m l = Some (ns, ctx', m') /\
    eos ctx' = eos ctx /\
    pool m' (eos ctx) (pool_adds ss l) /\
    (forall x, x < pool_end (eos ctx) ss -> m' x = m x) /\
    (next_ptr ctx = pool_end (eos ctx) ss ->
     next_ptr ctx' = pool_end (eos ctx) (pool_adds ss l)) /\
    (List.length (pool_adds ss l) <= List.length ss + List.length l)%nat /\
    Forall (fun t => (String.length t < fuel)%nat) (pool_adds ss l).
Proof.
  unfold pool_adds.
  induction l as [|s l IH]; intros ctx m ss Hp Hn Hf Hl; cbn [add_strings fold_left].
  - exists [], ctx, m. split; [reflexivity|]. split; [reflexivity|]. split; [exact Hp|].
    split; [reflexivity|]. split; [intros H; exact H|]. split; [lia|exact Hf].
  - cbn [List.length] in Hn. inversion Hl as [|? ? [Hs Hsf] Hl']; subst.
    destruct (smbios_add_string_loop_total fuel ss fuel ctx m s (eos ctx) 1 Hp)
      as (n & ctx1 & m1 & ss1 & E & _); [lia|exact Hf|].
    assert (E1 : smbios_add_string fuel ctx m (Some s) = Some (n, ctx1, m1)) by exact E.
    rewrite E1.
    destruct (smbios_add_string_pool fuel ctx m s ss n ctx1 m1 Hp E1) as (He & Hp1 & Hc).
    pose proof (pool_add_length ss s) as Hlen.
    assert (Hf1 : Forall (fun t => (String.length t < fuel)%nat) (pool_add ss s)).
    { rewrite (pool_add_stored ss s Hs). destruct (index_of (c_str s) ss); [exact Hf|].
      apply Forall_app. split; [exact Hf|]. constructor; [|constructor].
      cbv beta. pose proof (length_c_str s). lia. }
    destruct (IH ctx1 m1 (pool_add ss s) Hp1) as (ns & ctx' & m' & E2 & He2 & Hp2 & Hm2 & Hn2 & Hl2 & Hf2);
      [lia|exact Hf1|exact Hl'|].
    rewrite E2. exists (n :: ns), ctx', m'. split; [reflexivity|].
    rewrite He in *. split; [exact He2|]. split; [exact Hp2|].
    destruct (pool_add_prefix ss s) as [tl Htl].
    assert (Hend : pool_end (eos ctx) ss <= pool_end (eos ctx) (pool_add ss s)).
    { rewrite (pool_add_stored ss s Hs). destruct (index_of (c_str s) ss); [lia|].
      rewrite pool_end_app. pose proof (len_nonneg (c_str s)). lia. }
    split; [|split; [|split; [cbn [List.length]; lia|exact Hf2]]].
    + intros x Hx. rewrite Hm2 by lia.
      destruct (index_of (c_str s) ss).
      * destruct Hc as (_ & -> & _). reflexivity.
      * destruct Hc as (_ & _ & _ & Hout). apply Hout. left. exact Hx.
    + intros Hnp. apply Hn2. rewrite (pool_add_stored ss s Hs).
      destruct (index_of (c_str s) ss).
      * destruct Hc as (_ & _ & -> & _). exact Hnp.
      * destruct Hc as (_ & _ & -> & _). rewrite pool_end_app, len_c_str. reflexivity.
Qed.

(** C6 (corrected): in a pool that holds non-empty strings only (a fresh
    pool is one), adding a non-empty string and adding it again later,
    directly or after any other non-empty strings were added in between,
    returns the same reference number, which is at least 1, and the second
    add leaves every byte of memory, the pool cursor and the serialized
    string area as they are; adding two distinct non-empty strings to a
    fresh pool returns 1 and then 2. Fuel above the number and the lengths
    of the strings gives these results. Besides, whatever the memory and
    the string, adding a string that has just been added returns the same
    number and leaves the context and every byte as they are. *)
Theorem smbios_add_string_numbering :
  (forall fuel ctx m ss s mid,
      pool m (eos ctx) ss ->
      (List.length ss + List.length mid + 1 < fuel)%nat ->
      Forall (fun t => (String.length t < fuel)%nat) ss ->
      strlen_s s <> 0 -> strlen_s s < Z.of_nat fuel ->
      Forall (fun t => strlen_s t <> 0 /\ strlen_s t < Z.of_nat fuel) mid ->
      exists n ctx1 m1 ns ctx2 m2 ctx3,
        smbios_add_string fuel ctx m (Some s) = Some (n, ctx1, m1) /\
        add_strings fuel ctx1 m1 mid = Some (ns, ctx2, m2) /\
        smbios_add_string fuel ctx2 m2 (Some s) = Some (n, ctx3, m2) /\
        1 <= n /\
        eos ctx3 = eos ctx2 /\ next_ptr ctx3 = next_ptr ctx2 /\
        string_area ctx3 m2 = string_area ctx2 m2) /\
  (forall fuel ctx m e s1 s2,
      m e = 0 ->
      strlen_s s1 <> 0 -> strlen_s s2 <> 0 -> c_str s1 <> c_str s2 ->
      strlen_s s1 + 1 < Z.of_nat fuel ->
      exists ctx' m',
        add_strings fuel (smbios_set_eos ctx e) m [s1; s2] = Some ([1; 2], ctx', m')) /\
  (forall fuel ctx m s n ctx1 m1,
      smbios_add_string fuel ctx m (Some s) = Some (n, ctx1, m1) ->
      1 <= n /\
      exists m2,
        smbios_add_string fuel ctx1 m1 (Some s) = Some (n, ctx1, m2) /\
        (forall x, m2 x = m1 x) /\
        string_area ctx1 m2 = string_area ctx1 m1).
Proof.
  split; [|split].
  - intros fuel ctx m ss s mid Hp Hn Hf Hs Hsf Hmid.
    destruct (add_strings_pool fuel (s :: mid) ctx m ss Hp)
      as (ns0 & ctx2 & m2 & E & He2 & Hp2 & _ & _ & Hl2 & Hf2);
      [cbn [List.length]; lia|exact Hf|constructor; [split; assumption|exact Hmid]|].
    cbn [add_strings] in E.
    destruct (smbios_add_string fuel ctx m (Some s)) as [[[n ctx1] m1]|] eqn:E1;
      [|discriminate].
    destruct (add_strings fuel ctx1 m1 mid) as [[[ns ctx2'] m2']|] eqn:E2; [|discriminate].
    injection E as _ -> ->. clear ns0.
    destruct (smbios_add_string_pool fuel ctx m s ss n ctx1 m1 Hp E1) as (_ & _ & Hc).
    (* the place of the string in the pool after the first add *)
    assert (Hk : exists k, index_of (c_str s) (pool_add ss s) = Some k /\ n = Z.of_nat k + 1).
    { rewrite (pool_add_stored ss s Hs).
      destruct (index_of (c_str s) ss) as [k|] eqn:Ei.
      - exists k. split; [exact Ei|]. destruct Hc as (-> & _). reflexivity.
      - exists (List.length ss). split; [apply index_of_last, Ei|].
        destruct Hc as (-> & _). reflexivity. }
    destruct Hk as (k & Hk & ->).
    unfold pool_adds in *. cbn [fold_left List.length] in Hp2, Hl2, Hf2.
    destruct (pool_adds_prefix mid (pool_add ss s)) as [tl Htl].
    unfold pool_adds in Htl. rewrite Htl in Hp2, Hl2, Hf2.
    pose proof (index_of_app _ _ tl _ Hk) as Hk2.
    rewrite <- He2 in Hp2.
    destruct (smbios_add_string_loop_total fuel _ fuel ctx2 m2 s (eos ctx2) 1 Hp2)
      as (n3 & ctx3 & m3 & ss3 & E3 & _); [lia|exact Hf2|].
    assert (E3' : smbios_add_string fuel ctx2 m2 (Some s) = Some (n3, ctx3, m3)) by exact E3.
    destruct (smbios_add_string_pool fuel ctx2 m2 s _ n3 ctx3 m3 Hp2 E3') as (He3 & _ & Hc3).
    rewrite Hk2 in Hc3. destruct Hc3 as (-> & -> & Hnp3 & _).
    exists (Z.of_nat k + 1), ctx1, m1, ns, ctx2, m2, ctx3.
    split; [reflexivity|]. split; [exact E2|]. split; [exact E3'|]. split; [lia|].
    split; [exact He3|]. split; [exact Hnp3|].
    unfold string_area, smbios_string_table_len. rewrite He3, Hnp3. reflexivity.
  - intros fuel ctx m e s1 s2 Hm H1 H2 Hd Hf.
    pose proof (strlen_s_nonneg s1) as Hn1.
    assert (Hfuel : (2 <= fuel)%nat) by lia.
    destruct (smbios_add_string fuel (smbios_set_eos ctx e) m (Some s1))
      as [[[r1 ctx1] m1]|] eqn:E1.
    2:{ unfold smbios_add_string in E1. destruct fuel as [|k]; [lia|]. simpl in E1.
        rewrite Hm in E1. simpl in E1. discriminate. }
    pose proof E1 as Hs. unfold smbios_add_string in Hs.
    apply smbios_add_string_loop_spec in Hs. simpl eos in Hs.
    destruct Hs as (q & _ & He & _ & _ & Hc & Hq). destruct (Hq Hm) as [-> ->].
    destruct Hc as [(_ & _ & Hne & _)|(_ & Hnp & Hat & Hz & _)]; [contradiction|].
    assert (E2 : forall n, (2 <= n)%nat -> exists ctx2 m2,
               smbios_add_string_loop fuel n ctx1 m1 s2 e 1 = Some (2, ctx2, m2)).
    { intros n Hn. destruct n as [|[|n]]; [lia|lia|]. simpl.
      assert (H0 : (m1 e =? 0) = false).
      { apply Z.eqb_neq. destruct (c_str s1) as [|c cs] eqn:Ec.
        - exfalso. apply H1. rewrite <- len_c_str, Ec. reflexivity.
        - destruct Hat as (Ha & Hb & _). congruence. }
      rewrite H0.
      assert (Hc : (strcmp m1 e s2 =? 0) = false).
      { apply Z.eqb_neq. rewrite (strcmp_string_at _ _ _ s2 Hat). exact Hd. }
      rewrite Hc.
      rewrite (strlen_string_at (c_str s1) fuel m1 e Hat)
        by (pose proof (length_c_str s1); lia).
      rewrite len_c_str.
      replace (e + (strlen_s s1 + 1)) with (e + strlen_s s1 + 1) by lia.
      rewrite Hz. simpl. eexists _, _. reflexivity. }
    destruct (E2 fuel Hfuel) as (ctx2 & m2 & E2'). clear E2.
    assert (E2 : smbios_add_string fuel ctx1 m1 (Some s2) = Some (2, ctx2, m2))
      by (unfold smbios_add_string; rewrite He; exact E2').
    exists ctx2, m2. cbn [add_strings]. rewrite E1, E2. reflexivity.
  - intros fuel ctx m s n ctx1 m1 H. unfold smbios_add_string in *.
    split; [apply smbios_add_string_loop_number in H; exact H|].
    pose proof H as Hs. apply smbios_add_string_loop_spec in Hs.
    destruct Hs as (_ & _ & He & _).
    apply smbios_add_string_loop_twice in H. destruct H as (m2 & H & Hm).
    exists m2. rewrite He. split; [exact H|]. split; [exact Hm|].
    unfold string_area. apply load_bytes_ext, Hm.
Qed.

Lemma smbios_add_string_numbering_witness :
  (exists n ctx1 m1 ns ctx2 m2 ctx3,
      smbios_add_string 8 acme_ctx zero_mem (Some "Acme"%string) = Some (n, ctx1, m1) /\
      add_strings 8 ctx1 m1 ["1.2"; "x"; "1.2"]%string = Some (ns, ctx2, m2) /\
      smbios_add_string 8 ctx2 m2 (Some "Acme"%string) = Some (n, ctx3, m2) /\
      1 <= n /\
      eos ctx3 = eos ctx2 /\ next_ptr ctx3 = next_ptr ctx2 /\
      string_area ctx3 m2 = string_area ctx2 m2) /\
  (exists ctx' m',
      add_strings 8 (smbios_set_eos blank_ctx 0) zero_mem ["Acme"; "1.2"]%string
      = Some ([1; 2], ctx', m')) /\
  smbios_add_string 8 acme_ctx zero_mem (Some "Acme"%string)
    = Some (1, acme_ctx1, acme_mem1) /\
  (exists m2,
      smbios_add_string 8 acme_ctx1 acme_mem1 (Some "Acme"%string)
        = Some (1, acme_ctx1, m2) /\
      (forall x, m2 x = acme_mem1 x) /\
      string_area acme_ctx1 m2 = string_area acme_ctx1 acme_mem1).
Proof.
  split; [|split; [|split; [reflexivity|]]].
  - apply (proj1 smbios_add_string_numbering 8%nat acme_ctx zero_mem []
             "Acme"%string ["1.2"; "x"; "1.2"]%string).
    + reflexivity.
    + cbn [List.length]. lia.
    + constructor.
    + discriminate.
    + reflexivity.
    + repeat constructor; discriminate.
  - apply (proj1 (proj2 smbios_add_string_numbering) 8%nat blank_ctx zero_mem 0
             "Acme"%string "1.2"%string);
      [reflexivity|discriminate|discriminate|discriminate|reflexivity].
  - apply (proj2 (proj2 smbios_add_string_numbering) 8%nat acme_ctx zero_mem
             "Acme"%string 1 acme_ctx1 acme_mem1). reflexivity.
Defined.

Lemma smbios_add_string_empty_counterexample :
  EmptyString <> "a"%string /\
  zero_mem 0 = 0 /\
  exists ctx' m',
    add_strings 8 (smbios_set_eos blank_ctx 0) zero_mem
      [EmptyString; "a"%string; EmptyString]
    = Some ([1; 1; 2], ctx', m').
Proof.
  split; [discriminate|]. split; [reflexivity|].
  eexists _, _. reflexivity.
Qed.

(** The strings of a pool are not empty and hold no zero byte. *)
Lemma string_at_codes s : forall m p, string_at m p s -> Forall (fun b => b <> 0) (codes s).
Proof.
  induction s as [|c s IH]; intros m p H; cbn [string_at] in H.
  - constructor.
  - destruct H as (_ & Hc & H). change (codes (String c s)) with (code c :: codes s).
    constructor; [exact Hc|exact (IH m (p + 1) H)].
Qed.

Lemma pool_codes ss : forall m p,
  pool m p ss ->
  Forall (fun u => u <> EmptyString /\ Forall (fun b => b <> 0) (codes u)) ss.
Proof.
  induction ss as [|s ss IH]; intros m p H; cbn [pool] in H.
  - constructor.
  - destruct H as (Hne & Hs & H). constructor.
    + split; [exact Hne|exact (string_at_codes s m p Hs)].
    + exact (IH m _ H).
Qed.

Lemma pool_bytes_app ss tl : pool_bytes (ss ++ tl) = pool_bytes ss ++ pool_bytes tl.
Proof. unfold pool_bytes. apply flat_map_app. Qed.

Lemma pool_adds_nonempty l : forall ss,
  l <> [] -> Forall (fun s => strlen_s s <> 0) l -> pool_adds ss l <> [] .
Proof.
  intros ss Hl Hf. destruct l as [|s l]; [contradiction|].
  apply Forall_inv in Hf. unfold pool_adds. cbn [fold_left].
  destruct (pool_adds_prefix l (pool_add ss s)) as [tl Htl]. unfold pool_adds in Htl.
  rewrite Htl, (pool_add_stored ss s Hf).
  destruct (index_of (c_str s) ss) as [k|] eqn:E.
  - destruct ss; [discriminate|discriminate].
  - destruct ss; discriminate.
Qed.

(** C7 (corrected): right after a writer has zeroed its structure and set
    the pool start on the last two bytes, the computed string-area length
    is 2 and the string area serializes to two zero bytes; after at least
    one string has been added, all of them non-empty (with fuel above
    their number and lengths), the string area is the stored strings in
    the order first added, each non-empty, free of zero bytes and followed
    by its terminator, and then exactly one trailing null byte after the
    terminator of the last stored string; the computed length is the
    length of that area. *)
Theorem string_pool_end ctx m t size :
  2 <= size ->
  let m0 := memset m t 0 (Z.to_nat size) in
  let ctx0 := smbios_set_eos ctx (t + size - SMBIOS_STRUCT_EOS_BYTES) in
  (smbios_string_table_len ctx0 = 2 /\ string_area ctx0 m0 = [0; 0]) /\
  forall fuel l,
    l <> [] ->
    (List.length l < fuel)%nat ->
    Forall (fun s => strlen_s s <> 0 /\ strlen_s s < Z.of_nat fuel) l ->
    exists ns ctx' m' pre s,
      add_strings fuel ctx0 m0 l = Some (ns, ctx', m') /\
      pool_adds [] l = pre ++ [s] /\
      Forall (fun u => u <> EmptyString /\ Forall (fun b => b <> 0) (codes u))
             (pre ++ [s]) /\
      string_area ctx' m' = pool_bytes pre ++ codes s ++ [0; 0] /\
      smbios_string_table_len ctx' = Z.of_nat (List.length (string_area ctx' m')).
Proof.
  intros Hsize m0 ctx0. unfold SMBIOS_STRUCT_EOS_BYTES in ctx0.
  assert (H0 : m0 (t + size - 2) = 0)
    by (apply memset_inside; rewrite Z2Nat.id by lia; lia).
  assert (H1 : m0 (t + size - 2 + 1) = 0)
    by (apply memset_inside; rewrite Z2Nat.id by lia; lia).
  split.
  - unfold smbios_string_table_len, string_area, smbios_string_table_len.
    simpl. rewrite Z.eqb_refl. simpl. now rewrite H0, H1.
  - intros fuel l Hl Hn Hf.
    destruct (add_strings_pool fuel l ctx0 m0 [])
      as (ns & ctx' & m' & E & He & Hp & _ & Hnp & _).
    + exact H0.
    + cbn [List.length]. lia.
    + constructor.
    + exact Hf.
    + specialize (Hnp eq_refl).
      assert (Hne : pool_adds [] l <> []).
      { apply pool_adds_nonempty; [exact Hl|].
        eapply Forall_impl; [|exact Hf]. intros a Ha. exact (proj1 Ha). }
      destruct (exists_last Hne) as (pre & s & Hps).
      exists ns, ctx', m', pre, s. split; [exact E|]. split; [exact Hps|].
      rewrite Hps in Hp, Hnp.
      split; [exact (pool_codes _ _ _ Hp)|].
      assert (Hlt : eos ctx0 < pool_end (eos ctx0) (pre ++ [s])).
      { rewrite pool_end_app. cbn [pool_end].
        pose proof (pool_end_le pre (eos ctx0)). pose proof (len_nonneg s). lia. }
      assert (Hlen : smbios_string_table_len ctx'
                     = pool_end (eos ctx0) (pre ++ [s]) - eos ctx0 + 1).
      { unfold smbios_string_table_len. rewrite Hnp, He.
        destruct (pool_end (eos ctx0) (pre ++ [s]) =? eos ctx0) eqn:Eq;
          [apply Z.eqb_eq in Eq; lia|lia]. }
      assert (Harea : string_area ctx' m' = pool_bytes pre ++ codes s ++ [0; 0]).
      { unfold string_area. rewrite Hlen, He, (load_bytes_pool _ _ _ Hp), pool_bytes_app.
        unfold pool_bytes at 2. cbn [flat_map]. rewrite app_nil_r, <- !app_assoc.
        reflexivity. }
      split; [exact Harea|].
      rewrite Harea, Hlen, <- (length_pool_bytes (pre ++ [s]) (eos ctx0)), pool_bytes_app.
      unfold pool_bytes at 2. cbn [flat_map]. rewrite app_nil_r, !length_app.
      cbn [List.length]. lia.
Qed.

Lemma string_pool_end_witness :
  2 <= 26 /\
  string_area (smbios_set_eos blank_ctx (4128 + 26 - 2))
              (memset (fun _ => 170) 4128 0 26) = [0; 0] /\
  exists ns ctx' m',
    add_strings 8 (smbios_set_eos blank_ctx (4128 + 26 - 2))
                (memset (fun _ => 170) 4128 0 26) ["Acme"; "1.2"; "Acme"]%string
      = Some (ns, ctx', m') /\
    string_area ctx' m' = [65; 99; 109; 101; 0; 49; 46; 50; 0; 0] /\
    smbios_string_table_len ctx' = 10.
Proof.
  split; [lia|].
  destruct (string_pool_end blank_ctx (fun _ => 170) 4128 26 ltac:(lia)) as [[_ Ha] Hb].
  split; [exact Ha|].
  destruct (Hb 8%nat ["Acme"; "1.2"; "Acme"]%string)
    as (ns & ctx' & m' & pre & s & E & Hps & _ & Harea & Hlen).
  - discriminate.
  - simpl. lia.
  - repeat constructor; discriminate.
  - exists ns, ctx', m'. split; [exact E|].
    assert (Hpre : pre = ["Acme"%string] /\ s = "1.2"%string).
    { change (pool_adds [] ["Acme"; "1.2"; "Acme"]%string)
        with (["Acme"%string] ++ ["1.2"%string]) in Hps.
      apply app_inj_tail in Hps. destruct Hps as [<- <-]. split; reflexivity. }
    destruct Hpre as [-> ->]. rewrite Hlen, Harea. split; reflexivity.
Defined.

Lemma string_pool_end_empty_counterexample :
  pool_adds [] ["a"%string; EmptyString] = ["a"%string] /\
  exists ns ctx' m',
    add_strings 8 (smbios_set_eos blank_ctx 0) zero_mem ["a"%string; EmptyString]
      = Some (ns, ctx', m') /\
    string_area ctx' m' = [97; 0; 0; 0] /\
    string_area ctx' m' <> codes "a" ++ [0; 0] /\
    smbios_string_table_len ctx' = 4.
Proof.
  split; [reflexivity|]. eexists _, _, _.
  split; [reflexivity|]. split; [reflexivity|]. split; [discriminate|reflexivity].
Qed.
